(** * The OAT writer of ART (src/oat_writer.cc): layout pass and emit pass

    The writer runs twice over the compiled classes: the constructor
    ([OatWriter_new]) assigns an offset to every table and to every compiled
    artifact, and [Write] streams the same records to a file.  This file
    embeds both passes and proves the properties the specification states
    about them.

    Conventions.
    - [size_t], [uint32_t] and every offset of the format are 32-bit
      unsigned (the writer's targets are ILP32); they are modelled as [Z]
      and every arithmetic result is reduced with [u32].
    - A C++ reference to a [std::vector] is the address of the vector
      ([ptr]); the contents are read through the compiler-owned memory
      ([code_vec], [mapping_vec], [vmap_vec]).  The three deduplication maps
      are keyed by these addresses, as in the source.
    - The vector of dex files holds pointers, and the writer aborts on a
      NULL entry ([CHECK(dex_file != NULL)], lines 59 and 126).  The model
      takes the dex files themselves: its inputs are the vectors without a
      NULL entry.
    - [CHECK]s that can fail abort the process: the constructor returns
      [None].  [DCHECK]s are compiled out of release builds and are not part
      of the model; the properties they assert are proved instead. *)

From Stdlib Require Import ZArith List String Ascii Lia Bool.
From stdpp Require Import base option list gmap pretty.
Import ListNotations.
Local Open Scope Z_scope.

(** ** Machine integers and their byte images *)

Definition u32 (x : Z) : Z := x mod 2 ^ 32.

(** Little-endian image of a 16-bit and of a 32-bit word. *)
Definition le16 (x : Z) : list Z := [x mod 256; (x / 256) mod 256].

Definition le32 (x : Z) : list Z :=
  [x mod 256; (x / 256) mod 256; (x / 65536) mod 256; (x / 16777216) mod 256].

Definition bytes_of_u16s (v : list Z) : list Z := concat (map le16 v).
Definition bytes_of_u32s (v : list Z) : list Z := concat (map le32 v).

Definition bytes_of_string (s : string) : list Z :=
  map (fun c => Z.of_nat (nat_of_ascii c)) (list_ascii_of_string s).

(** [size()] of a container, as a [size_t]. *)
Definition size_of_list {A} (l : list A) : Z := u32 (Z.of_nat (length l)).

(** ** Collaborators whose code is not part of the writer *)

Definition ptr := positive.

Inductive InstructionSet := kNone | kArm | kThumb2 | kX86.

(** Modelled from the spec: the access flag of the dex format that marks a
    static method (modifiers.h is not part of the writer). *)
Definition kAccStatic : Z := 8.

Record EncodedMethod := {
  GetMemberIndex : Z;
  GetMemberAccessFlags : Z
}.

(** What a [ClassDataItemIterator] yields once the fields are skipped. *)
Record ClassData := {
  direct_methods : list EncodedMethod;
  virtual_methods : list EncodedMethod
}.

Record DexFile := {
  GetLocation : string;
  GetHeaderChecksum : Z;
  (** [GetClassData (GetClassDef i)]; [None] is the NULL class data of an
      empty class. *)
  class_defs : list (option ClassData);
  (** [GetMethodShorty (GetMethodId method_idx)] *)
  GetMethodShorty : Z -> string
}.

Definition NumClassDefs (d : DexFile) : Z := size_of_list (class_defs d).

(** Constants and helpers of the platform (globals.h, oat.h, utils.h), and
    the runtime the writer runs in.

    Modelled from the spec: [ResolveMethod dex_file method_idx is_direct] is
    what the class linker of [Runtime::Current()] answers in lines 291-294
    (class_linker.h is not part of the writer), with the dex cache of the
    dex file and the class loader of the writer: the address of the method,
    or [None] for NULL.  The writer asks for it only when it builds an
    image. *)
Record Platform := {
  kPageSize : Z;
  kStackAlignment : Z;
  kOatMagic : list Z;
  kOatVersion : list Z;
  InstructionSetAlignment : InstructionSet -> Z;
  PrettyMethod : Z -> string -> string;
  ResolveMethod : DexFile -> Z -> bool -> option ptr
}.

Record CompiledMethod := {
  cm_instruction_set : InstructionSet;
  GetCode : ptr;                     (* const std::vector<uint8_t>&  *)
  GetFrameSizeInBytes : Z;
  GetCoreSpillMask : Z;
  GetFpSpillMask : Z;
  GetMappingTable : ptr;             (* const std::vector<uint32_t>& *)
  GetVmapTable : ptr                 (* const std::vector<uint16_t>& *)
}.

Record CompiledInvokeStub := {
  GetStubCode : ptr                  (* const std::vector<uint8_t>&  *)
}.

Record Compiler := {
  GetCompiledMethod : DexFile -> Z -> option CompiledMethod;
  FindInvokeStub : bool -> string -> option CompiledInvokeStub;
  GetInstructionSet : InstructionSet;
  IsImage : bool;
  (** the memory that holds the vectors the compiler hands out *)
  code_vec : ptr -> list Z;
  mapping_vec : ptr -> list Z;
  vmap_vec : ptr -> list Z
}.

(** Modelled from the spec: [RoundUp] (utils.h is not part of the writer)
    rounds its argument up to the next multiple of [n], in [size_t]
    arithmetic. *)
Definition RoundUp (x n : Z) : Z :=
  let y := u32 (x + n - 1) in y - y mod n.

(** Modelled from the spec: the thumb bit.  [CompiledMethod::CodeDelta]
    (compiled_method.cc is not part of the writer) is 1 for thumb code and 0
    for every other instruction set. *)
Definition CodeDelta (cm : CompiledMethod) : Z :=
  match cm_instruction_set cm with
  | kThumb2 => 1
  | _ => 0
  end.

(** Modelled from the spec: the rolling checksum of the header is an
    Adler-32 over the bytes it is fed, in order ([OatHeader::UpdateChecksum]
    in oat.cc calls zlib's [adler32]). *)
Definition adler32_step (s : Z * Z) (b : Z) : Z * Z :=
  let a := (fst s + b) mod 65521 in (a, (snd s + a) mod 65521).

Definition adler32 (adler : Z) (data : list Z) : Z :=
  let s := fold_left adler32_step data (adler mod 65536, (adler / 65536) mod 65536) in
  snd s * 65536 + fst s.

Definition adler32_init : Z := 1.

(** ** The records of the file *)

Record OatHeader := {
  magic_ : list Z;
  version_ : list Z;
  adler32_checksum_ : Z;
  executable_offset_ : Z
}.

Record OatDexFile := {
  dex_file_location_size_ : Z;
  dex_file_location_data_ : list Z;
  dex_file_checksum_ : Z;
  classes_offset_ : Z
}.

Record OatClasses := { methods_offsets_ : list Z }.

Record OatMethodOffsets := {
  code_offset_ : Z;
  frame_size_in_bytes_ : Z;
  core_spill_mask_ : Z;
  fp_spill_mask_ : Z;
  mapping_table_offset_ : Z;
  vmap_table_offset_ : Z;
  invoke_stub_offset_ : Z
}.

Record OatMethods := { method_offsets_ : list OatMethodOffsets }.

(** What the image variant sets on a method of the runtime (lines 296-302):
    the method, by its address, and the seven values. *)
Record MethodOatInfo := {
  info_method : ptr;
  info_offsets : OatMethodOffsets
}.

Record OatWriter := {
  compiler_ : Compiler;
  dex_files_ : list DexFile;
  oat_header_ : OatHeader;
  oat_dex_files_ : list OatDexFile;
  oat_classes_ : list OatClasses;
  oat_methods_ : list OatMethods;
  executable_offset_padding_length_ : Z;
  code_offsets_ : gmap ptr Z;
  mapping_table_offsets_ : gmap ptr Z;
  vmap_table_offsets_ : gmap ptr Z;
  (** not a field of the source: the calls the writer has made on methods
      of the runtime so far, in order (image variant only) *)
  runtime_methods_ : list MethodOatInfo
}.

Definition OatMethodOffsets_zero : OatMethodOffsets :=
  {| code_offset_ := 0; frame_size_in_bytes_ := 0; core_spill_mask_ := 0;
     fp_spill_mask_ := 0; mapping_table_offset_ := 0; vmap_table_offset_ := 0;
     invoke_stub_offset_ := 0 |}.

(** Field updates of the writer. *)
Definition with_header (h : OatHeader) (w : OatWriter) : OatWriter :=
  {| compiler_ := compiler_ w; dex_files_ := dex_files_ w; oat_header_ := h;
     oat_dex_files_ := oat_dex_files_ w; oat_classes_ := oat_classes_ w;
     oat_methods_ := oat_methods_ w;
     executable_offset_padding_length_ := executable_offset_padding_length_ w;
     code_offsets_ := code_offsets_ w;
     mapping_table_offsets_ := mapping_table_offsets_ w;
     vmap_table_offsets_ := vmap_table_offsets_ w;
     runtime_methods_ := runtime_methods_ w |}.

Definition with_oat_dex_files (l : list OatDexFile) (w : OatWriter) : OatWriter :=
  {| compiler_ := compiler_ w; dex_files_ := dex_files_ w; oat_header_ := oat_header_ w;
     oat_dex_files_ := l; oat_classes_ := oat_classes_ w;
     oat_methods_ := oat_methods_ w;
     executable_offset_padding_length_ := executable_offset_padding_length_ w;
     code_offsets_ := code_offsets_ w;
     mapping_table_offsets_ := mapping_table_offsets_ w;
     vmap_table_offsets_ := vmap_table_offsets_ w;
     runtime_methods_ := runtime_methods_ w |}.

Definition with_oat_classes (l : list OatClasses) (w : OatWriter) : OatWriter :=
  {| compiler_ := compiler_ w; dex_files_ := dex_files_ w; oat_header_ := oat_header_ w;
     oat_dex_files_ := oat_dex_files_ w; oat_classes_ := l;
     oat_methods_ := oat_methods_ w;
     executable_offset_padding_length_ := executable_offset_padding_length_ w;
     code_offsets_ := code_offsets_ w;
     mapping_table_offsets_ := mapping_table_offsets_ w;
     vmap_table_offsets_ := vmap_table_offsets_ w;
     runtime_methods_ := runtime_methods_ w |}.

Definition with_oat_methods (l : list OatMethods) (w : OatWriter) : OatWriter :=
  {| compiler_ := compiler_ w; dex_files_ := dex_files_ w; oat_header_ := oat_header_ w;
     oat_dex_files_ := oat_dex_files_ w; oat_classes_ := oat_classes_ w;
     oat_methods_ := l;
     executable_offset_padding_length_ := executable_offset_padding_length_ w;
     code_offsets_ := code_offsets_ w;
     mapping_table_offsets_ := mapping_table_offsets_ w;
     vmap_table_offsets_ := vmap_table_offsets_ w;
     runtime_methods_ := runtime_methods_ w |}.

Definition with_padding (n : Z) (w : OatWriter) : OatWriter :=
  {| compiler_ := compiler_ w; dex_files_ := dex_files_ w; oat_header_ := oat_header_ w;
     oat_dex_files_ := oat_dex_files_ w; oat_classes_ := oat_classes_ w;
     oat_methods_ := oat_methods_ w;
     executable_offset_padding_length_ := n;
     code_offsets_ := code_offsets_ w;
     mapping_table_offsets_ := mapping_table_offsets_ w;
     vmap_table_offsets_ := vmap_table_offsets_ w;
     runtime_methods_ := runtime_methods_ w |}.

Definition with_code_offsets (m : gmap ptr Z) (w : OatWriter) : OatWriter :=
  {| compiler_ := compiler_ w; dex_files_ := dex_files_ w; oat_header_ := oat_header_ w;
     oat_dex_files_ := oat_dex_files_ w; oat_classes_ := oat_classes_ w;
     oat_methods_ := oat_methods_ w;
     executable_offset_padding_length_ := executable_offset_padding_length_ w;
     code_offsets_ := m;
     mapping_table_offsets_ := mapping_table_offsets_ w;
     vmap_table_offsets_ := vmap_table_offsets_ w;
     runtime_methods_ := runtime_methods_ w |}.

Definition with_mapping_table_offsets (m : gmap ptr Z) (w : OatWriter) : OatWriter :=
  {| compiler_ := compiler_ w; dex_files_ := dex_files_ w; oat_header_ := oat_header_ w;
     oat_dex_files_ := oat_dex_files_ w; oat_classes_ := oat_classes_ w;
     oat_methods_ := oat_methods_ w;
     executable_offset_padding_length_ := executable_offset_padding_length_ w;
     code_offsets_ := code_offsets_ w;
     mapping_table_offsets_ := m;
     vmap_table_offsets_ := vmap_table_offsets_ w;
     runtime_methods_ := runtime_methods_ w |}.

Definition with_vmap_table_offsets (m : gmap ptr Z) (w : OatWriter) : OatWriter :=
  {| compiler_ := compiler_ w; dex_files_ := dex_files_ w; oat_header_ := oat_header_ w;
     oat_dex_files_ := oat_dex_files_ w; oat_classes_ := oat_classes_ w;
     oat_methods_ := oat_methods_ w;
     executable_offset_padding_length_ := executable_offset_padding_length_ w;
     code_offsets_ := code_offsets_ w;
     mapping_table_offsets_ := mapping_table_offsets_ w;
     vmap_table_offsets_ := m;
     runtime_methods_ := runtime_methods_ w |}.

Definition with_runtime_methods (l : list MethodOatInfo) (w : OatWriter) : OatWriter :=
  {| compiler_ := compiler_ w; dex_files_ := dex_files_ w; oat_header_ := oat_header_ w;
     oat_dex_files_ := oat_dex_files_ w; oat_classes_ := oat_classes_ w;
     oat_methods_ := oat_methods_ w;
     executable_offset_padding_length_ := executable_offset_padding_length_ w;
     code_offsets_ := code_offsets_ w;
     mapping_table_offsets_ := mapping_table_offsets_ w;
     vmap_table_offsets_ := vmap_table_offsets_ w;
     runtime_methods_ := l |}.

(** ** The layout pass (the constructor of [OatWriter]) *)

Section Writer.

Variable P : Platform.

(** Modelled from the spec: [CompiledMethod::AlignCode]
    (compiled_method.cc is not part of the writer) rounds an offset up to
    the instruction alignment of the architecture. *)
Definition AlignCodeFor (offset : Z) (instruction_set : InstructionSet) : Z :=
  RoundUp offset (InstructionSetAlignment P instruction_set).

Definition AlignCode (cm : CompiledMethod) (offset : Z) : Z :=
  AlignCodeFor offset (cm_instruction_set cm).

(** Modelled from the spec: the header (oat.h and oat.cc are not part of the
    writer) is a fixed prelude of the magic tag, the version, the rolling
    checksum and the offset of the executable section. *)
Definition OatHeader_new : OatHeader :=
  {| magic_ := kOatMagic P; version_ := kOatVersion P;
     adler32_checksum_ := adler32_init; executable_offset_ := 0 |}.

Definition sizeof_OatHeader : Z :=
  u32 (Z.of_nat (length (kOatMagic P)) + Z.of_nat (length (kOatVersion P)) + 4 + 4).

Definition OatHeader_bytes (h : OatHeader) : list Z :=
  magic_ h ++ version_ h ++ le32 (adler32_checksum_ h) ++ le32 (executable_offset_ h).

Definition OatHeader_UpdateChecksum (data : list Z) (h : OatHeader) : OatHeader :=
  {| magic_ := magic_ h; version_ := version_ h;
     adler32_checksum_ := adler32 (adler32_checksum_ h) data;
     executable_offset_ := executable_offset_ h |}.

Definition SetExecutableOffset (offset : Z) (h : OatHeader) : OatHeader :=
  {| magic_ := magic_ h; version_ := version_ h;
     adler32_checksum_ := adler32_checksum_ h;
     executable_offset_ := u32 offset |}.

(** [oat_header_->UpdateChecksum(data, length)] *)
Definition UpdateChecksum (data : list Z) (w : OatWriter) : OatWriter :=
  with_header (OatHeader_UpdateChecksum data (oat_header_ w)) w.

(** *** OatDexFile *)

Definition OatDexFile_new (dex_file : DexFile) : OatDexFile :=
  let location := bytes_of_string (GetLocation dex_file) in
  {| dex_file_location_size_ := size_of_list location;
     dex_file_location_data_ := location;
     dex_file_checksum_ := u32 (GetHeaderChecksum dex_file);
     classes_offset_ := 0 |}.

Definition OatDexFile_SizeOf (o : OatDexFile) : Z :=
  u32 (4 + dex_file_location_size_ o + 4 + 4).

Definition OatDexFile_UpdateChecksum (o : OatDexFile) (w : OatWriter) : OatWriter :=
  let w := UpdateChecksum (le32 (dex_file_location_size_ o)) w in
  let w := UpdateChecksum (dex_file_location_data_ o) w in
  let w := UpdateChecksum (le32 (dex_file_checksum_ o)) w in
  UpdateChecksum (le32 (classes_offset_ o)) w.

Definition set_classes_offset (offset : Z) (o : OatDexFile) : OatDexFile :=
  {| dex_file_location_size_ := dex_file_location_size_ o;
     dex_file_location_data_ := dex_file_location_data_ o;
     dex_file_checksum_ := dex_file_checksum_ o;
     classes_offset_ := u32 offset |}.

(** *** OatClasses *)

Definition OatClasses_new (dex_file : DexFile) : OatClasses :=
  {| methods_offsets_ := replicate (Z.to_nat (NumClassDefs dex_file)) 0 |}.

Definition OatClasses_SizeOf (o : OatClasses) : Z :=
  u32 (4 * size_of_list (methods_offsets_ o)).

Definition OatClasses_bytes (o : OatClasses) : list Z :=
  bytes_of_u32s (methods_offsets_ o).

Definition set_methods_offset (class_def_index : nat) (offset : Z) (o : OatClasses)
  : OatClasses :=
  {| methods_offsets_ := <[class_def_index := u32 offset]> (methods_offsets_ o) |}.

(** *** OatMethods *)

Definition sizeof_OatMethodOffsets : Z := 28.

Definition OatMethods_new (methods_count : Z) : OatMethods :=
  {| method_offsets_ := replicate (Z.to_nat methods_count) OatMethodOffsets_zero |}.

Definition OatMethods_SizeOf (o : OatMethods) : Z :=
  u32 (sizeof_OatMethodOffsets * size_of_list (method_offsets_ o)).

Definition OatMethodOffsets_bytes (m : OatMethodOffsets) : list Z :=
  le32 (code_offset_ m) ++ le32 (frame_size_in_bytes_ m) ++
  le32 (core_spill_mask_ m) ++ le32 (fp_spill_mask_ m) ++
  le32 (mapping_table_offset_ m) ++ le32 (vmap_table_offset_ m) ++
  le32 (invoke_stub_offset_ m).

Definition OatMethods_bytes (o : OatMethods) : list Z :=
  concat (map OatMethodOffsets_bytes (method_offsets_ o)).

Definition set_method_offsets (class_def_method_index : nat) (m : OatMethodOffsets)
    (o : OatMethods) : OatMethods :=
  {| method_offsets_ := <[class_def_method_index := m]> (method_offsets_ o) |}.

(** *** The constructor, step by step *)

Definition OatWriter_init (dex_files : list DexFile) (compiler : Compiler) : OatWriter :=
  {| compiler_ := compiler; dex_files_ := dex_files; oat_header_ := OatHeader_new;
     oat_dex_files_ := []; oat_classes_ := []; oat_methods_ := [];
     executable_offset_padding_length_ := 0;
     code_offsets_ := ∅; mapping_table_offsets_ := ∅; vmap_table_offsets_ := ∅;
     runtime_methods_ := [] |}.

Definition InitOatHeader (w : OatWriter) : Z * OatWriter :=
  (sizeof_OatHeader, with_header OatHeader_new w).

Fixpoint InitOatDexFiles_loop (dex_files : list DexFile) (offset : Z) (w : OatWriter)
  : Z * OatWriter :=
  match dex_files with
  | [] => (offset, w)
  | dex_file :: rest =>
      let oat_dex_file := OatDexFile_new dex_file in
      let w := with_oat_dex_files (oat_dex_files_ w ++ [oat_dex_file]) w in
      InitOatDexFiles_loop rest (u32 (offset + OatDexFile_SizeOf oat_dex_file)) w
  end.

Definition InitOatDexFiles (offset : Z) (w : OatWriter) : Z * OatWriter :=
  InitOatDexFiles_loop (dex_files_ w) offset w.

Fixpoint InitOatClasses_loop (dex_files : list DexFile) (i : nat) (offset : Z)
    (w : OatWriter) : Z * OatWriter :=
  match dex_files with
  | [] => (offset, w)
  | dex_file :: rest =>
      let w := with_oat_dex_files (alter (set_classes_offset offset) i (oat_dex_files_ w)) w in
      let w := match oat_dex_files_ w !! i with
               | Some o => OatDexFile_UpdateChecksum o w
               | None => w
               end in
      let oat_classes := OatClasses_new dex_file in
      let w := with_oat_classes (oat_classes_ w ++ [oat_classes]) w in
      InitOatClasses_loop rest (S i) (u32 (offset + OatClasses_SizeOf oat_classes)) w
  end.

Definition InitOatClasses (offset : Z) (w : OatWriter) : Z * OatWriter :=
  InitOatClasses_loop (dex_files_ w) 0 offset w.

Definition num_methods_of (class_data : option ClassData) : Z :=
  match class_data with
  | Some it =>
      u32 (size_of_list (direct_methods it) + size_of_list (virtual_methods it))
  | None => 0
  end.

Fixpoint InitOatMethods_class_defs (defs : list (option ClassData)) (i class_def_index : nat)
    (offset : Z) (w : OatWriter) : Z * OatWriter :=
  match defs with
  | [] => (offset, w)
  | class_data :: rest =>
      let w := with_oat_classes
                 (alter (set_methods_offset class_def_index offset) i (oat_classes_ w)) w in
      let oat_methods := OatMethods_new (num_methods_of class_data) in
      let w := with_oat_methods (oat_methods_ w ++ [oat_methods]) w in
      InitOatMethods_class_defs rest i (S class_def_index)
        (u32 (offset + OatMethods_SizeOf oat_methods)) w
  end.

Fixpoint InitOatMethods_loop (dex_files : list DexFile) (i : nat) (offset : Z)
    (w : OatWriter) : Z * OatWriter :=
  match dex_files with
  | [] => (offset, w)
  | dex_file :: rest =>
      let '(offset, w) := InitOatMethods_class_defs (class_defs dex_file) i 0 offset w in
      let w := match oat_classes_ w !! i with
               | Some o => UpdateChecksum (OatClasses_bytes o) w
               | None => w
               end in
      InitOatMethods_loop rest (S i) offset w
  end.

Definition InitOatMethods (offset : Z) (w : OatWriter) : Z * OatWriter :=
  InitOatMethods_loop (dex_files_ w) 0 offset w.

Definition InitOatCode (offset : Z) (w : OatWriter) : Z * OatWriter :=
  let old_offset := offset in
  let offset := RoundUp offset (kPageSize P) in
  let w := with_header (SetExecutableOffset offset (oat_header_ w)) w in
  let w := with_padding (u32 (offset - old_offset)) w in
  (offset, w).

(** *** One method (lines 184-305) *)

(** Lines 199-215: the code of a compiled method. *)
Definition layout_code (cm : CompiledMethod) (offset : Z) (w : OatWriter)
  : Z * Z * OatWriter :=
  let offset := AlignCode cm offset in
  let code := GetCode cm in
  let code_size := size_of_list (code_vec (compiler_ w) code) in
  let thumb_offset := CodeDelta cm in
  let code_offset := if code_size =? 0 then 0 else u32 (offset + thumb_offset) in
  match code_offsets_ w !! code with
  | Some found => (offset, found, w)
  | None =>
      let w := with_code_offsets (<[code := code_offset]> (code_offsets_ w)) w in
      (u32 (offset + code_size), code_offset,
       UpdateChecksum (code_vec (compiler_ w) code) w)
  end.

(** Lines 222-229, once per word. *)
Definition layout_word (word : Z) (offset : Z) (w : OatWriter) : Z * OatWriter :=
  (u32 (offset + 4), UpdateChecksum (le32 word) w).

(** Lines 232-244: the mapping table. *)
Definition layout_mapping_table (cm : CompiledMethod) (offset : Z) (w : OatWriter)
  : Z * Z * OatWriter :=
  let mapping_table := GetMappingTable cm in
  let mapping_table_size :=
    u32 (size_of_list (mapping_vec (compiler_ w) mapping_table) * 4) in
  let mapping_table_offset := if mapping_table_size =? 0 then 0 else offset in
  match mapping_table_offsets_ w !! mapping_table with
  | Some found => (offset, found, w)
  | None =>
      let w := with_mapping_table_offsets
                 (<[mapping_table := mapping_table_offset]> (mapping_table_offsets_ w)) w in
      (u32 (offset + mapping_table_size), mapping_table_offset,
       UpdateChecksum (bytes_of_u32s (mapping_vec (compiler_ w) mapping_table)) w)
  end.

(** Lines 246-258: the vmap table. *)
Definition layout_vmap_table (cm : CompiledMethod) (offset : Z) (w : OatWriter)
  : Z * Z * OatWriter :=
  let vmap_table := GetVmapTable cm in
  let vmap_table_size := u32 (size_of_list (vmap_vec (compiler_ w) vmap_table) * 2) in
  let vmap_table_offset := if vmap_table_size =? 0 then 0 else offset in
  match vmap_table_offsets_ w !! vmap_table with
  | Some found => (offset, found, w)
  | None =>
      let w := with_vmap_table_offsets
                 (<[vmap_table := vmap_table_offset]> (vmap_table_offsets_ w)) w in
      (u32 (offset + vmap_table_size), vmap_table_offset,
       UpdateChecksum (bytes_of_u16s (vmap_vec (compiler_ w) vmap_table)) w)
  end.

(** Lines 263-279: the invoke stub; it shares [code_offsets_] with the code. *)
Definition layout_invoke_stub (stub : CompiledInvokeStub) (offset : Z) (w : OatWriter)
  : Z * Z * OatWriter :=
  let offset := AlignCodeFor offset (GetInstructionSet (compiler_ w)) in
  let invoke_stub := GetStubCode stub in
  let invoke_stub_size := size_of_list (code_vec (compiler_ w) invoke_stub) in
  let invoke_stub_offset := if invoke_stub_size =? 0 then 0 else offset in
  match code_offsets_ w !! invoke_stub with
  | Some found => (offset, found, w)
  | None =>
      let w := with_code_offsets (<[invoke_stub := invoke_stub_offset]> (code_offsets_ w)) w in
      (u32 (offset + invoke_stub_size), invoke_stub_offset,
       UpdateChecksum (code_vec (compiler_ w) invoke_stub) w)
  end.

(** Lines 281-288: the record of the method. *)
Definition store_method_offsets (oat_class_index class_def_method_index : nat)
    (m : OatMethodOffsets) (w : OatWriter) : OatWriter :=
  with_oat_methods
    (alter (set_method_offsets class_def_method_index m) oat_class_index
       (oat_methods_ w)) w.

(** Lines 296-302: the seven setters on the method of the runtime. *)
Definition SetOatMethodInfo (method : ptr) (m : OatMethodOffsets) (w : OatWriter)
  : OatWriter :=
  with_runtime_methods
    (runtime_methods_ w ++ [{| info_method := method; info_offsets := m |}]) w.

(** Lines 187-279: the seven fields of a method and the new cursor. *)
Definition layout_method (offset : Z) (is_static : bool) (method_idx : Z)
    (dex_file : DexFile) (w : OatWriter) : Z * OatMethodOffsets * OatWriter :=
  let compiled_method := GetCompiledMethod (compiler_ w) dex_file method_idx in
  let '(offset, code_offset, w) :=
    match compiled_method with
    | Some cm => layout_code cm offset w
    | None => (offset, 0, w)
    end in
  let frame_size_in_bytes :=
    match compiled_method with
    | Some cm => u32 (GetFrameSizeInBytes cm)
    | None => u32 (kStackAlignment P)
    end in
  let core_spill_mask :=
    match compiled_method with Some cm => u32 (GetCoreSpillMask cm) | None => 0 end in
  let fp_spill_mask :=
    match compiled_method with Some cm => u32 (GetFpSpillMask cm) | None => 0 end in
  let '(offset, w) := layout_word frame_size_in_bytes offset w in
  let '(offset, w) := layout_word core_spill_mask offset w in
  let '(offset, w) := layout_word fp_spill_mask offset w in
  let '(offset, mapping_table_offset, vmap_table_offset, w) :=
    match compiled_method with
    | Some cm =>
        let '(offset, mapping_table_offset, w) := layout_mapping_table cm offset w in
        let '(offset, vmap_table_offset, w) := layout_vmap_table cm offset w in
        (offset, mapping_table_offset, vmap_table_offset, w)
    | None => (offset, 0, 0, w)
    end in
  let shorty := GetMethodShorty dex_file method_idx in
  let '(offset, invoke_stub_offset, w) :=
    match FindInvokeStub (compiler_ w) is_static shorty with
    | Some stub => layout_invoke_stub stub offset w
    | None => (offset, 0, w)
    end in
  (offset,
   {| code_offset_ := code_offset;
      frame_size_in_bytes_ := frame_size_in_bytes;
      core_spill_mask_ := core_spill_mask;
      fp_spill_mask_ := fp_spill_mask;
      mapping_table_offset_ := mapping_table_offset;
      vmap_table_offset_ := vmap_table_offset;
      invoke_stub_offset_ := invoke_stub_offset |},
   w).

(** Lines 184-305.  For an image the method is resolved, and the
    [CHECK(method != NULL)] of line 295 aborts when the runtime has none. *)
Definition InitOatCodeMethod (offset : Z) (oat_class_index class_def_method_index : nat)
    (is_static is_direct : bool) (method_idx : Z) (dex_file : DexFile) (w : OatWriter)
  : option (Z * OatWriter) :=
  let '(offset, method_offsets, w) :=
    layout_method offset is_static method_idx dex_file w in
  let w := store_method_offsets oat_class_index class_def_method_index method_offsets w in
  if IsImage (compiler_ w)
  then match ResolveMethod P dex_file method_idx is_direct with
       | Some method => Some (offset, SetOatMethodInfo method method_offsets w)
       | None => None
       end
  else Some (offset, w).

(** *** The methods of a class, of a dex file, of all dex files *)

Definition is_static_flag (access_flags : Z) : bool :=
  negb (Z.land access_flags kAccStatic =? 0).

Fixpoint InitOatCode_direct_methods (it : list EncodedMethod) (offset : Z)
    (oat_class_index class_def_method_index : nat) (dex_file : DexFile) (w : OatWriter)
  : option (Z * nat * OatWriter) :=
  match it with
  | [] => Some (offset, class_def_method_index, w)
  | m :: rest =>
      let is_static := is_static_flag (GetMemberAccessFlags m) in
      match InitOatCodeMethod offset oat_class_index class_def_method_index is_static true
              (GetMemberIndex m) dex_file w with
      | Some (offset, w) =>
          InitOatCode_direct_methods rest offset oat_class_index
            (S class_def_method_index) dex_file w
      | None => None
      end
  end.

(** The [CHECK_EQ] of line 174 aborts on a static virtual method. *)
Fixpoint InitOatCode_virtual_methods (it : list EncodedMethod) (offset : Z)
    (oat_class_index class_def_method_index : nat) (dex_file : DexFile) (w : OatWriter)
  : option (Z * OatWriter) :=
  match it with
  | [] => Some (offset, w)
  | m :: rest =>
      if is_static_flag (GetMemberAccessFlags m) then None
      else
        match InitOatCodeMethod offset oat_class_index class_def_method_index false false
                (GetMemberIndex m) dex_file w with
        | Some (offset, w) =>
            InitOatCode_virtual_methods rest offset oat_class_index
              (S class_def_method_index) dex_file w
        | None => None
        end
  end.

Definition methods_size_at (oat_class_index : nat) (w : OatWriter) : Z :=
  match oat_methods_ w !! oat_class_index with
  | Some o => size_of_list (method_offsets_ o)
  | None => 0
  end.

Definition InitOatCodeClassDef (offset : Z) (oat_class_index : nat) (dex_file : DexFile)
    (class_data : option ClassData) (w : OatWriter) : option (Z * OatWriter) :=
  match class_data with
  | None => Some (offset, w)
  | Some it =>
      if methods_size_at oat_class_index w =?
         u32 (size_of_list (direct_methods it) + size_of_list (virtual_methods it))
      then
        match InitOatCode_direct_methods (direct_methods it) offset oat_class_index 0
                dex_file w with
        | Some (offset, class_def_method_index, w) =>
            InitOatCode_virtual_methods (virtual_methods it) offset oat_class_index
              class_def_method_index dex_file w
        | None => None
        end
      else None
  end.

(** [oat_class_index] is passed by reference and runs on across dex files:
    the loops return its new value. *)
Fixpoint InitOatCodeDexFile_loop (defs : list (option ClassData)) (offset : Z)
    (oat_class_index : nat) (dex_file : DexFile) (w : OatWriter)
  : option (Z * nat * OatWriter) :=
  match defs with
  | [] => Some (offset, oat_class_index, w)
  | class_data :: rest =>
      match InitOatCodeClassDef offset oat_class_index dex_file class_data w with
      | None => None
      | Some (offset, w) =>
          let w := match oat_methods_ w !! oat_class_index with
                   | Some o => UpdateChecksum (OatMethods_bytes o) w
                   | None => w
                   end in
          InitOatCodeDexFile_loop rest offset (S oat_class_index) dex_file w
      end
  end.

Definition InitOatCodeDexFile (offset : Z) (oat_class_index : nat) (dex_file : DexFile)
    (w : OatWriter) : option (Z * nat * OatWriter) :=
  InitOatCodeDexFile_loop (class_defs dex_file) offset oat_class_index dex_file w.

Fixpoint InitOatCodeDexFiles_loop (dex_files : list DexFile) (offset : Z)
    (oat_class_index : nat) (w : OatWriter) : option (Z * OatWriter) :=
  match dex_files with
  | [] => Some (offset, w)
  | dex_file :: rest =>
      match InitOatCodeDexFile offset oat_class_index dex_file w with
      | None => None
      | Some (offset, oat_class_index, w) =>
          InitOatCodeDexFiles_loop rest offset oat_class_index w
      end
  end.

Definition InitOatCodeDexFiles (offset : Z) (w : OatWriter) : option (Z * OatWriter) :=
  InitOatCodeDexFiles_loop (dex_files_ w) offset 0 w.

(** The state of the writer before the executable section is laid out. *)
Definition layout_tables (dex_files : list DexFile) (compiler : Compiler)
  : Z * OatWriter :=
  let '(offset, w) := InitOatHeader (OatWriter_init dex_files compiler) in
  let '(offset, w) := InitOatDexFiles offset w in
  let '(offset, w) := InitOatClasses offset w in
  InitOatMethods offset w.

(** Lines 21-39.  The result also carries the final cursor. *)
Definition OatWriter_layout (dex_files : list DexFile) (compiler : Compiler)
  : option (Z * OatWriter) :=
  let '(offset, w) := layout_tables dex_files compiler in
  let '(offset, w) := InitOatCode offset w in
  match InitOatCodeDexFiles offset w with
  | None => None
  | Some (offset, w) =>
      if (length (dex_files_ w) =? length (oat_dex_files_ w))%nat &&
         (length (dex_files_ w) =? length (oat_classes_ w))%nat
      then Some (offset, w)
      else None
  end.

Definition OatWriter_new (dex_files : list DexFile) (compiler : Compiler)
  : option OatWriter :=
  option_map snd (OatWriter_layout dex_files compiler).

End Writer.

(** ** The file and the log *)

(** One call of the file: a write of [bytes] at [pos], or a relative seek. *)
Inductive io_op :=
| OpWrite (pos : Z) (bytes : list Z) (ok : bool)
| OpSeek (pos : Z) (delta : Z) (ok : bool).

(** Modelled from the spec: [File] (file.h is not part of the writer).  The
    file has a position and contents; [f_faults] tells, call after call,
    whether the call fails ([Some k]: it fails, a write after [k] of its
    bytes at most went out) and [f_journal] keeps the calls made. *)
Record File := {
  f_name : string;
  f_pos : Z;
  f_data : list Z;
  f_faults : list (option nat);
  f_journal : list io_op
}.

Record World := {
  w_file : File;
  w_log : list string
}.

Definition write_at (data : list Z) (pos : Z) (bytes : list Z) : list Z :=
  let n := Z.to_nat pos in
  take n (data ++ replicate (n - length data)%nat 0) ++ bytes ++
  drop (n + length bytes)%nat data.

Definition file_WriteFully (bytes : list Z) (f : File) : bool * File :=
  match bytes with
  | [] => (true, f)
  | _ =>
      match f_faults f with
      | Some k :: rest =>
          let done := take (Nat.min k (length bytes - 1)) bytes in
          (false,
           {| f_name := f_name f; f_pos := f_pos f + Z.of_nat (length done);
              f_data := write_at (f_data f) (f_pos f) done; f_faults := rest;
              f_journal := f_journal f ++ [OpWrite (f_pos f) bytes false] |})
      | _ =>
          (true,
           {| f_name := f_name f; f_pos := f_pos f + Z.of_nat (length bytes);
              f_data := write_at (f_data f) (f_pos f) bytes;
              f_faults := tail (f_faults f);
              f_journal := f_journal f ++ [OpWrite (f_pos f) bytes true] |})
      end
  end.

(** [lseek(fd, delta, SEEK_CUR)]: the new position, or -1. *)
Definition file_lseek_cur (delta : Z) (f : File) : Z * File :=
  match f_faults f with
  | Some _ :: rest =>
      (-1,
       {| f_name := f_name f; f_pos := f_pos f; f_data := f_data f; f_faults := rest;
          f_journal := f_journal f ++ [OpSeek (f_pos f) delta false] |})
  | _ =>
      (f_pos f + delta,
       {| f_name := f_name f; f_pos := f_pos f + delta; f_data := f_data f;
          f_faults := tail (f_faults f);
          f_journal := f_journal f ++ [OpSeek (f_pos f) delta true] |})
  end.

Definition WriteFully (bytes : list Z) (o : World) : bool * World :=
  let '(ok, f) := file_WriteFully bytes (w_file o) in
  (ok, {| w_file := f; w_log := w_log o |}).

Definition lseek_cur (delta : Z) (o : World) : Z * World :=
  let '(r, f) := file_lseek_cur delta (w_file o) in
  (r, {| w_file := f; w_log := w_log o |}).

(** [LOG(ERROR)] and [PLOG(ERROR)]: one more line in the log. *)
Definition LOG (line : string) (o : World) : World :=
  {| w_file := w_file o; w_log := w_log o ++ [line] |}.

Definition name (o : World) : string := f_name (w_file o).

(** An empty file that is still to be written. *)
Definition fresh_file (file_name : string) (faults : list (option nat)) : World :=
  {| w_file := {| f_name := file_name; f_pos := 0; f_data := []; f_faults := faults;
                  f_journal := [] |};
     w_log := [] |}.

Definition string_of_Z (z : Z) : string := pretty.pretty z.

(** ** The emit pass *)

Section Emit.

Variable P : Platform.

(** Lines 625-643. *)
Definition OatDexFile_Write (d : OatDexFile) (o : World) : bool * World :=
  let '(ok, o) := WriteFully (le32 (dex_file_location_size_ d)) o in
  if negb ok then (false, LOG ("Failed to write dex file location length to " ++ name o) o)
  else
  let '(ok, o) := WriteFully (dex_file_location_data_ d) o in
  if negb ok then (false, LOG ("Failed to write dex file location data to " ++ name o) o)
  else
  let '(ok, o) := WriteFully (le32 (dex_file_checksum_ d)) o in
  if negb ok then (false, LOG ("Failed to write dex file checksum to " ++ name o) o)
  else
  let '(ok, o) := WriteFully (le32 (classes_offset_ d)) o in
  if negb ok then (false, LOG ("Failed to write classes offset to " ++ name o) o)
  else (true, o).

(** Lines 657-663. *)
Definition OatClasses_Write (c : OatClasses) (o : World) : bool * World :=
  let '(ok, o) := WriteFully (OatClasses_bytes c) o in
  if negb ok then (false, LOG ("Failed to write methods offsets to " ++ name o) o)
  else (true, o).

(** Lines 677-683. *)
Definition OatMethods_Write (m : OatMethods) (o : World) : bool * World :=
  let '(ok, o) := WriteFully (OatMethods_bytes m) o in
  if negb ok then (false, LOG ("Failed to write method offsets to " ++ name o) o)
  else (true, o).

(** A loop of [WriteTables]: every record in turn, until one fails. *)
Fixpoint write_all {A} (write : A -> World -> bool * World) (failure : string)
    (l : list A) (o : World) : bool * World :=
  match l with
  | [] => (true, o)
  | x :: rest =>
      let '(ok, o) := write x o in
      if negb ok then (false, LOG (failure ++ name o) o)
      else write_all write failure rest o
  end.

(** Lines 336-356. *)
Definition WriteTables (w : OatWriter) (o : World) : bool * World :=
  let '(ok, o) :=
    write_all OatDexFile_Write "Failed to write oat dex information to "
      (oat_dex_files_ w) o in
  if negb ok then (false, o) else
  let '(ok, o) :=
    write_all OatClasses_Write "Failed to write oat classes information to "
      (oat_classes_ w) o in
  if negb ok then (false, o) else
  write_all OatMethods_Write "Failed to write oat methods information to "
    (oat_methods_ w) o.

(** Lines 358-368. *)
Definition WriteCode (w : OatWriter) (o : World) : Z * World :=
  let code_offset := executable_offset_ (oat_header_ w) in
  let '(new_offset, o) := lseek_cur (executable_offset_padding_length_ w) o in
  if negb (u32 new_offset =? code_offset)
  then (0, LOG ("Failed to seek to oat code section. Actual: " ++ string_of_Z new_offset
                ++ " Expected: " ++ string_of_Z code_offset ++ " File: " ++ name o) o)
  else (code_offset, o).

(** Lines 396-400. *)
Definition ReportWriteFailure (what : string) (method_idx : Z) (dex_file : DexFile)
    (o : World) : World :=
  LOG ("Failed to write " ++ what ++ " for "
       ++ PrettyMethod P method_idx (GetLocation dex_file) ++ " to " ++ name o) o.

(** *** One method (lines 443-601).  A block returns the new [code_offset],
    or [None] where the source returns [false]. *)

(** Lines 458-469 and 563-575: the seek over the alignment gap. *)
Definition write_alignment (aligned_code_offset : Z) (failure : string)
    (with_file : bool) (code_offset : Z) (o : World) : option Z * World :=
  let aligned_code_delta := u32 (aligned_code_offset - code_offset) in
  if negb (aligned_code_delta =? 0) then
    let '(new_offset, o) := lseek_cur aligned_code_delta o in
    if negb (u32 new_offset =? aligned_code_offset)
    then (None,
          LOG (failure ++ string_of_Z new_offset ++ " Expected: "
               ++ string_of_Z aligned_code_offset
               ++ (if with_file then " File: " ++ name o else "")) o)
    else (Some (u32 (code_offset + aligned_code_delta)), o)
  else (Some code_offset, o).

(** Lines 457-491. *)
Definition write_code (w : OatWriter) (cm : CompiledMethod) (method_offsets : OatMethodOffsets)
    (method_idx : Z) (dex_file : DexFile) (code_offset : Z) (o : World)
  : option Z * World :=
  let aligned_code_offset := u32 (AlignCode P cm code_offset) in
  match write_alignment aligned_code_offset "Failed to seek to align oat code. Actual: "
          true code_offset o with
  | (None, o) => (None, o)
  | (Some code_offset, o) =>
      let code := GetCode cm in
      let code_size := size_of_list (code_vec (compiler_ w) code) in
      let offset := u32 (code_offset + CodeDelta cm) in
      if bool_decide (is_Some (code_offsets_ w !! code)) &&
         negb (offset =? code_offset_ method_offsets)
      then (Some code_offset, o)
      else
        let '(ok, o) := WriteFully (code_vec (compiler_ w) code) o in
        if negb ok then (None, ReportWriteFailure "method code" method_idx dex_file o)
        else (Some (u32 (code_offset + code_size)), o)
  end.

(** Lines 497-511, once per word. *)
Definition write_word (word : Z) (what : string) (method_idx : Z) (dex_file : DexFile)
    (code_offset : Z) (o : World) : option Z * World :=
  let '(ok, o) := WriteFully (le32 word) o in
  if negb ok then (None, ReportWriteFailure what method_idx dex_file o)
  else (Some (u32 (code_offset + 4)), o).

(** Lines 514-535. *)
Definition write_mapping_table (w : OatWriter) (cm : CompiledMethod)
    (method_offsets : OatMethodOffsets) (method_idx : Z) (dex_file : DexFile)
    (code_offset : Z) (o : World) : option Z * World :=
  let mapping_table := GetMappingTable cm in
  let mapping_table_size :=
    u32 (size_of_list (mapping_vec (compiler_ w) mapping_table) * 4) in
  if bool_decide (is_Some (mapping_table_offsets_ w !! mapping_table)) &&
     negb (code_offset =? mapping_table_offset_ method_offsets)
  then (Some code_offset, o)
  else
    let '(ok, o) := WriteFully (bytes_of_u32s (mapping_vec (compiler_ w) mapping_table)) o in
    if negb ok then (None, ReportWriteFailure "mapping table" method_idx dex_file o)
    else (Some (u32 (code_offset + mapping_table_size)), o).

(** Lines 537-558. *)
Definition write_vmap_table (w : OatWriter) (cm : CompiledMethod)
    (method_offsets : OatMethodOffsets) (method_idx : Z) (dex_file : DexFile)
    (code_offset : Z) (o : World) : option Z * World :=
  let vmap_table := GetVmapTable cm in
  let vmap_table_size := u32 (size_of_list (vmap_vec (compiler_ w) vmap_table) * 2) in
  if bool_decide (is_Some (vmap_table_offsets_ w !! vmap_table)) &&
     negb (code_offset =? vmap_table_offset_ method_offsets)
  then (Some code_offset, o)
  else
    let '(ok, o) := WriteFully (bytes_of_u16s (vmap_vec (compiler_ w) vmap_table)) o in
    if negb ok then (None, ReportWriteFailure "vmap table" method_idx dex_file o)
    else (Some (u32 (code_offset + vmap_table_size)), o).

(** Lines 562-599. *)
Definition write_invoke_stub (w : OatWriter) (stub : CompiledInvokeStub)
    (method_offsets : OatMethodOffsets) (method_idx : Z) (dex_file : DexFile)
    (code_offset : Z) (o : World) : option Z * World :=
  let aligned_code_offset :=
    u32 (AlignCodeFor P code_offset (GetInstructionSet (compiler_ w))) in
  match write_alignment aligned_code_offset
          "Failed to seek to align invoke stub code. Actual: " false code_offset o with
  | (None, o) => (None, o)
  | (Some code_offset, o) =>
      let invoke_stub := GetStubCode stub in
      let invoke_stub_size := size_of_list (code_vec (compiler_ w) invoke_stub) in
      if bool_decide (is_Some (code_offsets_ w !! invoke_stub)) &&
         negb (code_offset =? invoke_stub_offset_ method_offsets)
      then (Some code_offset, o)
      else
        let '(ok, o) := WriteFully (code_vec (compiler_ w) invoke_stub) o in
        if negb ok then (None, ReportWriteFailure "invoke stub code" method_idx dex_file o)
        else (Some (u32 (code_offset + invoke_stub_size)), o)
  end.

(** [oat_methods_[oat_class_index]->method_offsets_[class_def_method_index]] *)
Definition method_offsets_at (w : OatWriter) (oat_class_index class_def_method_index : nat)
  : OatMethodOffsets :=
  match oat_methods_ w !! oat_class_index with
  | Some m => default OatMethodOffsets_zero (method_offsets_ m !! class_def_method_index)
  | None => OatMethodOffsets_zero
  end.

(** Sequencing of the blocks of a method: the first failure ends it. *)
Definition and_then (r : option Z * World) (k : Z -> World -> option Z * World)
  : option Z * World :=
  match r with
  | (Some code_offset, o) => k code_offset o
  | (None, o) => (None, o)
  end.

Definition WriteCodeMethod_blocks (w : OatWriter) (code_offset : Z)
    (oat_class_index class_def_method_index : nat) (is_static : bool) (method_idx : Z)
    (dex_file : DexFile) (o : World) : option Z * World :=
  let compiled_method := GetCompiledMethod (compiler_ w) dex_file method_idx in
  let method_offsets := method_offsets_at w oat_class_index class_def_method_index in
  let frame_size_in_bytes :=
    match compiled_method with Some cm => u32 (GetFrameSizeInBytes cm) | None => 0 end in
  let core_spill_mask :=
    match compiled_method with Some cm => u32 (GetCoreSpillMask cm) | None => 0 end in
  let fp_spill_mask :=
    match compiled_method with Some cm => u32 (GetFpSpillMask cm) | None => 0 end in
  and_then
    match compiled_method with
    | Some cm => write_code w cm method_offsets method_idx dex_file code_offset o
    | None => (Some code_offset, o)
    end (fun code_offset o =>
  and_then (write_word frame_size_in_bytes "method frame size" method_idx dex_file
              code_offset o) (fun code_offset o =>
  and_then (write_word core_spill_mask "method core spill mask" method_idx dex_file
              code_offset o) (fun code_offset o =>
  and_then (write_word fp_spill_mask "method fp spill mask" method_idx dex_file
              code_offset o) (fun code_offset o =>
  and_then
    match compiled_method with
    | Some cm =>
        and_then (write_mapping_table w cm method_offsets method_idx dex_file code_offset o)
          (write_vmap_table w cm method_offsets method_idx dex_file)
    | None => (Some code_offset, o)
    end (fun code_offset o =>
  match FindInvokeStub (compiler_ w) is_static (GetMethodShorty dex_file method_idx) with
  | Some stub => write_invoke_stub w stub method_offsets method_idx dex_file code_offset o
  | None => (Some code_offset, o)
  end))))).

(** The result is a [size_t]; [return false] is 0. *)
Definition WriteCodeMethod (w : OatWriter) (code_offset : Z)
    (oat_class_index class_def_method_index : nat) (is_static : bool) (method_idx : Z)
    (dex_file : DexFile) (o : World) : Z * World :=
  match WriteCodeMethod_blocks w code_offset oat_class_index class_def_method_index
          is_static method_idx dex_file o with
  | (Some code_offset, o) => (code_offset, o)
  | (None, o) => (0, o)
  end.

(** Lines 421-439: the two loops over the methods of a class. *)
Fixpoint WriteCode_methods (w : OatWriter) (it : list EncodedMethod) (direct : bool)
    (code_offset : Z) (oat_class_index class_def_method_index : nat) (dex_file : DexFile)
    (o : World) : Z * nat * World :=
  match it with
  | [] => (code_offset, class_def_method_index, o)
  | m :: rest =>
      let is_static := direct && is_static_flag (GetMemberAccessFlags m) in
      let '(code_offset, o) :=
        WriteCodeMethod w code_offset oat_class_index class_def_method_index is_static
          (GetMemberIndex m) dex_file o in
      if code_offset =? 0 then (0, class_def_method_index, o)
      else WriteCode_methods w rest direct code_offset oat_class_index
             (S class_def_method_index) dex_file o
  end.

(** Lines 402-441. *)
Definition WriteCodeClassDef (w : OatWriter) (code_offset : Z) (oat_class_index : nat)
    (dex_file : DexFile) (class_data : option ClassData) (o : World) : Z * World :=
  match class_data with
  | None => (code_offset, o)
  | Some it =>
      let '(code_offset, class_def_method_index, o) :=
        WriteCode_methods w (direct_methods it) true code_offset oat_class_index 0
          dex_file o in
      if code_offset =? 0 then (0, o)
      else
        let '(code_offset, _, o) :=
          WriteCode_methods w (virtual_methods it) false code_offset oat_class_index
            class_def_method_index dex_file o in
        (code_offset, o)
  end.

(** Lines 383-394. *)
Fixpoint WriteCodeDexFile_loop (w : OatWriter) (defs : list (option ClassData))
    (code_offset : Z) (oat_class_index : nat) (dex_file : DexFile) (o : World)
  : Z * nat * World :=
  match defs with
  | [] => (code_offset, oat_class_index, o)
  | class_data :: rest =>
      let '(code_offset, o) :=
        WriteCodeClassDef w code_offset oat_class_index dex_file class_data o in
      if code_offset =? 0 then (0, oat_class_index, o)
      else WriteCodeDexFile_loop w rest code_offset (S oat_class_index) dex_file o
  end.

Definition WriteCodeDexFile (w : OatWriter) (code_offset : Z) (oat_class_index : nat)
    (dex_file : DexFile) (o : World) : Z * nat * World :=
  WriteCodeDexFile_loop w (class_defs dex_file) code_offset oat_class_index dex_file o.

(** Lines 370-381: one dex file for each entry of [oat_classes_]. *)
Fixpoint WriteCodeDexFiles_loop (w : OatWriter) (dex_files : list DexFile)
    (code_offset : Z) (oat_class_index : nat) (o : World) : Z * World :=
  match dex_files with
  | [] => (code_offset, o)
  | dex_file :: rest =>
      let '(code_offset, oat_class_index, o) :=
        WriteCodeDexFile w code_offset oat_class_index dex_file o in
      if code_offset =? 0 then (0, o)
      else WriteCodeDexFiles_loop w rest code_offset oat_class_index o
  end.

Definition WriteCodeDexFiles (w : OatWriter) (code_offset : Z) (o : World) : Z * World :=
  WriteCodeDexFiles_loop w (take (length (oat_classes_ w)) (dex_files_ w)) code_offset 0 o.

(** Lines 310-334. *)
Definition Write (w : OatWriter) (o : World) : bool * World :=
  let '(ok, o) := WriteFully (OatHeader_bytes (oat_header_ w)) o in
  if negb ok then (false, LOG ("Failed to write oat header to " ++ name o) o) else
  let '(ok, o) := WriteTables w o in
  if negb ok then (false, LOG ("Failed to write oat tables to " ++ name o) o) else
  let '(code_offset, o) := WriteCode w o in
  if code_offset =? 0 then (false, LOG ("Failed to write oat code to " ++ name o) o) else
  let '(code_offset, o) := WriteCodeDexFiles w code_offset o in
  if code_offset =? 0
  then (false, LOG ("Failed to write oat code for dex files to " ++ name o) o)
  else (true, o).

(** Lines 13-19. *)
Definition Create (file_name : string) (faults : list (option nat))
    (dex_files : list DexFile) (compiler : Compiler) : option (bool * World) :=
  match OatWriter_new P dex_files compiler with
  | Some w => Some (Write w (fresh_file file_name faults))
  | None => None
  end.

End Emit.

(** ** The methods in layout order

    Both passes visit the methods in the same order: dex file after dex
    file, class after class, the direct methods and then the virtual ones.
    [code_items] is that order, with the end of every class marked (the
    layout pass checksums the methods table of the class there). *)

Record MethodRef := {
  m_class : nat;          (* oat_class_index *)
  m_index : nat;          (* class_def_method_index *)
  m_static : bool;
  m_direct : bool;
  m_idx : Z;              (* method_idx *)
  m_dex : DexFile
}.

Inductive Item :=
| IMethod (m : MethodRef)
| IClassEnd (oat_class_index : nat).

Fixpoint method_items (it : list EncodedMethod) (direct : bool)
    (oat_class_index class_def_method_index : nat) (dex_file : DexFile) : list Item :=
  match it with
  | [] => []
  | e :: rest =>
      IMethod {| m_class := oat_class_index; m_index := class_def_method_index;
                 m_static := direct && is_static_flag (GetMemberAccessFlags e);
                 m_direct := direct; m_idx := GetMemberIndex e; m_dex := dex_file |}
      :: method_items rest direct oat_class_index (S class_def_method_index) dex_file
  end.

Definition class_items (class_data : option ClassData) (oat_class_index : nat)
    (dex_file : DexFile) : list Item :=
  match class_data with
  | None => []
  | Some it =>
      method_items (direct_methods it) true oat_class_index 0 dex_file ++
      method_items (virtual_methods it) false oat_class_index
        (length (direct_methods it)) dex_file
  end ++ [IClassEnd oat_class_index].

Fixpoint dex_items (defs : list (option ClassData)) (oat_class_index : nat)
    (dex_file : DexFile) : list Item :=
  match defs with
  | [] => []
  | class_data :: rest =>
      class_items class_data oat_class_index dex_file ++
      dex_items rest (S oat_class_index) dex_file
  end.

Fixpoint code_items_from (dex_files : list DexFile) (oat_class_index : nat) : list Item :=
  match dex_files with
  | [] => []
  | dex_file :: rest =>
      dex_items (class_defs dex_file) oat_class_index dex_file ++
      code_items_from rest (oat_class_index + length (class_defs dex_file))
  end.

Definition code_items (dex_files : list DexFile) : list Item :=
  code_items_from dex_files 0.

Definition item_key (it : Item) : option (nat * nat) :=
  match it with
  | IMethod m => Some (m_class m, m_index m)
  | IClassEnd _ => None
  end.

(** The length of a list as an unbounded integer. *)
Definition len {A} (l : list A) : Z := Z.of_nat (length l).

Section Order.

Variable P : Platform.

(** Lines 281-302 past the check of line 295: the record is stored and, for
    an image, set on the method the runtime resolves (nothing is set when
    there is none: [InitOatCodeMethod] aborts then). *)
Definition record_method (c k : nat) (d : bool) (idx : Z) (dex : DexFile)
    (mo : OatMethodOffsets) (w : OatWriter) : OatWriter :=
  let w := store_method_offsets c k mo w in
  if IsImage (compiler_ w)
  then match ResolveMethod P dex idx d with
       | Some method => SetOatMethodInfo method mo w
       | None => w
       end
  else w.

(** One method in the layout pass; it is what [InitOatCodeMethod] returns
    when it returns ([InitOatCodeMethod_item]). *)
Definition layout_method_item (m : MethodRef) (s : Z * OatWriter) : Z * OatWriter :=
  let '(offset, mo, w) :=
    layout_method P (fst s) (m_static m) (m_idx m) (m_dex m) (snd s) in
  (offset,
   record_method (m_class m) (m_index m) (m_direct m) (m_idx m) (m_dex m) mo w).

(** The layout pass on one item, and on a list of items. *)
Definition layout_item (it : Item) (s : Z * OatWriter) : Z * OatWriter :=
  match it with
  | IMethod m => layout_method_item m s
  | IClassEnd c =>
      (fst s,
       match oat_methods_ (snd s) !! c with
       | Some o => UpdateChecksum (OatMethods_bytes o) (snd s)
       | None => snd s
       end)
  end.

Definition layout_items (items : list Item) (s : Z * OatWriter) : Z * OatWriter :=
  fold_left (fun s it => layout_item it s) items s.

(** The emit pass on one item, and on a list of items; a result of 0 ends
    the pass. *)
Definition emit_item (w : OatWriter) (it : Item) (code_offset : Z) (o : World)
  : Z * World :=
  match it with
  | IMethod m =>
      WriteCodeMethod P w code_offset (m_class m) (m_index m) (m_static m) (m_idx m)
        (m_dex m) o
  | IClassEnd _ => (code_offset, o)
  end.

Fixpoint emit_items (w : OatWriter) (items : list Item) (code_offset : Z) (o : World)
  : Z * World :=
  match items with
  | [] => (code_offset, o)
  | it :: rest =>
      let '(code_offset, o) := emit_item w it code_offset o in
      if code_offset =? 0 then (0, o) else emit_items w rest code_offset o
  end.

(** The state of the layout pass when it enters the executable section, and
    when it has laid out the items [pre]. *)
Definition layout_start (dex_files : list DexFile) (compiler : Compiler)
  : Z * OatWriter :=
  let '(offset, w) := layout_tables P dex_files compiler in
  InitOatCode P offset w.

Definition layout_at (dex_files : list DexFile) (compiler : Compiler) (pre : list Item)
  : Z * OatWriter :=
  layout_items pre (layout_start dex_files compiler).

(** The state of the emit pass on a new file when it enters the executable
    section, and when it has emitted the items [pre]. *)
Definition emit_start (w : OatWriter) (file_name : string) : Z * World :=
  let '(_, o) := WriteFully (OatHeader_bytes (oat_header_ w)) (fresh_file file_name []) in
  let '(_, o) := WriteTables w o in
  WriteCode w o.

Definition emit_at (w : OatWriter) (file_name : string) (pre : list Item) : Z * World :=
  let '(code_offset, o) := emit_start w file_name in
  emit_items w pre code_offset o.

(** *** The extent of the layout: an upper bound of the final cursor *)

Definition method_extent (compiler : Compiler) (m : MethodRef) : Z :=
  match GetCompiledMethod compiler (m_dex m) (m_idx m) with
  | Some cm =>
      InstructionSetAlignment P (cm_instruction_set cm) +
      len (code_vec compiler (GetCode cm)) +
      4 * len (mapping_vec compiler (GetMappingTable cm)) +
      2 * len (vmap_vec compiler (GetVmapTable cm))
  | None => 0
  end + 12 +
  match FindInvokeStub compiler (m_static m) (GetMethodShorty (m_dex m) (m_idx m)) with
  | Some stub =>
      InstructionSetAlignment P (GetInstructionSet compiler) +
      len (code_vec compiler (GetStubCode stub))
  | None => 0
  end.

Definition item_extent (compiler : Compiler) (it : Item) : Z :=
  match it with
  | IMethod m => method_extent compiler m
  | IClassEnd _ => 0
  end.

Fixpoint items_extent (compiler : Compiler) (items : list Item) : Z :=
  match items with
  | [] => 0
  | it :: rest => item_extent compiler it + items_extent compiler rest
  end.

Definition num_methods_raw (class_data : option ClassData) : Z :=
  match class_data with
  | Some it => len (direct_methods it) + len (virtual_methods it)
  | None => 0
  end.

Fixpoint dex_files_extent (dex_files : list DexFile) : Z :=
  match dex_files with
  | [] => 0
  | d :: rest => 12 + len (bytes_of_string (GetLocation d)) + dex_files_extent rest
  end.

Fixpoint classes_extent (dex_files : list DexFile) : Z :=
  match dex_files with
  | [] => 0
  | d :: rest => 4 * len (class_defs d) + classes_extent rest
  end.

Fixpoint class_defs_extent (defs : list (option ClassData)) : Z :=
  match defs with
  | [] => 0
  | class_data :: rest => 28 * num_methods_raw class_data + class_defs_extent rest
  end.

Fixpoint methods_extent (dex_files : list DexFile) : Z :=
  match dex_files with
  | [] => 0
  | d :: rest => class_defs_extent (class_defs d) + methods_extent rest
  end.

Definition header_extent : Z := len (kOatMagic P) + len (kOatVersion P) + 8.

(** The byte length of the header and of all the tables. *)
Definition tables_extent (dex_files : list DexFile) : Z :=
  header_extent + dex_files_extent dex_files + classes_extent dex_files +
  methods_extent dex_files.

(** No cursor of the layout exceeds [layout_extent]: the tables, one page of
    padding and, for every method, its artifacts with their alignment gaps.
    A layout fits the 32-bit offsets of the format when this is below
    [2 ^ 32]. *)
Definition layout_extent (dex_files : list DexFile) (compiler : Compiler) : Z :=
  tables_extent dex_files + kPageSize P + items_extent compiler (code_items dex_files).

Definition is_power_of_two (n : Z) : Prop := exists k, 0 <= k /\ n = 2 ^ k.

(** What the writer assumes of the platform: the page size and the
    instruction alignments are powers of two, a page is more than a byte, and
    the stack alignment is a positive 32-bit value. *)
Definition platform_ok : Prop :=
  is_power_of_two (kPageSize P) /\ 1 < kPageSize P /\
  (forall i, is_power_of_two (InstructionSetAlignment P i)) /\
  0 < kStackAlignment P < 2 ^ 32.

End Order.

(** ** Invariants of the deduplication maps *)

(** Every offset in the map is the sentinel 0 or lies before the cursor. *)
Definition offsets_below (m : gmap ptr Z) (cursor : Z) : Prop :=
  forall a v, m !! a = Some v -> v = 0 \/ 0 < v < cursor.

(** An empty vector is mapped to the sentinel 0. *)
Definition empty_at_zero (m : gmap ptr Z) (vec : ptr -> list Z) : Prop :=
  forall a v, m !! a = Some v -> vec a = [] -> v = 0.

(** The successful writes of a journal, and the calls a world has made
    since an earlier one. *)
Definition ops_since (before after : World) : list io_op :=
  drop (length (f_journal (w_file before))) (f_journal (w_file after)).

Definition op_ok (op : io_op) : bool :=
  match op with
  | OpWrite _ _ ok => ok
  | OpSeek _ _ ok => ok
  end.

Definition is_write (op : io_op) : bool :=
  match op with
  | OpWrite _ _ _ => true
  | OpSeek _ _ _ => false
  end.

(** The two sums of the checksum stay 16-bit values. *)
Definition adler_ok (s : Z * Z) : Prop := 0 <= fst s < 65536 /\ 0 <= snd s < 65536.

(** [emits o o' ops p]: from [o] the file made exactly the calls [ops], all
    successful, and stands at position [p] in [o']; nothing was logged. *)
Definition emits (o o' : World) (ops : list io_op) (p : Z) : Prop :=
  f_journal (w_file o') = f_journal (w_file o) ++ ops /\
  f_pos (w_file o') = p /\
  f_faults (w_file o') = [] /\
  w_log o' = w_log o /\
  f_name (w_file o') = f_name (w_file o).

(** The call that writes [bytes] at [pos] (none for no bytes), and the call
    that seeks over [delta] bytes (none for no gap). *)
Definition write_op (pos : Z) (bytes : list Z) : list io_op :=
  match bytes with
  | [] => []
  | _ => [OpWrite pos bytes true]
  end.

Definition seek_op (pos delta : Z) : list io_op :=
  if delta =? 0 then [] else [OpSeek pos delta true].

(** [extends w w']: the layout pass went from [w] to [w'] inside the
    executable section: the tables keep their shape, the header changes in
    its checksum only, and the deduplication maps only grow. *)
Definition methods_shape (w : OatWriter) : list nat :=
  (fun m => length (method_offsets_ m)) <$> oat_methods_ w.

Definition extends (w w' : OatWriter) : Prop :=
  compiler_ w' = compiler_ w /\
  dex_files_ w' = dex_files_ w /\
  oat_dex_files_ w' = oat_dex_files_ w /\
  oat_classes_ w' = oat_classes_ w /\
  methods_shape w' = methods_shape w /\
  executable_offset_padding_length_ w' = executable_offset_padding_length_ w /\
  executable_offset_ (oat_header_ w') = executable_offset_ (oat_header_ w) /\
  magic_ (oat_header_ w') = magic_ (oat_header_ w) /\
  version_ (oat_header_ w') = version_ (oat_header_ w) /\
  code_offsets_ w ⊆ code_offsets_ w' /\
  mapping_table_offsets_ w ⊆ mapping_table_offsets_ w' /\
  vmap_table_offsets_ w ⊆ vmap_table_offsets_ w'.

(** The three maps hold offsets before the cursor. *)
Definition maps_below (w : OatWriter) (cursor : Z) : Prop :=
  offsets_below (code_offsets_ w) cursor /\
  offsets_below (mapping_table_offsets_ w) cursor /\
  offsets_below (vmap_table_offsets_ w) cursor.

(** The three maps send empty vectors to 0. *)
Definition maps_empty_at_zero (w : OatWriter) : Prop :=
  empty_at_zero (code_offsets_ w) (code_vec (compiler_ w)) /\
  empty_at_zero (mapping_table_offsets_ w) (mapping_vec (compiler_ w)) /\
  empty_at_zero (vmap_table_offsets_ w) (vmap_vec (compiler_ w)).

(** An artifact is laid out and emitted where its vector is met for the
    first time. *)
Definition first_seen (m : gmap ptr Z) (a : ptr) : bool :=
  bool_decide (m !! a = None).

(** The records of the methods tables the items address. *)
Definition item_keys (items : list Item) : list (nat * nat) := omap item_key items.

Definition in_range (w : OatWriter) (key : nat * nat) : Prop :=
  exists n, methods_shape w !! fst key = Some n /\ (snd key < n)%nat.

(** Every item has a record of its own in the methods tables. *)
Definition keys_ok (w : OatWriter) (items : list Item) : Prop :=
  NoDup (item_keys items) /\ Forall (in_range w) (item_keys items).

(** The number of records of every methods table, class after class. *)
Definition method_count (class_data : option ClassData) : nat :=
  match class_data with
  | Some it => (length (direct_methods it) + length (virtual_methods it))%nat
  | None => 0%nat
  end.

Definition shape_of (dex_files : list DexFile) : list nat :=
  concat (map (fun d => map method_count (class_defs d)) dex_files).

(** [same_core w w']: a step of the layout of the tables: it leaves the
    collaborators, the maps and the identity of the header alone. *)
Definition same_core (w w' : OatWriter) : Prop :=
  compiler_ w' = compiler_ w /\
  dex_files_ w' = dex_files_ w /\
  code_offsets_ w' = code_offsets_ w /\
  mapping_table_offsets_ w' = mapping_table_offsets_ w /\
  vmap_table_offsets_ w' = vmap_table_offsets_ w /\
  magic_ (oat_header_ w') = magic_ (oat_header_ w) /\
  version_ (oat_header_ w') = version_ (oat_header_ w).

(** The byte length of the tables of a writer. *)
Fixpoint sum_Z {A} (f : A -> Z) (l : list A) : Z :=
  match l with
  | [] => 0
  | x :: rest => f x + sum_Z f rest
  end.

Definition OatDexFile_len (d : OatDexFile) : Z := 12 + len (dex_file_location_data_ d).
Definition OatClasses_len (c : OatClasses) : Z := 4 * len (methods_offsets_ c).
Definition OatMethods_len (m : OatMethods) : Z := 28 * len (method_offsets_ m).

Definition tables_len (w : OatWriter) : Z :=
  sum_Z OatDexFile_len (oat_dex_files_ w) + sum_Z OatClasses_len (oat_classes_ w) +
  sum_Z OatMethods_len (oat_methods_ w).

(** ** A worked example

    One dex file with two classes.  The first class has two direct methods
    that share one thumb [CompiledMethod], a virtual method whose code is
    empty, and an abstract virtual method; the second class is empty.  The
    static method has an invoke stub. *)

Definition example_platform : Platform :=
  {| kPageSize := 4096;
     kStackAlignment := 16;
     kOatMagic := [111; 97; 116; 10];
     kOatVersion := [48; 48; 49; 0];
     InstructionSetAlignment :=
       fun i => match i with kArm | kThumb2 => 16 | _ => 1 end;
     PrettyMethod := fun idx location => (location ++ "#" ++ string_of_Z idx)%string;
     ResolveMethod :=
       fun _ idx _ => if idx <? 100 then Some (Pos.of_succ_nat (Z.to_nat idx)) else None |}.

Definition example_method : CompiledMethod :=
  {| cm_instruction_set := kThumb2; GetCode := 1%positive; GetFrameSizeInBytes := 32;
     GetCoreSpillMask := 16496; GetFpSpillMask := 0;
     GetMappingTable := 1%positive; GetVmapTable := 1%positive |}.

Definition example_empty_method : CompiledMethod :=
  {| cm_instruction_set := kThumb2; GetCode := 3%positive; GetFrameSizeInBytes := 16;
     GetCoreSpillMask := 0; GetFpSpillMask := 0;
     GetMappingTable := 3%positive; GetVmapTable := 3%positive |}.

Definition example_compiler : Compiler :=
  {| GetCompiledMethod :=
       fun _ idx =>
         if (idx =? 0) || (idx =? 1) then Some example_method
         else if idx =? 2 then Some example_empty_method
         else None;
     FindInvokeStub :=
       fun is_static _ => if is_static then Some {| GetStubCode := 2%positive |} else None;
     GetInstructionSet := kThumb2;
     IsImage := false;
     code_vec :=
       fun p => if (p =? 1)%positive then [1; 2; 3; 4; 5; 6]
                else if (p =? 2)%positive then [9; 9; 9; 9] else [];
     mapping_vec := fun p => if (p =? 1)%positive then [7; 8] else [];
     vmap_vec := fun p => if (p =? 1)%positive then [5] else [] |}.

Definition example_dex : DexFile :=
  {| GetLocation := "a.dex";
     GetHeaderChecksum := 77;
     class_defs :=
       [Some {| direct_methods :=
                  [{| GetMemberIndex := 0; GetMemberAccessFlags := 9 |};
                   {| GetMemberIndex := 1; GetMemberAccessFlags := 1 |}];
                virtual_methods :=
                  [{| GetMemberIndex := 2; GetMemberAccessFlags := 1 |};
                   {| GetMemberIndex := 3; GetMemberAccessFlags := 1025 |}] |};
        None];
     GetMethodShorty := fun _ => "V"%string |}.

Definition example_layout : option (Z * OatWriter) :=
  OatWriter_layout example_platform [example_dex] example_compiler.

Definition example_cursor : Z :=
  match example_layout with Some (cursor, _) => cursor | None => 0 end.

Definition example_writer : OatWriter :=
  match example_layout with
  | Some (_, w) => w
  | None => OatWriter_init example_platform [example_dex] example_compiler
  end.

(** The reading of the specification that leaves every layout field of an
    abstract method at 0. *)
Definition abstract_fields_zero (dex_files : list DexFile) (compiler : Compiler)
    (w : OatWriter) : Prop :=
  forall m, IMethod m ∈ code_items dex_files ->
    GetCompiledMethod compiler (m_dex m) (m_idx m) = None ->
    let mo := method_offsets_at w (m_class m) (m_index m) in
    code_offset_ mo = 0 /\ frame_size_in_bytes_ mo = 0 /\ core_spill_mask_ mo = 0 /\
    fp_spill_mask_ mo = 0 /\ mapping_table_offset_ mo = 0 /\ vmap_table_offset_ mo = 0.

(** The reading of the specification that orders the offsets the layout
    assigns: the offsets of the records, method after method in layout
    order and, within a method, in the order of lines 199-279 (code,
    mapping table, vmap table, invoke stub). *)
Definition assigned_offsets (w : OatWriter) (items : list Item) : list Z :=
  flat_map
    (fun it =>
       match it with
       | IMethod m =>
           let mo := method_offsets_at w (m_class m) (m_index m) in
           [code_offset_ mo; mapping_table_offset_ mo; vmap_table_offset_ mo;
            invoke_stub_offset_ mo]
       | IClassEnd _ => []
       end) items.

Definition offsets_ordered (dex_files : list DexFile) (w : OatWriter) : Prop :=
  forall (i j : nat) (a b : Z), (i <= j)%nat ->
    assigned_offsets w (code_items dex_files) !! i = Some a ->
    assigned_offsets w (code_items dex_files) !! j = Some b ->
    a <= b.

(** The abstract method of the example. *)
Definition example_abstract : MethodRef :=
  {| m_class := 0; m_index := 3; m_static := false; m_direct := false; m_idx := 3;
     m_dex := example_dex |}.

(** The other methods of the example: two that share their code, and one
    whose code and tables are empty. *)
Definition example_first : MethodRef :=
  {| m_class := 0; m_index := 0; m_static := true; m_direct := true; m_idx := 0;
     m_dex := example_dex |}.

Definition example_second : MethodRef :=
  {| m_class := 0; m_index := 1; m_static := false; m_direct := true; m_idx := 1;
     m_dex := example_dex |}.

Definition example_empty : MethodRef :=
  {| m_class := 0; m_index := 2; m_static := false; m_direct := false; m_idx := 2;
     m_dex := example_dex |}.

(** ** What the file holds

    [read_at data pos n]: the [n] bytes of the file from position [pos]. *)
Definition read_at (data : list Z) (pos : Z) (n : nat) : list Z :=
  take n (drop (Z.to_nat pos) data).

(** The file only grows at its end, and every write that succeeded is
    still in it. *)
Definition keeps_writes (f : File) : Prop :=
  0 <= f_pos f /\ (length (f_data f) <= Z.to_nat (f_pos f))%nat /\
  forall p b, OpWrite p b true ∈ f_journal f ->
    0 <= p /\ (Z.to_nat p + length b <= length (f_data f))%nat /\
    read_at (f_data f) p (length b) = b.

Definition Keeps (o : World) : Prop := keeps_writes (w_file o).

(** ** The header and the tables in the file

    [Write] puts the header and the tables into the file as a row of byte
    strings, one after the other: the header, the four fields of every
    descriptor, the class tables and the methods tables. *)
Definition dex_fields (d : OatDexFile) : list (list Z) :=
  [le32 (dex_file_location_size_ d); dex_file_location_data_ d;
   le32 (dex_file_checksum_ d); le32 (classes_offset_ d)].

Definition OatDexFile_bytes (d : OatDexFile) : list Z := concat (dex_fields d).

Definition table_fields (w : OatWriter) : list (list Z) :=
  [OatHeader_bytes (oat_header_ w)] ++
  concat (dex_fields <$> oat_dex_files_ w) ++
  (OatClasses_bytes <$> oat_classes_ w) ++
  (OatMethods_bytes <$> oat_methods_ w).

(** The calls that write a row of byte strings from the position [start]. *)
Fixpoint record_calls (start : Z) (fields : list (list Z)) : list io_op :=
  match fields with
  | [] => []
  | b :: rest => write_op start b ++ record_calls (start + len b) rest
  end.

(** The class definitions of all dex files in a row, and the place of the
    class [j] of the dex file [i] in this row: its [oat_class_index]. *)
Definition all_class_defs (dex_files : list DexFile) : list (option ClassData) :=
  concat (class_defs <$> dex_files).

Definition class_index (dex_files : list DexFile) (i j : nat) : nat :=
  (length (all_class_defs (take i dex_files)) + j)%nat.

(** ** What the checksum covers

    The layout pass feeds the checksum while it walks the input (lines 73,
    106, 140, 214, 223-229, 243, 257 and 277): every descriptor, every
    class table, and then, item by item, the artifacts of a method whose
    buffer has not been met before, its three frame words, and the methods
    table of a class when the class is done.  [Seen] holds the buffers met
    so far; the invoke stubs share the set of the code. *)
Record Seen := {
  seen_code : gset ptr;
  seen_mapping : gset ptr;
  seen_vmap : gset ptr
}.

Definition no_seen : Seen :=
  {| seen_code := ∅; seen_mapping := ∅; seen_vmap := ∅ |}.

Definition unseen_bytes (seen : gset ptr) (a : ptr) (bytes : list Z) : list Z :=
  if decide (a ∈ seen) then [] else bytes.

Definition stub_content (compiler : Compiler) (m : MethodRef) (seen : gset ptr)
  : list Z * gset ptr :=
  match FindInvokeStub compiler (m_static m) (GetMethodShorty (m_dex m) (m_idx m)) with
  | Some stub =>
      (unseen_bytes seen (GetStubCode stub) (code_vec compiler (GetStubCode stub)),
       seen ∪ {[GetStubCode stub]})
  | None => ([], seen)
  end.

Definition method_content (P : Platform) (compiler : Compiler) (m : MethodRef)
    (seen : Seen) : list Z * Seen :=
  match GetCompiledMethod compiler (m_dex m) (m_idx m) with
  | Some cm =>
      let code :=
        unseen_bytes (seen_code seen) (GetCode cm) (code_vec compiler (GetCode cm)) in
      let words :=
        le32 (u32 (GetFrameSizeInBytes cm)) ++ le32 (u32 (GetCoreSpillMask cm)) ++
        le32 (u32 (GetFpSpillMask cm)) in
      let mapping :=
        unseen_bytes (seen_mapping seen) (GetMappingTable cm)
          (bytes_of_u32s (mapping_vec compiler (GetMappingTable cm))) in
      let vmap :=
        unseen_bytes (seen_vmap seen) (GetVmapTable cm)
          (bytes_of_u16s (vmap_vec compiler (GetVmapTable cm))) in
      let '(stub, seen_c) := stub_content compiler m (seen_code seen ∪ {[GetCode cm]}) in
      (code ++ words ++ mapping ++ vmap ++ stub,
       {| seen_code := seen_c;
          seen_mapping := seen_mapping seen ∪ {[GetMappingTable cm]};
          seen_vmap := seen_vmap seen ∪ {[GetVmapTable cm]} |})
  | None =>
      let '(stub, seen_c) := stub_content compiler m (seen_code seen) in
      (le32 (u32 (kStackAlignment P)) ++ le32 0 ++ le32 0 ++ stub,
       {| seen_code := seen_c;
          seen_mapping := seen_mapping seen;
          seen_vmap := seen_vmap seen |})
  end.

(** The methods tables are taken from the finished writer [w]. *)
Fixpoint items_content (P : Platform) (compiler : Compiler) (w : OatWriter)
    (items : list Item) (seen : Seen) : list Z :=
  match items with
  | [] => []
  | IMethod m :: rest =>
      let '(bytes, seen) := method_content P compiler m seen in
      bytes ++ items_content P compiler w rest seen
  | IClassEnd c :: rest =>
      match oat_methods_ w !! c with
      | Some om => OatMethods_bytes om
      | None => []
      end ++ items_content P compiler w rest seen
  end.

Definition checksum_content (P : Platform) (dex_files : list DexFile)
    (compiler : Compiler) (w : OatWriter) : list Z :=
  concat (OatDexFile_bytes <$> oat_dex_files_ w) ++
  concat (OatClasses_bytes <$> oat_classes_ w) ++
  items_content P compiler w (code_items dex_files) no_seen.

(** The checksum of [w] is the one of the bytes [s]. *)
Definition streamed (w : OatWriter) (s : list Z) : Prop :=
  adler32_checksum_ (oat_header_ w) = adler32 adler32_init s.

(** The sets of [seen] are the keys of the maps of [w]. *)
Definition seen_matches (seen : Seen) (w : OatWriter) : Prop :=
  (forall a, a ∈ seen_code seen <-> is_Some (code_offsets_ w !! a)) /\
  (forall a, a ∈ seen_mapping seen <-> is_Some (mapping_table_offsets_ w !! a)) /\
  (forall a, a ∈ seen_vmap seen <-> is_Some (vmap_table_offsets_ w !! a)).

(** No method of a class comes after the end of the class. *)
Fixpoint well_ended (items : list Item) : Prop :=
  match items with
  | [] => True
  | IMethod _ :: rest => well_ended rest
  | IClassEnd c :: rest =>
      (forall k, (c, k) ∉ item_keys rest) /\ well_ended rest
  end.

(** ** The methods of the image

    For an image the layout pass also sets the seven values of every method
    on the method of the runtime (lines 290-302); [runtime_methods_] keeps
    these calls in order.  [image_records w items] is the list one gets by
    resolving every method of [items] and reading its record from the
    methods tables of [w]. *)
Definition image_record (P : Platform) (w : OatWriter) (it : Item)
  : option MethodOatInfo :=
  match it with
  | IMethod m =>
      match ResolveMethod P (m_dex m) (m_idx m) (m_direct m) with
      | Some method =>
          Some {| info_method := method;
                  info_offsets := method_offsets_at w (m_class m) (m_index m) |}
      | None => None
      end
  | IClassEnd _ => None
  end.

Definition image_records (P : Platform) (w : OatWriter) (items : list Item)
  : list MethodOatInfo :=
  omap (image_record P w) items.

(** The example as an image, and an image with a method the runtime does
    not know (method index 100). *)
Definition image_compiler : Compiler :=
  {| GetCompiledMethod := GetCompiledMethod example_compiler;
     FindInvokeStub := FindInvokeStub example_compiler;
     GetInstructionSet := GetInstructionSet example_compiler;
     IsImage := true;
     code_vec := code_vec example_compiler;
     mapping_vec := mapping_vec example_compiler;
     vmap_vec := vmap_vec example_compiler |}.

Definition image_layout : option (Z * OatWriter) :=
  OatWriter_layout example_platform [example_dex] image_compiler.

Definition image_cursor : Z :=
  match image_layout with Some (cursor, _) => cursor | None => 0 end.

Definition image_writer : OatWriter :=
  match image_layout with
  | Some (_, w) => w
  | None => OatWriter_init example_platform [example_dex] image_compiler
  end.

Definition unknown_dex : DexFile :=
  {| GetLocation := "b.dex";
     GetHeaderChecksum := 78;
     class_defs :=
       [Some {| direct_methods := [{| GetMemberIndex := 100; GetMemberAccessFlags := 1 |}];
                virtual_methods := [] |}];
     GetMethodShorty := fun _ => "V"%string |}.

(** ** Inputs the constructor does not accept

    A virtual method that carries the static flag (line 174), and, for an
    image, a method the runtime does not resolve (line 295). *)
Definition static_virtual (class_data : option ClassData) : bool :=
  match class_data with
  | Some it => existsb (fun e => is_static_flag (GetMemberAccessFlags e)) (virtual_methods it)
  | None => false
  end.

Definition has_static_virtual (dex_files : list DexFile) : bool :=
  existsb (fun d => existsb static_virtual (class_defs d)) dex_files.

Definition unresolved (P : Platform) (dex : DexFile) (direct : bool) (e : EncodedMethod)
  : bool :=
  match ResolveMethod P dex (GetMemberIndex e) direct with
  | Some _ => false
  | None => true
  end.

Definition class_unresolved (P : Platform) (dex : DexFile) (class_data : option ClassData)
  : bool :=
  match class_data with
  | Some it =>
      existsb (unresolved P dex true) (direct_methods it) ||
      existsb (unresolved P dex false) (virtual_methods it)
  | None => false
  end.

Definition has_unresolved (P : Platform) (dex_files : list DexFile) : bool :=
  existsb (fun d => existsb (class_unresolved P d) (class_defs d)) dex_files.

(** What makes the layout of a class abort. *)
Definition class_rejected (P : Platform) (compiler : Compiler) (dex : DexFile)
    (class_data : option ClassData) : bool :=
  static_virtual class_data || IsImage compiler && class_unresolved P dex class_data.

(** A dex file with a static virtual method. *)
Definition static_virtual_dex : DexFile :=
  {| GetLocation := "c.dex";
     GetHeaderChecksum := 79;
     class_defs :=
       [Some {| direct_methods := [];
                virtual_methods := [{| GetMemberIndex := 0; GetMemberAccessFlags := 9 |}] |}];
     GetMethodShorty := fun _ => "V"%string |}.

(** ** Outcomes of the emit pass on a file that may fail *)

(** A diagnostic of a failed record starts with these words. *)
Definition is_failure_line (line : string) : Prop :=
  String.prefix "Failed to " line = true.

Definition all_ok (ops : list io_op) : Prop := Forall (fun op => op_ok op = true) ops.

(** [clean o o']: every call made from [o] to [o'] succeeded and nothing was
    logged. *)
Definition clean (o o' : World) : Prop :=
  exists ops, f_journal (w_file o') = f_journal (w_file o) ++ ops /\ all_ok ops /\
              w_log o' = w_log o.

(** [broken o o']: the last call made from [o] to [o'] failed, the calls
    before it succeeded, and nothing was logged yet. *)
Definition broken (o o' : World) : Prop :=
  exists ops op, f_journal (w_file o') = f_journal (w_file o) ++ ops ++ [op] /\
                 all_ok ops /\ op_ok op = false /\ w_log o' = w_log o.

(** [failed o o']: a failure was logged; a failed call, if there is one, is
    the last call made. *)
Definition failed (o o' : World) : Prop :=
  exists ops line lines,
    f_journal (w_file o') = f_journal (w_file o) ++ ops /\
    w_log o' = w_log o ++ line :: lines /\ is_failure_line line /\
    (all_ok ops \/ exists ops0 op, ops = ops0 ++ [op] /\ all_ok ops0 /\ op_ok op = false).

(** The outcome of a step that returns an offset, 0 for failure. *)
Definition outcome (code_offset : Z) (o o' : World) : Prop :=
  clean o o' \/ (code_offset = 0 /\ failed o o').

(** The outcome of a block or of a record: success or failure. *)
Definition outcome_of (ok : bool) (o o' : World) : Prop :=
  if ok then clean o o' else failed o o'.

Definition outcome_opt (r : option Z) (o o' : World) : Prop :=
  match r with
  | Some _ => clean o o'
  | None => failed o o'
  end.

(** ** The executable section of one method, as the format describes it

    For every method the file holds: an alignment gap, the code (at its
    first occurrence only), the three frame words, the mapping table and the
    vmap table (at their first occurrence only), an alignment gap and the
    invoke stub (at its first occurrence only).  [placement] lists where each
    of them goes when the method is laid out from the cursor [o] with the
    deduplication maps of [w]; [method_calls] lists the calls on the file
    that write a method so placed. *)

Record Placement := {
  at_start : Z;
  at_code : Z;      put_code : bool;
  at_words : Z;
  at_mapping : Z;   put_mapping : bool;
  at_vmap : Z;      put_vmap : bool;
  at_gap : Z;
  at_stub : Z;      put_stub : bool;
  at_end : Z
}.

Definition nonempty {A} (l : list A) : bool := negb (len l =? 0).

Section Placement.

Variable P : Platform.

Definition placement (w : OatWriter) (o : Z) (m : MethodRef) : Placement :=
  let compiler := compiler_ w in
  let compiled_method := GetCompiledMethod compiler (m_dex m) (m_idx m) in
  let p_code := match compiled_method with Some cm => AlignCode P cm o | None => o end in
  let w_code :=
    match compiled_method with
    | Some cm => first_seen (code_offsets_ w) (GetCode cm) &&
                 nonempty (code_vec compiler (GetCode cm))
    | None => false
    end in
  let p_words :=
    match compiled_method with
    | Some cm => if w_code then p_code + len (code_vec compiler (GetCode cm)) else p_code
    | None => o
    end in
  let p_mapping := p_words + 12 in
  let w_mapping :=
    match compiled_method with
    | Some cm => first_seen (mapping_table_offsets_ w) (GetMappingTable cm) &&
                 nonempty (mapping_vec compiler (GetMappingTable cm))
    | None => false
    end in
  let p_vmap :=
    match compiled_method with
    | Some cm =>
        if w_mapping then p_mapping + 4 * len (mapping_vec compiler (GetMappingTable cm))
        else p_mapping
    | None => p_mapping
    end in
  let w_vmap :=
    match compiled_method with
    | Some cm => first_seen (vmap_table_offsets_ w) (GetVmapTable cm) &&
                 nonempty (vmap_vec compiler (GetVmapTable cm))
    | None => false
    end in
  let p_gap :=
    match compiled_method with
    | Some cm =>
        if w_vmap then p_vmap + 2 * len (vmap_vec compiler (GetVmapTable cm)) else p_vmap
    | None => p_vmap
    end in
  let invoke_stub :=
    FindInvokeStub compiler (m_static m) (GetMethodShorty (m_dex m) (m_idx m)) in
  let p_stub :=
    match invoke_stub with
    | Some stub => AlignCodeFor P p_gap (GetInstructionSet compiler)
    | None => p_gap
    end in
  let w_stub :=
    match invoke_stub with
    | Some stub =>
        first_seen (code_offsets_ w) (GetStubCode stub) &&
        match compiled_method with
        | Some cm => negb (bool_decide (GetStubCode stub = GetCode cm))
        | None => true
        end &&
        nonempty (code_vec compiler (GetStubCode stub))
    | None => false
    end in
  let p_end :=
    match invoke_stub with
    | Some stub => if w_stub then p_stub + len (code_vec compiler (GetStubCode stub)) else p_stub
    | None => p_gap
    end in
  {| at_start := o; at_code := p_code; put_code := w_code; at_words := p_words;
     at_mapping := p_mapping; put_mapping := w_mapping; at_vmap := p_vmap;
     put_vmap := w_vmap; at_gap := p_gap; at_stub := p_stub; put_stub := w_stub;
     at_end := p_end |}.

Definition put_op (put : bool) (pos : Z) (bytes : list Z) : list io_op :=
  if put then [OpWrite pos bytes true] else [].

(** The calls that emit a method placed at [pl]; the frame words are those
    of the emit pass (0 for a method without compiled code). *)
Definition method_calls (compiler : Compiler) (m : MethodRef) (pl : Placement)
  : list io_op :=
  let compiled_method := GetCompiledMethod compiler (m_dex m) (m_idx m) in
  let invoke_stub :=
    FindInvokeStub compiler (m_static m) (GetMethodShorty (m_dex m) (m_idx m)) in
  seek_op (at_start pl) (at_code pl - at_start pl) ++
  match compiled_method with
  | Some cm => put_op (put_code pl) (at_code pl) (code_vec compiler (GetCode cm))
  | None => []
  end ++
  [OpWrite (at_words pl)
     (le32 match compiled_method with
           | Some cm => u32 (GetFrameSizeInBytes cm) | None => 0 end) true;
   OpWrite (at_words pl + 4)
     (le32 match compiled_method with
           | Some cm => u32 (GetCoreSpillMask cm) | None => 0 end) true;
   OpWrite (at_words pl + 4 + 4)
     (le32 match compiled_method with
           | Some cm => u32 (GetFpSpillMask cm) | None => 0 end) true] ++
  match compiled_method with
  | Some cm =>
      put_op (put_mapping pl) (at_mapping pl)
        (bytes_of_u32s (mapping_vec compiler (GetMappingTable cm))) ++
      put_op (put_vmap pl) (at_vmap pl)
        (bytes_of_u16s (vmap_vec compiler (GetVmapTable cm)))
  | None => []
  end ++
  seek_op (at_gap pl) (at_stub pl - at_gap pl) ++
  match invoke_stub with
  | Some stub => put_op (put_stub pl) (at_stub pl) (code_vec compiler (GetStubCode stub))
  | None => []
  end.

(** The offsets of a record are the places of the artifacts that are put
    into the file; the code offset carries the thumb bit. *)
Definition placement_matches (compiler : Compiler) (m : MethodRef) (pl : Placement)
    (mo : OatMethodOffsets) : Prop :=
  (put_code pl = true ->
   forall cm, GetCompiledMethod compiler (m_dex m) (m_idx m) = Some cm ->
     code_offset_ mo = at_code pl + CodeDelta cm) /\
  (put_mapping pl = true -> mapping_table_offset_ mo = at_mapping pl) /\
  (put_vmap pl = true -> vmap_table_offset_ mo = at_vmap pl) /\
  (put_stub pl = true -> invoke_stub_offset_ mo = at_stub pl).

End Placement.

(** * Proofs *)

(** ** 32-bit arithmetic *)

Lemma u32_small (x : Z) : 0 <= x < 2 ^ 32 -> u32 x = x.
Proof. intros H. unfold u32. apply Z.mod_small. exact H. Qed.

Lemma u32_range (x : Z) : 0 <= u32 x < 2 ^ 32.
Proof. unfold u32. apply Z.mod_pos_bound. reflexivity. Qed.

Lemma u32_u32 (x : Z) : u32 (u32 x) = u32 x.
Proof. apply u32_small, u32_range. Qed.

Lemma len_nonneg {A} (l : list A) : 0 <= len l.
Proof. unfold len. lia. Qed.

Lemma len_app {A} (l1 l2 : list A) : len (l1 ++ l2) = len l1 + len l2.
Proof. unfold len. rewrite length_app. lia. Qed.

Lemma len_nil_iff {A} (l : list A) : len l = 0 <-> l = [].
Proof.
  unfold len. destruct l as [|x l]; simpl; split; intros H; try done; lia.
Qed.

Lemma size_of_list_small {A} (l : list A) : len l < 2 ^ 32 -> size_of_list l = len l.
Proof. intros H. unfold size_of_list. apply u32_small. pose proof (len_nonneg l). unfold len in *. lia. Qed.

Lemma RoundUp_bounds (x n : Z) :
  0 < n -> 0 <= x -> x + n <= 2 ^ 32 ->
  x <= RoundUp x n < x + n /\ RoundUp x n mod n = 0.
Proof.
  intros Hn Hx Hb. unfold RoundUp.
  rewrite (u32_small (x + n - 1)) by lia.
  pose proof (Z.mod_pos_bound (x + n - 1) n Hn) as Hm.
  split; [lia|].
  rewrite Zminus_mod_idemp_r. rewrite Z.sub_diag. apply Z.mod_0_l. lia.
Qed.

Lemma RoundUp_aligned (x n : Z) : x mod n = 0 -> 0 < n -> 0 <= x -> x + n <= 2 ^ 32 ->
  RoundUp x n = x.
Proof.
  intros Hx Hn H0 Hb. unfold RoundUp. rewrite (u32_small (x + n - 1)) by lia.
  assert (Hm : (x + n - 1) mod n = n - 1).
  { replace (x + n - 1) with (x + (n - 1)) by lia.
    rewrite <- Zplus_mod_idemp_l, Hx. simpl. apply Z.mod_small. lia. }
  lia.
Qed.

Lemma pow2_pos (n : Z) : is_power_of_two n -> 0 < n.
Proof. intros [k [Hk ->]]. apply Z.pow_pos_nonneg; lia. Qed.

Lemma pow2_one_or_even (n : Z) : is_power_of_two n -> n = 1 \/ exists h, n = 2 * h.
Proof.
  intros [k [Hk ->]]. destruct (Z.eq_dec k 0) as [->|Hne].
  - left. reflexivity.
  - right. exists (2 ^ (k - 1)). rewrite <- Z.pow_succ_r by lia. f_equal. lia.
Qed.

Lemma le32_length (x : Z) : length (le32 x) = 4%nat.
Proof. reflexivity. Qed.

Lemma le16_length (x : Z) : length (le16 x) = 2%nat.
Proof. reflexivity. Qed.

Lemma len_bytes_of_u32s (v : list Z) : len (bytes_of_u32s v) = 4 * len v.
Proof.
  unfold bytes_of_u32s, len. induction v as [|x v IH]; simpl in *; lia.
Qed.

Lemma len_bytes_of_u16s (v : list Z) : len (bytes_of_u16s v) = 2 * len v.
Proof.
  unfold bytes_of_u16s, len. induction v as [|x v IH]; simpl in *; lia.
Qed.

Lemma le32_decompose (x : Z) : 0 <= x < 2 ^ 32 ->
  x = x mod 256 + 256 * ((x / 256) mod 256) + 65536 * ((x / 65536) mod 256)
      + 16777216 * ((x / 16777216) mod 256).
Proof.
  intros Hx.
  pose proof (Z.div_mod x 256 ltac:(lia)) as H1.
  pose proof (Z.div_mod (x / 256) 256 ltac:(lia)) as H2.
  pose proof (Z.div_mod (x / 256 / 256) 256 ltac:(lia)) as H3.
  assert (E2 : x / 256 / 256 = x / 65536) by (rewrite Z.div_div by lia; reflexivity).
  assert (E3 : x / 256 / 256 / 256 = x / 16777216) by (rewrite !Z.div_div by lia; reflexivity).
  rewrite E3, E2 in H3. rewrite E2 in H2.
  assert (0 <= x / 16777216 < 256).
  { split; [apply Z.div_pos; lia|apply Z.div_lt_upper_bound; lia]. }
  rewrite (Z.mod_small (x / 16777216)) by lia. lia.
Qed.

Lemma le32_inj_small (x y : Z) :
  0 <= x < 2 ^ 32 -> 0 <= y < 2 ^ 32 -> le32 x = le32 y -> x = y.
Proof.
  intros Hx Hy H. rewrite (le32_decompose x Hx), (le32_decompose y Hy).
  unfold le32 in H. injection H as -> -> -> ->. reflexivity.
Qed.

(** ** The checksum is a digest of the concatenated stream *)

Lemma adler32_step_ok (s : Z * Z) (b : Z) : adler_ok (adler32_step s b).
Proof.
  unfold adler_ok, adler32_step. simpl.
  pose proof (Z.mod_pos_bound (fst s + b) 65521 ltac:(lia)).
  pose proof (Z.mod_pos_bound (snd s + (fst s + b) mod 65521) 65521 ltac:(lia)).
  lia.
Qed.

Lemma adler32_fold_ok (data : list Z) (s : Z * Z) :
  adler_ok s -> adler_ok (fold_left adler32_step data s).
Proof.
  revert s. induction data as [|b data IH]; intros s Hs; simpl; [exact Hs|].
  apply IH, adler32_step_ok.
Qed.

Lemma adler_unpack_pack (s : Z * Z) : adler_ok s ->
  ((snd s * 65536 + fst s) mod 65536, ((snd s * 65536 + fst s) / 65536) mod 65536) = s.
Proof.
  intros [H1 H2]. destruct s as [a b]. simpl in *.
  rewrite Z.add_comm, Z_mod_plus_full, Z.mod_small by lia.
  rewrite Z_div_plus_full by lia. rewrite (Z.div_small a) by lia. simpl.
  rewrite Z.mod_small by lia. reflexivity.
Qed.

Lemma adler_unpack_ok (c : Z) : adler_ok (c mod 65536, (c / 65536) mod 65536).
Proof.
  unfold adler_ok. simpl.
  pose proof (Z.mod_pos_bound c 65536 ltac:(lia)).
  pose proof (Z.mod_pos_bound (c / 65536) 65536 ltac:(lia)). lia.
Qed.

Lemma adler32_app (c : Z) (a b : list Z) : adler32 (adler32 c a) b = adler32 c (a ++ b).
Proof.
  unfold adler32. cbv zeta. rewrite fold_left_app.
  rewrite adler_unpack_pack; [reflexivity|].
  apply adler32_fold_ok, adler_unpack_ok.
Qed.

(** ** The file without faults *)

Lemma emits_refl (o : World) : f_faults (w_file o) = [] -> emits o o [] (f_pos (w_file o)).
Proof. intros H. unfold emits. rewrite app_nil_r. auto. Qed.

Lemma emits_trans (o1 o2 o3 : World) (ops1 ops2 : list io_op) (p2 p3 : Z) :
  emits o1 o2 ops1 p2 -> emits o2 o3 ops2 p3 -> emits o1 o3 (ops1 ++ ops2) p3.
Proof.
  unfold emits. intros (J1 & _ & _ & L1 & N1) (J2 & Q2 & F2 & L2 & N2).
  rewrite J2, J1, app_assoc. repeat split; congruence.
Qed.

Lemma emits_ops_since (o o' : World) (ops : list io_op) (p : Z) :
  emits o o' ops p -> ops_since o o' = ops.
Proof.
  intros (J & _). unfold ops_since. rewrite J. apply drop_app_length.
Qed.

Lemma WriteFully_ok (bytes : list Z) (o : World) :
  f_faults (w_file o) = [] ->
  exists o', WriteFully bytes o = (true, o') /\
             emits o o' (write_op (f_pos (w_file o)) bytes) (f_pos (w_file o) + len bytes).
Proof.
  intros Hf. unfold WriteFully, file_WriteFully. destruct bytes as [|b bytes].
  - exists o. destruct o as [f l]. simpl in *. split; [reflexivity|].
    unfold emits, len. simpl. rewrite app_nil_r, Z.add_0_r. auto.
  - rewrite Hf. eexists. split; [reflexivity|].
    unfold emits, len. simpl. auto.
Qed.

Lemma lseek_cur_ok (delta : Z) (o : World) :
  f_faults (w_file o) = [] ->
  exists o', lseek_cur delta o = (f_pos (w_file o) + delta, o') /\
             emits o o' [OpSeek (f_pos (w_file o)) delta true] (f_pos (w_file o) + delta).
Proof.
  intros Hf. unfold lseek_cur, file_lseek_cur. rewrite Hf.
  eexists. split; [reflexivity|]. unfold emits. simpl. auto.
Qed.

Lemma emits_faults (o o' : World) (ops : list io_op) (p : Z) :
  emits o o' ops p -> f_faults (w_file o') = [].
Proof. intros (_ & _ & F & _). exact F. Qed.

Lemma emits_pos (o o' : World) (ops : list io_op) (p : Z) :
  emits o o' ops p -> f_pos (w_file o') = p.
Proof. intros (_ & Q & _). exact Q. Qed.

Section BlockLemmas.

Variable P : Platform.
Hypothesis HP : platform_ok P.

Lemma alignment_pos (i : InstructionSet) : 0 < InstructionSetAlignment P i.
Proof. destruct HP as (_ & _ & H & _). apply pow2_pos, H. Qed.

Lemma page_pos : 0 < kPageSize P.
Proof. destruct HP as (_ & H & _). lia. Qed.

Lemma CodeDelta_range (cm : CompiledMethod) : 0 <= CodeDelta cm <= 1.
Proof. unfold CodeDelta. destruct (cm_instruction_set cm); lia. Qed.

(** *** The blocks of the layout pass, without the reductions *)

Lemma AlignCodeFor_bounds (o : Z) (i : InstructionSet) :
  0 <= o -> o + InstructionSetAlignment P i <= 2 ^ 32 ->
  o <= AlignCodeFor P o i < o + InstructionSetAlignment P i.
Proof.
  intros H0 Hb. unfold AlignCodeFor.
  apply (RoundUp_bounds o _ (alignment_pos i) H0 Hb).
Qed.

Lemma layout_code_eq (cm : CompiledMethod) (o : Z) (w : OatWriter) :
  let code := code_vec (compiler_ w) (GetCode cm) in
  let o1 := AlignCode P cm o in
  let prov := if len code =? 0 then 0 else o1 + CodeDelta cm in
  0 <= o ->
  o + InstructionSetAlignment P (cm_instruction_set cm) + len code < 2 ^ 32 ->
  layout_code P cm o w =
    match code_offsets_ w !! GetCode cm with
    | Some v => (o1, v, w)
    | None =>
        (o1 + len code, prov,
         UpdateChecksum code
           (with_code_offsets (<[GetCode cm := prov]> (code_offsets_ w)) w))
    end.
Proof.
  intros code o1 prov H0 Hb.
  pose proof (len_nonneg code) as Hl.
  pose proof (CodeDelta_range cm) as Hd.
  assert (Ho1 : o <= o1 < o + InstructionSetAlignment P (cm_instruction_set cm)).
  { apply AlignCodeFor_bounds; lia. }
  unfold layout_code. fold o1. cbv zeta.
  destruct (code_offsets_ w !! GetCode cm) as [v|]; [reflexivity|].
  simpl compiler_. fold code.
  rewrite (size_of_list_small code) by lia.
  rewrite (u32_small (o1 + len code)) by lia.
  destruct (len code =? 0) eqn:E; [reflexivity|].
  rewrite (u32_small (o1 + CodeDelta cm)) by lia. reflexivity.
Qed.

Lemma layout_word_eq (x o : Z) (w : OatWriter) :
  0 <= o -> o + 4 < 2 ^ 32 ->
  layout_word x o w = (o + 4, UpdateChecksum (le32 x) w).
Proof. intros H0 Hb. unfold layout_word. rewrite u32_small by lia. reflexivity. Qed.

Lemma layout_mapping_table_eq (cm : CompiledMethod) (o : Z) (w : OatWriter) :
  let table := mapping_vec (compiler_ w) (GetMappingTable cm) in
  let prov := if len table =? 0 then 0 else o in
  0 <= o -> o + 4 * len table < 2 ^ 32 ->
  layout_mapping_table cm o w =
    match mapping_table_offsets_ w !! GetMappingTable cm with
    | Some v => (o, v, w)
    | None =>
        (o + 4 * len table, prov,
         UpdateChecksum (bytes_of_u32s table)
           (with_mapping_table_offsets
              (<[GetMappingTable cm := prov]> (mapping_table_offsets_ w)) w))
    end.
Proof.
  intros table prov H0 Hb. pose proof (len_nonneg table) as Hl.
  unfold layout_mapping_table. cbv zeta.
  destruct (mapping_table_offsets_ w !! GetMappingTable cm) as [v|]; [reflexivity|].
  simpl compiler_. fold table.
  rewrite (size_of_list_small table) by lia.
  rewrite (u32_small (len table * 4)) by lia.
  rewrite (u32_small (o + len table * 4)) by lia.
  replace (len table * 4) with (4 * len table) by lia.
  unfold prov.
  destruct (len table =? 0) eqn:E.
  - apply Z.eqb_eq in E. rewrite E. reflexivity.
  - apply Z.eqb_neq in E. destruct (4 * len table =? 0) eqn:E'; [lia|reflexivity].
Qed.

Lemma layout_vmap_table_eq (cm : CompiledMethod) (o : Z) (w : OatWriter) :
  let table := vmap_vec (compiler_ w) (GetVmapTable cm) in
  let prov := if len table =? 0 then 0 else o in
  0 <= o -> o + 2 * len table < 2 ^ 32 ->
  layout_vmap_table cm o w =
    match vmap_table_offsets_ w !! GetVmapTable cm with
    | Some v => (o, v, w)
    | None =>
        (o + 2 * len table, prov,
         UpdateChecksum (bytes_of_u16s table)
           (with_vmap_table_offsets
              (<[GetVmapTable cm := prov]> (vmap_table_offsets_ w)) w))
    end.
Proof.
  intros table prov H0 Hb. pose proof (len_nonneg table) as Hl.
  unfold layout_vmap_table. cbv zeta.
  destruct (vmap_table_offsets_ w !! GetVmapTable cm) as [v|]; [reflexivity|].
  simpl compiler_. fold table.
  rewrite (size_of_list_small table) by lia.
  rewrite (u32_small (len table * 2)) by lia.
  rewrite (u32_small (o + len table * 2)) by lia.
  replace (len table * 2) with (2 * len table) by lia.
  unfold prov.
  destruct (len table =? 0) eqn:E.
  - apply Z.eqb_eq in E. rewrite E. reflexivity.
  - apply Z.eqb_neq in E. destruct (2 * len table =? 0) eqn:E'; [lia|reflexivity].
Qed.

Lemma layout_invoke_stub_eq (stub : CompiledInvokeStub) (o : Z) (w : OatWriter) :
  let code := code_vec (compiler_ w) (GetStubCode stub) in
  let o1 := AlignCodeFor P o (GetInstructionSet (compiler_ w)) in
  let prov := if len code =? 0 then 0 else o1 in
  0 <= o ->
  o + InstructionSetAlignment P (GetInstructionSet (compiler_ w)) + len code < 2 ^ 32 ->
  layout_invoke_stub P stub o w =
    match code_offsets_ w !! GetStubCode stub with
    | Some v => (o1, v, w)
    | None =>
        (o1 + len code, prov,
         UpdateChecksum code
           (with_code_offsets (<[GetStubCode stub := prov]> (code_offsets_ w)) w))
    end.
Proof.
  intros code o1 prov H0 Hb.
  pose proof (len_nonneg code) as Hl.
  assert (Ho1 : o <= o1 < o + InstructionSetAlignment P (GetInstructionSet (compiler_ w))).
  { apply AlignCodeFor_bounds; lia. }
  unfold layout_invoke_stub. fold o1. cbv zeta.
  destruct (code_offsets_ w !! GetStubCode stub) as [v|]; [reflexivity|].
  simpl compiler_. fold code.
  rewrite (size_of_list_small code) by lia.
  rewrite (u32_small (o1 + len code)) by lia.
  reflexivity.
Qed.

End BlockLemmas.

(** ** Frames and invariants of the blocks *)

Lemma extends_refl (w : OatWriter) : extends w w.
Proof. unfold extends. repeat split; reflexivity. Qed.

Lemma extends_trans (w1 w2 w3 : OatWriter) : extends w1 w2 -> extends w2 w3 -> extends w1 w3.
Proof.
  unfold extends.
  intros (A1 & A2 & A3 & A4 & A5 & A6 & A7 & A8 & A9 & A10 & A11 & A12)
         (B1 & B2 & B3 & B4 & B5 & B6 & B7 & B8 & B9 & B10 & B11 & B12).
  repeat split; try congruence; etrans; eassumption.
Qed.

Lemma extends_UpdateChecksum (data : list Z) (w : OatWriter) :
  extends w (UpdateChecksum data w).
Proof. unfold extends. simpl. repeat split; reflexivity. Qed.

Lemma extends_code_insert (a : ptr) (v : Z) (w : OatWriter) :
  code_offsets_ w !! a = None ->
  extends w (with_code_offsets (<[a := v]> (code_offsets_ w)) w).
Proof.
  intros H. unfold extends. simpl. repeat split; try reflexivity.
  apply insert_subseteq, H.
Qed.

Lemma extends_mapping_insert (a : ptr) (v : Z) (w : OatWriter) :
  mapping_table_offsets_ w !! a = None ->
  extends w (with_mapping_table_offsets (<[a := v]> (mapping_table_offsets_ w)) w).
Proof.
  intros H. unfold extends. simpl. repeat split; try reflexivity.
  apply insert_subseteq, H.
Qed.

Lemma extends_vmap_insert (a : ptr) (v : Z) (w : OatWriter) :
  vmap_table_offsets_ w !! a = None ->
  extends w (with_vmap_table_offsets (<[a := v]> (vmap_table_offsets_ w)) w).
Proof.
  intros H. unfold extends. simpl. repeat split; try reflexivity.
  apply insert_subseteq, H.
Qed.

Lemma offsets_below_mono (m : gmap ptr Z) (c c' : Z) :
  offsets_below m c -> c <= c' -> offsets_below m c'.
Proof. intros H Hc a v Hv. destruct (H a v Hv); [left; assumption | right; lia]. Qed.

Lemma offsets_below_insert (m : gmap ptr Z) (a : ptr) (v c : Z) :
  offsets_below m c -> v = 0 \/ 0 < v < c -> offsets_below (<[a := v]> m) c.
Proof.
  intros H Hv b x Hb. destruct (decide (a = b)) as [->|Hne].
  - rewrite lookup_insert_eq in Hb. congruence.
  - rewrite lookup_insert_ne in Hb by assumption. eauto.
Qed.

Lemma empty_at_zero_insert (m : gmap ptr Z) (vec : ptr -> list Z) (a : ptr) (v : Z) :
  empty_at_zero m vec -> (vec a = [] -> v = 0) -> empty_at_zero (<[a := v]> m) vec.
Proof.
  intros H Hv b x Hb Hvec. destruct (decide (a = b)) as [->|Hne].
  - rewrite lookup_insert_eq in Hb. injection Hb as <-. auto.
  - rewrite lookup_insert_ne in Hb by assumption. eauto.
Qed.

Lemma maps_below_mono (w : OatWriter) (c c' : Z) :
  maps_below w c -> c <= c' -> maps_below w c'.
Proof.
  intros (H1 & H2 & H3) Hc. repeat split; eapply offsets_below_mono; eassumption.
Qed.

Section Sync.

Variable P : Platform.
Hypothesis HP : platform_ok P.

(** *** One block of the emit pass against the same block of the layout *)

Lemma write_alignment_ok (a : Z) (failure : string) (with_file : bool) (c : Z) (o : World) :
  f_faults (w_file o) = [] -> f_pos (w_file o) = c -> 0 <= c <= a -> a < 2 ^ 32 ->
  exists o', write_alignment a failure with_file c o = (Some a, o') /\
             emits o o' (seek_op c (a - c)) a.
Proof.
  intros Hf Hp Hc Ha. unfold write_alignment, seek_op.
  rewrite (u32_small (a - c)) by lia.
  destruct (a - c =? 0) eqn:E; simpl.
  - apply Z.eqb_eq in E. assert (a = c) by lia. subst a.
    exists o. split; [reflexivity|]. rewrite <- Hp. apply emits_refl, Hf.
  - destruct (lseek_cur_ok (a - c) o Hf) as (o' & Hs & He).
    rewrite Hs, Hp. replace (c + (a - c)) with a by lia.
    rewrite (u32_small a) by lia. rewrite Z.eqb_refl. simpl.
    exists o'. split; [reflexivity|].
    rewrite Hp in He. replace (c + (a - c)) with a in He by lia. exact He.
Qed.

Lemma write_word_ok (x : Z) (what : string) (idx : Z) (dex : DexFile) (c : Z) (o : World) :
  f_faults (w_file o) = [] -> f_pos (w_file o) = c -> 0 <= c -> c + 4 < 2 ^ 32 ->
  exists o', write_word P x what idx dex c o = (Some (c + 4), o') /\
             emits o o' [OpWrite c (le32 x) true] (c + 4).
Proof.
  intros Hf Hp Hc Hb. unfold write_word.
  destruct (WriteFully_ok (le32 x) o Hf) as (o' & Hw & He).
  rewrite Hw. simpl. rewrite u32_small by lia.
  exists o'. split; [reflexivity|]. rewrite Hp in He. exact He.
Qed.

Lemma write_code_sync (cm : CompiledMethod) (o : Z) (w wF : OatWriter)
    (mo : OatMethodOffsets) (idx : Z) (dex : DexFile) (world : World)
    (o' v : Z) (w' : OatWriter) :
  let code := code_vec (compiler_ w) (GetCode cm) in
  let o1 := AlignCode P cm o in
  0 < o ->
  o + InstructionSetAlignment P (cm_instruction_set cm) + len code < 2 ^ 32 ->
  offsets_below (code_offsets_ w) o ->
  layout_code P cm o w = (o', v, w') ->
  extends w' wF -> code_offset_ mo = v ->
  f_pos (w_file world) = o -> f_faults (w_file world) = [] ->
  exists world',
    write_code P wF cm mo idx dex o world = (Some o', world') /\
    emits world world'
      (seek_op o (o1 - o) ++
       if first_seen (code_offsets_ w) (GetCode cm) then write_op o1 code else []) o'.
Proof.
  intros code o1 H0 Hb Hbelow Hl Hext Hmo Hp Hf.
  pose proof (len_nonneg code) as Hlen.
  pose proof (CodeDelta_range cm) as Hd.
  assert (Ho1 : o <= o1 < o + InstructionSetAlignment P (cm_instruction_set cm)).
  { apply AlignCodeFor_bounds; [exact HP|lia|lia]. }
  rewrite layout_code_eq in Hl by (try exact HP; fold code; lia).
  fold code o1 in Hl.
  unfold write_code. fold o1.
  rewrite (u32_small o1) by lia.
  destruct (write_alignment_ok o1 "Failed to seek to align oat code. Actual: " true o world
              Hf Hp ltac:(lia) ltac:(lia)) as (world1 & Ha & He1).
  rewrite Ha.
  rewrite (u32_small (o1 + CodeDelta cm)) by lia.
  destruct Hext as (Hcomp & _ & _ & _ & _ & _ & _ & _ & _ & Hsub & _ & _).
  unfold first_seen.
  destruct (code_offsets_ w !! GetCode cm) as [v0|] eqn:Hlook.
  - (* deduplicated *)
    injection Hl as <- <- <-.
    assert (HF : code_offsets_ wF !! GetCode cm = Some v0)
      by (eapply lookup_weaken; eassumption).
    rewrite HF, Hmo.
    rewrite bool_decide_eq_true_2 by eauto.
    rewrite bool_decide_eq_false_2 by discriminate.
    assert (Hne : o1 + CodeDelta cm <> v0) by (destruct (Hbelow _ _ Hlook); lia).
    apply Z.eqb_neq in Hne. rewrite Hne. simpl.
    exists world1. split; [reflexivity|]. rewrite app_nil_r. exact He1.
  - injection Hl as <- <- <-.
    simpl in Hsub, Hcomp.
    assert (HF : code_offsets_ wF !! GetCode cm =
                 Some (if len code =? 0 then 0 else o1 + CodeDelta cm)).
    { eapply lookup_weaken; [|exact Hsub]. apply lookup_insert_eq. }
    rewrite HF, Hmo.
    rewrite bool_decide_eq_true_2 by eauto.
    rewrite bool_decide_eq_true_2 by reflexivity.
    rewrite Hcomp. fold code.
    destruct (len code =? 0) eqn:E.
    + apply Z.eqb_eq in E. apply len_nil_iff in E as Enil.
      assert (Hne : o1 + CodeDelta cm <> 0) by lia.
      apply Z.eqb_neq in Hne. rewrite Hne. simpl.
      exists world1. split; [f_equal; f_equal; lia|].
      replace (o1 + len code) with o1 by lia.
      rewrite Enil. simpl. rewrite app_nil_r. exact He1.
    + rewrite Z.eqb_refl. simpl.
      pose proof (emits_faults _ _ _ _ He1) as Hf1.
      pose proof (emits_pos _ _ _ _ He1) as Hp1.
      destruct (WriteFully_ok code world1 Hf1) as (world2 & Hw & He2).
      rewrite Hw. simpl.
      rewrite (size_of_list_small code) by lia.
      rewrite (u32_small (o1 + len code)) by lia.
      exists world2. split; [reflexivity|].
      rewrite Hp1 in He2. eapply emits_trans; eassumption.
Qed.

Lemma write_mapping_table_sync (cm : CompiledMethod) (o : Z) (w wF : OatWriter)
    (mo : OatMethodOffsets) (idx : Z) (dex : DexFile) (world : World)
    (o' v : Z) (w' : OatWriter) :
  let table := mapping_vec (compiler_ w) (GetMappingTable cm) in
  0 < o -> o + 4 * len table < 2 ^ 32 ->
  offsets_below (mapping_table_offsets_ w) o ->
  layout_mapping_table cm o w = (o', v, w') ->
  extends w' wF -> mapping_table_offset_ mo = v ->
  f_pos (w_file world) = o -> f_faults (w_file world) = [] ->
  exists world',
    write_mapping_table P wF cm mo idx dex o world = (Some o', world') /\
    emits world world'
      (if first_seen (mapping_table_offsets_ w) (GetMappingTable cm)
       then write_op o (bytes_of_u32s table) else []) o'.
Proof.
  intros table H0 Hb Hbelow Hl Hext Hmo Hp Hf.
  pose proof (len_nonneg table) as Hlen.
  rewrite layout_mapping_table_eq in Hl by (fold table; lia).
  fold table in Hl.
  unfold write_mapping_table.
  destruct Hext as (Hcomp & _ & _ & _ & _ & _ & _ & _ & _ & _ & Hsub & _).
  unfold first_seen.
  destruct (mapping_table_offsets_ w !! GetMappingTable cm) as [v0|] eqn:Hlook.
  - injection Hl as <- <- <-.
    assert (HF : mapping_table_offsets_ wF !! GetMappingTable cm = Some v0)
      by (eapply lookup_weaken; eassumption).
    rewrite HF, Hmo.
    rewrite bool_decide_eq_true_2 by eauto.
    rewrite bool_decide_eq_false_2 by discriminate.
    assert (Hne : o <> v0) by (destruct (Hbelow _ _ Hlook); lia).
    apply Z.eqb_neq in Hne. rewrite Hne. simpl.
    exists world. split; [reflexivity|]. rewrite <- Hp. apply emits_refl, Hf.
  - injection Hl as <- <- <-.
    simpl in Hsub, Hcomp.
    assert (HF : mapping_table_offsets_ wF !! GetMappingTable cm =
                 Some (if len table =? 0 then 0 else o)).
    { eapply lookup_weaken; [|exact Hsub]. apply lookup_insert_eq. }
    rewrite HF, Hmo.
    rewrite bool_decide_eq_true_2 by eauto.
    rewrite bool_decide_eq_true_2 by reflexivity.
    rewrite Hcomp. fold table.
    destruct (len table =? 0) eqn:E.
    + apply Z.eqb_eq in E. apply len_nil_iff in E as Enil.
      assert (Hne : o <> 0) by lia.
      apply Z.eqb_neq in Hne. rewrite Hne. simpl.
      exists world. split; [f_equal; f_equal; lia|].
      replace (o + 4 * len table) with o by lia.
      rewrite Enil. simpl. rewrite <- Hp. apply emits_refl, Hf.
    + rewrite Z.eqb_refl. simpl.
      destruct (WriteFully_ok (bytes_of_u32s table) world Hf) as (world2 & Hw & He2).
      rewrite Hw. simpl.
      rewrite (size_of_list_small table) by lia.
      rewrite (u32_small (len table * 4)) by lia.
      rewrite (u32_small (o + len table * 4)) by lia.
      exists world2. split; [f_equal; f_equal; lia|].
      rewrite Hp, len_bytes_of_u32s in He2. exact He2.
Qed.

Lemma write_vmap_table_sync (cm : CompiledMethod) (o : Z) (w wF : OatWriter)
    (mo : OatMethodOffsets) (idx : Z) (dex : DexFile) (world : World)
    (o' v : Z) (w' : OatWriter) :
  let table := vmap_vec (compiler_ w) (GetVmapTable cm) in
  0 < o -> o + 2 * len table < 2 ^ 32 ->
  offsets_below (vmap_table_offsets_ w) o ->
  layout_vmap_table cm o w = (o', v, w') ->
  extends w' wF -> vmap_table_offset_ mo = v ->
  f_pos (w_file world) = o -> f_faults (w_file world) = [] ->
  exists world',
    write_vmap_table P wF cm mo idx dex o world = (Some o', world') /\
    emits world world'
      (if first_seen (vmap_table_offsets_ w) (GetVmapTable cm)
       then write_op o (bytes_of_u16s table) else []) o'.
Proof.
  intros table H0 Hb Hbelow Hl Hext Hmo Hp Hf.
  pose proof (len_nonneg table) as Hlen.
  rewrite layout_vmap_table_eq in Hl by (fold table; lia).
  fold table in Hl.
  unfold write_vmap_table.
  destruct Hext as (Hcomp & _ & _ & _ & _ & _ & _ & _ & _ & _ & _ & Hsub).
  unfold first_seen.
  destruct (vmap_table_offsets_ w !! GetVmapTable cm) as [v0|] eqn:Hlook.
  - injection Hl as <- <- <-.
    assert (HF : vmap_table_offsets_ wF !! GetVmapTable cm = Some v0)
      by (eapply lookup_weaken; eassumption).
    rewrite HF, Hmo.
    rewrite bool_decide_eq_true_2 by eauto.
    rewrite bool_decide_eq_false_2 by discriminate.
    assert (Hne : o <> v0) by (destruct (Hbelow _ _ Hlook); lia).
    apply Z.eqb_neq in Hne. rewrite Hne. simpl.
    exists world. split; [reflexivity|]. rewrite <- Hp. apply emits_refl, Hf.
  - injection Hl as <- <- <-.
    simpl in Hsub, Hcomp.
    assert (HF : vmap_table_offsets_ wF !! GetVmapTable cm =
                 Some (if len table =? 0 then 0 else o)).
    { eapply lookup_weaken; [|exact Hsub]. apply lookup_insert_eq. }
    rewrite HF, Hmo.
    rewrite bool_decide_eq_true_2 by eauto.
    rewrite bool_decide_eq_true_2 by reflexivity.
    rewrite Hcomp. fold table.
    destruct (len table =? 0) eqn:E.
    + apply Z.eqb_eq in E. apply len_nil_iff in E as Enil.
      assert (Hne : o <> 0) by lia.
      apply Z.eqb_neq in Hne. rewrite Hne. simpl.
      exists world. split; [f_equal; f_equal; lia|].
      replace (o + 2 * len table) with o by lia.
      rewrite Enil. simpl. rewrite <- Hp. apply emits_refl, Hf.
    + rewrite Z.eqb_refl. simpl.
      destruct (WriteFully_ok (bytes_of_u16s table) world Hf) as (world2 & Hw & He2).
      rewrite Hw. simpl.
      rewrite (size_of_list_small table) by lia.
      rewrite (u32_small (len table * 2)) by lia.
      rewrite (u32_small (o + len table * 2)) by lia.
      exists world2. split; [f_equal; f_equal; lia|].
      rewrite Hp, len_bytes_of_u16s in He2. exact He2.
Qed.

Lemma write_invoke_stub_sync (stub : CompiledInvokeStub) (o : Z) (w wF : OatWriter)
    (mo : OatMethodOffsets) (idx : Z) (dex : DexFile) (world : World)
    (o' v : Z) (w' : OatWriter) :
  let code := code_vec (compiler_ w) (GetStubCode stub) in
  let o1 := AlignCodeFor P o (GetInstructionSet (compiler_ w)) in
  0 < o ->
  o + InstructionSetAlignment P (GetInstructionSet (compiler_ w)) + len code < 2 ^ 32 ->
  offsets_below (code_offsets_ w) o ->
  layout_invoke_stub P stub o w = (o', v, w') ->
  extends w' wF -> invoke_stub_offset_ mo = v ->
  f_pos (w_file world) = o -> f_faults (w_file world) = [] ->
  exists world',
    write_invoke_stub P wF stub mo idx dex o world = (Some o', world') /\
    emits world world'
      (seek_op o (o1 - o) ++
       if first_seen (code_offsets_ w) (GetStubCode stub) then write_op o1 code else []) o'.
Proof.
  intros code o1 H0 Hb Hbelow Hl Hext Hmo Hp Hf.
  pose proof (len_nonneg code) as Hlen.
  assert (Ho1 : o <= o1 < o + InstructionSetAlignment P (GetInstructionSet (compiler_ w))).
  { apply AlignCodeFor_bounds; [exact HP|lia|lia]. }
  rewrite layout_invoke_stub_eq in Hl by (try exact HP; fold code; lia).
  fold code o1 in Hl.
  unfold write_invoke_stub.
  destruct Hext as (Hcomp & _ & _ & _ & _ & _ & _ & _ & _ & Hsub & _ & _).
  assert (Hcomp' : compiler_ wF = compiler_ w).
  { destruct (code_offsets_ w !! GetStubCode stub); injection Hl as <- <- <-; exact Hcomp. }
  rewrite Hcomp'. fold o1.
  rewrite (u32_small o1) by lia.
  destruct (write_alignment_ok o1 "Failed to seek to align invoke stub code. Actual: "
              false o world Hf Hp ltac:(lia) ltac:(lia)) as (world1 & Ha & He1).
  rewrite Ha.
  unfold first_seen.
  destruct (code_offsets_ w !! GetStubCode stub) as [v0|] eqn:Hlook.
  - injection Hl as <- <- <-.
    assert (HF : code_offsets_ wF !! GetStubCode stub = Some v0)
      by (eapply lookup_weaken; eassumption).
    rewrite HF, Hmo.
    rewrite bool_decide_eq_true_2 by eauto.
    rewrite bool_decide_eq_false_2 by discriminate.
    assert (Hne : o1 <> v0) by (destruct (Hbelow _ _ Hlook); lia).
    apply Z.eqb_neq in Hne. rewrite Hne. simpl.
    exists world1. split; [reflexivity|]. rewrite app_nil_r. exact He1.
  - injection Hl as <- <- <-.
    simpl in Hsub.
    assert (HF : code_offsets_ wF !! GetStubCode stub =
                 Some (if len code =? 0 then 0 else o1)).
    { eapply lookup_weaken; [|exact Hsub]. apply lookup_insert_eq. }
    rewrite HF, Hmo.
    rewrite bool_decide_eq_true_2 by eauto.
    rewrite bool_decide_eq_true_2 by reflexivity.
    fold code.
    destruct (len code =? 0) eqn:E.
    + apply Z.eqb_eq in E. apply len_nil_iff in E as Enil.
      assert (Hne : o1 <> 0) by lia.
      apply Z.eqb_neq in Hne. rewrite Hne. simpl.
      exists world1. split; [f_equal; f_equal; lia|].
      replace (o1 + len code) with o1 by lia.
      rewrite Enil. simpl. rewrite app_nil_r. exact He1.
    + rewrite Z.eqb_refl. simpl.
      pose proof (emits_faults _ _ _ _ He1) as Hf1.
      pose proof (emits_pos _ _ _ _ He1) as Hp1.
      destruct (WriteFully_ok code world1 Hf1) as (world2 & Hw & He2).
      rewrite Hw. simpl.
      rewrite (size_of_list_small code) by lia.
      rewrite (u32_small (o1 + len code)) by lia.
      exists world2. split; [reflexivity|].
      rewrite Hp1 in He2. eapply emits_trans; eassumption.
Qed.

End Sync.

Section Facts.

Variable P : Platform.
Hypothesis HP : platform_ok P.

(** *** What a block of the layout pass does to the cursor and to the maps *)

Lemma layout_code_facts (cm : CompiledMethod) (o : Z) (w : OatWriter)
    (o' v : Z) (w' : OatWriter) :
  let code := code_vec (compiler_ w) (GetCode cm) in
  0 < o ->
  o + InstructionSetAlignment P (cm_instruction_set cm) + len code < 2 ^ 32 ->
  maps_below w o ->
  layout_code P cm o w = (o', v, w') ->
  o <= o' /\ o' < o + InstructionSetAlignment P (cm_instruction_set cm) + len code /\
  extends w w' /\ maps_below w' (o' + 1) /\
  (maps_empty_at_zero w -> maps_empty_at_zero w' /\ (code = [] -> v = 0)).
Proof.
  intros code H0 Hb (Hc & Hm & Hv) Hl.
  pose proof (len_nonneg code) as Hlen.
  pose proof (CodeDelta_range cm) as Hd.
  assert (Ho1 : o <= AlignCode P cm o <
                o + InstructionSetAlignment P (cm_instruction_set cm)).
  { apply AlignCodeFor_bounds; [exact HP|lia|lia]. }
  rewrite layout_code_eq in Hl by (try exact HP; fold code; lia).
  fold code in Hl.
  destruct (code_offsets_ w !! GetCode cm) as [v0|] eqn:Hlook; injection Hl as <- <- <-.
  - split; [lia|]. split; [lia|]. split; [apply extends_refl|].
    split.
    + repeat split; eapply offsets_below_mono; try eassumption; lia.
    + intros (Ec & Em & Ev). split; [repeat split; assumption|].
      intros Hnil. eapply Ec; eassumption.
  - split; [lia|]. split; [lia|]. split.
    { eapply extends_trans; [apply extends_code_insert, Hlook|apply extends_UpdateChecksum]. }
    split.
    + repeat split; simpl.
      * apply offsets_below_insert; [eapply offsets_below_mono; [eassumption|lia]|].
        destruct (len code =? 0) eqn:E; [left; reflexivity|right].
        apply Z.eqb_neq in E. lia.
      * eapply offsets_below_mono; [eassumption|lia].
      * eapply offsets_below_mono; [eassumption|lia].
    + intros (Ec & Em & Ev).
      assert (Hz : code = [] -> (if len code =? 0 then 0 else AlignCode P cm o + CodeDelta cm) = 0).
      { intros ->. reflexivity. }
      split; [|exact Hz].
      repeat split; simpl; try assumption.
      apply empty_at_zero_insert; assumption.
Qed.

Lemma layout_mapping_table_facts (cm : CompiledMethod) (o : Z) (w : OatWriter)
    (o' v : Z) (w' : OatWriter) :
  let table := mapping_vec (compiler_ w) (GetMappingTable cm) in
  0 < o -> o + 4 * len table < 2 ^ 32 ->
  maps_below w o ->
  layout_mapping_table cm o w = (o', v, w') ->
  o <= o' <= o + 4 * len table /\
  extends w w' /\ maps_below w' o' /\
  (maps_empty_at_zero w -> maps_empty_at_zero w' /\ (table = [] -> v = 0)).
Proof.
  intros table H0 Hb (Hc & Hm & Hv) Hl.
  pose proof (len_nonneg table) as Hlen.
  rewrite layout_mapping_table_eq in Hl by (fold table; lia).
  fold table in Hl.
  destruct (mapping_table_offsets_ w !! GetMappingTable cm) as [v0|] eqn:Hlook;
    injection Hl as <- <- <-.
  - split; [lia|]. split; [apply extends_refl|].
    split; [repeat split; assumption|].
    intros (Ec & Em & Ev). split; [repeat split; assumption|].
    intros Hnil. eapply Em; eassumption.
  - split; [lia|]. split.
    { eapply extends_trans; [apply extends_mapping_insert, Hlook|apply extends_UpdateChecksum]. }
    split.
    + repeat split; simpl.
      * eapply offsets_below_mono; [eassumption|lia].
      * apply offsets_below_insert; [eapply offsets_below_mono; [eassumption|lia]|].
        destruct (len table =? 0) eqn:E; [left; reflexivity|right].
        apply Z.eqb_neq in E. lia.
      * eapply offsets_below_mono; [eassumption|lia].
    + intros (Ec & Em & Ev).
      assert (Hz : table = [] -> (if len table =? 0 then 0 else o) = 0).
      { intros ->. reflexivity. }
      split; [|exact Hz].
      repeat split; simpl; try assumption.
      apply empty_at_zero_insert; assumption.
Qed.

Lemma layout_vmap_table_facts (cm : CompiledMethod) (o : Z) (w : OatWriter)
    (o' v : Z) (w' : OatWriter) :
  let table := vmap_vec (compiler_ w) (GetVmapTable cm) in
  0 < o -> o + 2 * len table < 2 ^ 32 ->
  maps_below w o ->
  layout_vmap_table cm o w = (o', v, w') ->
  o <= o' <= o + 2 * len table /\
  extends w w' /\ maps_below w' o' /\
  (maps_empty_at_zero w -> maps_empty_at_zero w' /\ (table = [] -> v = 0)).
Proof.
  intros table H0 Hb (Hc & Hm & Hv) Hl.
  pose proof (len_nonneg table) as Hlen.
  rewrite layout_vmap_table_eq in Hl by (fold table; lia).
  fold table in Hl.
  destruct (vmap_table_offsets_ w !! GetVmapTable cm) as [v0|] eqn:Hlook;
    injection Hl as <- <- <-.
  - split; [lia|]. split; [apply extends_refl|].
    split; [repeat split; assumption|].
    intros (Ec & Em & Ev). split; [repeat split; assumption|].
    intros Hnil. eapply Ev; eassumption.
  - split; [lia|]. split.
    { eapply extends_trans; [apply extends_vmap_insert, Hlook|apply extends_UpdateChecksum]. }
    split.
    + repeat split; simpl.
      * eapply offsets_below_mono; [eassumption|lia].
      * eapply offsets_below_mono; [eassumption|lia].
      * apply offsets_below_insert; [eapply offsets_below_mono; [eassumption|lia]|].
        destruct (len table =? 0) eqn:E; [left; reflexivity|right].
        apply Z.eqb_neq in E. lia.
    + intros (Ec & Em & Ev).
      assert (Hz : table = [] -> (if len table =? 0 then 0 else o) = 0).
      { intros ->. reflexivity. }
      split; [|exact Hz].
      repeat split; simpl; try assumption.
      apply empty_at_zero_insert; assumption.
Qed.

Lemma layout_invoke_stub_facts (stub : CompiledInvokeStub) (o : Z) (w : OatWriter)
    (o' v : Z) (w' : OatWriter) :
  let code := code_vec (compiler_ w) (GetStubCode stub) in
  0 < o ->
  o + InstructionSetAlignment P (GetInstructionSet (compiler_ w)) + len code < 2 ^ 32 ->
  maps_below w o ->
  layout_invoke_stub P stub o w = (o', v, w') ->
  o <= o' /\
  o' < o + InstructionSetAlignment P (GetInstructionSet (compiler_ w)) + len code /\
  extends w w' /\ maps_below w' o' /\
  (maps_empty_at_zero w -> maps_empty_at_zero w' /\ (code = [] -> v = 0)).
Proof.
  intros code H0 Hb (Hc & Hm & Hv) Hl.
  pose proof (len_nonneg code) as Hlen.
  assert (Ho1 : o <= AlignCodeFor P o (GetInstructionSet (compiler_ w)) <
                o + InstructionSetAlignment P (GetInstructionSet (compiler_ w))).
  { apply AlignCodeFor_bounds; [exact HP|lia|lia]. }
  rewrite layout_invoke_stub_eq in Hl by (try exact HP; fold code; lia).
  fold code in Hl.
  destruct (code_offsets_ w !! GetStubCode stub) as [v0|] eqn:Hlook; injection Hl as <- <- <-.
  - split; [lia|]. split; [lia|]. split; [apply extends_refl|].
    split.
    + repeat split; eapply offsets_below_mono; try eassumption; lia.
    + intros (Ec & Em & Ev). split; [repeat split; assumption|].
      intros Hnil. eapply Ec; eassumption.
  - split; [lia|]. split; [lia|]. split.
    { eapply extends_trans; [apply extends_code_insert, Hlook|apply extends_UpdateChecksum]. }
    split.
    + repeat split; simpl.
      * apply offsets_below_insert; [eapply offsets_below_mono; [eassumption|lia]|].
        destruct (len code =? 0) eqn:E; [left; reflexivity|right].
        apply Z.eqb_neq in E. lia.
      * eapply offsets_below_mono; [eassumption|lia].
      * eapply offsets_below_mono; [eassumption|lia].
    + intros (Ec & Em & Ev).
      assert (Hz : code = [] ->
                   (if len code =? 0 then 0
                    else AlignCodeFor P o (GetInstructionSet (compiler_ w))) = 0).
      { intros ->. reflexivity. }
      split; [|exact Hz].
      repeat split; simpl; try assumption.
      apply empty_at_zero_insert; assumption.
Qed.

Lemma maps_below_UpdateChecksum (data : list Z) (w : OatWriter) (c : Z) :
  maps_below w c -> maps_below (UpdateChecksum data w) c.
Proof. intros H. exact H. Qed.

Lemma maps_empty_at_zero_UpdateChecksum (data : list Z) (w : OatWriter) :
  maps_empty_at_zero w -> maps_empty_at_zero (UpdateChecksum data w).
Proof. intros H. exact H. Qed.

End Facts.

(** ** The blocks of the layout pass put the artifacts where [placement] says *)

Lemma nonempty_nil {A} : nonempty (@nil A) = false.
Proof. reflexivity. Qed.

Lemma nonempty_false {A} (l : list A) : nonempty l = false -> l = [].
Proof.
  unfold nonempty. intros H. apply negb_false_iff, Z.eqb_eq in H. apply len_nil_iff, H.
Qed.

Lemma nonempty_true {A} (l : list A) : nonempty l = true -> l <> [] /\ 0 < len l.
Proof.
  unfold nonempty. intros H. apply negb_true_iff, Z.eqb_neq in H.
  pose proof (len_nonneg l). split; [|lia]. intros ->. apply H. reflexivity.
Qed.

Lemma put_op_eq (first : bool) (p : Z) (bytes : list Z) :
  (if first then write_op p bytes else []) = put_op (first && nonempty bytes) p bytes.
Proof.
  destruct first; simpl; [|reflexivity].
  destruct (nonempty bytes) eqn:E; simpl.
  - apply nonempty_true in E as (E & _). destruct bytes; [contradiction|reflexivity].
  - apply nonempty_false in E. subst. reflexivity.
Qed.

Lemma nonempty_bytes_of_u32s (l : list Z) : nonempty (bytes_of_u32s l) = nonempty l.
Proof.
  unfold nonempty. rewrite len_bytes_of_u32s. f_equal.
  destruct (Z.eqb_spec (len l) 0); [apply Z.eqb_eq|apply Z.eqb_neq]; lia.
Qed.

Lemma nonempty_bytes_of_u16s (l : list Z) : nonempty (bytes_of_u16s l) = nonempty l.
Proof.
  unfold nonempty. rewrite len_bytes_of_u16s. f_equal.
  destruct (Z.eqb_spec (len l) 0); [apply Z.eqb_eq|apply Z.eqb_neq]; lia.
Qed.

Lemma first_seen_insert (m : gmap ptr Z) (a b : ptr) (v : Z) :
  first_seen (<[a := v]> m) b = first_seen m b && negb (bool_decide (b = a)).
Proof.
  unfold first_seen. destruct (decide (b = a)) as [->|Hne].
  - rewrite lookup_insert_eq. rewrite (bool_decide_eq_true_2 (a = a)) by reflexivity.
    rewrite andb_false_r. apply bool_decide_eq_false_2. discriminate.
  - rewrite lookup_insert_ne by congruence.
    rewrite (bool_decide_eq_false_2 (b = a)) by exact Hne. rewrite andb_true_r. reflexivity.
Qed.

Lemma first_seen_present (m : gmap ptr Z) (a b : ptr) (v : Z) :
  m !! a = Some v -> first_seen m b = first_seen m b && negb (bool_decide (b = a)).
Proof.
  intros H. unfold first_seen. destruct (decide (b = a)) as [->|Hne].
  - rewrite H. rewrite (bool_decide_eq_false_2 (Some v = None)) by discriminate. reflexivity.
  - rewrite (bool_decide_eq_false_2 (b = a)) by exact Hne. rewrite andb_true_r. reflexivity.
Qed.

Section Exact.

Variable P : Platform.
Hypothesis HP : platform_ok P.

Lemma layout_code_exact (cm : CompiledMethod) (o : Z) (w : OatWriter)
    (o' v : Z) (w' : OatWriter) :
  let code := code_vec (compiler_ w) (GetCode cm) in
  let o1 := AlignCode P cm o in
  let put := first_seen (code_offsets_ w) (GetCode cm) && nonempty code in
  0 <= o ->
  o + InstructionSetAlignment P (cm_instruction_set cm) + len code < 2 ^ 32 ->
  layout_code P cm o w = (o', v, w') ->
  o' = (if put then o1 + len code else o1) /\
  (put = true -> v = o1 + CodeDelta cm) /\
  (forall a, first_seen (code_offsets_ w') a =
             first_seen (code_offsets_ w) a && negb (bool_decide (a = GetCode cm))) /\
  mapping_table_offsets_ w' = mapping_table_offsets_ w /\
  vmap_table_offsets_ w' = vmap_table_offsets_ w.
Proof.
  intros code o1 put H0 Hb Hl.
  rewrite layout_code_eq in Hl by (try exact HP; fold code; lia).
  fold code o1 in Hl. unfold put, first_seen at 1 2.
  destruct (code_offsets_ w !! GetCode cm) as [v0|] eqn:Hlook; injection Hl as <- <- <-.
  - rewrite bool_decide_eq_false_2 by discriminate. simpl.
    split; [reflexivity|]. split; [discriminate|].
    split; [intros a; eapply first_seen_present; eassumption|]. auto.
  - rewrite bool_decide_eq_true_2 by reflexivity. simpl.
    unfold nonempty. destruct (len code =? 0) eqn:E; simpl.
    + apply Z.eqb_eq in E. split; [lia|]. split; [discriminate|].
      split; [intros a; apply first_seen_insert|]. auto.
    + split; [reflexivity|]. split; [reflexivity|].
      split; [intros a; apply first_seen_insert|]. auto.
Qed.

Lemma layout_mapping_table_exact (cm : CompiledMethod) (o : Z) (w : OatWriter)
    (o' v : Z) (w' : OatWriter) :
  let table := mapping_vec (compiler_ w) (GetMappingTable cm) in
  let put := first_seen (mapping_table_offsets_ w) (GetMappingTable cm) && nonempty table in
  0 <= o -> o + 4 * len table < 2 ^ 32 ->
  layout_mapping_table cm o w = (o', v, w') ->
  o' = (if put then o + 4 * len table else o) /\
  (put = true -> v = o) /\
  code_offsets_ w' = code_offsets_ w /\
  vmap_table_offsets_ w' = vmap_table_offsets_ w.
Proof.
  intros table put H0 Hb Hl.
  rewrite layout_mapping_table_eq in Hl by (fold table; lia).
  fold table in Hl. unfold put, first_seen.
  destruct (mapping_table_offsets_ w !! GetMappingTable cm) as [v0|] eqn:Hlook;
    injection Hl as <- <- <-.
  - rewrite bool_decide_eq_false_2 by discriminate. simpl.
    split; [reflexivity|]. split; [discriminate|]. auto.
  - rewrite bool_decide_eq_true_2 by reflexivity. simpl.
    unfold nonempty. destruct (len table =? 0) eqn:E; simpl.
    + apply Z.eqb_eq in E. split; [lia|]. split; [discriminate|]. auto.
    + split; [reflexivity|]. split; [reflexivity|]. auto.
Qed.

Lemma layout_vmap_table_exact (cm : CompiledMethod) (o : Z) (w : OatWriter)
    (o' v : Z) (w' : OatWriter) :
  let table := vmap_vec (compiler_ w) (GetVmapTable cm) in
  let put := first_seen (vmap_table_offsets_ w) (GetVmapTable cm) && nonempty table in
  0 <= o -> o + 2 * len table < 2 ^ 32 ->
  layout_vmap_table cm o w = (o', v, w') ->
  o' = (if put then o + 2 * len table else o) /\
  (put = true -> v = o) /\
  code_offsets_ w' = code_offsets_ w.
Proof.
  intros table put H0 Hb Hl.
  rewrite layout_vmap_table_eq in Hl by (fold table; lia).
  fold table in Hl. unfold put, first_seen.
  destruct (vmap_table_offsets_ w !! GetVmapTable cm) as [v0|] eqn:Hlook;
    injection Hl as <- <- <-.
  - rewrite bool_decide_eq_false_2 by discriminate. simpl.
    split; [reflexivity|]. split; [discriminate|]. auto.
  - rewrite bool_decide_eq_true_2 by reflexivity. simpl.
    unfold nonempty. destruct (len table =? 0) eqn:E; simpl.
    + apply Z.eqb_eq in E. split; [lia|]. split; [discriminate|]. auto.
    + split; [reflexivity|]. split; [reflexivity|]. auto.
Qed.

Lemma layout_invoke_stub_exact (stub : CompiledInvokeStub) (o : Z) (w : OatWriter)
    (o' v : Z) (w' : OatWriter) :
  let code := code_vec (compiler_ w) (GetStubCode stub) in
  let o1 := AlignCodeFor P o (GetInstructionSet (compiler_ w)) in
  let put := first_seen (code_offsets_ w) (GetStubCode stub) && nonempty code in
  0 <= o ->
  o + InstructionSetAlignment P (GetInstructionSet (compiler_ w)) + len code < 2 ^ 32 ->
  layout_invoke_stub P stub o w = (o', v, w') ->
  o' = (if put then o1 + len code else o1) /\
  (put = true -> v = o1).
Proof.
  intros code o1 put H0 Hb Hl.
  rewrite layout_invoke_stub_eq in Hl by (try exact HP; fold code; lia).
  fold code o1 in Hl. unfold put, first_seen.
  destruct (code_offsets_ w !! GetStubCode stub) as [v0|] eqn:Hlook; injection Hl as <- <- <-.
  - rewrite bool_decide_eq_false_2 by discriminate. simpl.
    split; [reflexivity|discriminate].
  - rewrite bool_decide_eq_true_2 by reflexivity. simpl.
    unfold nonempty. destruct (len code =? 0) eqn:E; simpl.
    + apply Z.eqb_eq in E. split; [lia|discriminate].
    + split; reflexivity.
Qed.

End Exact.

Lemma extends_compiler (w w' : OatWriter) : extends w w' -> compiler_ w' = compiler_ w.
Proof. intros (H & _). exact H. Qed.

Section MethodSync.

Variable P : Platform.
Hypothesis HP : platform_ok P.

(** *** One method: the cursor of the layout pass, the invariants, and the
    emit pass on a file without faults *)

Lemma method_sync (m : MethodRef) (o : Z) (w wF : OatWriter) (world : World)
    (o' : Z) (mo : OatMethodOffsets) (w' : OatWriter) :
  0 < o -> o + method_extent P (compiler_ w) m < 2 ^ 32 -> maps_below w o ->
  layout_method P o (m_static m) (m_idx m) (m_dex m) w = (o', mo, w') ->
  (o + 12 <= o' <= o + method_extent P (compiler_ w) m) /\
  extends w w' /\ maps_below w' o' /\
  (maps_empty_at_zero w -> maps_empty_at_zero w') /\
  (o' = at_end (placement P w o m) /\
   placement_matches (compiler_ w) m (placement P w o m) mo) /\
  (extends w' wF -> method_offsets_at wF (m_class m) (m_index m) = mo ->
   f_pos (w_file world) = o -> f_faults (w_file world) = [] ->
   exists world',
     WriteCodeMethod_blocks P wF o (m_class m) (m_index m) (m_static m) (m_idx m)
       (m_dex m) world = (Some o', world') /\
     emits world world' (method_calls (compiler_ w) m (placement P w o m)) o').
Proof.
  intros H0 Hb Hbelow Hl.
  unfold method_extent in Hb |- *. unfold layout_method in Hl.
  unfold WriteCodeMethod_blocks.
  pose proof (alignment_pos P HP (GetInstructionSet (compiler_ w))) as HA'.
  assert (Hstub0 : 0 <= match FindInvokeStub (compiler_ w) (m_static m)
                            (GetMethodShorty (m_dex m) (m_idx m)) with
                        | Some stub =>
                            InstructionSetAlignment P (GetInstructionSet (compiler_ w)) +
                            len (code_vec (compiler_ w) (GetStubCode stub))
                        | None => 0
                        end).
  { destruct (FindInvokeStub _ _ _) as [stub|]; [|lia].
    pose proof (len_nonneg (code_vec (compiler_ w) (GetStubCode stub))). lia. }
  destruct (GetCompiledMethod (compiler_ w) (m_dex m) (m_idx m)) as [cm|] eqn:Hcm.
  - (* a compiled method *)
    pose proof (alignment_pos P HP (cm_instruction_set cm)) as HA.
    pose proof (len_nonneg (code_vec (compiler_ w) (GetCode cm))) as L1.
    pose proof (len_nonneg (mapping_vec (compiler_ w) (GetMappingTable cm))) as L2.
    pose proof (len_nonneg (vmap_vec (compiler_ w) (GetVmapTable cm))) as L3.
    destruct (layout_code P cm o w) as [[o1 v1] w1] eqn:E1.
    destruct (layout_code_facts P HP cm o w o1 v1 w1 H0 ltac:(lia) Hbelow E1)
      as (B1a & B1b & X1 & M1 & Z1).
    destruct (layout_code_exact P HP cm o w o1 v1 w1 ltac:(lia) ltac:(lia) E1)
      as (Ex1 & Ev1 & Ef1 & Em1 & Evm1).
    pose proof (extends_compiler _ _ X1) as C1.
    rewrite !layout_word_eq in Hl by lia.
    replace (o1 + 4 + 4 + 4) with (o1 + 12) in Hl by lia.
    set (w1c := UpdateChecksum _ (UpdateChecksum _ (UpdateChecksum _ w1))) in Hl.
    assert (C1c : compiler_ w1c = compiler_ w) by exact C1.
    assert (X1c : extends w1 w1c).
    { unfold w1c. eapply extends_trans; [|apply extends_UpdateChecksum].
      eapply extends_trans; apply extends_UpdateChecksum. }
    assert (M1c : maps_below w1c (o1 + 12)).
    { eapply maps_below_mono; [exact M1|lia]. }
    destruct (layout_mapping_table cm (o1 + 12) w1c) as [[o2 v2] w2] eqn:E2.
    destruct (layout_mapping_table_facts cm (o1 + 12) w1c o2 v2 w2 ltac:(lia)
                ltac:(rewrite C1c; lia) M1c E2) as (B2 & X2 & M2 & Z2).
    destruct (layout_mapping_table_exact cm (o1 + 12) w1c o2 v2 w2 ltac:(lia)
                ltac:(rewrite C1c; lia) E2) as (Ex2 & Ev2 & Ec2 & Evm2).
    rewrite C1c in B2, Ex2, Ev2.
    change (mapping_table_offsets_ w1c) with (mapping_table_offsets_ w1) in Ex2, Ev2.
    rewrite Em1 in Ex2, Ev2.
    pose proof (extends_compiler _ _ X2) as C2. rewrite C1c in C2.
    destruct (layout_vmap_table cm o2 w2) as [[o3 v3] w3] eqn:E3.
    destruct (layout_vmap_table_facts cm o2 w2 o3 v3 w3 ltac:(lia)
                ltac:(rewrite C2; lia) M2 E3) as (B3 & X3 & M3 & Z3).
    destruct (layout_vmap_table_exact cm o2 w2 o3 v3 w3 ltac:(lia)
                ltac:(rewrite C2; lia) E3) as (Ex3 & Ev3 & Ec3).
    rewrite C2 in B3, Ex3, Ev3. rewrite Evm2 in Ex3, Ev3.
    change (vmap_table_offsets_ w1c) with (vmap_table_offsets_ w1) in Ex3, Ev3.
    rewrite Evm1 in Ex3, Ev3.
    pose proof (extends_compiler _ _ X3) as C3. rewrite C2 in C3.
    assert (Ecode3 : forall a, first_seen (code_offsets_ w3) a =
                       first_seen (code_offsets_ w) a &&
                       negb (bool_decide (a = GetCode cm))).
    { intros a. rewrite Ec3, Ec2. exact (Ef1 a). }
    rewrite C3 in Hl.
    assert (Hz3 : maps_empty_at_zero w -> maps_empty_at_zero w3).
    { intros Hz. apply Z1 in Hz as [Hz _].
      apply (maps_empty_at_zero_UpdateChecksum (le32 (u32 (GetFrameSizeInBytes cm)))) in Hz.
      apply (maps_empty_at_zero_UpdateChecksum (le32 (u32 (GetCoreSpillMask cm)))) in Hz.
      apply (maps_empty_at_zero_UpdateChecksum (le32 (u32 (GetFpSpillMask cm)))) in Hz.
      apply Z2 in Hz as [Hz _]. apply Z3 in Hz as [Hz _]. exact Hz. }
    assert (X13 : extends w1 w3).
    { eapply extends_trans; [exact X1c|]. eapply extends_trans; [exact X2|exact X3]. }
    (* the emit pass up to the vmap table *)
    assert (Hbody : forall mo0 : OatMethodOffsets,
              code_offset_ mo0 = v1 -> mapping_table_offset_ mo0 = v2 ->
              vmap_table_offset_ mo0 = v3 ->
              extends w3 wF ->
              f_pos (w_file world) = o -> f_faults (w_file world) = [] ->
              exists world6,
                (forall k : Z -> World -> option Z * World,
                 and_then (write_code P wF cm mo0 (m_idx m) (m_dex m) o world)
                  (fun c1 o1 =>
                   and_then (write_word P (u32 (GetFrameSizeInBytes cm)) "method frame size"
                               (m_idx m) (m_dex m) c1 o1) (fun c2 o2 =>
                   and_then (write_word P (u32 (GetCoreSpillMask cm))
                               "method core spill mask" (m_idx m) (m_dex m) c2 o2)
                            (fun c3 o3 =>
                   and_then (write_word P (u32 (GetFpSpillMask cm)) "method fp spill mask"
                               (m_idx m) (m_dex m) c3 o3) (fun c4 o4 =>
                   and_then
                     (and_then (write_mapping_table P wF cm mo0 (m_idx m) (m_dex m) c4 o4)
                        (write_vmap_table P wF cm mo0 (m_idx m) (m_dex m))) k)))) =
                 k o3 world6) /\
                emits world world6
                  (seek_op o (AlignCode P cm o - o) ++
                   put_op (first_seen (code_offsets_ w) (GetCode cm) &&
                           nonempty (code_vec (compiler_ w) (GetCode cm)))
                     (AlignCode P cm o) (code_vec (compiler_ w) (GetCode cm)) ++
                   [OpWrite o1 (le32 (u32 (GetFrameSizeInBytes cm))) true;
                    OpWrite (o1 + 4) (le32 (u32 (GetCoreSpillMask cm))) true;
                    OpWrite (o1 + 4 + 4) (le32 (u32 (GetFpSpillMask cm))) true] ++
                   put_op (first_seen (mapping_table_offsets_ w) (GetMappingTable cm) &&
                           nonempty (mapping_vec (compiler_ w) (GetMappingTable cm)))
                     (o1 + 12)
                     (bytes_of_u32s (mapping_vec (compiler_ w) (GetMappingTable cm))) ++
                   put_op (first_seen (vmap_table_offsets_ w) (GetVmapTable cm) &&
                           nonempty (vmap_vec (compiler_ w) (GetVmapTable cm)))
                     o2 (bytes_of_u16s (vmap_vec (compiler_ w) (GetVmapTable cm)))) o3).
    { intros mo0 Hv1 Hv2 Hv3 XF Hp Hf.
      destruct (write_code_sync P HP cm o w wF mo0 (m_idx m) (m_dex m) world o1 v1 w1 H0
                  ltac:(lia) (proj1 Hbelow) E1 (extends_trans _ _ _ X13 XF) Hv1 Hp Hf)
        as (world1 & W1 & Q1).
      destruct (write_word_ok P (u32 (GetFrameSizeInBytes cm)) "method frame size"
                  (m_idx m) (m_dex m) o1 world1 (emits_faults _ _ _ _ Q1)
                  (emits_pos _ _ _ _ Q1) ltac:(lia) ltac:(lia)) as (world2 & W2 & Q2).
      destruct (write_word_ok P (u32 (GetCoreSpillMask cm)) "method core spill mask"
                  (m_idx m) (m_dex m) (o1 + 4) world2 (emits_faults _ _ _ _ Q2)
                  (emits_pos _ _ _ _ Q2) ltac:(lia) ltac:(lia)) as (world3 & W3 & Q3).
      destruct (write_word_ok P (u32 (GetFpSpillMask cm)) "method fp spill mask"
                  (m_idx m) (m_dex m) (o1 + 4 + 4) world3 (emits_faults _ _ _ _ Q3)
                  (emits_pos _ _ _ _ Q3) ltac:(lia) ltac:(lia)) as (world4 & W4 & Q4).
      replace (o1 + 4 + 4 + 4) with (o1 + 12) in Q4 by lia.
      destruct (write_mapping_table_sync P cm (o1 + 12) w1c wF mo0
                  (m_idx m) (m_dex m) world4 o2 v2 w2 ltac:(lia) ltac:(rewrite C1c; lia)
                  (proj1 (proj2 M1c)) E2 (extends_trans _ _ _ X3 XF)
                  Hv2 (emits_pos _ _ _ _ Q4) (emits_faults _ _ _ _ Q4))
        as (world5 & W5 & Q5).
      destruct (write_vmap_table_sync P cm o2 w2 wF mo0
                  (m_idx m) (m_dex m) world5 o3 v3 w3 ltac:(lia) ltac:(rewrite C2; lia)
                  (proj2 (proj2 M2)) E3 XF
                  Hv3 (emits_pos _ _ _ _ Q5) (emits_faults _ _ _ _ Q5))
        as (world6 & W6 & Q6).
      exists world6. split.
      { intros k. rewrite W1. cbn [and_then]. rewrite W2. cbn [and_then].
        rewrite W3. cbn [and_then]. rewrite W4. cbn [and_then].
        replace (o1 + 4 + 4 + 4) with (o1 + 12) by lia.
        rewrite W5. cbn [and_then]. rewrite W6. reflexivity. }
      rewrite put_op_eq in Q1, Q5, Q6.
      rewrite nonempty_bytes_of_u32s in Q5. rewrite nonempty_bytes_of_u16s in Q6.
      rewrite C1c in Q5. rewrite C2 in Q6.
      change (mapping_table_offsets_ w1c) with (mapping_table_offsets_ w1) in Q5.
      rewrite Em1 in Q5. rewrite Evm2 in Q6.
      change (vmap_table_offsets_ w1c) with (vmap_table_offsets_ w1) in Q6.
      rewrite Evm1 in Q6.
      pose proof (emits_trans _ _ _ _ _ _ _ Q1
                    (emits_trans _ _ _ _ _ _ _ Q2
                       (emits_trans _ _ _ _ _ _ _ Q3
                          (emits_trans _ _ _ _ _ _ _ Q4
                             (emits_trans _ _ _ _ _ _ _ Q5 Q6))))) as Q.
      rewrite <- !app_assoc in Q. exact Q. }
    destruct (FindInvokeStub (compiler_ w) (m_static m)
                (GetMethodShorty (m_dex m) (m_idx m))) as [stub|] eqn:Hstub.
    + destruct (layout_invoke_stub P stub o3 w3) as [[o4 v4] w4] eqn:E4.
      pose proof (len_nonneg (code_vec (compiler_ w) (GetStubCode stub))) as L4.
      destruct (layout_invoke_stub_facts P HP stub o3 w3 o4 v4 w4 ltac:(lia)
                  ltac:(rewrite C3; lia) M3 E4) as (B4a & B4b & X4 & M4 & Z4).
      destruct (layout_invoke_stub_exact P HP stub o3 w3 o4 v4 w4 ltac:(lia)
                  ltac:(rewrite C3; lia) E4) as (Ex4 & Ev4).
      rewrite C3 in B4b, Ex4, Ev4. rewrite Ecode3 in Ex4, Ev4.
      injection Hl as <- <- <-.
      split; [lia|].
      split; [exact (extends_trans _ _ _ X1 (extends_trans _ _ _ X13 X4))|].
      split; [exact M4|].
      split; [intros Hz; apply Hz3, Z4 in Hz as [Hz _]; exact Hz|].
      split.
      { unfold placement, placement_matches. rewrite Hcm, Hstub.
        cbn [at_end at_code put_code at_mapping put_mapping at_vmap put_vmap at_stub
             put_stub].
        rewrite <- Ex1, <- Ex2, <- Ex3. split; [exact Ex4|].
        split; [intros Hput cm' Hcm'; injection Hcm' as <-; apply Ev1, Hput|].
        split; [exact Ev2|]. split; [exact Ev3|]. exact Ev4. }
      intros XF Hmo Hp Hf.
      pose proof (extends_compiler _ _ XF) as CF.
      pose proof (extends_compiler _ _ X4) as C4. rewrite C3 in C4. rewrite C4 in CF.
      rewrite CF, Hcm, Hstub, Hmo.
      match type of Hmo with
      | _ = ?r =>
          destruct (Hbody r eq_refl eq_refl eq_refl (extends_trans _ _ _ X4 XF) Hp Hf)
            as (world6 & W6 & Q6)
      end.
      cbn [and_then]. rewrite W6.
      match type of Hmo with
      | _ = ?r =>
          destruct (write_invoke_stub_sync P HP stub o3 w3 wF r
                      (m_idx m) (m_dex m) world6 o4 v4 w4 ltac:(lia) ltac:(rewrite C3; lia)
                      (proj1 M3) E4 XF eq_refl (emits_pos _ _ _ _ Q6)
                      (emits_faults _ _ _ _ Q6))
            as (world7 & W7 & Q7)
      end.
      rewrite W7. exists world7. split; [reflexivity|].
      rewrite put_op_eq, C3, Ecode3 in Q7.
      pose proof (emits_trans _ _ _ _ _ _ _ Q6 Q7) as Q.
      unfold method_calls, placement. rewrite Hcm, Hstub.
      cbn [at_start at_end at_code put_code at_words at_mapping put_mapping at_vmap
           put_vmap at_gap at_stub put_stub].
      rewrite <- Ex1, <- Ex2, <- Ex3.
      rewrite <- ?app_assoc in Q. rewrite <- ?app_assoc. cbn [app] in Q |- *. exact Q.
    + injection Hl as <- <- <-.
      split; [lia|].
      split; [exact (extends_trans _ _ _ X1 X13)|].
      split; [exact M3|].
      split; [exact Hz3|].
      split.
      { unfold placement, placement_matches. rewrite Hcm, Hstub.
        cbn [at_end at_code put_code at_mapping put_mapping at_vmap put_vmap at_stub
             put_stub].
        rewrite <- Ex1, <- Ex2, <- Ex3. split; [reflexivity|].
        split; [intros Hput cm' Hcm'; injection Hcm' as <-; apply Ev1, Hput|].
        split; [exact Ev2|]. split; [exact Ev3|]. discriminate. }
      intros XF Hmo Hp Hf.
      pose proof (extends_compiler _ _ XF) as CF. rewrite C3 in CF.
      rewrite CF, Hcm, Hstub, Hmo.
      match type of Hmo with
      | _ = ?r =>
          destruct (Hbody r eq_refl eq_refl eq_refl XF Hp Hf) as (world6 & W6 & Q6)
      end.
      cbn [and_then]. rewrite W6.
      exists world6. split; [reflexivity|].
      unfold method_calls, placement. rewrite Hcm, Hstub.
      cbn [at_start at_end at_code put_code at_words at_mapping put_mapping at_vmap
           put_vmap at_gap at_stub put_stub].
      rewrite <- Ex1, <- Ex2, <- Ex3.
      rewrite Z.sub_diag. unfold seek_op at 2. simpl (0 =? 0).
      rewrite ?app_nil_r. rewrite <- ?app_assoc. cbn [app] in Q6 |- *. exact Q6.
  - (* no compiled code *)
    rewrite !layout_word_eq in Hl by lia.
    replace (o + 4 + 4 + 4) with (o + 12) in Hl by lia.
    set (w1c := UpdateChecksum _ (UpdateChecksum _ (UpdateChecksum _ w))) in Hl.
    assert (C1c : compiler_ w1c = compiler_ w) by reflexivity.
    assert (X1c : extends w w1c).
    { unfold w1c. eapply extends_trans; [|apply extends_UpdateChecksum].
      eapply extends_trans; apply extends_UpdateChecksum. }
    assert (M1c : maps_below w1c (o + 12)).
    { eapply maps_below_mono; [exact Hbelow|lia]. }
    rewrite C1c in Hl.
    assert (Hbody : f_pos (w_file world) = o -> f_faults (w_file world) = [] ->
              exists world4,
                (forall k : Z -> World -> option Z * World,
                 and_then (write_word P 0 "method frame size" (m_idx m) (m_dex m) o world)
                  (fun c2 o2 =>
                   and_then (write_word P 0 "method core spill mask" (m_idx m) (m_dex m)
                               c2 o2) (fun c3 o3 =>
                   and_then (write_word P 0 "method fp spill mask" (m_idx m) (m_dex m)
                               c3 o3) k)) = k (o + 12) world4) /\
                emits world world4
                  [OpWrite o (le32 0) true; OpWrite (o + 4) (le32 0) true;
                   OpWrite (o + 4 + 4) (le32 0) true] (o + 12)).
    { intros Hp Hf.
      destruct (write_word_ok P 0 "method frame size"
                  (m_idx m) (m_dex m) o world Hf Hp ltac:(lia) ltac:(lia))
        as (world2 & W2 & Q2).
      destruct (write_word_ok P 0 "method core spill mask"
                  (m_idx m) (m_dex m) (o + 4) world2 (emits_faults _ _ _ _ Q2)
                  (emits_pos _ _ _ _ Q2) ltac:(lia) ltac:(lia)) as (world3 & W3 & Q3).
      destruct (write_word_ok P 0 "method fp spill mask"
                  (m_idx m) (m_dex m) (o + 4 + 4) world3 (emits_faults _ _ _ _ Q3)
                  (emits_pos _ _ _ _ Q3) ltac:(lia) ltac:(lia)) as (world4 & W4 & Q4).
      replace (o + 4 + 4 + 4) with (o + 12) in Q4 by lia.
      exists world4. split.
      { intros k. rewrite W2. cbn [and_then]. rewrite W3. cbn [and_then].
        rewrite W4. cbn [and_then]. replace (o + 4 + 4 + 4) with (o + 12) by lia.
        reflexivity. }
      exact (emits_trans _ _ _ _ _ _ _ Q2 (emits_trans _ _ _ _ _ _ _ Q3 Q4)). }
    destruct (FindInvokeStub (compiler_ w) (m_static m)
                (GetMethodShorty (m_dex m) (m_idx m))) as [stub|] eqn:Hstub.
    + destruct (layout_invoke_stub P stub (o + 12) w1c) as [[o4 v4] w4] eqn:E4.
      pose proof (len_nonneg (code_vec (compiler_ w) (GetStubCode stub))) as L4.
      destruct (layout_invoke_stub_facts P HP stub (o + 12) w1c o4 v4 w4 ltac:(lia)
                  ltac:(rewrite C1c; lia) M1c E4) as (B4a & B4b & X4 & M4 & Z4).
      destruct (layout_invoke_stub_exact P HP stub (o + 12) w1c o4 v4 w4 ltac:(lia)
                  ltac:(rewrite C1c; lia) E4) as (Ex4 & Ev4).
      rewrite C1c in B4b, Ex4, Ev4.
      change (code_offsets_ w1c) with (code_offsets_ w) in Ex4, Ev4.
      injection Hl as <- <- <-.
      split; [lia|].
      split; [exact (extends_trans _ _ _ X1c X4)|].
      split; [exact M4|].
      split.
      { intros Hz.
        apply (maps_empty_at_zero_UpdateChecksum (le32 (u32 (kStackAlignment P)))) in Hz.
        apply (maps_empty_at_zero_UpdateChecksum (le32 0)) in Hz.
        apply (maps_empty_at_zero_UpdateChecksum (le32 0)) in Hz.
        apply Z4 in Hz as [Hz _]. exact Hz. }
      split.
      { unfold placement, placement_matches. rewrite Hcm, Hstub.
        cbn [at_end at_code put_code at_mapping put_mapping at_vmap put_vmap at_stub
             put_stub].
        rewrite andb_true_r. split; [exact Ex4|].
        split; [discriminate|]. split; [discriminate|]. split; [discriminate|]. exact Ev4. }
      intros XF Hmo Hp Hf.
      pose proof (extends_compiler _ _ XF) as CF.
      pose proof (extends_compiler _ _ X4) as C4. rewrite C1c in C4. rewrite C4 in CF.
      rewrite CF, Hcm, Hstub, Hmo. cbn [and_then].
      destruct (Hbody Hp Hf) as (world4 & W4 & Q4).
      rewrite W4. cbn [and_then].
      match type of Hmo with
      | _ = ?r =>
          destruct (write_invoke_stub_sync P HP stub (o + 12) w1c wF r
                      (m_idx m) (m_dex m) world4 o4 v4 w4 ltac:(lia)
                      ltac:(rewrite C1c; lia)
                      (proj1 M1c) E4 XF eq_refl (emits_pos _ _ _ _ Q4)
                      (emits_faults _ _ _ _ Q4))
            as (world7 & W7 & Q7)
      end.
      rewrite W7. exists world7. split; [reflexivity|].
      rewrite put_op_eq, C1c in Q7.
      change (code_offsets_ w1c) with (code_offsets_ w) in Q7.
      pose proof (emits_trans _ _ _ _ _ _ _ Q4 Q7) as Q.
      unfold method_calls, placement. rewrite Hcm, Hstub.
      cbn [at_start at_end at_code put_code at_words at_mapping put_mapping at_vmap
           put_vmap at_gap at_stub put_stub].
      rewrite andb_true_r. rewrite Z.sub_diag. unfold seek_op at 1. simpl (0 =? 0).
      cbn [app] in Q |- *. exact Q.
    + injection Hl as <- <- <-.
      split; [lia|].
      split; [exact X1c|].
      split; [exact M1c|].
      split.
      { intros Hz.
        apply (maps_empty_at_zero_UpdateChecksum (le32 (u32 (kStackAlignment P)))) in Hz.
        apply (maps_empty_at_zero_UpdateChecksum (le32 0)) in Hz.
        apply (maps_empty_at_zero_UpdateChecksum (le32 0)) in Hz.
        exact Hz. }
      split.
      { unfold placement, placement_matches. rewrite Hcm, Hstub.
        cbn [at_end at_code put_code at_mapping put_mapping at_vmap put_vmap at_stub
             put_stub].
        split; [reflexivity|].
        split; [discriminate|]. split; [discriminate|]. split; discriminate. }
      intros XF Hmo Hp Hf.
      pose proof (extends_compiler _ _ XF) as CF. rewrite C1c in CF.
      rewrite CF, Hcm, Hstub. cbn [and_then].
      destruct (Hbody Hp Hf) as (world4 & W4 & Q4).
      rewrite W4. cbn [and_then].
      exists world4. split; [reflexivity|].
      unfold method_calls, placement. rewrite Hcm, Hstub.
      cbn [at_start at_end at_code put_code at_words at_mapping put_mapping at_vmap
           put_vmap at_gap at_stub put_stub].
      rewrite !Z.sub_diag. unfold seek_op. simpl (0 =? 0).
      cbn [app]. rewrite ?app_nil_r. exact Q4.
Qed.

End MethodSync.

(** ** The record of a method in the methods tables *)

Lemma method_offsets_at_UpdateChecksum (data : list Z) (w : OatWriter) (c k : nat) :
  method_offsets_at (UpdateChecksum data w) c k = method_offsets_at w c k.
Proof. reflexivity. Qed.

Lemma record_method_methods (P : Platform) (c k : nat) (d : bool) (idx : Z)
    (dex : DexFile) (mo : OatMethodOffsets) (w : OatWriter) :
  oat_methods_ (record_method P c k d idx dex mo w) =
  alter (set_method_offsets k mo) c (oat_methods_ w).
Proof.
  unfold record_method, store_method_offsets, SetOatMethodInfo. simpl.
  destruct (IsImage (compiler_ w)); [destruct (ResolveMethod P dex idx d)|]; reflexivity.
Qed.

Lemma record_method_extends (P : Platform) (c k : nat) (d : bool) (idx : Z)
    (dex : DexFile) (mo : OatMethodOffsets) (w : OatWriter) :
  extends w (record_method P c k d idx dex mo w).
Proof.
  unfold extends, methods_shape. rewrite record_method_methods.
  unfold record_method, store_method_offsets, SetOatMethodInfo. simpl.
  destruct (IsImage (compiler_ w)); [destruct (ResolveMethod P dex idx d)|];
    simpl; repeat split; try reflexivity.
  all: rewrite (list_fmap_alter _ _ id);
       [apply list_alter_id; reflexivity|];
       apply Forall_forall; intros om _;
       unfold set_method_offsets; simpl; apply length_insert.
Qed.

Lemma record_method_maps (P : Platform) (c k : nat) (d : bool) (idx : Z)
    (dex : DexFile) (mo : OatMethodOffsets) (w : OatWriter) :
  code_offsets_ (record_method P c k d idx dex mo w) = code_offsets_ w /\
  mapping_table_offsets_ (record_method P c k d idx dex mo w) = mapping_table_offsets_ w /\
  vmap_table_offsets_ (record_method P c k d idx dex mo w) = vmap_table_offsets_ w /\
  compiler_ (record_method P c k d idx dex mo w) = compiler_ w /\
  oat_header_ (record_method P c k d idx dex mo w) = oat_header_ w.
Proof.
  unfold record_method, store_method_offsets, SetOatMethodInfo. simpl.
  destruct (IsImage (compiler_ w)); [destruct (ResolveMethod P dex idx d)|]; simpl; auto.
Qed.

Lemma record_method_same (P : Platform) (c k : nat) (d : bool) (idx : Z)
    (dex : DexFile) (mo : OatMethodOffsets) (w : OatWriter) :
  in_range w (c, k) ->
  method_offsets_at (record_method P c k d idx dex mo w) c k = mo.
Proof.
  intros (n & Hn & Hk). simpl in Hn, Hk.
  unfold method_offsets_at. rewrite record_method_methods.
  unfold methods_shape in Hn. rewrite list_lookup_fmap in Hn.
  destruct (oat_methods_ w !! c) as [om|] eqn:E; [|discriminate].
  simpl in Hn. injection Hn as <-.
  rewrite list_lookup_alter_eq, E. simpl.
  rewrite list_lookup_insert_eq by exact Hk. reflexivity.
Qed.

Lemma record_method_other (P : Platform) (c k c' k' : nat) (d : bool) (idx : Z)
    (dex : DexFile) (mo : OatMethodOffsets) (w : OatWriter) :
  (c', k') <> (c, k) ->
  method_offsets_at (record_method P c k d idx dex mo w) c' k' = method_offsets_at w c' k'.
Proof.
  intros Hne. unfold method_offsets_at. rewrite record_method_methods.
  destruct (decide (c = c')) as [->|Hc].
  - rewrite list_lookup_alter_eq.
    destruct (oat_methods_ w !! c') as [om|]; [|reflexivity]. simpl.
    rewrite list_lookup_insert_ne by congruence. reflexivity.
  - rewrite list_lookup_alter_ne by exact Hc. reflexivity.
Qed.

Lemma in_range_extends (w w' : OatWriter) (key : nat * nat) :
  extends w w' -> in_range w key -> in_range w' key.
Proof.
  intros (_ & _ & _ & _ & Hs & _) (n & Hn & Hk). exists n. rewrite Hs. auto.
Qed.

Section ItemLemmas.

Variable P : Platform.

Lemma layout_code_methods (cm : CompiledMethod) (o : Z) (w : OatWriter) :
  oat_methods_ (snd (layout_code P cm o w)) = oat_methods_ w.
Proof. unfold layout_code. destruct (code_offsets_ w !! GetCode cm); reflexivity. Qed.

Lemma layout_mapping_table_methods (cm : CompiledMethod) (o : Z) (w : OatWriter) :
  oat_methods_ (snd (layout_mapping_table cm o w)) = oat_methods_ w.
Proof.
  unfold layout_mapping_table. destruct (mapping_table_offsets_ w !! GetMappingTable cm);
    reflexivity.
Qed.

Lemma layout_vmap_table_methods (cm : CompiledMethod) (o : Z) (w : OatWriter) :
  oat_methods_ (snd (layout_vmap_table cm o w)) = oat_methods_ w.
Proof.
  unfold layout_vmap_table. destruct (vmap_table_offsets_ w !! GetVmapTable cm);
    reflexivity.
Qed.

Lemma layout_invoke_stub_methods (stub : CompiledInvokeStub) (o : Z) (w : OatWriter) :
  oat_methods_ (snd (layout_invoke_stub P stub o w)) = oat_methods_ w.
Proof.
  unfold layout_invoke_stub. destruct (code_offsets_ w !! GetStubCode stub); reflexivity.
Qed.

Lemma layout_method_methods (o : Z) (st : bool) (idx : Z) (dex : DexFile) (w : OatWriter) :
  oat_methods_ (snd (layout_method P o st idx dex w)) = oat_methods_ w.
Proof.
  unfold layout_method.
  destruct (GetCompiledMethod (compiler_ w) dex idx) as [cm|].
  - pose proof (layout_code_methods cm o w) as H1.
    destruct (layout_code P cm o w) as [[o1 v1] w1]. simpl in H1.
    unfold layout_word.
    match goal with
    | |- context [layout_mapping_table cm ?o ?w] =>
        pose proof (layout_mapping_table_methods cm o w) as H2;
        destruct (layout_mapping_table cm o w) as [[o2 v2] w2]
    end.
    simpl in H2.
    pose proof (layout_vmap_table_methods cm o2 w2) as H3.
    destruct (layout_vmap_table cm o2 w2) as [[o3 v3] w3]. simpl in H3.
    destruct (FindInvokeStub (compiler_ w3) st (GetMethodShorty dex idx)) as [stub|].
    + pose proof (layout_invoke_stub_methods stub o3 w3) as H4.
      destruct (layout_invoke_stub P stub o3 w3) as [[o4 v4] w4]. simpl in *. congruence.
    + simpl. congruence.
  - unfold layout_word.
    match goal with
    | |- context [FindInvokeStub ?c st ?s] => destruct (FindInvokeStub c st s) as [stub|]
    end.
    + match goal with
      | |- context [layout_invoke_stub P stub ?o ?w] =>
          pose proof (layout_invoke_stub_methods stub o w) as H4;
          destruct (layout_invoke_stub P stub o w) as [[o4 v4] w4]
      end.
      simpl in *. exact H4.
    + reflexivity.
Qed.

(** An item leaves the records of the other items alone. *)
Lemma layout_item_other (it : Item) (s : Z * OatWriter) (c k : nat) :
  item_key it <> Some (c, k) ->
  method_offsets_at (snd (layout_item P it s)) c k = method_offsets_at (snd s) c k.
Proof.
  intros Hne. destruct it as [m|c0]; simpl.
  - unfold layout_method_item; cbn [fst snd].
    pose proof (layout_method_methods (fst s) (m_static m) (m_idx m) (m_dex m) (snd s)) as Hm.
    destruct (layout_method P (fst s) (m_static m) (m_idx m) (m_dex m) (snd s))
      as [[o1 mo] w1]. simpl in *.
    rewrite record_method_other by (intros E; apply Hne; congruence).
    unfold method_offsets_at. rewrite Hm. reflexivity.
  - destruct (oat_methods_ (snd s) !! c0); reflexivity.
Qed.

Lemma layout_items_other (items : list Item) (s : Z * OatWriter) (c k : nat) :
  (c, k) ∉ item_keys items ->
  method_offsets_at (snd (layout_items P items s)) c k = method_offsets_at (snd s) c k.
Proof.
  revert s. induction items as [|it items IH]; intros s Hnot; [reflexivity|].
  simpl. unfold item_keys in Hnot. simpl in Hnot.
  rewrite IH.
  - apply layout_item_other. intros E. rewrite E in Hnot. apply Hnot. left.
  - intros Hin. apply Hnot. unfold item_keys.
    destruct (item_key it); [right; exact Hin|exact Hin].
Qed.

Lemma layout_items_app (l1 l2 : list Item) (s : Z * OatWriter) :
  layout_items P (l1 ++ l2) s = layout_items P l2 (layout_items P l1 s).
Proof. unfold layout_items. apply fold_left_app. Qed.

Lemma emit_items_app (w : OatWriter) (l1 l2 : list Item) (c : Z) (o : World) :
  c <> 0 ->
  emit_items P w (l1 ++ l2) c o =
  let '(c1, o1) := emit_items P w l1 c o in
  if c1 =? 0 then (0, o1) else emit_items P w l2 c1 o1.
Proof.
  revert c o. induction l1 as [|it l1 IH]; intros c o Hc; simpl.
  - apply Z.eqb_neq in Hc. rewrite Hc. reflexivity.
  - destruct (emit_item P w it c o) as [c1 o1].
    destruct (c1 =? 0) eqn:E; [reflexivity|].
    apply IH. apply Z.eqb_neq, E.
Qed.

End ItemLemmas.

Section ItemsSync.

Variable P : Platform.
Hypothesis HP : platform_ok P.

Lemma method_extent_lower (compiler : Compiler) (m : MethodRef) :
  12 <= method_extent P compiler m.
Proof.
  unfold method_extent.
  destruct (GetCompiledMethod compiler (m_dex m) (m_idx m)) as [cm|];
    destruct (FindInvokeStub compiler (m_static m) (GetMethodShorty (m_dex m) (m_idx m)))
      as [stub|];
    repeat match goal with
           | |- context [InstructionSetAlignment P ?i] =>
               lazymatch goal with
               | _ : 0 < InstructionSetAlignment P i |- _ => fail
               | _ => pose proof (alignment_pos P HP i)
               end
           | |- context [len ?l] =>
               lazymatch goal with
               | _ : 0 <= len l |- _ => fail
               | _ => pose proof (len_nonneg l)
               end
           end; lia.
Qed.

Lemma item_extent_nonneg (compiler : Compiler) (it : Item) : 0 <= item_extent P compiler it.
Proof.
  destruct it as [m|c]; simpl; [|lia]. pose proof (method_extent_lower compiler m). lia.
Qed.

Lemma items_extent_nonneg (compiler : Compiler) (items : list Item) :
  0 <= items_extent P compiler items.
Proof.
  induction items as [|it items IH]; simpl; [lia|].
  pose proof (item_extent_nonneg compiler it). lia.
Qed.

Lemma items_extent_app (compiler : Compiler) (l1 l2 : list Item) :
  items_extent P compiler (l1 ++ l2) =
  items_extent P compiler l1 + items_extent P compiler l2.
Proof. induction l1 as [|it l1 IH]; simpl; lia. Qed.

Lemma maps_below_store (c k : nat) (d : bool) (idx : Z) (dex : DexFile) (mo : OatMethodOffsets)
    (w : OatWriter) (cursor : Z) :
  maps_below w cursor -> maps_below (record_method P c k d idx dex mo w) cursor.
Proof.
  unfold maps_below.
  destruct (record_method_maps P c k d idx dex mo w) as (-> & -> & -> & _). auto.
Qed.

Lemma maps_empty_at_zero_store (c k : nat) (d : bool) (idx : Z) (dex : DexFile) (mo : OatMethodOffsets)
    (w : OatWriter) :
  maps_empty_at_zero w -> maps_empty_at_zero (record_method P c k d idx dex mo w).
Proof.
  unfold maps_empty_at_zero.
  destruct (record_method_maps P c k d idx dex mo w) as (-> & -> & -> & -> & _). auto.
Qed.

(** One item: the layout pass, and the emit pass on a file without faults. *)
Lemma item_sync (it : Item) (o : Z) (w : OatWriter) (o' : Z) (w' : OatWriter) :
  0 < o -> o + item_extent P (compiler_ w) it < 2 ^ 32 -> maps_below w o ->
  match item_key it with Some key => in_range w key | None => True end ->
  layout_item P it (o, w) = (o', w') ->
  o <= o' <= o + item_extent P (compiler_ w) it /\
  extends w w' /\ maps_below w' o' /\
  (maps_empty_at_zero w -> maps_empty_at_zero w') /\
  (forall wF world,
     extends w' wF ->
     match item_key it with
     | Some key => method_offsets_at wF (fst key) (snd key) =
                   method_offsets_at w' (fst key) (snd key)
     | None => True
     end ->
     f_pos (w_file world) = o -> f_faults (w_file world) = [] ->
     exists world' ops, emit_item P wF it o world = (o', world') /\
                        emits world world' ops o').
Proof.
  intros H0 Hb Hbelow Hrange Hl. destruct it as [m|c]; simpl in *.
  - unfold layout_method_item in Hl. cbn [fst snd] in Hl.
    destruct (layout_method P o (m_static m) (m_idx m) (m_dex m) w) as [[o1 mo] w1] eqn:E.
    injection Hl as <- <-.
    destruct (method_sync P HP m o w w1 (fresh_file "" []) o1 mo w1 H0 Hb Hbelow E)
      as (B & X & M & Z0 & _).
    pose proof (record_method_extends P (m_class m) (m_index m) (m_direct m) (m_idx m)
                  (m_dex m) mo w1) as Xs.
    split; [lia|]. split; [eapply extends_trans; eassumption|].
    split; [apply maps_below_store, M|].
    split; [intros Hz; apply maps_empty_at_zero_store, Z0, Hz|].
    intros wF world XF Hmo Hp Hf.
    rewrite record_method_same in Hmo by (eapply in_range_extends; eassumption).
    destruct (method_sync P HP m o w wF world o1 mo w1 H0 Hb Hbelow E)
      as (_ & _ & _ & _ & _ & Hemit).
    destruct (Hemit (extends_trans _ _ _ Xs XF) Hmo Hp Hf) as (world' & Hw & He).
    unfold WriteCodeMethod. rewrite Hw. eauto.
  - injection Hl as <- <-.
    split; [lia|]. split.
    { destruct (oat_methods_ w !! c); [apply extends_UpdateChecksum|apply extends_refl]. }
    split; [destruct (oat_methods_ w !! c); exact Hbelow|].
    split; [destruct (oat_methods_ w !! c); intros Hz; exact Hz|].
    intros wF world _ _ Hp Hf. exists world, []. split; [reflexivity|].
    rewrite <- Hp. apply emits_refl, Hf.
Qed.

Lemma keys_ok_cons_inv (w w1 : OatWriter) (it : Item) (rest : list Item) :
  keys_ok w (it :: rest) -> extends w w1 ->
  match item_key it with Some key => in_range w key /\ key ∉ item_keys rest | None => True end /\
  keys_ok w1 rest.
Proof.
  unfold keys_ok, item_keys. simpl. intros (Hnd & Hall) X.
  destruct (item_key it) as [key|].
  - apply NoDup_cons in Hnd as (Hnot & Hnd). apply Forall_cons in Hall as (Hk & Hall).
    split; [split; assumption|]. split; [assumption|].
    eapply Forall_impl; [exact Hall|]. intros key'. apply in_range_extends, X.
  - split; [exact I|]. split; [assumption|].
    eapply Forall_impl; [exact Hall|]. intros key'. apply in_range_extends, X.
Qed.

(** A list of items. *)
Lemma items_sync (items : list Item) :
  forall (o : Z) (w : OatWriter) (oF : Z) (wF : OatWriter),
  0 < o -> o + items_extent P (compiler_ w) items < 2 ^ 32 -> maps_below w o ->
  keys_ok w items ->
  layout_items P items (o, w) = (oF, wF) ->
  o <= oF <= o + items_extent P (compiler_ w) items /\
  extends w wF /\ maps_below wF oF /\
  (maps_empty_at_zero w -> maps_empty_at_zero wF) /\
  (forall wG world,
     extends wF wG ->
     (forall key, key ∈ item_keys items ->
        method_offsets_at wG (fst key) (snd key) = method_offsets_at wF (fst key) (snd key)) ->
     f_pos (w_file world) = o -> f_faults (w_file world) = [] ->
     exists world' ops, emit_items P wG items o world = (oF, world') /\
                        emits world world' ops oF).
Proof.
  induction items as [|it rest IH]; intros o w oF wF H0 Hb Hbelow Hkeys Hl.
  - simpl in *. injection Hl as <- <-.
    split; [lia|]. split; [apply extends_refl|]. split; [exact Hbelow|].
    split; [auto|].
    intros wG world _ _ Hp Hf. exists world, []. split; [reflexivity|].
    rewrite <- Hp. apply emits_refl, Hf.
  - simpl in Hl, Hb.
    pose proof (items_extent_nonneg (compiler_ w) rest) as Hrest.
    destruct (layout_item P it (o, w)) as [o1 w1] eqn:E1.
    assert (Hr : match item_key it with Some key => in_range w key | None => True end).
    { destruct Hkeys as (_ & Hall). unfold item_keys in Hall. simpl in Hall.
      destruct (item_key it); [|exact I]. apply Forall_cons in Hall as (Hk & _). exact Hk. }
    destruct (item_sync it o w o1 w1 H0 ltac:(lia) Hbelow Hr E1)
      as (B1 & X1 & M1 & Z1 & Hemit1).
    pose proof (extends_compiler _ _ X1) as C1.
    destruct (keys_ok_cons_inv w w1 it rest Hkeys X1) as (Hhead & Hkeys1).
    destruct (IH o1 w1 oF wF ltac:(lia) ltac:(rewrite C1; lia) M1 Hkeys1 Hl)
      as (B2 & X2 & M2 & Z2 & Hemit2).
    rewrite C1 in B2.
    split; [simpl; lia|]. split; [eapply extends_trans; eassumption|].
    split; [exact M2|]. split; [auto|].
    intros wG world XG Hsame Hp Hf.
    assert (Hmo : match item_key it with
                  | Some key => method_offsets_at wG (fst key) (snd key) =
                                method_offsets_at w1 (fst key) (snd key)
                  | None => True
                  end).
    { destruct (item_key it) as [key|] eqn:Ek; [|exact I].
      destruct Hhead as (_ & Hnot).
      rewrite Hsame by (unfold item_keys; simpl; rewrite Ek; left).
      destruct key as [c k]. simpl.
      pose proof (layout_items_other P rest (o1, w1) c k Hnot) as Ho.
      rewrite Hl in Ho. exact Ho. }
    destruct (Hemit1 wG world (extends_trans _ _ _ X2 XG) Hmo Hp Hf)
      as (world1 & ops1 & W1 & Q1).
    assert (Hsame' : forall key, key ∈ item_keys rest ->
              method_offsets_at wG (fst key) (snd key) =
              method_offsets_at wF (fst key) (snd key)).
    { intros key Hin. apply Hsame. unfold item_keys. simpl.
      destruct (item_key it); [right; exact Hin|exact Hin]. }
    destruct (Hemit2 wG world1 XG Hsame' (emits_pos _ _ _ _ Q1) (emits_faults _ _ _ _ Q1))
      as (world2 & ops2 & W2 & Q2).
    exists world2, (ops1 ++ ops2). simpl. rewrite W1.
    assert (Hnz : (o1 =? 0) = false) by (apply Z.eqb_neq; lia).
    rewrite Hnz. split; [exact W2|]. eapply emits_trans; eassumption.
Qed.

End ItemsSync.

(** ** The loops of the two passes visit [code_items] *)

Section Flatten.

Variable P : Platform.

Lemma layout_items_cons (it : Item) (items : list Item) (s : Z * OatWriter) :
  layout_items P (it :: items) s = layout_items P items (layout_item P it s).
Proof. reflexivity. Qed.

(** What [InitOatCodeMethod] returns, when it returns, is the step of the
    item. *)
Lemma InitOatCodeMethod_item (o : Z) (c k : nat) (st d : bool) (idx : Z) (dex : DexFile)
    (w : OatWriter) (r : Z * OatWriter) :
  InitOatCodeMethod P o c k st d idx dex w = Some r ->
  layout_item P (IMethod {| m_class := c; m_index := k; m_static := st; m_direct := d;
                            m_idx := idx; m_dex := dex |}) (o, w) = r.
Proof.
  unfold InitOatCodeMethod. simpl. unfold layout_method_item, record_method. simpl.
  destruct (layout_method P o st idx dex w) as [[o1 mo] w1]. intros H.
  destruct (IsImage (compiler_ w1)).
  - destruct (ResolveMethod P dex idx d); [|discriminate]. injection H as <-.
    reflexivity.
  - injection H as <-. reflexivity.
Qed.

Lemma direct_methods_items (it : list EncodedMethod) :
  forall (o : Z) (c k : nat) (dex : DexFile) (w : OatWriter) (o' : Z) (k' : nat)
         (w' : OatWriter),
  InitOatCode_direct_methods P it o c k dex w = Some (o', k', w') ->
  layout_items P (method_items it true c k dex) (o, w) = (o', w') /\
  k' = (k + length it)%nat.
Proof.
  induction it as [|e it IH]; intros o c k dex w o' k' w' H; simpl in H.
  - injection H as <- <- <-. split; [reflexivity|simpl; lia].
  - destruct (InitOatCodeMethod P o c k (is_static_flag (GetMemberAccessFlags e)) true
                (GetMemberIndex e) dex w) as [[o1 w1]|] eqn:E; [|discriminate].
    apply InitOatCodeMethod_item in E.
    apply IH in H as (H & ->). simpl method_items. rewrite layout_items_cons.
    simpl andb. rewrite E. split; [exact H|simpl; lia].
Qed.

Lemma virtual_methods_items (it : list EncodedMethod) :
  forall (o : Z) (c k : nat) (dex : DexFile) (w : OatWriter) (r : Z * OatWriter),
  InitOatCode_virtual_methods P it o c k dex w = Some r ->
  layout_items P (method_items it false c k dex) (o, w) = r.
Proof.
  induction it as [|e it IH]; intros o c k dex w r H; simpl in H.
  - injection H as <-. reflexivity.
  - destruct (is_static_flag (GetMemberAccessFlags e)); [discriminate|].
    destruct (InitOatCodeMethod P o c k false false (GetMemberIndex e) dex w)
      as [[o1 w1]|] eqn:E; [|discriminate].
    apply InitOatCodeMethod_item in E.
    simpl method_items. rewrite layout_items_cons. simpl andb. rewrite E.
    apply IH, H.
Qed.

Lemma class_def_items (class_data : option ClassData) (o : Z) (c : nat) (dex : DexFile)
    (w : OatWriter) (o' : Z) (w' : OatWriter) :
  InitOatCodeClassDef P o c dex class_data w = Some (o', w') ->
  layout_items P (class_items class_data c dex) (o, w) =
  layout_item P (IClassEnd c) (o', w').
Proof.
  unfold InitOatCodeClassDef, class_items. intros H.
  destruct class_data as [it|].
  - destruct (methods_size_at c w =? _); [|discriminate].
    destruct (InitOatCode_direct_methods P (direct_methods it) o c 0 dex w)
      as [[[o1 k1] w1]|] eqn:E1; [|discriminate].
    apply direct_methods_items in E1 as (E1 & ->).
    apply virtual_methods_items in H.
    rewrite !layout_items_app, E1. simpl in H. rewrite H. reflexivity.
  - injection H as <- <-. reflexivity.
Qed.

Lemma dex_file_items (defs : list (option ClassData)) :
  forall (o : Z) (c : nat) (dex : DexFile) (w : OatWriter) (o' : Z) (c' : nat)
         (w' : OatWriter),
  InitOatCodeDexFile_loop P defs o c dex w = Some (o', c', w') ->
  layout_items P (dex_items defs c dex) (o, w) = (o', w') /\ c' = (c + length defs)%nat.
Proof.
  induction defs as [|cd defs IH]; intros o c dex w o' c' w' H; simpl in *.
  - injection H as <- <- <-. split; [reflexivity|simpl; lia].
  - destruct (InitOatCodeClassDef P o c dex cd w) as [[o1 w1]|] eqn:E; [|discriminate].
    apply class_def_items in E. rewrite layout_items_app, E.
    apply IH in H as (H & ->). simpl. split; [exact H|lia].
Qed.

Lemma dex_files_items (dex_files : list DexFile) :
  forall (o : Z) (c : nat) (w : OatWriter) (o' : Z) (w' : OatWriter),
  InitOatCodeDexFiles_loop P dex_files o c w = Some (o', w') ->
  layout_items P (code_items_from dex_files c) (o, w) = (o', w').
Proof.
  induction dex_files as [|d rest IH]; intros o c w o' w' H; simpl in *.
  - injection H as <- <-. reflexivity.
  - unfold InitOatCodeDexFile in H.
    destruct (InitOatCodeDexFile_loop P (class_defs d) o c d w) as [[[o1 c1] w1]|] eqn:E;
      [|discriminate].
    apply dex_file_items in E as (E & ->).
    rewrite layout_items_app, E. apply IH, H.
Qed.

(** The emit pass, entered with a nonzero offset. *)
Lemma write_methods_items (w : OatWriter) (it : list EncodedMethod) (direct : bool) :
  forall (o : Z) (c k : nat) (dex : DexFile) (world : World),
  o <> 0 ->
  let r := WriteCode_methods P w it direct o c k dex world in
  (fst (fst r), snd r) = emit_items P w (method_items it direct c k dex) o world /\
  (fst (fst r) <> 0 -> snd (fst r) = (k + length it)%nat).
Proof.
  induction it as [|e it IH]; intros o c k dex world Ho; simpl.
  - split; [reflexivity|]. intros _. lia.
  - destruct (WriteCodeMethod P w o c k (direct && is_static_flag (GetMemberAccessFlags e))
                (GetMemberIndex e) dex world) as [o1 world1].
    destruct (o1 =? 0) eqn:E; simpl.
    + split; [reflexivity|]. intros H. contradiction.
    + apply Z.eqb_neq in E. destruct (IH o1 c (S k) dex world1 E) as (H1 & H2).
      split; [exact H1|]. intros H. rewrite H2 by exact H. lia.
Qed.

Lemma write_class_def_items (w : OatWriter) (class_data : option ClassData) (o : Z)
    (c : nat) (dex : DexFile) (world : World) :
  o <> 0 ->
  WriteCodeClassDef P w o c dex class_data world =
  emit_items P w (class_items class_data c dex) o world.
Proof.
  intros Ho. unfold WriteCodeClassDef, class_items.
  destruct class_data as [it|].
  - destruct (write_methods_items w (direct_methods it) true o c 0 dex world Ho)
      as (H1 & H2).
    destruct (WriteCode_methods P w (direct_methods it) true o c 0 dex world)
      as [[o1 k1] world1]. simpl in H1, H2.
    rewrite <- app_assoc, emit_items_app by exact Ho. rewrite <- H1.
    destruct (o1 =? 0) eqn:E; [reflexivity|].
    apply Z.eqb_neq in E. rewrite H2 by exact E. simpl.
    destruct (write_methods_items w (virtual_methods it) false o1 c
                (length (direct_methods it)) dex world1 E) as (H3 & _).
    destruct (WriteCode_methods P w (virtual_methods it) false o1 c
                (length (direct_methods it)) dex world1) as [[o2 k2] world2].
    simpl in H3. rewrite emit_items_app by exact E. rewrite <- H3.
    simpl. destruct (o2 =? 0) eqn:E2; [|reflexivity].
    apply Z.eqb_eq in E2. subst o2. reflexivity.
  - simpl. apply Z.eqb_neq in Ho. rewrite Ho. reflexivity.
Qed.

Lemma write_dex_file_items (w : OatWriter) (defs : list (option ClassData)) :
  forall (o : Z) (c : nat) (dex : DexFile) (world : World),
  o <> 0 ->
  let r := WriteCodeDexFile_loop P w defs o c dex world in
  (fst (fst r), snd r) = emit_items P w (dex_items defs c dex) o world /\
  (fst (fst r) <> 0 -> snd (fst r) = (c + length defs)%nat).
Proof.
  induction defs as [|cd defs IH]; intros o c dex world Ho; simpl.
  - split; [reflexivity|]. intros _. lia.
  - rewrite write_class_def_items by exact Ho.
    rewrite emit_items_app by exact Ho.
    destruct (emit_items P w (class_items cd c dex) o world) as [o1 world1].
    destruct (o1 =? 0) eqn:E; simpl.
    + split; [reflexivity|]. intros H. contradiction.
    + apply Z.eqb_neq in E. destruct (IH o1 (S c) dex world1 E) as (H1 & H2).
      split; [exact H1|]. intros H. rewrite H2 by exact H. lia.
Qed.

Lemma write_dex_files_items (w : OatWriter) (dex_files : list DexFile) :
  forall (o : Z) (c : nat) (world : World),
  o <> 0 ->
  WriteCodeDexFiles_loop P w dex_files o c world =
  emit_items P w (code_items_from dex_files c) o world.
Proof.
  induction dex_files as [|d rest IH]; intros o c world Ho; simpl.
  - reflexivity.
  - unfold WriteCodeDexFile.
    destruct (write_dex_file_items w (class_defs d) o c d world Ho) as (H1 & H2).
    destruct (WriteCodeDexFile_loop P w (class_defs d) o c d world) as [[o1 c1] world1].
    simpl in H1, H2. rewrite emit_items_app by exact Ho. rewrite <- H1.
    destruct (o1 =? 0) eqn:E; [reflexivity|].
    apply Z.eqb_neq in E. rewrite H2 by exact E. apply IH, E.
Qed.

End Flatten.

(** ** Every method has a record of its own *)

Lemma item_keys_app (l1 l2 : list Item) : item_keys (l1 ++ l2) = item_keys l1 ++ item_keys l2.
Proof. unfold item_keys. apply omap_app. Qed.

Lemma method_items_keys (it : list EncodedMethod) (direct : bool) (dex : DexFile) :
  forall (c k : nat) (key : nat * nat),
  key ∈ item_keys (method_items it direct c k dex) <->
  fst key = c /\ (k <= snd key < k + length it)%nat.
Proof.
  induction it as [|e it IH]; intros c k key; simpl.
  - unfold item_keys. simpl. split; [intros H; inversion H|lia].
  - unfold item_keys. simpl. fold (item_keys (method_items it direct c (S k) dex)).
    rewrite elem_of_cons, IH. destruct key as [c' k']. simpl. split.
    + intros [E|(E & Hk)]; [injection E as -> ->; lia|lia].
    + intros (-> & Hk). destruct (decide (k' = k)) as [->|Hne]; [left; reflexivity|].
      right. lia.
Qed.

Lemma method_items_NoDup (it : list EncodedMethod) (direct : bool) (dex : DexFile) :
  forall (c k : nat), NoDup (item_keys (method_items it direct c k dex)).
Proof.
  induction it as [|e it IH]; intros c k; simpl.
  - constructor.
  - unfold item_keys. simpl. fold (item_keys (method_items it direct c (S k) dex)).
    constructor; [|apply IH].
    rewrite method_items_keys. simpl. lia.
Qed.

Lemma class_items_keys (cd : option ClassData) (c : nat) (dex : DexFile) (key : nat * nat) :
  key ∈ item_keys (class_items cd c dex) ->
  fst key = c /\ (snd key < method_count cd)%nat.
Proof.
  unfold class_items. rewrite item_keys_app. unfold item_keys at 2. simpl.
  rewrite app_nil_r. destruct cd as [it|]; simpl.
  - rewrite item_keys_app, elem_of_app, !method_items_keys. lia.
  - unfold item_keys. simpl. intros H. inversion H.
Qed.

Lemma class_items_NoDup (cd : option ClassData) (c : nat) (dex : DexFile) :
  NoDup (item_keys (class_items cd c dex)).
Proof.
  unfold class_items. rewrite item_keys_app. unfold item_keys at 2. simpl.
  rewrite app_nil_r. destruct cd as [it|]; simpl; [|constructor].
  rewrite item_keys_app. apply NoDup_app.
  split; [apply method_items_NoDup|]. split; [|apply method_items_NoDup].
  intros key. rewrite !method_items_keys. lia.
Qed.

Lemma dex_items_keys (defs : list (option ClassData)) (dex : DexFile) :
  forall (c : nat) (key : nat * nat),
  key ∈ item_keys (dex_items defs c dex) ->
  (c <= fst key)%nat /\
  exists n, (method_count <$> defs) !! (fst key - c)%nat = Some n /\ (snd key < n)%nat.
Proof.
  induction defs as [|cd defs IH]; intros c key; simpl.
  - unfold item_keys. simpl. intros H. inversion H.
  - rewrite item_keys_app, elem_of_app. intros [H|H].
    + apply class_items_keys in H as (Hc & Hk).
      split; [lia|]. exists (method_count cd). rewrite Hc, Nat.sub_diag. simpl. auto.
    + apply IH in H as (Hc & n & Hn & Hk).
      split; [lia|]. exists n.
      replace (fst key - c)%nat with (S (fst key - S c)) by lia. simpl. auto.
Qed.

Lemma dex_items_NoDup (defs : list (option ClassData)) (dex : DexFile) :
  forall (c : nat), NoDup (item_keys (dex_items defs c dex)).
Proof.
  induction defs as [|cd defs IH]; intros c; simpl.
  - constructor.
  - rewrite item_keys_app. apply NoDup_app.
    split; [apply class_items_NoDup|]. split; [|apply IH].
    intros key H1 H2. apply class_items_keys in H1 as (Hc & _).
    apply dex_items_keys in H2 as (Hc' & _). lia.
Qed.

Lemma code_items_keys (dex_files : list DexFile) :
  forall (c : nat) (key : nat * nat),
  key ∈ item_keys (code_items_from dex_files c) ->
  (c <= fst key)%nat /\
  exists n, shape_of dex_files !! (fst key - c)%nat = Some n /\ (snd key < n)%nat.
Proof.
  induction dex_files as [|d rest IH]; intros c key; simpl.
  - unfold item_keys. simpl. intros H. inversion H.
  - rewrite item_keys_app, elem_of_app. unfold shape_of. simpl.
    fold (shape_of rest). intros [H|H].
    + apply dex_items_keys in H as (Hc & n & Hn & Hk).
      split; [exact Hc|]. exists n. split; [|exact Hk].
      apply lookup_app_l_Some. exact Hn.
    + apply IH in H as (Hc & n & Hn & Hk).
      split; [lia|]. exists n. split; [|exact Hk].
      rewrite lookup_app_r by (rewrite length_map; lia).
      rewrite length_map.
      replace (fst key - c - length (class_defs d))%nat
        with (fst key - (c + length (class_defs d)))%nat by lia.
      exact Hn.
Qed.

Lemma code_items_NoDup (dex_files : list DexFile) :
  forall (c : nat), NoDup (item_keys (code_items_from dex_files c)).
Proof.
  induction dex_files as [|d rest IH]; intros c; simpl.
  - constructor.
  - rewrite item_keys_app. apply NoDup_app.
    split; [apply dex_items_NoDup|]. split; [|apply IH].
    intros key H1 H2. apply dex_items_keys in H1 as (_ & n & Hn & _).
    apply code_items_keys in H2 as (Hc' & _).
    apply lookup_lt_Some in Hn. rewrite length_fmap in Hn. lia.
Qed.

Lemma code_items_keys_ok (dex_files : list DexFile) (w : OatWriter) :
  methods_shape w = shape_of dex_files -> keys_ok w (code_items dex_files).
Proof.
  intros Hs. split; [apply code_items_NoDup|].
  apply Forall_forall. intros key Hin.
  apply code_items_keys in Hin as (_ & n & Hn & Hk).
  exists n. rewrite Hs. rewrite Nat.sub_0_r in Hn. auto.
Qed.

(** ** The layout of the tables *)

Lemma same_core_refl (w : OatWriter) : same_core w w.
Proof. unfold same_core. repeat split; reflexivity. Qed.

Lemma same_core_trans (w1 w2 w3 : OatWriter) :
  same_core w1 w2 -> same_core w2 w3 -> same_core w1 w3.
Proof.
  unfold same_core. intros (A1 & A2 & A3 & A4 & A5 & A6 & A7) (B1 & B2 & B3 & B4 & B5 & B6 & B7).
  repeat split; congruence.
Qed.

Lemma sum_Z_app {A} (f : A -> Z) (l1 l2 : list A) :
  sum_Z f (l1 ++ l2) = sum_Z f l1 + sum_Z f l2.
Proof. induction l1 as [|x l1 IH]; simpl; lia. Qed.

Lemma sum_Z_ext_fmap {A B} (g : A -> B) (h : B -> Z) (l1 l2 : list A) :
  g <$> l1 = g <$> l2 -> sum_Z (fun x => h (g x)) l1 = sum_Z (fun x => h (g x)) l2.
Proof.
  revert l2. induction l1 as [|x l1 IH]; intros [|y l2] H; simpl in *; try discriminate.
  - reflexivity.
  - injection H as Hx Hl. rewrite Hx, (IH l2 Hl). reflexivity.
Qed.

Lemma dex_files_extent_nonneg (l : list DexFile) : 0 <= dex_files_extent l.
Proof.
  induction l as [|d l IH]; simpl; [lia|].
  pose proof (len_nonneg (bytes_of_string (GetLocation d))). lia.
Qed.

Lemma classes_extent_nonneg (l : list DexFile) : 0 <= classes_extent l.
Proof.
  induction l as [|d l IH]; simpl; [lia|]. pose proof (len_nonneg (class_defs d)). lia.
Qed.

Lemma num_methods_raw_nonneg (cd : option ClassData) : 0 <= num_methods_raw cd.
Proof.
  destruct cd as [it|]; simpl; [|lia].
  pose proof (len_nonneg (direct_methods it)). pose proof (len_nonneg (virtual_methods it)).
  lia.
Qed.

Lemma class_defs_extent_nonneg (l : list (option ClassData)) : 0 <= class_defs_extent l.
Proof.
  induction l as [|d l IH]; simpl; [lia|]. pose proof (num_methods_raw_nonneg d). lia.
Qed.

Lemma methods_extent_nonneg (l : list DexFile) : 0 <= methods_extent l.
Proof.
  induction l as [|d l IH]; simpl; [lia|]. pose proof (class_defs_extent_nonneg (class_defs d)).
  lia.
Qed.

Section Tables.

Variable P : Platform.

Lemma InitOatDexFiles_loop_spec (dex_files : list DexFile) :
  forall (o : Z) (w : OatWriter) (o' : Z) (w' : OatWriter),
  0 <= o -> o + dex_files_extent dex_files < 2 ^ 32 ->
  InitOatDexFiles_loop dex_files o w = (o', w') ->
  o' = o + dex_files_extent dex_files /\ same_core w w' /\
  oat_header_ w' = oat_header_ w /\
  oat_dex_files_ w' = oat_dex_files_ w ++ (OatDexFile_new <$> dex_files) /\
  oat_classes_ w' = oat_classes_ w /\ oat_methods_ w' = oat_methods_ w.
Proof.
  induction dex_files as [|d rest IH]; intros o w o' w' H0 Hb H; simpl in *.
  - injection H as <- <-. rewrite app_nil_r.
    split; [lia|]. split; [apply same_core_refl|]. auto.
  - pose proof (dex_files_extent_nonneg rest) as Hr.
    pose proof (len_nonneg (bytes_of_string (GetLocation d))) as Hl.
    assert (Hs : OatDexFile_SizeOf (OatDexFile_new d) = 12 + len (bytes_of_string (GetLocation d))).
    { unfold OatDexFile_SizeOf, OatDexFile_new. simpl.
      rewrite size_of_list_small by lia. rewrite u32_small by lia. lia. }
    rewrite Hs, u32_small in H by lia.
    apply IH in H as (-> & Hc & Hh & Hd & Hcl & Hm); [|lia|lia].
    simpl in *. split; [lia|]. split; [exact Hc|]. split; [exact Hh|].
    split; [rewrite Hd, <- app_assoc; reflexivity|]. auto.
Qed.

Lemma OatClasses_new_len (d : DexFile) : len (class_defs d) < 2 ^ 32 ->
  len (methods_offsets_ (OatClasses_new d)) = len (class_defs d).
Proof.
  intros H. unfold OatClasses_new, NumClassDefs. simpl.
  rewrite size_of_list_small by exact H. unfold len. rewrite length_replicate.
  rewrite Nat2Z.id. reflexivity.
Qed.

Lemma InitOatClasses_loop_spec (dex_files : list DexFile) :
  forall (i : nat) (o : Z) (w : OatWriter) (o' : Z) (w' : OatWriter),
  0 <= o -> o + classes_extent dex_files < 2 ^ 32 ->
  InitOatClasses_loop dex_files i o w = (o', w') ->
  o' = o + classes_extent dex_files /\ same_core w w' /\
  executable_offset_ (oat_header_ w') = executable_offset_ (oat_header_ w) /\
  dex_file_location_data_ <$> oat_dex_files_ w' =
    dex_file_location_data_ <$> oat_dex_files_ w /\
  oat_classes_ w' = oat_classes_ w ++ (OatClasses_new <$> dex_files) /\
  oat_methods_ w' = oat_methods_ w.
Proof.
  induction dex_files as [|d rest IH]; intros i o w o' w' H0 Hb H; simpl in *.
  - injection H as <- <-. rewrite app_nil_r.
    split; [lia|]. split; [apply same_core_refl|]. auto.
  - pose proof (classes_extent_nonneg rest) as Hr.
    pose proof (len_nonneg (class_defs d)) as Hl.
    assert (Hs : OatClasses_SizeOf (OatClasses_new d) = 4 * len (class_defs d)).
    { unfold OatClasses_SizeOf.
      rewrite size_of_list_small by (rewrite OatClasses_new_len; lia).
      rewrite OatClasses_new_len by lia. apply u32_small. lia. }
    rewrite Hs, u32_small in H by lia.
    apply IH in H as (-> & Hc & Hh & Hd & Hcl & Hm); [|lia|lia].
    split; [lia|].
    destruct (alter (set_classes_offset o) i (oat_dex_files_ w) !! i) as [odf|] eqn:E;
      simpl in *.
    + idtac.
      split; [exact Hc|]. split; [exact Hh|]. split.
      { rewrite Hd. rewrite (list_fmap_alter _ _ id);
          [apply list_alter_id; reflexivity|].
        apply Forall_forall. intros x _. reflexivity. }
      split; [rewrite Hcl, <- app_assoc; reflexivity|exact Hm].
    + idtac.
      split; [exact Hc|]. split; [exact Hh|]. split.
      { rewrite Hd. rewrite (list_fmap_alter _ _ id);
          [apply list_alter_id; reflexivity|].
        apply Forall_forall. intros x _. reflexivity. }
      split; [rewrite Hcl, <- app_assoc; reflexivity|exact Hm].
Qed.

Lemma OatMethods_new_len (cd : option ClassData) : num_methods_raw cd < 2 ^ 32 ->
  length (method_offsets_ (OatMethods_new (num_methods_of cd))) = method_count cd /\
  len (method_offsets_ (OatMethods_new (num_methods_of cd))) = num_methods_raw cd.
Proof.
  intros H. unfold OatMethods_new, num_methods_of, len. simpl.
  rewrite length_replicate. destruct cd as [it|]; simpl in *; [|split; reflexivity].
  pose proof (len_nonneg (direct_methods it)). pose proof (len_nonneg (virtual_methods it)).
  rewrite !size_of_list_small by lia. rewrite u32_small by lia.
  unfold len. split; lia.
Qed.

Lemma InitOatMethods_class_defs_spec (defs : list (option ClassData)) :
  forall (i k : nat) (o : Z) (w : OatWriter) (o' : Z) (w' : OatWriter),
  0 <= o -> o + class_defs_extent defs < 2 ^ 32 ->
  InitOatMethods_class_defs defs i k o w = (o', w') ->
  o' = o + class_defs_extent defs /\ same_core w w' /\
  oat_header_ w' = oat_header_ w /\
  oat_dex_files_ w' = oat_dex_files_ w /\
  (fun c => length (methods_offsets_ c)) <$> oat_classes_ w' =
    (fun c => length (methods_offsets_ c)) <$> oat_classes_ w /\
  oat_methods_ w' =
    oat_methods_ w ++ ((fun cd => OatMethods_new (num_methods_of cd)) <$> defs).
Proof.
  induction defs as [|cd rest IH]; intros i k o w o' w' H0 Hb H; simpl in *.
  - injection H as <- <-. rewrite app_nil_r.
    split; [lia|]. split; [apply same_core_refl|]. auto.
  - pose proof (class_defs_extent_nonneg rest) as Hr.
    pose proof (num_methods_raw_nonneg cd) as Hl.
    destruct (OatMethods_new_len cd ltac:(lia)) as (_ & Hlen).
    assert (Hs : OatMethods_SizeOf (OatMethods_new (num_methods_of cd)) =
                 28 * num_methods_raw cd).
    { unfold OatMethods_SizeOf, sizeof_OatMethodOffsets.
      rewrite size_of_list_small by lia. rewrite Hlen. apply u32_small. lia. }
    rewrite Hs, u32_small in H by lia.
    apply IH in H as (-> & Hc & Hh & Hd & Hcl & Hm); [|lia|lia].
    simpl in *. split; [lia|]. split; [exact Hc|]. split; [exact Hh|].
    split; [exact Hd|]. split.
    { rewrite Hcl. rewrite (list_fmap_alter _ _ id);
        [apply list_alter_id; reflexivity|].
      apply Forall_forall. intros x _. unfold set_methods_offset. simpl.
      apply length_insert. }
    rewrite Hm, <- app_assoc. reflexivity.
Qed.

Lemma InitOatMethods_loop_spec (dex_files : list DexFile) :
  forall (i : nat) (o : Z) (w : OatWriter) (o' : Z) (w' : OatWriter),
  0 <= o -> o + methods_extent dex_files < 2 ^ 32 ->
  InitOatMethods_loop dex_files i o w = (o', w') ->
  o' = o + methods_extent dex_files /\ same_core w w' /\
  executable_offset_ (oat_header_ w') = executable_offset_ (oat_header_ w) /\
  oat_dex_files_ w' = oat_dex_files_ w /\
  (fun c => length (methods_offsets_ c)) <$> oat_classes_ w' =
    (fun c => length (methods_offsets_ c)) <$> oat_classes_ w /\
  oat_methods_ w' =
    oat_methods_ w ++
    concat ((fun d => (fun cd => OatMethods_new (num_methods_of cd)) <$> class_defs d)
              <$> dex_files).
Proof.
  induction dex_files as [|d rest IH]; intros i o w o' w' H0 Hb H; simpl in *.
  - injection H as <- <-. rewrite app_nil_r.
    split; [lia|]. split; [apply same_core_refl|]. auto.
  - pose proof (methods_extent_nonneg rest) as Hr.
    pose proof (class_defs_extent_nonneg (class_defs d)) as Hl.
    destruct (InitOatMethods_class_defs (class_defs d) i 0 o w) as [o1 w1] eqn:E.
    apply InitOatMethods_class_defs_spec in E as (-> & Hc1 & Hh1 & Hd1 & Hcl1 & Hm1);
      [|lia|lia].
    apply IH in H as (-> & Hc & Hh & Hd & Hcl & Hm); [|lia|lia].
    split; [lia|].
    destruct (oat_classes_ w1 !! i) as [oc|]; simpl in *.
    + split; [eapply same_core_trans; eassumption|].
      split; [congruence|]. split; [congruence|]. split; [congruence|].
      rewrite Hm, Hm1, <- app_assoc. reflexivity.
    + split; [eapply same_core_trans; eassumption|].
      split; [congruence|]. split; [congruence|]. split; [congruence|].
      rewrite Hm, Hm1, <- app_assoc. reflexivity.
Qed.

End Tables.

Section LayoutStart.

Variable P : Platform.
Hypothesis HP : platform_ok P.

Lemma header_extent_pos : 8 <= header_extent P.
Proof.
  unfold header_extent. pose proof (len_nonneg (kOatMagic P)).
  pose proof (len_nonneg (kOatVersion P)). lia.
Qed.

Lemma sum_OatDexFile_new (dex_files : list DexFile) :
  sum_Z OatDexFile_len (OatDexFile_new <$> dex_files) = dex_files_extent dex_files.
Proof.
  induction dex_files as [|d l IH]; [reflexivity|].
  rewrite fmap_cons. cbn [sum_Z dex_files_extent]. rewrite IH. reflexivity.
Qed.

Lemma sum_OatClasses_new (dex_files : list DexFile) :
  classes_extent dex_files < 2 ^ 32 ->
  sum_Z OatClasses_len (OatClasses_new <$> dex_files) = classes_extent dex_files.
Proof.
  induction dex_files as [|d l IH]; [reflexivity|].
  rewrite fmap_cons. cbn [sum_Z classes_extent]. intros Hb.
  pose proof (classes_extent_nonneg l). pose proof (len_nonneg (class_defs d)).
  rewrite IH by lia. unfold OatClasses_len at 1. rewrite OatClasses_new_len by lia.
  reflexivity.
Qed.

Lemma sum_OatMethods_new (defs : list (option ClassData)) :
  class_defs_extent defs < 2 ^ 32 ->
  sum_Z OatMethods_len ((fun cd => OatMethods_new (num_methods_of cd)) <$> defs) =
    class_defs_extent defs /\
  (fun m => length (method_offsets_ m)) <$>
    ((fun cd => OatMethods_new (num_methods_of cd)) <$> defs) = map method_count defs.
Proof.
  induction defs as [|cd l IH]; [split; reflexivity|].
  rewrite !fmap_cons. cbn [sum_Z class_defs_extent map]. intros Hb.
  pose proof (class_defs_extent_nonneg l). pose proof (num_methods_raw_nonneg cd).
  destruct (IH ltac:(lia)) as (IH1 & IH2).
  destruct (OatMethods_new_len cd ltac:(lia)) as (Hn & Hl).
  split.
  - rewrite IH1. unfold OatMethods_len at 1. rewrite Hl. reflexivity.
  - rewrite IH2. f_equal. exact Hn.
Qed.

Lemma sum_methods_new (dex_files : list DexFile) :
  methods_extent dex_files < 2 ^ 32 ->
  sum_Z OatMethods_len
    (concat ((fun d => (fun cd => OatMethods_new (num_methods_of cd)) <$> class_defs d)
               <$> dex_files)) = methods_extent dex_files /\
  (fun m => length (method_offsets_ m)) <$>
    concat ((fun d => (fun cd => OatMethods_new (num_methods_of cd)) <$> class_defs d)
              <$> dex_files) = shape_of dex_files.
Proof.
  induction dex_files as [|d l IH]; [split; reflexivity|].
  rewrite !fmap_cons. cbn [concat methods_extent]. intros Hb.
  pose proof (methods_extent_nonneg l). pose proof (class_defs_extent_nonneg (class_defs d)).
  destruct (IH ltac:(lia)) as (IH1 & IH2).
  destruct (sum_OatMethods_new (class_defs d) ltac:(lia)) as (H1 & H2).
  split.
  - rewrite sum_Z_app, IH1, H1. reflexivity.
  - unfold shape_of. cbn [map concat]. fold (shape_of l).
    rewrite fmap_app, IH2, H2. reflexivity.
Qed.

Lemma sum_OatDexFile_len_ext (l1 l2 : list OatDexFile) :
  dex_file_location_data_ <$> l1 = dex_file_location_data_ <$> l2 ->
  sum_Z OatDexFile_len l1 = sum_Z OatDexFile_len l2.
Proof. apply (sum_Z_ext_fmap dex_file_location_data_ (fun data => 12 + len data)). Qed.

Lemma sum_OatClasses_len_ext (l1 l2 : list OatClasses) :
  (fun c => length (methods_offsets_ c)) <$> l1 =
  (fun c => length (methods_offsets_ c)) <$> l2 ->
  sum_Z OatClasses_len l1 = sum_Z OatClasses_len l2.
Proof.
  apply (sum_Z_ext_fmap (fun c => length (methods_offsets_ c)) (fun n => 4 * Z.of_nat n)).
Qed.

(** The writer when the layout enters the executable section. *)
Lemma layout_start_spec (dex_files : list DexFile) (compiler : Compiler)
    (o : Z) (w : OatWriter) :
  tables_extent P dex_files + kPageSize P < 2 ^ 32 ->
  layout_start P dex_files compiler = (o, w) ->
  (tables_extent P dex_files <= o < tables_extent P dex_files + kPageSize P /\
   o mod kPageSize P = 0) /\
  (executable_offset_ (oat_header_ w) = o /\
   executable_offset_padding_length_ w = o - tables_extent P dex_files) /\
  (compiler_ w = compiler /\ dex_files_ w = dex_files) /\
  (code_offsets_ w = ∅ /\ mapping_table_offsets_ w = ∅ /\ vmap_table_offsets_ w = ∅) /\
  (magic_ (oat_header_ w) = kOatMagic P /\ version_ (oat_header_ w) = kOatVersion P) /\
  methods_shape w = shape_of dex_files /\
  tables_len w = tables_extent P dex_files - header_extent P /\
  length (oat_dex_files_ w) = length dex_files /\
  length (oat_classes_ w) = length dex_files.
Proof.
  intros Hb H. unfold layout_start, layout_tables, InitOatHeader, InitOatDexFiles,
    InitOatClasses, InitOatMethods, InitOatCode in H.
  simpl dex_files_ in H.
  pose proof header_extent_pos as Hh. pose proof page_pos P HP as Hpage.
  pose proof (dex_files_extent_nonneg dex_files) as E1.
  pose proof (classes_extent_nonneg dex_files) as E2.
  pose proof (methods_extent_nonneg dex_files) as E3.
  unfold tables_extent in *.
  assert (Hsz : sizeof_OatHeader P = header_extent P).
  { unfold sizeof_OatHeader, header_extent, len in *. rewrite u32_small by lia. lia. }
  rewrite Hsz in H.
  destruct (InitOatDexFiles_loop dex_files (header_extent P)
              (with_header (OatHeader_new P) (OatWriter_init P dex_files compiler)))
    as [o1 w1] eqn:L1.
  apply InitOatDexFiles_loop_spec in L1 as (-> & C1 & H1 & D1 & Cl1 & M1); [|lia|lia].
  assert (Hdf1 : dex_files_ w1 = dex_files) by (destruct C1 as (_ & -> & _); reflexivity).
  rewrite Hdf1 in H.
  destruct (InitOatClasses_loop dex_files 0 (header_extent P + dex_files_extent dex_files) w1)
    as [o2 w2] eqn:L2.
  apply InitOatClasses_loop_spec in L2 as (-> & C2 & H2 & D2 & Cl2 & M2); [|lia|lia].
  assert (Hdf2 : dex_files_ w2 = dex_files) by (destruct C2 as (_ & -> & _); exact Hdf1).
  rewrite Hdf2 in H.
  destruct (InitOatMethods_loop dex_files 0
              (header_extent P + dex_files_extent dex_files + classes_extent dex_files) w2)
    as [o3 w3] eqn:L3.
  apply InitOatMethods_loop_spec in L3 as (-> & C3 & H3 & D3 & Cl3 & M3); [|lia|lia].
  injection H as <- <-.
  set (t := header_extent P + dex_files_extent dex_files + classes_extent dex_files +
            methods_extent dex_files) in *.
  destruct (RoundUp_bounds t (kPageSize P) Hpage ltac:(lia) ltac:(lia)) as (R1 & R2).
  pose proof (same_core_trans _ _ _ C1 (same_core_trans _ _ _ C2 C3)) as
    (K1 & K2 & K3 & K4 & K5 & K6 & K7).
  simpl in *.
  split; [split; [lia|exact R2]|].
  split; [split; rewrite u32_small by lia; reflexivity|].
  split; [split; assumption|].
  split; [repeat split; assumption|].
  split; [split; assumption|].
  destruct (sum_methods_new dex_files ltac:(lia)) as (S1 & S2).
  split.
  { unfold methods_shape. simpl. rewrite M3, M2, M1. simpl. exact S2. }
  split.
  { unfold tables_len. simpl. rewrite M3, M2, M1. simpl. rewrite S1.
    rewrite D3.
    rewrite (sum_OatDexFile_len_ext _ _ D2), D1.
    rewrite (sum_OatClasses_len_ext _ _ Cl3), Cl2, Cl1.
    cbn [oat_dex_files_ oat_classes_ with_header OatWriter_init app].
    rewrite sum_OatDexFile_new, sum_OatClasses_new by lia.
    unfold t. lia. }
  split.
  { rewrite D3. apply (f_equal length) in D2. rewrite !length_fmap in D2.
    rewrite D2, D1. simpl. apply length_fmap. }
  rewrite <- (length_fmap (fun c => length (methods_offsets_ c))), Cl3, length_fmap.
  rewrite Cl2, Cl1. simpl. apply length_fmap.
Qed.

End LayoutStart.

(** ** The emit pass on the header and the tables, without faults *)

Lemma write_all_ok {A} (write : A -> World -> bool * World) (failure : string)
    (size : A -> Z) (l : list A) :
  (forall x o, f_faults (w_file o) = [] ->
     exists o' ops, write x o = (true, o') /\
                    emits o o' ops (f_pos (w_file o) + size x)) ->
  forall o, f_faults (w_file o) = [] ->
  exists o' ops, write_all write failure l o = (true, o') /\
                 emits o o' ops (f_pos (w_file o) + sum_Z size l).
Proof.
  intros Hw. induction l as [|x l IH]; intros o Hf; simpl.
  - exists o, []. split; [reflexivity|]. rewrite Z.add_0_r. apply emits_refl, Hf.
  - destruct (Hw x o Hf) as (o1 & ops1 & W1 & Q1). rewrite W1. simpl.
    destruct (IH o1 (emits_faults _ _ _ _ Q1)) as (o2 & ops2 & W2 & Q2).
    exists o2, (ops1 ++ ops2). split; [exact W2|].
    rewrite (emits_pos _ _ _ _ Q1) in Q2.
    replace (f_pos (w_file o) + (size x + sum_Z size l))
      with (f_pos (w_file o) + size x + sum_Z size l) by lia.
    eapply emits_trans; eassumption.
Qed.

Lemma emits_eq (o o' : World) (ops : list io_op) (p p' : Z) :
  emits o o' ops p -> p = p' -> emits o o' ops p'.
Proof. intros H <-. exact H. Qed.

Lemma OatDexFile_Write_ok (d : OatDexFile) (o : World) :
  f_faults (w_file o) = [] ->
  exists o' ops, OatDexFile_Write d o = (true, o') /\
                 emits o o' ops (f_pos (w_file o) + OatDexFile_len d).
Proof.
  intros Hf. unfold OatDexFile_Write.
  destruct (WriteFully_ok (le32 (dex_file_location_size_ d)) o Hf) as (o1 & W1 & Q1).
  rewrite W1. simpl.
  destruct (WriteFully_ok (dex_file_location_data_ d) o1 (emits_faults _ _ _ _ Q1))
    as (o2 & W2 & Q2).
  rewrite W2. simpl.
  destruct (WriteFully_ok (le32 (dex_file_checksum_ d)) o2 (emits_faults _ _ _ _ Q2))
    as (o3 & W3 & Q3).
  rewrite W3. simpl.
  destruct (WriteFully_ok (le32 (classes_offset_ d)) o3 (emits_faults _ _ _ _ Q3))
    as (o4 & W4 & Q4).
  rewrite W4. simpl.
  eexists. eexists. split; [reflexivity|].
  rewrite (emits_pos _ _ _ _ Q3) in Q4. rewrite (emits_pos _ _ _ _ Q2) in Q3, Q4.
  rewrite (emits_pos _ _ _ _ Q1) in Q2, Q3, Q4.
  pose proof (emits_trans _ _ _ _ _ _ _ (emits_trans _ _ _ _ _ _ _
                (emits_trans _ _ _ _ _ _ _ Q1 Q2) Q3) Q4) as Q.
  unfold OatDexFile_len.
  replace (f_pos (w_file o) + (12 + len (dex_file_location_data_ d)))
    with (f_pos (w_file o) + len (le32 (dex_file_location_size_ d)) +
          len (dex_file_location_data_ d) + len (le32 (dex_file_checksum_ d)) +
          len (le32 (classes_offset_ d))) by (unfold len; simpl; lia).
  exact Q.
Qed.

Lemma OatClasses_Write_ok (c : OatClasses) (o : World) :
  f_faults (w_file o) = [] ->
  exists o' ops, OatClasses_Write c o = (true, o') /\
                 emits o o' ops (f_pos (w_file o) + OatClasses_len c).
Proof.
  intros Hf. unfold OatClasses_Write.
  destruct (WriteFully_ok (OatClasses_bytes c) o Hf) as (o1 & W1 & Q1).
  rewrite W1. simpl. eexists. eexists. split; [reflexivity|].
  unfold OatClasses_bytes in Q1. rewrite len_bytes_of_u32s in Q1. exact Q1.
Qed.

Lemma OatMethods_bytes_len (m : OatMethods) : len (OatMethods_bytes m) = OatMethods_len m.
Proof.
  unfold OatMethods_bytes, OatMethods_len, len.
  induction (method_offsets_ m) as [|x l IH]; simpl in *; lia.
Qed.

Lemma OatMethods_Write_ok (m : OatMethods) (o : World) :
  f_faults (w_file o) = [] ->
  exists o' ops, OatMethods_Write m o = (true, o') /\
                 emits o o' ops (f_pos (w_file o) + OatMethods_len m).
Proof.
  intros Hf. unfold OatMethods_Write.
  destruct (WriteFully_ok (OatMethods_bytes m) o Hf) as (o1 & W1 & Q1).
  rewrite W1. simpl. eexists. eexists. split; [reflexivity|].
  rewrite OatMethods_bytes_len in Q1. exact Q1.
Qed.

Lemma WriteTables_ok (w : OatWriter) (o : World) :
  f_faults (w_file o) = [] ->
  exists o' ops, WriteTables w o = (true, o') /\
                 emits o o' ops (f_pos (w_file o) + tables_len w).
Proof.
  intros Hf. unfold WriteTables, tables_len.
  destruct (write_all_ok OatDexFile_Write "Failed to write oat dex information to "
              OatDexFile_len (oat_dex_files_ w) OatDexFile_Write_ok o Hf)
    as (o1 & ops1 & W1 & Q1).
  rewrite W1. simpl.
  destruct (write_all_ok OatClasses_Write "Failed to write oat classes information to "
              OatClasses_len (oat_classes_ w) OatClasses_Write_ok o1
              (emits_faults _ _ _ _ Q1)) as (o2 & ops2 & W2 & Q2).
  rewrite W2. simpl.
  destruct (write_all_ok OatMethods_Write "Failed to write oat methods information to "
              OatMethods_len (oat_methods_ w) OatMethods_Write_ok o2
              (emits_faults _ _ _ _ Q2)) as (o3 & ops3 & W3 & Q3).
  rewrite W3. eexists. eexists. split; [reflexivity|].
  rewrite (emits_pos _ _ _ _ Q2) in Q3. rewrite (emits_pos _ _ _ _ Q1) in Q2, Q3.
  eapply emits_eq; [exact (emits_trans _ _ _ _ _ _ _ (emits_trans _ _ _ _ _ _ _ Q1 Q2) Q3)|].
  lia.
Qed.

Lemma tables_len_extends (w w' : OatWriter) : extends w w' -> tables_len w' = tables_len w.
Proof.
  intros (_ & _ & Hd & Hc & Hs & _). unfold tables_len. rewrite Hd, Hc. f_equal.
  apply (sum_Z_ext_fmap (fun m => length (method_offsets_ m)) (fun n => 28 * Z.of_nat n)).
  exact Hs.
Qed.

Section EmitStart.

Variable P : Platform.

(** The emit pass reaches the executable section at the offset the header
    records. *)
Lemma emit_start_ok (w : OatWriter) (file_name : string) (o : Z) :
  0 < o < 2 ^ 32 ->
  executable_offset_ (oat_header_ w) = o ->
  executable_offset_padding_length_ w =
    o - (len (OatHeader_bytes (oat_header_ w)) + tables_len w) ->
  exists world ops,
    emit_start w file_name = (o, world) /\
    emits (fresh_file file_name []) world ops o /\
    Write P w (fresh_file file_name []) =
      (let '(c, world') := WriteCodeDexFiles P w o world in
       if c =? 0
       then (false, LOG ("Failed to write oat code for dex files to " ++ name world') world')
       else (true, world')).
Proof.
  intros Ho Hx Hpad. unfold emit_start, Write.
  destruct (WriteFully_ok (OatHeader_bytes (oat_header_ w)) (fresh_file file_name [])
              eq_refl) as (o1 & W1 & Q1).
  rewrite W1. cbn [negb].
  destruct (WriteTables_ok w o1 (emits_faults _ _ _ _ Q1)) as (o2 & ops2 & W2 & Q2).
  rewrite W2. cbn [negb].
  rewrite (emits_pos _ _ _ _ Q1) in Q2. simpl in Q2.
  unfold WriteCode.
  destruct (lseek_cur_ok (executable_offset_padding_length_ w) o2 (emits_faults _ _ _ _ Q2))
    as (o3 & W3 & Q3).
  assert (Hpos : f_pos (w_file o2) + executable_offset_padding_length_ w = o).
  { rewrite (emits_pos _ _ _ _ Q2), Hpad. lia. }
  rewrite W3, Hpos, Hx.
  rewrite (u32_small o) by lia. rewrite Z.eqb_refl. cbn [negb].
  assert (Hnz : (o =? 0) = false) by (apply Z.eqb_neq; lia).
  rewrite Hnz.
  exists o3. eexists. split; [reflexivity|]. split; [|reflexivity].
  eapply emits_eq; [exact (emits_trans _ _ _ _ _ _ _ (emits_trans _ _ _ _ _ _ _ Q1 Q2) Q3)|].
  exact Hpos.
Qed.

End EmitStart.

(** ** The two passes side by side *)

Lemma offsets_below_empty (c : Z) : offsets_below ∅ c.
Proof. intros a v H. rewrite lookup_empty in H. discriminate. Qed.

Lemma empty_at_zero_empty (vec : ptr -> list Z) : empty_at_zero ∅ vec.
Proof. intros a v H. rewrite lookup_empty in H. discriminate. Qed.

Lemma keys_ok_app (w : OatWriter) (l1 l2 : list Item) :
  keys_ok w (l1 ++ l2) ->
  keys_ok w l1 /\ keys_ok w l2 /\
  (forall key, key ∈ item_keys l1 -> key ∉ item_keys l2).
Proof.
  unfold keys_ok. rewrite item_keys_app. intros (Hnd & Hall).
  apply NoDup_app in Hnd as (N1 & N12 & N2). apply Forall_app in Hall as (A1 & A2).
  auto.
Qed.

Lemma keys_ok_extends (w w' : OatWriter) (l : list Item) :
  extends w w' -> keys_ok w l -> keys_ok w' l.
Proof.
  intros X (Hnd & Hall). split; [exact Hnd|].
  eapply Forall_impl; [exact Hall|]. intros key. apply in_range_extends, X.
Qed.

Lemma OatHeader_bytes_len (h : OatHeader) :
  len (OatHeader_bytes h) = len (magic_ h) + len (version_ h) + 8.
Proof. unfold OatHeader_bytes. rewrite !len_app. unfold len. simpl. lia. Qed.

Section Reach.

Variable P : Platform.
Hypothesis HP : platform_ok P.

Lemma OatWriter_layout_items (dex_files : list DexFile) (compiler : Compiler)
    (cursor : Z) (w : OatWriter) :
  tables_extent P dex_files + kPageSize P < 2 ^ 32 ->
  OatWriter_layout P dex_files compiler = Some (cursor, w) ->
  layout_at P dex_files compiler (code_items dex_files) = (cursor, w).
Proof.
  intros Hb H. unfold layout_at.
  destruct (layout_start P dex_files compiler) as [o0 w0] eqn:E0.
  destruct (layout_start_spec P HP dex_files compiler o0 w0 Hb E0)
    as (_ & _ & (_ & Hdf) & _).
  unfold OatWriter_layout in H. unfold layout_start in E0.
  destruct (layout_tables P dex_files compiler) as [ot wt].
  rewrite E0 in H. unfold InitOatCodeDexFiles in H. rewrite Hdf in H.
  destruct (InitOatCodeDexFiles_loop P dex_files o0 0 w0) as [[o1 w1]|] eqn:E1;
    [|discriminate].
  apply dex_files_items in E1.
  destruct (_ && _); [|discriminate]. injection H as <- <-. exact E1.
Qed.

(** What holds when the two passes have gone through the items [pre] of
    [code_items] and [rest] is still to come. *)
Lemma reach (dex_files : list DexFile) (compiler : Compiler) (cursor : Z) (w : OatWriter)
    (file_name : string) (pre rest : list Item) :
  layout_extent P dex_files compiler < 2 ^ 32 ->
  OatWriter_layout P dex_files compiler = Some (cursor, w) ->
  code_items dex_files = pre ++ rest ->
  exists lo lw ew ops,
    layout_at P dex_files compiler pre = (lo, lw) /\
    emit_at P w file_name pre = (lo, ew) /\
    emits (fresh_file file_name []) ew ops lo /\
    (0 < lo /\ lo + items_extent P compiler rest < 2 ^ 32) /\
    (maps_below lw lo /\ maps_empty_at_zero lw) /\
    keys_ok lw rest /\ compiler_ lw = compiler /\
    layout_items P rest (lo, lw) = (cursor, w) /\ extends lw w /\
    0 < executable_offset_ (oat_header_ w) <= lo /\
    Write P w (fresh_file file_name []) =
      (let '(c, world) := emit_items P w rest lo ew in
       if c =? 0
       then (false, LOG ("Failed to write oat code for dex files to " ++ name world) world)
       else (true, world)).
Proof.
  intros Hb Hl Hsplit.
  pose proof (items_extent_nonneg P HP compiler (code_items dex_files)) as Hext.
  unfold layout_extent in Hb.
  assert (Hbt : tables_extent P dex_files + kPageSize P < 2 ^ 32) by lia.
  pose proof (OatWriter_layout_items dex_files compiler cursor w Hbt Hl) as Hall.
  unfold layout_at in *.
  destruct (layout_start P dex_files compiler) as [o0 w0] eqn:E0.
  destruct (layout_start_spec P HP dex_files compiler o0 w0 Hbt E0)
    as ((Ho0 & _) & (Hx & Hpad) & (Hc & Hdf) & (M1 & M2 & M3) & (Hmag & Hver) & Hshape
        & Htl & _ & Hlen).
  pose proof (header_extent_pos P) as Hh.
  assert (Hte : header_extent P <= tables_extent P dex_files).
  { unfold tables_extent. pose proof (dex_files_extent_nonneg dex_files).
    pose proof (classes_extent_nonneg dex_files). pose proof (methods_extent_nonneg dex_files).
    lia. }
  rewrite Hsplit, layout_items_app in Hall.
  rewrite Hsplit, items_extent_app in Hb, Hext.
  pose proof (items_extent_nonneg P HP compiler pre) as Hpre.
  pose proof (items_extent_nonneg P HP compiler rest) as Hrest.
  destruct (layout_items P pre (o0, w0)) as [lo lw] eqn:Epre.
  assert (Hkeys : keys_ok w0 (pre ++ rest)).
  { rewrite <- Hsplit. apply code_items_keys_ok, Hshape. }
  destruct (keys_ok_app _ _ _ Hkeys) as (Kpre & Krest & Kdisj).
  assert (Hmb : maps_below w0 o0).
  { unfold maps_below. rewrite M1, M2, M3. repeat split; apply offsets_below_empty. }
  assert (Hmz : maps_empty_at_zero w0).
  { unfold maps_empty_at_zero. rewrite M1, M2, M3. repeat split; apply empty_at_zero_empty. }
  destruct (items_sync P HP pre o0 w0 lo lw ltac:(lia) ltac:(rewrite Hc; lia) Hmb Kpre Epre)
    as (B1 & X1 & Mb1 & Mz1 & Hemit).
  rewrite Hc in B1.
  pose proof (extends_compiler _ _ X1) as C1. rewrite Hc in C1.
  pose proof (keys_ok_extends _ _ _ X1 Krest) as Krest'.
  destruct (items_sync P HP rest lo lw cursor w ltac:(lia) ltac:(rewrite C1; lia) Mb1
              Krest' Hall) as (B2 & X2 & _ & _ & _).
  pose proof (extends_trans _ _ _ X1 X2) as X02.
  assert (Hxw : executable_offset_ (oat_header_ w) = o0).
  { destruct X02 as (_ & _ & _ & _ & _ & _ & -> & _). exact Hx. }
  assert (Hpw : executable_offset_padding_length_ w =
                o0 - (len (OatHeader_bytes (oat_header_ w)) + tables_len w)).
  { rewrite (tables_len_extends _ _ X02), Htl, OatHeader_bytes_len.
    destruct X02 as (_ & _ & _ & _ & _ & -> & _ & -> & -> & _).
    rewrite Hpad, Hmag, Hver. unfold header_extent. lia. }
  destruct (emit_start_ok P w file_name o0 ltac:(lia) Hxw Hpw)
    as (ew0 & ops0 & Es & Qs & HW).
  assert (Hsame : forall key, key ∈ item_keys pre ->
            method_offsets_at w (fst key) (snd key) = method_offsets_at lw (fst key) (snd key)).
  { intros [c k] Hin. simpl.
    pose proof (layout_items_other P rest (lo, lw) c k (Kdisj _ Hin)) as Ho.
    rewrite Hall in Ho. exact Ho. }
  destruct (Hemit w ew0 X2 Hsame (emits_pos _ _ _ _ Qs) (emits_faults _ _ _ _ Qs))
    as (ew & ops1 & Ee & Qe).
  exists lo, lw, ew, (ops0 ++ ops1).
  split; [reflexivity|]. split; [unfold emit_at; rewrite Es; exact Ee|].
  split; [eapply emits_trans; eassumption|].
  split; [split; lia|]. split; [split; [exact Mb1|apply Mz1, Hmz]|].
  split; [exact Krest'|]. split; [exact C1|]. split; [exact Hall|].
  split; [exact X2|]. split; [rewrite Hxw; lia|].
  rewrite HW. unfold WriteCodeDexFiles.
  assert (Hdw : take (length (oat_classes_ w)) (dex_files_ w) = dex_files).
  { destruct X02 as (_ & -> & _ & -> & _). rewrite Hdf, Hlen. apply firstn_all. }
  rewrite Hdw, write_dex_files_items by lia.
  fold (code_items dex_files). rewrite Hsplit, emit_items_app by lia.
  rewrite Ee. assert (Hnz : (lo =? 0) = false) by (apply Z.eqb_neq; lia).
  rewrite Hnz. reflexivity.
Qed.

End Reach.

(** ** Frames that hold for every cursor *)

Section Frames.

Variable P : Platform.

Lemma layout_code_extends (cm : CompiledMethod) (o : Z) (w : OatWriter) :
  extends w (snd (layout_code P cm o w)).
Proof.
  unfold layout_code. destruct (code_offsets_ w !! GetCode cm) eqn:E; simpl.
  - apply extends_refl.
  - eapply extends_trans; [apply extends_code_insert, E|apply extends_UpdateChecksum].
Qed.

Lemma layout_mapping_table_extends (cm : CompiledMethod) (o : Z) (w : OatWriter) :
  extends w (snd (layout_mapping_table cm o w)).
Proof.
  unfold layout_mapping_table.
  destruct (mapping_table_offsets_ w !! GetMappingTable cm) eqn:E; simpl.
  - apply extends_refl.
  - eapply extends_trans; [apply extends_mapping_insert, E|apply extends_UpdateChecksum].
Qed.

Lemma layout_vmap_table_extends (cm : CompiledMethod) (o : Z) (w : OatWriter) :
  extends w (snd (layout_vmap_table cm o w)).
Proof.
  unfold layout_vmap_table.
  destruct (vmap_table_offsets_ w !! GetVmapTable cm) eqn:E; simpl.
  - apply extends_refl.
  - eapply extends_trans; [apply extends_vmap_insert, E|apply extends_UpdateChecksum].
Qed.

Lemma layout_invoke_stub_extends (stub : CompiledInvokeStub) (o : Z) (w : OatWriter) :
  extends w (snd (layout_invoke_stub P stub o w)).
Proof.
  unfold layout_invoke_stub. destruct (code_offsets_ w !! GetStubCode stub) eqn:E; simpl.
  - apply extends_refl.
  - eapply extends_trans; [apply extends_code_insert, E|apply extends_UpdateChecksum].
Qed.

Lemma layout_method_extends (o : Z) (st : bool) (idx : Z) (dex : DexFile) (w : OatWriter) :
  extends w (snd (layout_method P o st idx dex w)).
Proof.
  unfold layout_method.
  destruct (GetCompiledMethod (compiler_ w) dex idx) as [cm|].
  - pose proof (layout_code_extends cm o w) as H1.
    destruct (layout_code P cm o w) as [[o1 v1] w1]. simpl in H1.
    unfold layout_word.
    match goal with
    | |- context [layout_mapping_table cm ?o ?w] =>
        pose proof (layout_mapping_table_extends cm o w) as H2;
        destruct (layout_mapping_table cm o w) as [[o2 v2] w2]
    end.
    simpl in H2.
    pose proof (layout_vmap_table_extends cm o2 w2) as H3.
    destruct (layout_vmap_table cm o2 w2) as [[o3 v3] w3]. simpl in H3.
    assert (X : extends w w3).
    { eapply extends_trans; [exact H1|]. eapply extends_trans; [|exact H3].
      eapply extends_trans; [|exact H2].
      eapply extends_trans; [|apply extends_UpdateChecksum].
      eapply extends_trans; apply extends_UpdateChecksum. }
    destruct (FindInvokeStub (compiler_ w3) st (GetMethodShorty dex idx)) as [stub|].
    + pose proof (layout_invoke_stub_extends stub o3 w3) as H4.
      destruct (layout_invoke_stub P stub o3 w3) as [[o4 v4] w4]. simpl in *.
      eapply extends_trans; eassumption.
    + exact X.
  - unfold layout_word.
    match goal with
    | |- context [FindInvokeStub (compiler_ ?w3) st ?s] =>
        assert (X : extends w w3)
          by (eapply extends_trans; [|apply extends_UpdateChecksum];
              eapply extends_trans; apply extends_UpdateChecksum);
        destruct (FindInvokeStub (compiler_ w3) st s) as [stub|]
    end.
    + match goal with
      | |- context [layout_invoke_stub P stub ?o ?w] =>
          pose proof (layout_invoke_stub_extends stub o w) as H4;
          destruct (layout_invoke_stub P stub o w) as [[o4 v4] w4]
      end.
      exact (extends_trans _ _ _ X H4).
    + exact X.
Qed.

Lemma layout_item_extends (it : Item) (s : Z * OatWriter) :
  extends (snd s) (snd (layout_item P it s)).
Proof.
  destruct it as [m|c]; simpl.
  - unfold layout_method_item; cbn [fst snd].
    pose proof (layout_method_extends (fst s) (m_static m) (m_idx m) (m_dex m) (snd s)) as H.
    destruct (layout_method P (fst s) (m_static m) (m_idx m) (m_dex m) (snd s))
      as [[o1 mo] w1]. simpl in *.
    eapply extends_trans; [exact H|apply record_method_extends].
  - destruct (oat_methods_ (snd s) !! c); [apply extends_UpdateChecksum|apply extends_refl].
Qed.

Lemma layout_items_extends (items : list Item) (s : Z * OatWriter) :
  extends (snd s) (snd (layout_items P items s)).
Proof.
  revert s. induction items as [|it items IH]; intros s; [apply extends_refl|].
  simpl. eapply extends_trans; [apply layout_item_extends|apply IH].
Qed.

End Frames.

(** ** The cursor only moves forward *)

Section Bounds.

Variable P : Platform.
Hypothesis HP : platform_ok P.

Lemma layout_method_bounds (m : MethodRef) (o : Z) (w : OatWriter) :
  0 <= o -> o + method_extent P (compiler_ w) m < 2 ^ 32 ->
  o + 12 <= fst (fst (layout_method P o (m_static m) (m_idx m) (m_dex m) w))
         <= o + method_extent P (compiler_ w) m.
Proof.
  intros H0 Hb. unfold method_extent in *. unfold layout_method.
  assert (Hstub0 : 0 <= match FindInvokeStub (compiler_ w) (m_static m)
                            (GetMethodShorty (m_dex m) (m_idx m)) with
                        | Some stub =>
                            InstructionSetAlignment P (GetInstructionSet (compiler_ w)) +
                            len (code_vec (compiler_ w) (GetStubCode stub))
                        | None => 0
                        end).
  { destruct (FindInvokeStub _ _ _) as [stub|]; [|lia].
    pose proof (alignment_pos P HP (GetInstructionSet (compiler_ w))).
    pose proof (len_nonneg (code_vec (compiler_ w) (GetStubCode stub))). lia. }
  pose proof (alignment_pos P HP (GetInstructionSet (compiler_ w))) as HA'.
  destruct (GetCompiledMethod (compiler_ w) (m_dex m) (m_idx m)) as [cm|] eqn:Hcm.
  - pose proof (alignment_pos P HP (cm_instruction_set cm)) as HA.
    pose proof (len_nonneg (code_vec (compiler_ w) (GetCode cm))) as L1.
    pose proof (len_nonneg (mapping_vec (compiler_ w) (GetMappingTable cm))) as L2.
    pose proof (len_nonneg (vmap_vec (compiler_ w) (GetVmapTable cm))) as L3.
    pose proof (AlignCodeFor_bounds P HP o (cm_instruction_set cm) H0 ltac:(lia)) as A1.
    pose proof (layout_code_extends P cm o w) as X1.
    rewrite layout_code_eq by (try exact HP; lia).
    fold (AlignCode P cm o) in A1.
    set (o1 := AlignCode P cm o) in *.
    assert (exists o1' v1 w1, match code_offsets_ w !! GetCode cm with
              | Some v => (o1, v, w)
              | None => (o1 + len (code_vec (compiler_ w) (GetCode cm)),
                         (if len (code_vec (compiler_ w) (GetCode cm)) =? 0 then 0
                          else o1 + CodeDelta cm),
                         UpdateChecksum (code_vec (compiler_ w) (GetCode cm))
                           (with_code_offsets
                              (<[GetCode cm :=
                                   if len (code_vec (compiler_ w) (GetCode cm)) =? 0 then 0
                                   else o1 + CodeDelta cm]> (code_offsets_ w)) w))
              end = (o1', v1, w1) /\
              o1 <= o1' <= o1 + len (code_vec (compiler_ w) (GetCode cm)) /\
              compiler_ w1 = compiler_ w) as (o1' & v1 & w1 & -> & B1 & C1).
    { destruct (code_offsets_ w !! GetCode cm); eexists; eexists; eexists;
        (split; [reflexivity|]); split; try reflexivity; lia. }
    rewrite !layout_word_eq by lia.
    set (w1c := UpdateChecksum _ (UpdateChecksum _ (UpdateChecksum _ w1))).
    assert (C1c : compiler_ w1c = compiler_ w) by exact C1.
    pose proof (layout_mapping_table_extends cm (o1' + 4 + 4 + 4) w1c) as X2.
    rewrite layout_mapping_table_eq by (rewrite ?C1c; lia). rewrite C1c.
    assert (exists o2 v2 w2, match mapping_table_offsets_ w1c !! GetMappingTable cm with
              | Some v => (o1' + 4 + 4 + 4, v, w1c)
              | None => (o1' + 4 + 4 + 4 +
                         4 * len (mapping_vec (compiler_ w) (GetMappingTable cm)),
                         (if len (mapping_vec (compiler_ w) (GetMappingTable cm)) =? 0
                          then 0 else o1' + 4 + 4 + 4),
                         UpdateChecksum
                           (bytes_of_u32s (mapping_vec (compiler_ w) (GetMappingTable cm)))
                           (with_mapping_table_offsets
                              (<[GetMappingTable cm :=
                                   if len (mapping_vec (compiler_ w) (GetMappingTable cm)) =? 0
                                   then 0 else o1' + 4 + 4 + 4]>
                                 (mapping_table_offsets_ w1c)) w1c))
              end = (o2, v2, w2) /\
              o1' + 12 <= o2 <= o1' + 12 +
                                 4 * len (mapping_vec (compiler_ w) (GetMappingTable cm)) /\
              compiler_ w2 = compiler_ w) as (o2 & v2 & w2 & -> & B2 & C2).
    { destruct (mapping_table_offsets_ w1c !! GetMappingTable cm); eexists; eexists; eexists;
        (split; [reflexivity|]); split; try exact C1c; lia. }
    rewrite layout_vmap_table_eq by (rewrite ?C2; lia). rewrite C2.
    assert (exists o3 v3 w3, match vmap_table_offsets_ w2 !! GetVmapTable cm with
              | Some v => (o2, v, w2)
              | None => (o2 + 2 * len (vmap_vec (compiler_ w) (GetVmapTable cm)),
                         (if len (vmap_vec (compiler_ w) (GetVmapTable cm)) =? 0
                          then 0 else o2),
                         UpdateChecksum
                           (bytes_of_u16s (vmap_vec (compiler_ w) (GetVmapTable cm)))
                           (with_vmap_table_offsets
                              (<[GetVmapTable cm :=
                                   if len (vmap_vec (compiler_ w) (GetVmapTable cm)) =? 0
                                   then 0 else o2]>
                                 (vmap_table_offsets_ w2)) w2))
              end = (o3, v3, w3) /\
              o2 <= o3 <= o2 + 2 * len (vmap_vec (compiler_ w) (GetVmapTable cm)) /\
              compiler_ w3 = compiler_ w) as (o3 & v3 & w3 & -> & B3 & C3).
    { destruct (vmap_table_offsets_ w2 !! GetVmapTable cm); eexists; eexists; eexists;
        (split; [reflexivity|]); split; try exact C2; lia. }
    rewrite C3.
    destruct (FindInvokeStub (compiler_ w) (m_static m)
                (GetMethodShorty (m_dex m) (m_idx m))) as [stub|]; [|simpl; lia].
    pose proof (len_nonneg (code_vec (compiler_ w) (GetStubCode stub))) as L4.
    pose proof (AlignCodeFor_bounds P HP o3 (GetInstructionSet (compiler_ w))
                  ltac:(lia) ltac:(lia)) as A4.
    rewrite layout_invoke_stub_eq by (try exact HP; rewrite ?C3; lia). rewrite C3.
    destruct (code_offsets_ w3 !! GetStubCode stub); simpl; lia.
  - rewrite !layout_word_eq by lia. simpl compiler_.
    destruct (FindInvokeStub (compiler_ w) (m_static m)
                (GetMethodShorty (m_dex m) (m_idx m))) as [stub|]; [|simpl; lia].
    pose proof (len_nonneg (code_vec (compiler_ w) (GetStubCode stub))) as L4.
    pose proof (AlignCodeFor_bounds P HP (o + 4 + 4 + 4) (GetInstructionSet (compiler_ w))
                  ltac:(lia) ltac:(lia)) as A4.
    rewrite layout_invoke_stub_eq by (try exact HP; simpl compiler_; lia).
    simpl compiler_.
    match goal with
    | |- context [code_offsets_ ?w3 !! GetStubCode stub] =>
        destruct (code_offsets_ w3 !! GetStubCode stub)
    end; simpl; lia.
Qed.

Lemma layout_item_bounds (it : Item) (o : Z) (w : OatWriter) :
  0 <= o -> o + item_extent P (compiler_ w) it < 2 ^ 32 ->
  o <= fst (layout_item P it (o, w)) <= o + item_extent P (compiler_ w) it.
Proof.
  intros H0 Hb. destruct it as [m|c]; simpl in *; [|lia].
  pose proof (layout_method_bounds m o w H0 Hb) as B.
  unfold layout_method_item; cbn [fst snd].
  destruct (layout_method P o (m_static m) (m_idx m) (m_dex m) w) as [[o1 mo] w1].
  simpl in *. lia.
Qed.

Lemma layout_items_bounds (items : list Item) :
  forall (o : Z) (w : OatWriter),
  0 <= o -> o + items_extent P (compiler_ w) items < 2 ^ 32 ->
  o <= fst (layout_items P items (o, w)) <= o + items_extent P (compiler_ w) items.
Proof.
  induction items as [|it items IH]; intros o w H0 Hb; simpl in *; [lia|].
  pose proof (items_extent_nonneg P HP (compiler_ w) items) as Hr.
  pose proof (layout_item_bounds it o w H0 ltac:(lia)) as B1.
  pose proof (layout_item_extends P it (o, w)) as X. apply extends_compiler in X.
  destruct (layout_item P it (o, w)) as [o1 w1]. simpl in *.
  pose proof (IH o1 w1 ltac:(lia) ltac:(rewrite X; lia)) as B2. rewrite X in B2.
  lia.
Qed.

End Bounds.

(** ** The example is laid out *)

Lemma example_platform_ok : platform_ok example_platform.
Proof.
  unfold platform_ok. simpl.
  split; [exists 12; split; [lia|reflexivity]|].
  split; [lia|].
  split; [|lia].
  intros i. destruct i; [exists 0|exists 4|exists 4|exists 0]; split; try lia; reflexivity.
Defined.

Lemma example_fits : layout_extent example_platform [example_dex] example_compiler < 2 ^ 32.
Proof. vm_compute. reflexivity. Defined.

Lemma example_layout_eq :
  OatWriter_layout example_platform [example_dex] example_compiler =
  Some (example_cursor, example_writer).
Proof. vm_compute. reflexivity. Defined.

(** * The claims *)

Section Claims.

Variable P : Platform.
Hypothesis HP : platform_ok P.

Lemma layout_tables_cursor (dex_files : list DexFile) (compiler : Compiler) :
  tables_extent P dex_files < 2 ^ 32 ->
  fst (layout_tables P dex_files compiler) = tables_extent P dex_files.
Proof.
  intros Hb. unfold layout_tables, InitOatHeader, InitOatDexFiles, InitOatClasses,
    InitOatMethods.
  simpl dex_files_.
  pose proof (header_extent_pos P) as Hh.
  pose proof (dex_files_extent_nonneg dex_files) as E1.
  pose proof (classes_extent_nonneg dex_files) as E2.
  pose proof (methods_extent_nonneg dex_files) as E3.
  unfold tables_extent in *.
  assert (Hsz : sizeof_OatHeader P = header_extent P).
  { unfold sizeof_OatHeader, header_extent, len in *. rewrite u32_small by lia. lia. }
  rewrite Hsz.
  destruct (InitOatDexFiles_loop dex_files (header_extent P)
              (with_header (OatHeader_new P) (OatWriter_init P dex_files compiler)))
    as [o1 w1] eqn:L1.
  apply InitOatDexFiles_loop_spec in L1 as (-> & C1 & _); [|lia|lia].
  assert (Hdf1 : dex_files_ w1 = dex_files) by (destruct C1 as (_ & -> & _); reflexivity).
  rewrite Hdf1.
  destruct (InitOatClasses_loop dex_files 0 (header_extent P + dex_files_extent dex_files) w1)
    as [o2 w2] eqn:L2.
  apply InitOatClasses_loop_spec in L2 as (-> & C2 & _); [|lia|lia].
  assert (Hdf2 : dex_files_ w2 = dex_files) by (destruct C2 as (_ & -> & _); exact Hdf1).
  rewrite Hdf2.
  destruct (InitOatMethods_loop dex_files 0
              (header_extent P + dex_files_extent dex_files + classes_extent dex_files) w2)
    as [o3 w3] eqn:L3.
  apply InitOatMethods_loop_spec in L3 as (-> & _); [|lia|lia].
  reflexivity.
Qed.

(** C5.  After layout the executable section starts on a page boundary, at
    or after the end of the last table; the end of the last table is the
    byte length of the header and of all the tables, and the padding length
    recorded is the distance between the two. *)
Theorem executable_offset_page_aligned (dex_files : list DexFile) (compiler : Compiler)
    (cursor : Z) (w : OatWriter) :
  layout_extent P dex_files compiler < 2 ^ 32 ->
  OatWriter_layout P dex_files compiler = Some (cursor, w) ->
  let tables_end := fst (layout_tables P dex_files compiler) in
  executable_offset_ (oat_header_ w) mod kPageSize P = 0 /\
  tables_end <= executable_offset_ (oat_header_ w) /\
  executable_offset_padding_length_ w = executable_offset_ (oat_header_ w) - tables_end /\
  tables_end = len (OatHeader_bytes (oat_header_ w)) + tables_len w /\
  executable_offset_ (oat_header_ w) =
    fst (InitOatCode P tables_end (snd (layout_tables P dex_files compiler))).
Proof.
  intros Hb Hl. cbv zeta.
  pose proof (items_extent_nonneg P HP compiler (code_items dex_files)) as Hext.
  pose proof (page_pos P HP) as Hpage.
  unfold layout_extent in Hb.
  assert (Hbt : tables_extent P dex_files + kPageSize P < 2 ^ 32) by lia.
  rewrite layout_tables_cursor by lia.
  pose proof (OatWriter_layout_items P HP dex_files compiler cursor w Hbt Hl) as Hall.
  unfold layout_at in Hall.
  destruct (layout_start P dex_files compiler) as [o0 w0] eqn:E0.
  destruct (layout_start_spec P HP dex_files compiler o0 w0 Hbt E0)
    as ((Ho0 & Hmod) & (Hx & Hpad) & _ & _ & (Hmag & Hver) & _ & Htl & _).
  pose proof (layout_items_extends P (code_items dex_files) (o0, w0)) as X.
  rewrite Hall in X. simpl in X.
  rewrite (tables_len_extends _ _ X), Htl, OatHeader_bytes_len.
  destruct X as (_ & _ & _ & _ & _ & -> & -> & -> & -> & _).
  rewrite Hx, Hpad, Hmag, Hver.
  split; [exact Hmod|]. split; [lia|]. split; [reflexivity|].
  split; [unfold header_extent; lia|].
  unfold layout_start in E0.
  pose proof (layout_tables_cursor dex_files compiler ltac:(lia)) as Hc.
  destruct (layout_tables P dex_files compiler) as [ot wt]. simpl in Hc. subst ot.
  cbn [snd]. rewrite E0. reflexivity.
Qed.

(** C10, as the code has it.  Every step of the layout that returns gives
    back a cursor that is not below the one it was given, as long as the
    layout fits the 32-bit offsets of the format; hence a cursor reached
    later in layout order is not below one reached earlier.  (The offsets
    stored in the records are not ordered in this way: a shared artifact
    takes the offset of its first occurrence and an empty one takes 0.) *)
Theorem layout_cursor_monotone :
  (forall o w, 0 <= o -> o + dex_files_extent (dex_files_ w) < 2 ^ 32 ->
     o <= fst (InitOatDexFiles o w)) /\
  (forall o w, 0 <= o -> o + classes_extent (dex_files_ w) < 2 ^ 32 ->
     o <= fst (InitOatClasses o w)) /\
  (forall o w, 0 <= o -> o + methods_extent (dex_files_ w) < 2 ^ 32 ->
     o <= fst (InitOatMethods o w)) /\
  (forall o w, 0 <= o -> o + kPageSize P <= 2 ^ 32 -> o <= fst (InitOatCode P o w)) /\
  (forall o w o' w', 0 <= o ->
     o + items_extent P (compiler_ w) (code_items (dex_files_ w)) < 2 ^ 32 ->
     InitOatCodeDexFiles P o w = Some (o', w') -> o <= o') /\
  (forall o c k is_static is_direct idx dex w o' w', 0 <= o ->
     o + method_extent P (compiler_ w)
           {| m_class := c; m_index := k; m_static := is_static; m_direct := is_direct;
              m_idx := idx; m_dex := dex |} < 2 ^ 32 ->
     InitOatCodeMethod P o c k is_static is_direct idx dex w = Some (o', w') ->
     o <= o') /\
  (forall dex_files compiler pre more rest,
     layout_extent P dex_files compiler < 2 ^ 32 ->
     code_items dex_files = pre ++ more ++ rest ->
     fst (layout_at P dex_files compiler pre) <=
     fst (layout_at P dex_files compiler (pre ++ more))).
Proof.
  split.
  { intros o w H0 Hb. unfold InitOatDexFiles.
    destruct (InitOatDexFiles_loop (dex_files_ w) o w) as [o' w'] eqn:E.
    apply InitOatDexFiles_loop_spec in E as (-> & _); [|lia|lia].
    pose proof (dex_files_extent_nonneg (dex_files_ w)). simpl. lia. }
  split.
  { intros o w H0 Hb. unfold InitOatClasses.
    destruct (InitOatClasses_loop (dex_files_ w) 0 o w) as [o' w'] eqn:E.
    apply InitOatClasses_loop_spec in E as (-> & _); [|lia|lia].
    pose proof (classes_extent_nonneg (dex_files_ w)). simpl. lia. }
  split.
  { intros o w H0 Hb. unfold InitOatMethods.
    destruct (InitOatMethods_loop (dex_files_ w) 0 o w) as [o' w'] eqn:E.
    apply InitOatMethods_loop_spec in E as (-> & _); [|lia|lia].
    pose proof (methods_extent_nonneg (dex_files_ w)). simpl. lia. }
  split.
  { intros o w H0 Hb. unfold InitOatCode. simpl.
    pose proof (RoundUp_bounds o (kPageSize P) (page_pos P HP) H0 Hb). lia. }
  split.
  { intros o w o' w' H0 Hb H. unfold InitOatCodeDexFiles in H.
    apply dex_files_items in H. fold (code_items (dex_files_ w)) in H.
    pose proof (layout_items_bounds P HP (code_items (dex_files_ w)) o w H0 Hb) as B.
    rewrite H in B. simpl in B. lia. }
  split.
  { intros o c k is_static is_direct idx dex w o' w' H0 Hb H.
    pose proof (layout_method_bounds P HP _ o w H0 Hb) as B. simpl in B.
    unfold InitOatCodeMethod in H.
    destruct (layout_method P o is_static idx dex w) as [[o1 mo] w1].
    simpl in H, B.
    destruct (IsImage (compiler_ w1));
      [destruct (ResolveMethod P dex idx is_direct); [|discriminate H]|];
      injection H as <- _; lia. }
  intros dex_files compiler pre more rest Hb Hsplit.
  pose proof (items_extent_nonneg P HP compiler pre) as E1.
  pose proof (items_extent_nonneg P HP compiler more) as E2.
  pose proof (items_extent_nonneg P HP compiler rest) as E3.
  unfold layout_extent in Hb. rewrite Hsplit, !items_extent_app in Hb.
  unfold layout_at. rewrite layout_items_app.
  destruct (layout_start P dex_files compiler) as [o0 w0] eqn:E0.
  destruct (layout_start_spec P HP dex_files compiler o0 w0 ltac:(lia) E0)
    as ((Ho0 & _) & _ & (Hc & _) & _).
  pose proof (header_extent_pos P) as Hh.
  assert (Hte : header_extent P <= tables_extent P dex_files).
  { unfold tables_extent. pose proof (dex_files_extent_nonneg dex_files).
    pose proof (classes_extent_nonneg dex_files). pose proof (methods_extent_nonneg dex_files).
    lia. }
  pose proof (layout_items_bounds P HP pre o0 w0 ltac:(lia) ltac:(rewrite Hc; lia)) as B1.
  pose proof (layout_items_extends P pre (o0, w0)) as X. apply extends_compiler in X.
  destruct (layout_items P pre (o0, w0)) as [lo lw]. simpl in *.
  rewrite Hc in *.
  pose proof (layout_items_bounds P HP more lo lw ltac:(lia) ltac:(rewrite X; lia)) as B2.
  lia.
Qed.

(** The two passes when they reach a method: the state of the layout, the
    state of the emit pass, and the record the layout stores. *)
Lemma at_method (dex_files : list DexFile) (compiler : Compiler) (cursor : Z)
    (w : OatWriter) (file_name : string) (pre : list Item) (m : MethodRef)
    (post : list Item) :
  layout_extent P dex_files compiler < 2 ^ 32 ->
  OatWriter_layout P dex_files compiler = Some (cursor, w) ->
  code_items dex_files = pre ++ IMethod m :: post ->
  exists lo lw ew ops o1 mo w1,
    layout_at P dex_files compiler pre = (lo, lw) /\
    emit_at P w file_name pre = (lo, ew) /\
    emits (fresh_file file_name []) ew ops lo /\
    (0 < lo /\ lo + method_extent P compiler m < 2 ^ 32) /\
    (maps_below lw lo /\ maps_empty_at_zero lw) /\
    (compiler_ lw = compiler /\ compiler_ w = compiler) /\
    layout_method P lo (m_static m) (m_idx m) (m_dex m) lw = (o1, mo, w1) /\
    extends w1 w /\
    method_offsets_at w (m_class m) (m_index m) = mo /\
    layout_at P dex_files compiler (pre ++ [IMethod m]) =
      (o1, record_method P (m_class m) (m_index m) (m_direct m) (m_idx m) (m_dex m) mo w1).
Proof.
  intros Hb Hl Hsplit.
  destruct (reach P HP dex_files compiler cursor w file_name pre (IMethod m :: post)
              Hb Hl Hsplit)
    as (lo & lw & ew & ops & La & Ea & Q & (H0 & Hext) & (Mb & Mz) & Hk & Hc & Hrest & X & _).
  simpl in Hext.
  pose proof (items_extent_nonneg P HP compiler post) as Hpost.
  destruct (layout_method P lo (m_static m) (m_idx m) (m_dex m) lw) as [[o1 mo] w1] eqn:E.
  exists lo, lw, ew, ops, o1, mo, w1.
  pose proof (layout_method_extends P lo (m_static m) (m_idx m) (m_dex m) lw) as X1.
  rewrite E in X1. simpl in X1.
  assert (Hitem : layout_item P (IMethod m) (lo, lw) =
                  (o1, record_method P (m_class m) (m_index m) (m_direct m) (m_idx m)
                         (m_dex m) mo w1)).
  { simpl. unfold layout_method_item; cbn [fst snd]. rewrite E. reflexivity. }
  rewrite layout_items_cons, Hitem in Hrest.
  pose proof (layout_items_extends P post
                (o1, record_method P (m_class m) (m_index m) (m_direct m) (m_idx m)
                       (m_dex m) mo w1)) as X2.
  rewrite Hrest in X2. simpl in X2.
  pose proof (record_method_extends P (m_class m) (m_index m) (m_direct m) (m_idx m)
                (m_dex m) mo w1) as Xs.
  destruct (keys_ok_cons_inv lw lw (IMethod m) post Hk (extends_refl lw))
    as ((Hr & Hnot) & _). simpl in Hr, Hnot.
  split; [exact La|]. split; [exact Ea|]. split; [exact Q|].
  split; [split; [exact H0|lia]|]. split; [split; assumption|].
  split; [split; [exact Hc|rewrite (extends_compiler _ _ X); exact Hc]|].
  split; [exact E|]. split; [exact (extends_trans _ _ _ Xs X2)|].
  split.
  - pose proof (layout_items_other P post
                  (o1, record_method P (m_class m) (m_index m) (m_direct m) (m_idx m)
                         (m_dex m) mo w1) (m_class m) (m_index m) Hnot) as Ho.
    rewrite Hrest in Ho. simpl in Ho. rewrite Ho.
    apply record_method_same. eapply in_range_extends; eassumption.
  - unfold layout_at in *. rewrite layout_items_app, La. exact Hitem.
Qed.

Lemma layout_method_abstract (o : Z) (st : bool) (idx : Z) (dex : DexFile) (w : OatWriter) :
  GetCompiledMethod (compiler_ w) dex idx = None ->
  let mo := snd (fst (layout_method P o st idx dex w)) in
  code_offset_ mo = 0 /\ frame_size_in_bytes_ mo = u32 (kStackAlignment P) /\
  core_spill_mask_ mo = 0 /\ fp_spill_mask_ mo = 0 /\
  mapping_table_offset_ mo = 0 /\ vmap_table_offset_ mo = 0 /\
  (FindInvokeStub (compiler_ w) st (GetMethodShorty dex idx) = None ->
   invoke_stub_offset_ mo = 0).
Proof.
  intros H. unfold layout_method. rewrite H. unfold layout_word. simpl compiler_.
  destruct (FindInvokeStub (compiler_ w) st (GetMethodShorty dex idx)) as [stub|].
  - match goal with
    | |- context [layout_invoke_stub P stub ?o ?w] =>
        destruct (layout_invoke_stub P stub o w) as [[o4 v4] w4]
    end.
    simpl. repeat split; try reflexivity. discriminate.
  - simpl. repeat split; reflexivity.
Qed.

Lemma kStackAlignment_u32 : u32 (kStackAlignment P) = kStackAlignment P.
Proof. destruct HP as (_ & _ & _ & H). apply u32_small. lia. Qed.

(** C3, as the code has it.  The record of a method without compiled code
    has code_offset, core_spill_mask, fp_spill_mask, mapping_table_offset and
    vmap_table_offset 0, and its frame_size_in_bytes is the stack alignment;
    invoke_stub_offset is 0 unless the method has an invoke stub. *)
Theorem abstract_method_layout (dex_files : list DexFile) (compiler : Compiler)
    (cursor : Z) (w : OatWriter) (m : MethodRef) :
  layout_extent P dex_files compiler < 2 ^ 32 ->
  OatWriter_layout P dex_files compiler = Some (cursor, w) ->
  IMethod m ∈ code_items dex_files ->
  GetCompiledMethod compiler (m_dex m) (m_idx m) = None ->
  let mo := method_offsets_at w (m_class m) (m_index m) in
  code_offset_ mo = 0 /\ frame_size_in_bytes_ mo = kStackAlignment P /\
  core_spill_mask_ mo = 0 /\ fp_spill_mask_ mo = 0 /\
  mapping_table_offset_ mo = 0 /\ vmap_table_offset_ mo = 0 /\
  (FindInvokeStub compiler (m_static m) (GetMethodShorty (m_dex m) (m_idx m)) = None ->
   invoke_stub_offset_ mo = 0).
Proof.
  intros Hb Hl Hin Hcm.
  apply list_elem_of_split in Hin as (pre & post & Hsplit).
  destruct (at_method dex_files compiler cursor w "" pre m post Hb Hl Hsplit)
    as (lo & lw & ew & ops & o1 & mo & w1 & _ & _ & _ & _ & _ & (Hc & _) & E & _ & Hmo & _).
  cbv zeta. rewrite Hmo.
  pose proof (layout_method_abstract lo (m_static m) (m_idx m) (m_dex m) lw
                ltac:(rewrite Hc; exact Hcm)) as H.
  rewrite E, Hc, kStackAlignment_u32 in H. exact H.
Qed.

End Claims.

Lemma executable_offset_page_aligned_witness :
  executable_offset_ (oat_header_ example_writer) mod kPageSize example_platform = 0 /\
  executable_offset_ (oat_header_ example_writer) = 4096.
Proof.
  split; [|vm_compute; reflexivity].
  exact (proj1 (executable_offset_page_aligned example_platform example_platform_ok
                  [example_dex] example_compiler example_cursor example_writer
                  example_fits example_layout_eq)).
Defined.

Lemma layout_cursor_monotone_witness :
  153 <= fst (InitOatCode example_platform 153 example_writer) /\
  fst (layout_at example_platform [example_dex] example_compiler []) <=
  fst (layout_at example_platform [example_dex] example_compiler
         (code_items [example_dex])).
Proof.
  pose proof (layout_cursor_monotone example_platform example_platform_ok)
    as (_ & _ & _ & H4 & _ & _ & H7).
  split.
  - apply H4; [lia|vm_compute; discriminate].
  - apply (H7 [example_dex] example_compiler [] (code_items [example_dex]) []).
    + exact example_fits.
    + rewrite app_nil_r. reflexivity.
Defined.

(** C10 as stated fails: in the example the second method takes the mapping
    table of the first, at 4114, after the invoke stub of the first was
    placed at 4128. *)
Lemma offsets_ordered_counterexample :
  ~ offsets_ordered [example_dex] example_writer.
Proof.
  intros H.
  assert (E3 : assigned_offsets example_writer (code_items [example_dex]) !! 3%nat =
               Some 4128) by (vm_compute; reflexivity).
  assert (E5 : assigned_offsets example_writer (code_items [example_dex]) !! 5%nat =
               Some 4114) by (vm_compute; reflexivity).
  pose proof (H 3%nat 5%nat 4128 4114 ltac:(lia) E3 E5) as L. lia.
Qed.

Lemma example_abstract_in : IMethod example_abstract ∈ code_items [example_dex].
Proof. apply list_elem_of_lookup. exists 3%nat. reflexivity. Defined.

Lemma abstract_method_layout_witness :
  frame_size_in_bytes_ (method_offsets_at example_writer 0 3) = 16 /\
  code_offset_ (method_offsets_at example_writer 0 3) = 0.
Proof.
  pose proof (abstract_method_layout example_platform example_platform_ok [example_dex]
                example_compiler example_cursor example_writer example_abstract
                example_fits example_layout_eq example_abstract_in eq_refl)
    as (H1 & H2 & _).
  split; [exact H2|exact H1].
Defined.

(** C3 as stated fails: the frame size of the abstract method of the
    example is 16, not 0. *)
Lemma abstract_fields_zero_counterexample :
  ~ abstract_fields_zero [example_dex] example_compiler example_writer.
Proof.
  intros H.
  destruct (H example_abstract example_abstract_in eq_refl) as (_ & H2 & _).
  vm_compute in H2. discriminate H2.
Qed.

(** ** The emit pass on a file that may fail *)

Lemma clean_refl (o : World) : clean o o.
Proof. exists []. rewrite app_nil_r. repeat split. constructor. Qed.

Lemma clean_trans (o1 o2 o3 : World) : clean o1 o2 -> clean o2 o3 -> clean o1 o3.
Proof.
  intros (ops1 & J1 & A1 & L1) (ops2 & J2 & A2 & L2). exists (ops1 ++ ops2).
  rewrite J2, J1, app_assoc. repeat split; [apply Forall_app; auto|congruence].
Qed.

Lemma clean_broken (o1 o2 o3 : World) : clean o1 o2 -> broken o2 o3 -> broken o1 o3.
Proof.
  intros (ops1 & J1 & A1 & L1) (ops2 & op & J2 & A2 & F & L2). exists (ops1 ++ ops2), op.
  rewrite J2, J1, <- !app_assoc. repeat split; [apply Forall_app; auto|exact F|congruence].
Qed.

Lemma clean_failed (o1 o2 o3 : World) : clean o1 o2 -> failed o2 o3 -> failed o1 o3.
Proof.
  intros (ops1 & J1 & A1 & L1) (ops2 & line & lines & J2 & L2 & Hl & Hops).
  exists (ops1 ++ ops2), line, lines.
  rewrite J2, J1, app_assoc. split; [reflexivity|]. split; [congruence|].
  split; [exact Hl|].
  destruct Hops as [A2|(ops0 & op & -> & A0 & F)].
  - left. apply Forall_app; auto.
  - right. exists (ops1 ++ ops0), op. rewrite app_assoc.
    repeat split; [apply Forall_app; auto|exact F].
Qed.

Lemma clean_LOG (o o' : World) (line : string) :
  clean o o' -> is_failure_line line -> failed o (LOG line o').
Proof.
  intros (ops & J & A & L) Hl. exists ops, line, []. simpl.
  repeat split; [exact J|congruence|exact Hl|left; exact A].
Qed.

Lemma broken_LOG (o o' : World) (line : string) :
  broken o o' -> is_failure_line line -> failed o (LOG line o').
Proof.
  intros (ops & op & J & A & F & L) Hl. exists (ops ++ [op]), line, []. simpl.
  repeat split; [exact J|congruence|exact Hl|].
  right. exists ops, op. auto.
Qed.

Lemma failed_LOG (o o' : World) (line : string) : failed o o' -> failed o (LOG line o').
Proof.
  intros (ops & l & ls & J & L & Hl & Hops). exists ops, l, (ls ++ [line]). simpl.
  repeat split; [exact J| |exact Hl|exact Hops].
  rewrite L, <- app_assoc. reflexivity.
Qed.

Lemma WriteFully_cases (bytes : list Z) (o : World) :
  exists ok o', WriteFully bytes o = (ok, o') /\
                (ok = true /\ clean o o' \/ ok = false /\ broken o o').
Proof.
  unfold WriteFully, file_WriteFully. destruct bytes as [|b bytes].
  - exists true, o. destruct o as [f l]. split; [reflexivity|].
    left. split; [reflexivity|apply clean_refl].
  - destruct (f_faults (w_file o)) as [|[k|] rest]; eexists; eexists;
      (split; [reflexivity|]).
    + left. split; [reflexivity|]. eexists. simpl.
      repeat split. repeat constructor.
    + right. split; [reflexivity|]. exists [], (OpWrite (f_pos (w_file o)) (b :: bytes) false).
      simpl. repeat split. constructor.
    + left. split; [reflexivity|]. eexists. simpl.
      repeat split. repeat constructor.
Qed.

Lemma lseek_cur_cases (delta : Z) (o : World) :
  exists r o', lseek_cur delta o = (r, o') /\
               (clean o o' \/ r = -1 /\ broken o o').
Proof.
  unfold lseek_cur, file_lseek_cur.
  destruct (f_faults (w_file o)) as [|[k|] rest]; eexists; eexists;
    (split; [reflexivity|]).
  - left. eexists. simpl. repeat split. repeat constructor.
  - right. split; [reflexivity|]. exists [], (OpSeek (f_pos (w_file o)) delta false).
    simpl. repeat split. constructor.
  - left. eexists. simpl. repeat split. repeat constructor.
Qed.

Lemma OatDexFile_Write_outcome (d : OatDexFile) (o : World) :
  outcome_of (fst (OatDexFile_Write d o)) o (snd (OatDexFile_Write d o)).
Proof.
  unfold OatDexFile_Write.
  destruct (WriteFully_cases (le32 (dex_file_location_size_ d)) o)
    as (ok1 & o1 & -> & [(-> & H1)|(-> & H1)]); simpl;
    [|apply broken_LOG; [exact H1|reflexivity]].
  destruct (WriteFully_cases (dex_file_location_data_ d) o1)
    as (ok2 & o2 & -> & [(-> & H2)|(-> & H2)]); simpl;
    [|apply broken_LOG; [exact (clean_broken _ _ _ H1 H2)|reflexivity]].
  pose proof (clean_trans _ _ _ H1 H2) as H12.
  destruct (WriteFully_cases (le32 (dex_file_checksum_ d)) o2)
    as (ok3 & o3 & -> & [(-> & H3)|(-> & H3)]); simpl;
    [|apply broken_LOG; [exact (clean_broken _ _ _ H12 H3)|reflexivity]].
  pose proof (clean_trans _ _ _ H12 H3) as H13.
  destruct (WriteFully_cases (le32 (classes_offset_ d)) o3)
    as (ok4 & o4 & -> & [(-> & H4)|(-> & H4)]); simpl;
    [|apply broken_LOG; [exact (clean_broken _ _ _ H13 H4)|reflexivity]].
  exact (clean_trans _ _ _ H13 H4).
Qed.

Lemma OatClasses_Write_outcome (c : OatClasses) (o : World) :
  outcome_of (fst (OatClasses_Write c o)) o (snd (OatClasses_Write c o)).
Proof.
  unfold OatClasses_Write.
  destruct (WriteFully_cases (OatClasses_bytes c) o)
    as (ok1 & o1 & -> & [(-> & H1)|(-> & H1)]); simpl;
    [exact H1|apply broken_LOG; [exact H1|reflexivity]].
Qed.

Lemma OatMethods_Write_outcome (m : OatMethods) (o : World) :
  outcome_of (fst (OatMethods_Write m o)) o (snd (OatMethods_Write m o)).
Proof.
  unfold OatMethods_Write.
  destruct (WriteFully_cases (OatMethods_bytes m) o)
    as (ok1 & o1 & -> & [(-> & H1)|(-> & H1)]); simpl;
    [exact H1|apply broken_LOG; [exact H1|reflexivity]].
Qed.

Lemma write_all_outcome {A} (write : A -> World -> bool * World) (failure : string)
    (l : list A) :
  (forall x o, outcome_of (fst (write x o)) o (snd (write x o))) ->
  forall o, outcome_of (fst (write_all write failure l o)) o
              (snd (write_all write failure l o)).
Proof.
  intros Hw. induction l as [|x l IH]; intros o; simpl.
  - apply clean_refl.
  - pose proof (Hw x o) as H1. destruct (write x o) as [ok o1]. simpl in H1.
    destruct ok; simpl in *.
    + pose proof (IH o1) as H2.
      destruct (write_all write failure l o1) as [ok2 o2]. simpl in *.
      destruct ok2; simpl in *;
        [exact (clean_trans _ _ _ H1 H2)|exact (clean_failed _ _ _ H1 H2)].
    + apply failed_LOG, H1.
Qed.

Lemma WriteTables_outcome (w : OatWriter) (o : World) :
  outcome_of (fst (WriteTables w o)) o (snd (WriteTables w o)).
Proof.
  unfold WriteTables.
  pose proof (write_all_outcome OatDexFile_Write "Failed to write oat dex information to "
                (oat_dex_files_ w) OatDexFile_Write_outcome o) as H1.
  destruct (write_all OatDexFile_Write _ (oat_dex_files_ w) o) as [ok1 o1].
  destruct ok1; simpl in *; [|exact H1].
  pose proof (write_all_outcome OatClasses_Write
                "Failed to write oat classes information to "
                (oat_classes_ w) OatClasses_Write_outcome o1) as H2.
  destruct (write_all OatClasses_Write _ (oat_classes_ w) o1) as [ok2 o2].
  destruct ok2; simpl in *; [|exact (clean_failed _ _ _ H1 H2)].
  pose proof (clean_trans _ _ _ H1 H2) as H12.
  pose proof (write_all_outcome OatMethods_Write
                "Failed to write oat methods information to "
                (oat_methods_ w) OatMethods_Write_outcome o2) as H3.
  destruct (write_all OatMethods_Write _ (oat_methods_ w) o2) as [ok3 o3].
  destruct ok3; simpl in *;
    [exact (clean_trans _ _ _ H12 H3)|exact (clean_failed _ _ _ H12 H3)].
Qed.

Lemma u32_minus_one : u32 (-1) = 2 ^ 32 - 1.
Proof. reflexivity. Qed.

Lemma WriteCode_outcome (w : OatWriter) (o : World) :
  executable_offset_ (oat_header_ w) <> 2 ^ 32 - 1 ->
  outcome (fst (WriteCode w o)) o (snd (WriteCode w o)).
Proof.
  intros Hx. unfold WriteCode.
  destruct (lseek_cur_cases (executable_offset_padding_length_ w) o)
    as (r & o1 & -> & [H1|(-> & H1)]).
  - destruct (u32 r =? executable_offset_ (oat_header_ w)); simpl.
    + left. exact H1.
    + right. split; [reflexivity|]. apply clean_LOG; [exact H1|reflexivity].
  - rewrite u32_minus_one.
    destruct (2 ^ 32 - 1 =? executable_offset_ (oat_header_ w)) eqn:E; simpl.
    + apply Z.eqb_eq in E. congruence.
    + right. split; [reflexivity|]. apply broken_LOG; [exact H1|reflexivity].
Qed.

Lemma RoundUp_not_max (n c : Z) :
  is_power_of_two n -> u32 (u32 (RoundUp c n) - c) <> 0 -> u32 (RoundUp c n) <> 2 ^ 32 - 1.
Proof.
  intros Hn Hd. pose proof (pow2_pos n Hn) as Hpos.
  unfold RoundUp in *. cbv zeta in *.
  pose proof (u32_range (c + n - 1)) as Hy. set (y := u32 (c + n - 1)) in *.
  destruct (pow2_one_or_even n Hn) as [->|(h & ->)].
  - exfalso. apply Hd. rewrite Z.mod_1_r, Z.sub_0_r in *.
    unfold y. replace (c + 1 - 1) with c by lia. rewrite u32_u32.
    unfold u32. rewrite Zminus_mod_idemp_l, Z.sub_diag. reflexivity.
  - pose proof (Z.div_mod y (2 * h) ltac:(lia)) as Hdm.
    pose proof (Z.mod_pos_bound y (2 * h) ltac:(lia)) as Hm.
    pose proof (Z.mod_le y (2 * h) ltac:(lia) ltac:(lia)) as Hle.
    rewrite u32_small by lia. intros E.
    assert (y - y mod (2 * h) = 2 * (h * (y / (2 * h)))) by lia.
    lia.
Qed.

Lemma and_then_outcome (r : option Z * World) (k : Z -> World -> option Z * World)
    (o : World) :
  outcome_opt (fst r) o (snd r) ->
  (forall c o1, outcome_opt (fst (k c o1)) o1 (snd (k c o1))) ->
  outcome_opt (fst (and_then r k)) o (snd (and_then r k)).
Proof.
  intros H1 Hk. destruct r as [[c|] o1]; simpl in *; [|exact H1].
  pose proof (Hk c o1) as H2. destruct (k c o1) as [[c2|] o2]; simpl in *;
    [exact (clean_trans _ _ _ H1 H2)|exact (clean_failed _ _ _ H1 H2)].
Qed.

Section Outcomes.

Variable P : Platform.
Hypothesis HP : platform_ok P.

Lemma write_alignment_outcome (aligned : Z) (failure : string) (with_file : bool) (c : Z)
    (o : World) :
  (u32 (aligned - c) <> 0 -> aligned <> 2 ^ 32 - 1) ->
  (forall s, is_failure_line (failure ++ s)) ->
  outcome_opt (fst (write_alignment aligned failure with_file c o)) o
    (snd (write_alignment aligned failure with_file c o)).
Proof.
  intros Ha Hl. unfold write_alignment.
  destruct (u32 (aligned - c) =? 0) eqn:E; simpl; [apply clean_refl|].
  apply Z.eqb_neq in E. specialize (Ha E).
  destruct (lseek_cur_cases (u32 (aligned - c)) o) as (r & o1 & -> & [H1|(-> & H1)]).
  - destruct (u32 r =? aligned); simpl; [exact H1|].
    apply clean_LOG; [exact H1|apply Hl].
  - rewrite u32_minus_one. destruct (2 ^ 32 - 1 =? aligned) eqn:E'; simpl.
    + apply Z.eqb_eq in E'. congruence.
    + apply broken_LOG; [exact H1|apply Hl].
Qed.

Lemma ReportWriteFailure_failed (what : string) (idx : Z) (dex : DexFile) (o o' : World) :
  broken o o' -> failed o (ReportWriteFailure P what idx dex o').
Proof. intros H. apply broken_LOG; [exact H|reflexivity]. Qed.

Lemma write_word_outcome (x : Z) (what : string) (idx : Z) (dex : DexFile) (c : Z)
    (o : World) :
  outcome_opt (fst (write_word P x what idx dex c o)) o
    (snd (write_word P x what idx dex c o)).
Proof.
  unfold write_word.
  destruct (WriteFully_cases (le32 x) o) as (ok & o1 & -> & [(-> & H)|(-> & H)]); simpl;
    [exact H|apply ReportWriteFailure_failed, H].
Qed.

Lemma write_code_outcome (w : OatWriter) (cm : CompiledMethod) (mo : OatMethodOffsets)
    (idx : Z) (dex : DexFile) (c : Z) (o : World) :
  outcome_opt (fst (write_code P w cm mo idx dex c o)) o
    (snd (write_code P w cm mo idx dex c o)).
Proof.
  unfold write_code.
  pose proof (write_alignment_outcome (u32 (AlignCode P cm c))
                "Failed to seek to align oat code. Actual: " true c o) as H1.
  destruct (write_alignment (u32 (AlignCode P cm c)) _ true c o) as [[c1|] o1]; simpl in *.
  - assert (Hc : clean o o1).
    { apply H1; [|reflexivity]. apply RoundUp_not_max. destruct HP as (_ & _ & H & _).
      apply H. }
    destruct (_ && _); simpl; [exact Hc|].
    destruct (WriteFully_cases (code_vec (compiler_ w) (GetCode cm)) o1)
      as (ok & o2 & -> & [(-> & H)|(-> & H)]); simpl.
    + exact (clean_trans _ _ _ Hc H).
    + apply ReportWriteFailure_failed. exact (clean_broken _ _ _ Hc H).
  - apply H1; [|reflexivity]. apply RoundUp_not_max. destruct HP as (_ & _ & H & _).
    apply H.
Qed.

Lemma write_mapping_table_outcome (w : OatWriter) (cm : CompiledMethod)
    (mo : OatMethodOffsets) (idx : Z) (dex : DexFile) (c : Z) (o : World) :
  outcome_opt (fst (write_mapping_table P w cm mo idx dex c o)) o
    (snd (write_mapping_table P w cm mo idx dex c o)).
Proof.
  unfold write_mapping_table.
  destruct (_ && _); simpl; [apply clean_refl|].
  destruct (WriteFully_cases (bytes_of_u32s (mapping_vec (compiler_ w) (GetMappingTable cm))) o)
    as (ok & o2 & -> & [(-> & H)|(-> & H)]); simpl;
    [exact H|apply ReportWriteFailure_failed, H].
Qed.

Lemma write_vmap_table_outcome (w : OatWriter) (cm : CompiledMethod)
    (mo : OatMethodOffsets) (idx : Z) (dex : DexFile) (c : Z) (o : World) :
  outcome_opt (fst (write_vmap_table P w cm mo idx dex c o)) o
    (snd (write_vmap_table P w cm mo idx dex c o)).
Proof.
  unfold write_vmap_table.
  destruct (_ && _); simpl; [apply clean_refl|].
  destruct (WriteFully_cases (bytes_of_u16s (vmap_vec (compiler_ w) (GetVmapTable cm))) o)
    as (ok & o2 & -> & [(-> & H)|(-> & H)]); simpl;
    [exact H|apply ReportWriteFailure_failed, H].
Qed.

Lemma write_invoke_stub_outcome (w : OatWriter) (stub : CompiledInvokeStub)
    (mo : OatMethodOffsets) (idx : Z) (dex : DexFile) (c : Z) (o : World) :
  outcome_opt (fst (write_invoke_stub P w stub mo idx dex c o)) o
    (snd (write_invoke_stub P w stub mo idx dex c o)).
Proof.
  unfold write_invoke_stub.
  pose proof (write_alignment_outcome
                (u32 (AlignCodeFor P c (GetInstructionSet (compiler_ w))))
                "Failed to seek to align invoke stub code. Actual: " false c o) as H1.
  destruct (write_alignment (u32 (AlignCodeFor P c (GetInstructionSet (compiler_ w))))
              _ false c o) as [[c1|] o1]; simpl in *.
  - assert (Hc : clean o o1).
    { apply H1; [|reflexivity]. apply RoundUp_not_max. destruct HP as (_ & _ & H & _).
      apply H. }
    destruct (_ && _); simpl; [exact Hc|].
    destruct (WriteFully_cases (code_vec (compiler_ w) (GetStubCode stub)) o1)
      as (ok & o2 & -> & [(-> & H)|(-> & H)]); simpl.
    + exact (clean_trans _ _ _ Hc H).
    + apply ReportWriteFailure_failed. exact (clean_broken _ _ _ Hc H).
  - apply H1; [|reflexivity]. apply RoundUp_not_max. destruct HP as (_ & _ & H & _).
    apply H.
Qed.

Lemma WriteCodeMethod_blocks_outcome (w : OatWriter) (c : Z) (ci k : nat) (st : bool)
    (idx : Z) (dex : DexFile) (o : World) :
  outcome_opt (fst (WriteCodeMethod_blocks P w c ci k st idx dex o)) o
    (snd (WriteCodeMethod_blocks P w c ci k st idx dex o)).
Proof.
  unfold WriteCodeMethod_blocks.
  apply and_then_outcome.
  { destruct (GetCompiledMethod (compiler_ w) dex idx);
      [apply write_code_outcome|apply clean_refl]. }
  intros c1 o1. apply and_then_outcome; [apply write_word_outcome|].
  intros c2 o2. apply and_then_outcome; [apply write_word_outcome|].
  intros c3 o3. apply and_then_outcome; [apply write_word_outcome|].
  intros c4 o4. apply and_then_outcome.
  { destruct (GetCompiledMethod (compiler_ w) dex idx); [|apply clean_refl].
    apply and_then_outcome; [apply write_mapping_table_outcome|].
    intros c5 o5. apply write_vmap_table_outcome. }
  intros c6 o6.
  destruct (FindInvokeStub (compiler_ w) st (GetMethodShorty dex idx));
    [apply write_invoke_stub_outcome|apply clean_refl].
Qed.

Lemma WriteCodeMethod_outcome (w : OatWriter) (c : Z) (ci k : nat) (st : bool)
    (idx : Z) (dex : DexFile) (o : World) :
  outcome (fst (WriteCodeMethod P w c ci k st idx dex o)) o
    (snd (WriteCodeMethod P w c ci k st idx dex o)).
Proof.
  unfold WriteCodeMethod.
  pose proof (WriteCodeMethod_blocks_outcome w c ci k st idx dex o) as H.
  destruct (WriteCodeMethod_blocks P w c ci k st idx dex o) as [[c1|] o1]; simpl in *.
  - left. exact H.
  - right. auto.
Qed.

Lemma outcome_step (c1 : Z) (o o1 : World) (c2 : Z) (o2 : World) :
  outcome c1 o o1 -> outcome c2 o1 o2 -> c1 <> 0 -> outcome c2 o o2.
Proof.
  intros [H1|(E & _)] H2 Hne; [|contradiction].
  destruct H2 as [H2|(E & H2)].
  - left. exact (clean_trans _ _ _ H1 H2).
  - right. split; [exact E|exact (clean_failed _ _ _ H1 H2)].
Qed.

Lemma outcome_zero (c : Z) (o o1 : World) : outcome c o o1 -> c = 0 -> outcome 0 o o1.
Proof. intros H ->. exact H. Qed.

Lemma WriteCode_methods_outcome (w : OatWriter) (it : list EncodedMethod) (direct : bool) :
  forall (c : Z) (ci k : nat) (dex : DexFile) (o : World),
  let r := WriteCode_methods P w it direct c ci k dex o in
  outcome (fst (fst r)) o (snd r).
Proof.
  induction it as [|e it IH]; intros c ci k dex o; simpl.
  - left. apply clean_refl.
  - pose proof (WriteCodeMethod_outcome w c ci k
                  (direct && is_static_flag (GetMemberAccessFlags e)) (GetMemberIndex e)
                  dex o) as H1.
    destruct (WriteCodeMethod P w c ci k _ (GetMemberIndex e) dex o) as [c1 o1].
    simpl in H1. destruct (c1 =? 0) eqn:E; simpl.
    + apply Z.eqb_eq in E. exact (outcome_zero _ _ _ H1 E).
    + apply Z.eqb_neq in E. exact (outcome_step _ _ _ _ _ H1 (IH c1 ci (S k) dex o1) E).
Qed.

Lemma WriteCodeClassDef_outcome (w : OatWriter) (c : Z) (ci : nat) (dex : DexFile)
    (cd : option ClassData) (o : World) :
  outcome (fst (WriteCodeClassDef P w c ci dex cd o)) o
    (snd (WriteCodeClassDef P w c ci dex cd o)).
Proof.
  unfold WriteCodeClassDef. destruct cd as [it|]; [|left; apply clean_refl].
  pose proof (WriteCode_methods_outcome w (direct_methods it) true c ci 0%nat dex o) as H1.
  destruct (WriteCode_methods P w (direct_methods it) true c ci 0 dex o) as [[c1 k1] o1].
  simpl in H1. destruct (c1 =? 0) eqn:E; simpl.
  - apply Z.eqb_eq in E. exact (outcome_zero _ _ _ H1 E).
  - apply Z.eqb_neq in E.
    pose proof (WriteCode_methods_outcome w (virtual_methods it) false c1 ci k1 dex o1) as H2.
    destruct (WriteCode_methods P w (virtual_methods it) false c1 ci k1 dex o1)
      as [[c2 k2] o2]. simpl in *.
    exact (outcome_step _ _ _ _ _ H1 H2 E).
Qed.

Lemma WriteCodeDexFile_loop_outcome (w : OatWriter) (defs : list (option ClassData)) :
  forall (c : Z) (ci : nat) (dex : DexFile) (o : World),
  let r := WriteCodeDexFile_loop P w defs c ci dex o in
  outcome (fst (fst r)) o (snd r).
Proof.
  induction defs as [|cd defs IH]; intros c ci dex o; simpl.
  - left. apply clean_refl.
  - pose proof (WriteCodeClassDef_outcome w c ci dex cd o) as H1.
    destruct (WriteCodeClassDef P w c ci dex cd o) as [c1 o1].
    simpl in H1. destruct (c1 =? 0) eqn:E; simpl.
    + apply Z.eqb_eq in E. exact (outcome_zero _ _ _ H1 E).
    + apply Z.eqb_neq in E. exact (outcome_step _ _ _ _ _ H1 (IH c1 (S ci) dex o1) E).
Qed.

Lemma WriteCodeDexFiles_loop_outcome (w : OatWriter) (dex_files : list DexFile) :
  forall (c : Z) (ci : nat) (o : World),
  let r := WriteCodeDexFiles_loop P w dex_files c ci o in
  outcome (fst r) o (snd r).
Proof.
  induction dex_files as [|d rest IH]; intros c ci o; simpl.
  - left. apply clean_refl.
  - unfold WriteCodeDexFile.
    pose proof (WriteCodeDexFile_loop_outcome w (class_defs d) c ci d o) as H1.
    destruct (WriteCodeDexFile_loop P w (class_defs d) c ci d o) as [[c1 ci1] o1].
    simpl in H1. destruct (c1 =? 0) eqn:E; simpl.
    + apply Z.eqb_eq in E. exact (outcome_zero _ _ _ H1 E).
    + apply Z.eqb_neq in E. exact (outcome_step _ _ _ _ _ H1 (IH c1 ci1 o1) E).
Qed.

Lemma outcome_LOG (c : Z) (o o1 : World) (line : string) :
  outcome c o o1 -> is_failure_line line -> failed o (LOG line o1).
Proof.
  intros [H|(_ & H)] Hl; [apply clean_LOG; assumption|apply failed_LOG, H].
Qed.

Lemma Write_outcome (w : OatWriter) (o : World) :
  executable_offset_ (oat_header_ w) <> 2 ^ 32 - 1 ->
  outcome_of (fst (Write P w o)) o (snd (Write P w o)).
Proof.
  intros Hx. unfold Write.
  destruct (WriteFully_cases (OatHeader_bytes (oat_header_ w)) o)
    as (ok & o1 & -> & [(-> & H1)|(-> & H1)]); simpl;
    [|apply broken_LOG; [exact H1|reflexivity]].
  pose proof (WriteTables_outcome w o1) as H2.
  destruct (WriteTables w o1) as [ok2 o2]. destruct ok2; simpl in *;
    [|apply failed_LOG; exact (clean_failed _ _ _ H1 H2)].
  pose proof (clean_trans _ _ _ H1 H2) as H12.
  pose proof (WriteCode_outcome w o2 Hx) as H3.
  destruct (WriteCode w o2) as [c3 o3]. simpl in H3.
  destruct (c3 =? 0) eqn:E3; simpl.
  { destruct H3 as [H3|(_ & H3)].
    - apply clean_LOG; [exact (clean_trans _ _ _ H12 H3)|reflexivity].
    - apply failed_LOG. exact (clean_failed _ _ _ H12 H3). }
  apply Z.eqb_neq in E3.
  destruct H3 as [H3|(E & _)]; [|contradiction].
  pose proof (clean_trans _ _ _ H12 H3) as H13.
  unfold WriteCodeDexFiles.
  pose proof (WriteCodeDexFiles_loop_outcome w
                (take (length (oat_classes_ w)) (dex_files_ w)) c3 0%nat o3) as H4.
  destruct (WriteCodeDexFiles_loop P w _ c3 0 o3) as [c4 o4]. simpl in H4.
  destruct (c4 =? 0) eqn:E4; simpl.
  - destruct H4 as [H4|(_ & H4)].
    + apply clean_LOG; [exact (clean_trans _ _ _ H13 H4)|reflexivity].
    + apply failed_LOG. exact (clean_failed _ _ _ H13 H4).
  - apply Z.eqb_neq in E4. destruct H4 as [H4|(E & _)]; [|contradiction].
    exact (clean_trans _ _ _ H13 H4).
Qed.

End Outcomes.

Section ClaimsEmit.

Variable P : Platform.
Hypothesis HP : platform_ok P.

Lemma OatWriter_layout_executable_offset (dex_files : list DexFile) (compiler : Compiler)
    (cursor : Z) (w : OatWriter) :
  OatWriter_layout P dex_files compiler = Some (cursor, w) ->
  executable_offset_ (oat_header_ w) =
  u32 (RoundUp (fst (layout_tables P dex_files compiler)) (kPageSize P)).
Proof.
  unfold OatWriter_layout. intros H.
  destruct (layout_tables P dex_files compiler) as [ot wt]. simpl.
  unfold InitOatCode in H.
  unfold InitOatCodeDexFiles in H.
  match type of H with
  | match InitOatCodeDexFiles_loop P ?d ?o 0 ?w0 with _ => _ end = _ =>
      destruct (InitOatCodeDexFiles_loop P d o 0 w0) as [[o1 w1]|] eqn:E; [|discriminate];
      apply dex_files_items in E;
      pose proof (layout_items_extends P (code_items_from d 0) (o, w0)) as X;
      rewrite E in X; cbn [snd] in X
  end.
  destruct (_ && _); [|discriminate]. injection H as <- <-.
  destruct X as (_ & _ & _ & _ & _ & _ & -> & _). reflexivity.
Qed.

Lemma executable_offset_not_max (dex_files : list DexFile) (compiler : Compiler)
    (w : OatWriter) :
  OatWriter_new P dex_files compiler = Some w ->
  executable_offset_ (oat_header_ w) <> 2 ^ 32 - 1.
Proof.
  unfold OatWriter_new. intros H.
  destruct (OatWriter_layout P dex_files compiler) as [[cursor w']|] eqn:E; [|discriminate].
  injection H as ->. rewrite (OatWriter_layout_executable_offset _ _ _ _ E).
  destruct HP as (Hpow & Hone & _).
  destruct (pow2_one_or_even _ Hpow) as [E1|(h & Eh)]; [lia|].
  unfold RoundUp. cbv zeta.
  pose proof (u32_range (fst (layout_tables P dex_files compiler) + kPageSize P - 1)) as Hy.
  set (y := u32 _) in *. rewrite Eh in *.
  pose proof (Z.div_mod y (2 * h) ltac:(lia)) as Hdm.
  pose proof (Z.mod_pos_bound y (2 * h) ltac:(lia)) as Hm.
  pose proof (Z.mod_le y (2 * h) ltac:(lia) ltac:(lia)) as Hle.
  rewrite u32_small by lia. intros E'.
  assert (y - y mod (2 * h) = 2 * (h * (y / (2 * h)))) by lia.
  lia.
Qed.

Lemma ops_since_app (o o' : World) (ops : list io_op) :
  f_journal (w_file o') = f_journal (w_file o) ++ ops -> ops_since o o' = ops.
Proof. intros J. unfold ops_since. rewrite J. apply drop_app_length. Qed.

Lemma all_ok_no_failure (ops : list io_op) (op : io_op) :
  all_ok ops -> op ∈ ops -> op_ok op = false -> False.
Proof.
  intros A Hin F. unfold all_ok in A. rewrite Forall_forall in A.
  specialize (A op Hin). congruence.
Qed.

(** X6.  When a write or a seek of the emit pass fails, that call is the
    last call the writer makes on the file, a diagnostic of the failed
    record is logged, and [Write] returns false. *)
Theorem write_failure_reported (dex_files : list DexFile) (compiler : Compiler)
    (w : OatWriter) (o : World) :
  OatWriter_new P dex_files compiler = Some w ->
  (exists op, op ∈ ops_since o (snd (Write P w o)) /\ op_ok op = false) ->
  fst (Write P w o) = false /\
  (exists ops op, ops_since o (snd (Write P w o)) = ops ++ [op] /\
                  all_ok ops /\ op_ok op = false) /\
  (exists line lines, w_log (snd (Write P w o)) = w_log o ++ line :: lines /\
                      is_failure_line line).
Proof.
  intros Hw (op & Hin & Hop).
  pose proof (Write_outcome P HP w o (executable_offset_not_max _ _ _ Hw)) as H.
  destruct (Write P w o) as [ok o']. simpl in *.
  destruct ok; simpl in H.
  - destruct H as (ops & J & A & _). rewrite (ops_since_app _ _ _ J) in Hin.
    exfalso. exact (all_ok_no_failure _ _ A Hin Hop).
  - destruct H as (ops & line & lines & J & L & Hl & Hops).
    rewrite (ops_since_app _ _ _ J) in *.
    split; [reflexivity|]. split; [|eauto].
    destruct Hops as [A|(ops0 & op0 & -> & A & F)];
      [exfalso; exact (all_ok_no_failure _ _ A Hin Hop)|eauto].
Qed.

End ClaimsEmit.

Lemma example_writer_new :
  OatWriter_new example_platform [example_dex] example_compiler = Some example_writer.
Proof. unfold OatWriter_new. rewrite example_layout_eq. reflexivity. Defined.

Lemma write_failure_reported_witness :
  fst (Write example_platform example_writer
         (fresh_file "out.oat" [None; None; Some 2%nat])) = false.
Proof.
  apply (write_failure_reported example_platform example_platform_ok [example_dex]
           example_compiler example_writer
           (fresh_file "out.oat" [None; None; Some 2%nat]) example_writer_new).
  exists (OpWrite 20 [97; 46; 100; 101; 120] false). split; [|reflexivity].
  apply list_elem_of_lookup. exists 2%nat. vm_compute. reflexivity.
Defined.
(** ** A method inside the file that [Write] produces *)

Section MethodInFile.

Variable P : Platform.
Hypothesis HP : platform_ok P.

Lemma emit_at_app (w : OatWriter) (file_name : string) (l1 l2 : list Item) :
  fst (emit_start w file_name) <> 0 ->
  emit_at P w file_name (l1 ++ l2) =
  let '(c1, o1) := emit_at P w file_name l1 in
  if c1 =? 0 then (0, o1) else emit_items P w l2 c1 o1.
Proof.
  unfold emit_at. destruct (emit_start w file_name) as [c o]. simpl. intros Hc.
  apply emit_items_app, Hc.
Qed.

(** The layout and the emit pass at a method of the file: both stand at
    [lo]; the layout goes to the end of the placement and stores a record
    that matches it; [Write] succeeds, and the calls it makes for the method
    are those of the placement. *)
Lemma method_in_file (dex_files : list DexFile) (compiler : Compiler) (cursor : Z)
    (w : OatWriter) (file_name : string) (pre : list Item) (m : MethodRef)
    (post : list Item) :
  layout_extent P dex_files compiler < 2 ^ 32 ->
  OatWriter_layout P dex_files compiler = Some (cursor, w) ->
  code_items dex_files = pre ++ IMethod m :: post ->
  exists lo lw w1 ew after final,
    layout_at P dex_files compiler pre = (lo, lw) /\
    (0 < lo /\ lo + method_extent P compiler m < 2 ^ 32) /\
    (maps_below lw lo /\ maps_empty_at_zero lw) /\
    (compiler_ lw = compiler /\ compiler_ w = compiler) /\
    layout_method P lo (m_static m) (m_idx m) (m_dex m) lw =
      (at_end (placement P lw lo m), method_offsets_at w (m_class m) (m_index m), w1) /\
    layout_at P dex_files compiler (pre ++ [IMethod m]) =
      (at_end (placement P lw lo m),
       record_method P (m_class m) (m_index m) (m_direct m) (m_idx m)
         (m_dex m) (method_offsets_at w (m_class m) (m_index m)) w1) /\
    (extends lw w1 /\ extends w1 w) /\
    placement_matches compiler m (placement P lw lo m)
      (method_offsets_at w (m_class m) (m_index m)) /\
    emit_at P w file_name pre = (lo, ew) /\
    f_pos (w_file ew) = lo /\
    Write P w (fresh_file file_name []) = (true, final) /\
    f_journal (w_file final) =
      f_journal (w_file ew) ++ method_calls compiler m (placement P lw lo m) ++ after.
Proof.
  intros Hb Hl Hsplit.
  destruct (at_method P HP dex_files compiler cursor w file_name pre m post Hb Hl Hsplit)
    as (lo & lw & ew & ops & o1 & mo & w1 & La & Ea & Q & (H0 & Hext) & (Mb & Mz) &
        (Hc & Hcw) & E & X & Hmo & La').
  rewrite <- Hc in Hext.
  destruct (method_sync P HP m lo lw w ew o1 mo w1 H0 Hext Mb E)
    as (B & Xm & M & Z0 & (Hend & Hpm) & Hemit).
  destruct (Hemit X Hmo (emits_pos _ _ _ _ Q) (emits_faults _ _ _ _ Q))
    as (ew1 & Hw & Qm).
  rewrite Hc in Hpm, Qm, Hext.
  assert (Hsplit' : code_items dex_files = (pre ++ [IMethod m]) ++ post).
  { rewrite <- app_assoc. exact Hsplit. }
  destruct (reach P HP dex_files compiler cursor w file_name (pre ++ [IMethod m]) post
              Hb Hl Hsplit')
    as (lo' & lw' & ew' & ops' & Lb & Eb & Q' & (H0' & Hext') & (Mb' & _) & Hk' & Hc' &
        Hrest & X' & _ & HW).
  destruct (reach P HP dex_files compiler cursor w file_name [] (code_items dex_files)
              Hb Hl eq_refl)
    as (lo0 & lw0 & ew0 & ops0 & _ & E0 & _ & (H00 & _) & _).
  assert (Hstart : fst (emit_start w file_name) <> 0).
  { unfold emit_at in E0. destruct (emit_start w file_name) as [c0 e0].
    simpl in E0. injection E0 as -> ->. simpl. lia. }
  rewrite (emit_at_app w file_name pre [IMethod m] Hstart), Ea in Eb.
  assert (Hnz : (lo =? 0) = false) by (apply Z.eqb_neq; lia).
  rewrite Hnz in Eb. simpl in Eb. unfold WriteCodeMethod in Eb. rewrite Hw in Eb.
  assert (Hnz1 : (o1 =? 0) = false) by (apply Z.eqb_neq; lia).
  rewrite Hnz1 in Eb. injection Eb as <- <-.
  destruct (items_sync P HP post o1 lw' cursor w H0' ltac:(rewrite Hc'; exact Hext') Mb'
              Hk' Hrest) as (B2 & _ & _ & _ & Hemit2).
  destruct (Hemit2 w ew1 (extends_refl w) (fun _ _ => eq_refl) (emits_pos _ _ _ _ Qm)
              (emits_faults _ _ _ _ Qm)) as (final & ops2 & Ef & Qf).
  rewrite Ef in HW.
  assert (Hnzc : (cursor =? 0) = false) by (apply Z.eqb_neq; lia).
  rewrite Hnzc in HW.
  exists lo, lw, w1, ew, ops2, final.
  split; [exact La|]. split; [split; assumption|]. split; [split; assumption|].
  split; [split; assumption|].
  split; [rewrite Hmo, <- Hend; exact E|].
  split; [rewrite Hmo, <- Hend; exact La'|].
  split; [split; assumption|].
  split; [rewrite Hmo; exact Hpm|].
  split; [exact Ea|].
  split; [exact (emits_pos _ _ _ _ Q)|].
  split; [exact HW|].
  destruct Qf as (Hj2 & _). destruct Qm as (Hj1 & _).
  rewrite Hj2, Hj1, <- app_assoc. reflexivity.
Qed.

End MethodInFile.
(** * Further properties of the two passes *)

Section WriteOnSoundFile.

Variable P : Platform.
Hypothesis HP : platform_ok P.

(** X1.  On a new file whose calls all succeed, [Write] returns true for
    every writer the constructor has built: every call it makes succeeds,
    nothing is logged, and the file ends at the final cursor of the
    layout. *)
Theorem Write_succeeds (dex_files : list DexFile) (compiler : Compiler) (cursor : Z)
    (w : OatWriter) (file_name : string) :
  layout_extent P dex_files compiler < 2 ^ 32 ->
  OatWriter_layout P dex_files compiler = Some (cursor, w) ->
  exists final,
    Write P w (fresh_file file_name []) = (true, final) /\
    all_ok (f_journal (w_file final)) /\
    f_pos (w_file final) = cursor /\
    w_log final = [] /\
    f_name (w_file final) = file_name.
Proof.
  intros Hb Hl.
  destruct (reach P HP dex_files compiler cursor w file_name (code_items dex_files) []
              Hb Hl (eq_sym (app_nil_r _)))
    as (lo & lw & ew & ops & La & Ea & Q & (H0 & _) & _ & _ & _ & Hrest & _ & _ & HW).
  simpl in Hrest. injection Hrest as -> ->. simpl in HW.
  assert (Hnz : (cursor =? 0) = false) by (apply Z.eqb_neq; lia).
  rewrite Hnz in HW.
  assert (Hnew : OatWriter_new P dex_files compiler = Some w).
  { unfold OatWriter_new. rewrite Hl. reflexivity. }
  pose proof (Write_outcome P HP w (fresh_file file_name [])
                (executable_offset_not_max P HP _ _ _ Hnew)) as Ho.
  rewrite HW in Ho. simpl in Ho. destruct Ho as (ops' & J & A & L).
  exists ew. split; [exact HW|]. split; [rewrite J; exact A|].
  destruct Q as (_ & Hp & _ & Hlog & Hname).
  split; [exact Hp|]. split; [exact Hlog|exact Hname].
Qed.

(** X2.  The emit pass follows the layout at every method.  When [Write]
    comes to a method, the file stands at the cursor the layout had there;
    the calls it makes for the method are the seek over the alignment gap,
    the code, the three frame words, the two tables, the second gap and the
    invoke stub, each artifact at the place the layout gave it and only if
    the layout met it for the first time; and the record the layout stored
    holds the place of every artifact that is written (for the code, with
    the thumb bit added). *)
Theorem emit_follows_layout (dex_files : list DexFile) (compiler : Compiler) (cursor : Z)
    (w : OatWriter) (file_name : string) (pre : list Item) (m : MethodRef)
    (post : list Item) :
  layout_extent P dex_files compiler < 2 ^ 32 ->
  OatWriter_layout P dex_files compiler = Some (cursor, w) ->
  code_items dex_files = pre ++ IMethod m :: post ->
  exists lo lw ew final after,
    layout_at P dex_files compiler pre = (lo, lw) /\
    emit_at P w file_name pre = (lo, ew) /\
    f_pos (w_file ew) = lo /\
    fst (layout_at P dex_files compiler (pre ++ [IMethod m])) =
      at_end (placement P lw lo m) /\
    placement_matches compiler m (placement P lw lo m)
      (method_offsets_at w (m_class m) (m_index m)) /\
    Write P w (fresh_file file_name []) = (true, final) /\
    f_journal (w_file final) =
      f_journal (w_file ew) ++ method_calls compiler m (placement P lw lo m) ++ after /\
    (forall cm,
       GetCompiledMethod compiler (m_dex m) (m_idx m) = Some cm ->
       code_offsets_ lw !! GetCode cm = None ->
       code_vec compiler (GetCode cm) <> [] ->
       exists rest,
         method_calls compiler m (placement P lw lo m) =
         seek_op lo (AlignCode P cm lo - lo) ++
         OpWrite (code_offset_ (method_offsets_at w (m_class m) (m_index m)) - CodeDelta cm)
           (code_vec compiler (GetCode cm)) true :: rest).
Proof.
  intros Hb Hl Hsplit.
  destruct (method_in_file P HP dex_files compiler cursor w file_name pre m post
              Hb Hl Hsplit)
    as (lo & lw & w1 & ew & after & final & La & _ & _ & (Hc & _) & _ & Ls & _ & Hpm &
        Ea & Hp & HW & J).
  exists lo, lw, ew, final, after.
  split; [exact La|]. split; [exact Ea|]. split; [exact Hp|].
  split; [rewrite Ls; reflexivity|]. split; [exact Hpm|]. split; [exact HW|].
  split; [exact J|].
  intros cm Hcm Hnew Hne.
  assert (Hput : put_code (placement P lw lo m) = true).
  { unfold placement. rewrite Hc, Hcm. cbn [put_code].
    unfold first_seen. rewrite Hnew.
    rewrite bool_decide_eq_true_2 by reflexivity. simpl.
    destruct (nonempty (code_vec compiler (GetCode cm))) eqn:E; [reflexivity|].
    apply nonempty_false in E. contradiction. }
  destruct Hpm as (Hcode & _). rewrite (Hcode Hput cm Hcm).
  unfold method_calls. rewrite Hcm, Hput.
  assert (Hat : at_code (placement P lw lo m) = AlignCode P cm lo).
  { unfold placement. rewrite Hc, Hcm. reflexivity. }
  assert (Hst : at_start (placement P lw lo m) = lo) by reflexivity.
  rewrite Hat, Hst. unfold put_op at 1.
  replace (AlignCode P cm lo + CodeDelta cm - CodeDelta cm) with (AlignCode P cm lo) by lia.
  rewrite <- app_assoc. eexists. reflexivity.
Qed.

End WriteOnSoundFile.

Lemma Write_succeeds_witness :
  exists final,
    Write example_platform example_writer (fresh_file "out.oat" []) = (true, final) /\
    f_pos (w_file final) = example_cursor.
Proof.
  destruct (Write_succeeds example_platform example_platform_ok [example_dex]
              example_compiler example_cursor example_writer "out.oat"
              example_fits example_layout_eq) as (final & HW & _ & Hp & _).
  exists final. split; [exact HW|exact Hp].
Defined.

Lemma emit_follows_layout_witness :
  exists final, Write example_platform example_writer (fresh_file "out.oat" []) =
                (true, final).
Proof.
  destruct (emit_follows_layout example_platform example_platform_ok [example_dex]
              example_compiler example_cursor example_writer "out.oat"
              [] example_first
              [IMethod example_second; IMethod example_empty; IMethod example_abstract;
               IClassEnd 0; IClassEnd 1]
              example_fits example_layout_eq eq_refl)
    as (lo & lw & ew & final & after & _ & _ & _ & _ & _ & HW & _).
  exists final. exact HW.
Defined.
(** ** Buffers the compiler hands out more than once *)

Lemma extends_code_lookup (w w' : OatWriter) (a : ptr) (v : Z) :
  extends w w' -> code_offsets_ w !! a = Some v -> code_offsets_ w' !! a = Some v.
Proof.
  intros (_ & _ & _ & _ & _ & _ & _ & _ & _ & Hsub & _) H.
  eapply lookup_weaken; eassumption.
Qed.

Section SharedBuffers.

Variable P : Platform.
Hypothesis HP : platform_ok P.

Lemma layout_code_key (cm : CompiledMethod) (o : Z) (w : OatWriter) :
  code_offsets_ (snd (layout_code P cm o w)) !! GetCode cm =
  Some (snd (fst (layout_code P cm o w))).
Proof.
  unfold layout_code. destruct (code_offsets_ w !! GetCode cm) as [v|] eqn:E; simpl.
  - exact E.
  - apply lookup_insert_eq.
Qed.

Lemma layout_code_found (cm : CompiledMethod) (o : Z) (w : OatWriter) (v : Z) :
  code_offsets_ w !! GetCode cm = Some v ->
  layout_code P cm o w = (AlignCode P cm o, v, w).
Proof. intros H. unfold layout_code. rewrite H. reflexivity. Qed.

(** After the layout of a compiled method the code map holds its buffer, at
    the offset stored for the method. *)
Lemma layout_method_code_key (o : Z) (st : bool) (idx : Z) (dex : DexFile) (w : OatWriter)
    (cm : CompiledMethod) :
  GetCompiledMethod (compiler_ w) dex idx = Some cm ->
  code_offsets_ (snd (layout_method P o st idx dex w)) !! GetCode cm =
  Some (code_offset_ (snd (fst (layout_method P o st idx dex w)))).
Proof.
  intros Hcm. unfold layout_method. rewrite Hcm.
  pose proof (layout_code_key cm o w) as K.
  destruct (layout_code P cm o w) as [[o1 v1] w1]. simpl in K.
  unfold layout_word.
  match goal with
  | |- context [layout_mapping_table cm ?o ?w0] =>
      pose proof (layout_mapping_table_extends cm o w0) as X2;
      destruct (layout_mapping_table cm o w0) as [[o2 v2] w2]
  end.
  simpl in X2.
  pose proof (layout_vmap_table_extends cm o2 w2) as X3.
  destruct (layout_vmap_table cm o2 w2) as [[o3 v3] w3]. simpl in X3.
  assert (K3 : code_offsets_ w3 !! GetCode cm = Some v1).
  { eapply extends_code_lookup; [exact X3|].
    eapply extends_code_lookup; [exact X2|]. exact K. }
  destruct (FindInvokeStub (compiler_ w3) st (GetMethodShorty dex idx)) as [stub|].
  - pose proof (layout_invoke_stub_extends P stub o3 w3) as X4.
    destruct (layout_invoke_stub P stub o3 w3) as [[o4 v4] w4]. simpl in *.
    eapply extends_code_lookup; eassumption.
  - simpl. exact K3.
Qed.

(** A compiled method whose code buffer is in the code map already takes
    the offset of the map. *)
Lemma layout_method_code_found (o : Z) (st : bool) (idx : Z) (dex : DexFile)
    (w : OatWriter) (cm : CompiledMethod) (v : Z) :
  GetCompiledMethod (compiler_ w) dex idx = Some cm ->
  code_offsets_ w !! GetCode cm = Some v ->
  code_offset_ (snd (fst (layout_method P o st idx dex w))) = v.
Proof.
  intros Hcm Hv. unfold layout_method. rewrite Hcm.
  rewrite (layout_code_found cm o w v Hv).
  unfold layout_word.
  match goal with
  | |- context [layout_mapping_table cm ?o ?w0] =>
      destruct (layout_mapping_table cm o w0) as [[o2 v2] w2]
  end.
  destruct (layout_vmap_table cm o2 w2) as [[o3 v3] w3].
  destruct (FindInvokeStub (compiler_ w3) st (GetMethodShorty dex idx)) as [stub|].
  - destruct (layout_invoke_stub P stub o3 w3) as [[o4 v4] w4]. reflexivity.
  - reflexivity.
Qed.

(** X3.  Two methods that share a code buffer.  The later one takes the
    code offset of the earlier one; its layout only aligns the cursor and
    leaves the writer, and so the checksum and the maps, as they are; and
    [Write] puts no code for it into the file: after the seek over the
    alignment gap the next call writes the frame size. *)
Theorem shared_code_one_offset (dex_files : list DexFile) (compiler : Compiler)
    (cursor : Z) (w : OatWriter) (file_name : string) (pre : list Item) (m1 : MethodRef)
    (mid : list Item) (m2 : MethodRef) (post : list Item) (cm1 cm2 : CompiledMethod) :
  layout_extent P dex_files compiler < 2 ^ 32 ->
  OatWriter_layout P dex_files compiler = Some (cursor, w) ->
  code_items dex_files = pre ++ IMethod m1 :: mid ++ IMethod m2 :: post ->
  GetCompiledMethod compiler (m_dex m1) (m_idx m1) = Some cm1 ->
  GetCompiledMethod compiler (m_dex m2) (m_idx m2) = Some cm2 ->
  GetCode cm1 = GetCode cm2 ->
  exists lo lw final before after rest,
    layout_at P dex_files compiler (pre ++ IMethod m1 :: mid) = (lo, lw) /\
    code_offset_ (method_offsets_at w (m_class m2) (m_index m2)) =
      code_offset_ (method_offsets_at w (m_class m1) (m_index m1)) /\
    layout_code P cm2 lo lw =
      (AlignCode P cm2 lo, code_offset_ (method_offsets_at w (m_class m1) (m_index m1)),
       lw) /\
    Write P w (fresh_file file_name []) = (true, final) /\
    f_journal (w_file final) =
      before ++
      (seek_op lo (AlignCode P cm2 lo - lo) ++
       OpWrite (AlignCode P cm2 lo) (le32 (u32 (GetFrameSizeInBytes cm2))) true :: rest) ++
      after.
Proof.
  intros Hb Hl Hsplit Hcm1 Hcm2 Hshare.
  destruct (method_in_file P HP dex_files compiler cursor w file_name pre m1
              (mid ++ IMethod m2 :: post) Hb Hl Hsplit)
    as (lo1 & lw1 & w1 & ew1 & after1 & final1 & La1 & _ & _ & (Hc1 & _) & L1 & Ls1 & _).
  assert (Hsplit2 : code_items dex_files = (pre ++ IMethod m1 :: mid) ++ IMethod m2 :: post).
  { rewrite Hsplit, <- app_assoc. reflexivity. }
  destruct (method_in_file P HP dex_files compiler cursor w file_name
              (pre ++ IMethod m1 :: mid) m2 post Hb Hl Hsplit2)
    as (lo & lw & w2 & ew & after & final & La & _ & _ & (Hc & _) & L2 & _ & _ & _ &
        _ & _ & HW & J).
  (* the buffer is in the code map when the layout comes to [m2] *)
  assert (K : code_offsets_ lw !! GetCode cm2 =
              Some (code_offset_ (method_offsets_at w (m_class m1) (m_index m1)))).
  { rewrite <- Hshare.
    pose proof (layout_method_code_key lo1 (m_static m1) (m_idx m1) (m_dex m1) lw1 cm1
                  ltac:(rewrite Hc1; exact Hcm1)) as K1.
    rewrite L1 in K1. simpl in K1.
    assert (E : layout_at P dex_files compiler (pre ++ IMethod m1 :: mid) =
                layout_items P mid (layout_at P dex_files compiler (pre ++ [IMethod m1]))).
    { unfold layout_at. rewrite <- layout_items_app, <- app_assoc. reflexivity. }
    rewrite La, Ls1 in E.
    pose proof (layout_items_extends P mid
                  (at_end (placement P lw1 lo1 m1),
                   record_method P (m_class m1) (m_index m1) (m_direct m1) (m_idx m1)
                     (m_dex m1) (method_offsets_at w (m_class m1) (m_index m1)) w1)) as X.
    rewrite <- E in X. simpl in X.
    eapply extends_code_lookup; [exact X|].
    eapply extends_code_lookup; [apply record_method_extends|]. exact K1. }
  pose proof (layout_method_code_found lo (m_static m2) (m_idx m2) (m_dex m2) lw cm2 _
                ltac:(rewrite Hc; exact Hcm2) K) as Hv.
  rewrite L2 in Hv. simpl in Hv.
  assert (Hput : put_code (placement P lw lo m2) = false).
  { unfold placement. rewrite Hc, Hcm2. cbn [put_code]. unfold first_seen. rewrite K.
    rewrite bool_decide_eq_false_2 by discriminate. reflexivity. }
  assert (Hat : at_code (placement P lw lo m2) = AlignCode P cm2 lo).
  { unfold placement. rewrite Hc, Hcm2. reflexivity. }
  assert (Hwords : at_words (placement P lw lo m2) = AlignCode P cm2 lo).
  { unfold placement in Hput |- *. rewrite Hc, Hcm2 in Hput |- *. cbn [put_code] in Hput.
    cbn [at_words]. rewrite Hput. reflexivity. }
  exists lo, lw, final, (f_journal (w_file ew)), after.
  eexists.
  split; [exact La|]. split; [exact Hv|].
  split; [apply layout_code_found, K|]. split; [exact HW|].
  rewrite J. f_equal. f_equal.
  unfold method_calls. rewrite Hcm2, Hput, Hat, Hwords.
  change (at_start (placement P lw lo m2)) with lo.
  unfold put_op at 1. cbn [app]. reflexivity.
Qed.

End SharedBuffers.

Lemma shared_code_one_offset_witness :
  code_offset_ (method_offsets_at example_writer 0 1) =
  code_offset_ (method_offsets_at example_writer 0 0).
Proof.
  destruct (shared_code_one_offset example_platform example_platform_ok [example_dex]
              example_compiler example_cursor example_writer "out.oat"
              [] example_first [] example_second
              [IMethod example_empty; IMethod example_abstract; IClassEnd 0; IClassEnd 1]
              example_method example_method
              example_fits example_layout_eq eq_refl eq_refl eq_refl eq_refl)
    as (lo & lw & final & before & after & rest & _ & H & _).
  exact H.
Defined.
(** ** Artifacts of length zero *)

Section EmptyArtifacts.

Variable P : Platform.
Hypothesis HP : platform_ok P.

(** The record of a method holds 0 for every artifact that is empty. *)
Lemma layout_method_empty (m : MethodRef) (o : Z) (w : OatWriter)
    (o' : Z) (mo : OatMethodOffsets) (w' : OatWriter) :
  0 < o -> o + method_extent P (compiler_ w) m < 2 ^ 32 ->
  maps_below w o -> maps_empty_at_zero w ->
  layout_method P o (m_static m) (m_idx m) (m_dex m) w = (o', mo, w') ->
  (forall cm, GetCompiledMethod (compiler_ w) (m_dex m) (m_idx m) = Some cm ->
     (code_vec (compiler_ w) (GetCode cm) = [] -> code_offset_ mo = 0) /\
     (mapping_vec (compiler_ w) (GetMappingTable cm) = [] -> mapping_table_offset_ mo = 0) /\
     (vmap_vec (compiler_ w) (GetVmapTable cm) = [] -> vmap_table_offset_ mo = 0)) /\
  (forall stub,
     FindInvokeStub (compiler_ w) (m_static m) (GetMethodShorty (m_dex m) (m_idx m)) =
       Some stub ->
     code_vec (compiler_ w) (GetStubCode stub) = [] -> invoke_stub_offset_ mo = 0).
Proof.
  intros H0 Hb Hbelow Hzero Hl.
  unfold method_extent in Hb. unfold layout_method in Hl.
  pose proof (alignment_pos P HP (GetInstructionSet (compiler_ w))) as HA'.
  assert (Hstub0 : 0 <= match FindInvokeStub (compiler_ w) (m_static m)
                            (GetMethodShorty (m_dex m) (m_idx m)) with
                        | Some stub =>
                            InstructionSetAlignment P (GetInstructionSet (compiler_ w)) +
                            len (code_vec (compiler_ w) (GetStubCode stub))
                        | None => 0
                        end).
  { destruct (FindInvokeStub _ _ _) as [stub|]; [|lia].
    pose proof (len_nonneg (code_vec (compiler_ w) (GetStubCode stub))). lia. }
  destruct (GetCompiledMethod (compiler_ w) (m_dex m) (m_idx m)) as [cm|] eqn:Hcm.
  - pose proof (alignment_pos P HP (cm_instruction_set cm)) as HA.
    pose proof (len_nonneg (code_vec (compiler_ w) (GetCode cm))) as L1.
    pose proof (len_nonneg (mapping_vec (compiler_ w) (GetMappingTable cm))) as L2.
    pose proof (len_nonneg (vmap_vec (compiler_ w) (GetVmapTable cm))) as L3.
    destruct (layout_code P cm o w) as [[o1 v1] w1] eqn:E1.
    destruct (layout_code_facts P HP cm o w o1 v1 w1 H0 ltac:(lia) Hbelow E1)
      as (B1a & B1b & X1 & M1 & Z1).
    destruct (Z1 Hzero) as (Hz1 & Hv1).
    pose proof (extends_compiler _ _ X1) as C1.
    rewrite !layout_word_eq in Hl by lia.
    replace (o1 + 4 + 4 + 4) with (o1 + 12) in Hl by lia.
    set (w1c := UpdateChecksum _ (UpdateChecksum _ (UpdateChecksum _ w1))) in Hl.
    assert (C1c : compiler_ w1c = compiler_ w) by exact C1.
    assert (M1c : maps_below w1c (o1 + 12)).
    { eapply maps_below_mono; [exact M1|lia]. }
    assert (Hz1c : maps_empty_at_zero w1c).
    { unfold w1c. repeat apply maps_empty_at_zero_UpdateChecksum. exact Hz1. }
    destruct (layout_mapping_table cm (o1 + 12) w1c) as [[o2 v2] w2] eqn:E2.
    destruct (layout_mapping_table_facts cm (o1 + 12) w1c o2 v2 w2 ltac:(lia)
                ltac:(rewrite C1c; lia) M1c E2) as (B2 & X2 & M2 & Z2).
    destruct (Z2 Hz1c) as (Hz2 & Hv2). rewrite C1c in B2, Hv2.
    pose proof (extends_compiler _ _ X2) as C2. rewrite C1c in C2.
    destruct (layout_vmap_table cm o2 w2) as [[o3 v3] w3] eqn:E3.
    destruct (layout_vmap_table_facts cm o2 w2 o3 v3 w3 ltac:(lia)
                ltac:(rewrite C2; lia) M2 E3) as (B3 & X3 & M3 & Z3).
    destruct (Z3 Hz2) as (Hz3 & Hv3). rewrite C2 in B3, Hv3.
    pose proof (extends_compiler _ _ X3) as C3. rewrite C2 in C3.
    rewrite C3 in Hl.
    destruct (FindInvokeStub (compiler_ w) (m_static m)
                (GetMethodShorty (m_dex m) (m_idx m))) as [stub|] eqn:Hstub.
    + destruct (layout_invoke_stub P stub o3 w3) as [[o4 v4] w4] eqn:E4.
      pose proof (len_nonneg (code_vec (compiler_ w) (GetStubCode stub))) as L4.
      destruct (layout_invoke_stub_facts P HP stub o3 w3 o4 v4 w4 ltac:(lia)
                  ltac:(rewrite C3; lia) M3 E4) as (_ & _ & _ & _ & Z4).
      destruct (Z4 Hz3) as (_ & Hv4). rewrite C3 in Hv4.
      injection Hl as <- <- <-. simpl. split.
      * intros cm' Hcm'. injection Hcm' as <-. auto.
      * intros stub' Hs'. injection Hs' as <-. exact Hv4.
    + injection Hl as <- <- <-. simpl. split.
      * intros cm' Hcm'. injection Hcm' as <-. auto.
      * intros stub' Hs'. discriminate.
  - rewrite !layout_word_eq in Hl by lia.
    replace (o + 4 + 4 + 4) with (o + 12) in Hl by lia.
    set (w1c := UpdateChecksum _ (UpdateChecksum _ (UpdateChecksum _ w))) in Hl.
    assert (C1c : compiler_ w1c = compiler_ w) by reflexivity.
    assert (M1c : maps_below w1c (o + 12)).
    { eapply maps_below_mono; [exact Hbelow|lia]. }
    assert (Hz1c : maps_empty_at_zero w1c).
    { unfold w1c. repeat apply maps_empty_at_zero_UpdateChecksum. exact Hzero. }
    rewrite C1c in Hl.
    destruct (FindInvokeStub (compiler_ w) (m_static m)
                (GetMethodShorty (m_dex m) (m_idx m))) as [stub|] eqn:Hstub.
    + destruct (layout_invoke_stub P stub (o + 12) w1c) as [[o4 v4] w4] eqn:E4.
      pose proof (len_nonneg (code_vec (compiler_ w) (GetStubCode stub))) as L4.
      destruct (layout_invoke_stub_facts P HP stub (o + 12) w1c o4 v4 w4 ltac:(lia)
                  ltac:(rewrite C1c; lia) M1c E4) as (_ & _ & _ & _ & Z4).
      destruct (Z4 Hz1c) as (_ & Hv4). rewrite C1c in Hv4.
      injection Hl as <- <- <-. simpl. split.
      * intros cm' Hcm'. discriminate.
      * intros stub' Hs'. injection Hs' as <-. exact Hv4.
    + injection Hl as <- <- <-. simpl. split.
      * intros cm' Hcm'. discriminate.
      * intros stub' Hs'. discriminate.
Qed.

(** X4.  An artifact of length zero.  For every method of the file, the
    record holds offset 0 for each of its artifacts (code, mapping table,
    vmap table, invoke stub) that is empty; the placement puts no such
    artifact into the file and leaves the cursor where it is (after the
    alignment, for the code and the stub); and the calls [Write] makes for
    the method are those of the placement. *)
Theorem empty_artifact_sentinel (dex_files : list DexFile) (compiler : Compiler)
    (cursor : Z) (w : OatWriter) (file_name : string) (pre : list Item) (m : MethodRef)
    (post : list Item) :
  layout_extent P dex_files compiler < 2 ^ 32 ->
  OatWriter_layout P dex_files compiler = Some (cursor, w) ->
  code_items dex_files = pre ++ IMethod m :: post ->
  exists lo lw final before after,
    let mo := method_offsets_at w (m_class m) (m_index m) in
    let pl := placement P lw lo m in
    layout_at P dex_files compiler pre = (lo, lw) /\
    fst (layout_at P dex_files compiler (pre ++ [IMethod m])) = at_end pl /\
    Write P w (fresh_file file_name []) = (true, final) /\
    f_journal (w_file final) = before ++ method_calls compiler m pl ++ after /\
    (forall cm, GetCompiledMethod compiler (m_dex m) (m_idx m) = Some cm ->
       (code_vec compiler (GetCode cm) = [] ->
        code_offset_ mo = 0 /\ put_code pl = false /\ at_words pl = AlignCode P cm lo) /\
       (mapping_vec compiler (GetMappingTable cm) = [] ->
        mapping_table_offset_ mo = 0 /\ put_mapping pl = false /\
        at_vmap pl = at_mapping pl) /\
       (vmap_vec compiler (GetVmapTable cm) = [] ->
        vmap_table_offset_ mo = 0 /\ put_vmap pl = false /\ at_gap pl = at_vmap pl)) /\
    (forall stub,
       FindInvokeStub compiler (m_static m) (GetMethodShorty (m_dex m) (m_idx m)) =
         Some stub ->
       code_vec compiler (GetStubCode stub) = [] ->
       invoke_stub_offset_ mo = 0 /\ put_stub pl = false /\
       at_end pl = AlignCodeFor P (at_gap pl) (GetInstructionSet compiler)).
Proof.
  intros Hb Hl Hsplit.
  destruct (method_in_file P HP dex_files compiler cursor w file_name pre m post
              Hb Hl Hsplit)
    as (lo & lw & w1 & ew & after & final & La & (H0 & Hext) & (Mb & Mz) & (Hc & _) &
        L & Ls & _ & _ & _ & _ & HW & J).
  rewrite <- Hc in Hext.
  destruct (layout_method_empty m lo lw _ _ _ H0 Hext Mb Mz L) as (Hcmz & Hstubz).
  rewrite Hc in Hcmz, Hstubz.
  exists lo, lw, final, (f_journal (w_file ew)), after. cbv zeta.
  split; [exact La|]. split; [rewrite Ls; reflexivity|]. split; [exact HW|].
  split; [exact J|]. split.
  - intros cm Hcm. destruct (Hcmz cm Hcm) as (Z1 & Z2 & Z3).
    unfold placement. rewrite Hc, Hcm.
    cbn [put_code at_words put_mapping at_vmap at_mapping put_vmap at_gap].
    split; [|split].
    + intros E. rewrite E. rewrite nonempty_nil, andb_false_r. auto.
    + intros E. rewrite E at 1 2. rewrite nonempty_nil, andb_false_r. auto.
    + intros E. rewrite E at 1 2. rewrite nonempty_nil, andb_false_r. auto.
  - intros stub Hs E.
    split; [exact (Hstubz stub Hs E)|].
    unfold placement. rewrite Hc, Hs. cbn [put_stub at_end at_gap].
    rewrite E. rewrite nonempty_nil, andb_false_r. auto.
Qed.

End EmptyArtifacts.

Lemma empty_artifact_sentinel_witness :
  code_offset_ (method_offsets_at example_writer 0 2) = 0.
Proof.
  destruct (empty_artifact_sentinel example_platform example_platform_ok [example_dex]
              example_compiler example_cursor example_writer "out.oat"
              [IMethod example_first; IMethod example_second] example_empty
              [IMethod example_abstract; IClassEnd 0; IClassEnd 1]
              example_fits example_layout_eq eq_refl)
    as (lo & lw & final & before & after & _ & _ & _ & _ & H & _).
  destruct (H example_empty_method eq_refl) as (Hcode & _).
  destruct (Hcode eq_refl) as (Hz & _). exact Hz.
Defined.
(** ** Methods without compiled code *)

Section Uncompiled.

Variable P : Platform.
Hypothesis HP : platform_ok P.

Lemma le32_kStackAlignment : le32 (kStackAlignment P) <> le32 0.
Proof.
  destruct HP as (_ & _ & _ & H). intros E.
  apply le32_inj_small in E; lia.
Qed.

(** X5.  A method without compiled code.  Its record holds the stack
    alignment as frame size and 0 for both spill masks; the layout feeds the
    checksum the words of the record (stack alignment, 0, 0) and after them
    only runs the invoke-stub step; [Write] puts three words 0 at the
    cursor of the layout.  The frame size that is written is not the one
    that went into the checksum. *)
Theorem uncompiled_frame_words (dex_files : list DexFile) (compiler : Compiler)
    (cursor : Z) (w : OatWriter) (file_name : string) (pre : list Item) (m : MethodRef)
    (post : list Item) :
  layout_extent P dex_files compiler < 2 ^ 32 ->
  OatWriter_layout P dex_files compiler = Some (cursor, w) ->
  code_items dex_files = pre ++ IMethod m :: post ->
  GetCompiledMethod compiler (m_dex m) (m_idx m) = None ->
  exists lo lw final before rest after,
    let mo := method_offsets_at w (m_class m) (m_index m) in
    let w3 := UpdateChecksum (le32 0)
                (UpdateChecksum (le32 0)
                   (UpdateChecksum (le32 (kStackAlignment P)) lw)) in
    layout_at P dex_files compiler pre = (lo, lw) /\
    (frame_size_in_bytes_ mo = kStackAlignment P /\
     core_spill_mask_ mo = 0 /\ fp_spill_mask_ mo = 0) /\
    layout_method P lo (m_static m) (m_idx m) (m_dex m) lw =
      match FindInvokeStub compiler (m_static m) (GetMethodShorty (m_dex m) (m_idx m)) with
      | Some stub =>
          (fst (fst (layout_invoke_stub P stub (lo + 12) w3)), mo,
           snd (layout_invoke_stub P stub (lo + 12) w3))
      | None => (lo + 12, mo, w3)
      end /\
    Write P w (fresh_file file_name []) = (true, final) /\
    f_journal (w_file final) =
      before ++
      ([OpWrite lo (le32 0) true; OpWrite (lo + 4) (le32 0) true;
        OpWrite (lo + 4 + 4) (le32 0) true] ++ rest) ++ after /\
    le32 (frame_size_in_bytes_ mo) <> le32 0.
Proof.
  intros Hb Hl Hsplit Hcm.
  destruct (method_in_file P HP dex_files compiler cursor w file_name pre m post
              Hb Hl Hsplit)
    as (lo & lw & w1 & ew & after & final & La & (H0 & Hext) & _ & (Hc & _) &
        L & _ & _ & _ & _ & _ & HW & J).
  pose proof (layout_method_abstract P lo (m_static m) (m_idx m) (m_dex m) lw
                ltac:(rewrite Hc; exact Hcm)) as Habs.
  rewrite L in Habs. simpl in Habs. destruct Habs as (_ & Hf & Hcs & Hfs & _).
  rewrite (kStackAlignment_u32 P HP) in Hf.
  assert (Hs0 : 0 <= match FindInvokeStub compiler (m_static m)
                         (GetMethodShorty (m_dex m) (m_idx m)) with
                     | Some stub =>
                         InstructionSetAlignment P (GetInstructionSet compiler) +
                         len (code_vec compiler (GetStubCode stub))
                     | None => 0
                     end).
  { destruct (FindInvokeStub _ _ _) as [stub|]; [|lia].
    pose proof (alignment_pos P HP (GetInstructionSet compiler)).
    pose proof (len_nonneg (code_vec compiler (GetStubCode stub))). lia. }
  unfold method_extent in Hext. rewrite Hcm in Hext.
  exists lo, lw, final, (f_journal (w_file ew)).
  eexists. exists after. cbv zeta.
  split; [exact La|]. split; [auto|].
  split.
  { pose proof L as L'. rewrite L. unfold layout_method in L'. rewrite Hc, Hcm in L'.
    rewrite !layout_word_eq in L' by lia.
    replace (lo + 4 + 4 + 4) with (lo + 12) in L' by lia.
    rewrite (kStackAlignment_u32 P HP) in L'.
    change (compiler_ (UpdateChecksum (le32 0)
              (UpdateChecksum (le32 0) (UpdateChecksum (le32 (kStackAlignment P)) lw))))
      with (compiler_ lw) in L'.
    rewrite Hc in L'.
    destruct (FindInvokeStub compiler (m_static m) (GetMethodShorty (m_dex m) (m_idx m)))
      as [stub|].
    - destruct (layout_invoke_stub P stub (lo + 12) _) as [[o4 v4] w4].
      injection L' as E1 _ E3. rewrite E1, E3. reflexivity.
    - injection L' as E1 _ E3. rewrite E1, E3. reflexivity. }
  split; [exact HW|].
  split; [|rewrite Hf; apply le32_kStackAlignment].
  rewrite J. f_equal. f_equal.
  unfold method_calls. rewrite Hcm.
  assert (Hw : at_words (placement P lw lo m) = lo).
  { unfold placement. rewrite Hc, Hcm. reflexivity. }
  assert (Hac : at_code (placement P lw lo m) = lo).
  { unfold placement. rewrite Hc, Hcm. reflexivity. }
  rewrite Hw, Hac. change (at_start (placement P lw lo m)) with lo.
  rewrite Z.sub_diag. unfold seek_op at 1. simpl (0 =? 0). cbn [app]. reflexivity.
Qed.

End Uncompiled.

Lemma uncompiled_frame_words_witness :
  frame_size_in_bytes_ (method_offsets_at example_writer 0 3) = 16.
Proof.
  destruct (uncompiled_frame_words example_platform example_platform_ok [example_dex]
              example_compiler example_cursor example_writer "out.oat"
              [IMethod example_first; IMethod example_second; IMethod example_empty]
              example_abstract [IClassEnd 0; IClassEnd 1]
              example_fits example_layout_eq eq_refl eq_refl)
    as (lo & lw & final & before & rest & after & _ & (H & _) & _).
  exact H.
Defined.
(** ** The result of [Write] and the log *)

Section WriteResult.

Variable P : Platform.
Hypothesis HP : platform_ok P.

(** X7.  [Write] returns false exactly when it has logged something: a
    result true comes with no line logged and with calls that all
    succeeded, a result false with a diagnostic that starts with the words
    of a failure. *)
Theorem Write_logs_iff_fails (dex_files : list DexFile) (compiler : Compiler)
    (w : OatWriter) (o : World) :
  OatWriter_new P dex_files compiler = Some w ->
  (fst (Write P w o) = true <-> w_log (snd (Write P w o)) = w_log o) /\
  (fst (Write P w o) = true -> all_ok (ops_since o (snd (Write P w o)))) /\
  (fst (Write P w o) = false ->
   exists line lines, w_log (snd (Write P w o)) = w_log o ++ line :: lines /\
                      is_failure_line line).
Proof.
  intros Hw.
  pose proof (Write_outcome P HP w o (executable_offset_not_max P HP _ _ _ Hw)) as H.
  destruct (Write P w o) as [ok o']. simpl in *.
  destruct ok; simpl in H.
  - destruct H as (ops & J & A & L).
    split; [split; [intros _; exact L|reflexivity]|].
    split; [intros _; rewrite (ops_since_app _ _ _ J); exact A|discriminate].
  - destruct H as (ops & line & lines & J & L & Hl & _).
    split.
    + split; [discriminate|]. intros E. rewrite L in E.
      apply (f_equal (@length string)) in E. rewrite length_app in E. simpl in E. lia.
    + split; [discriminate|]. intros _. exists line, lines. split; assumption.
Qed.

End WriteResult.

Lemma Write_logs_iff_fails_witness :
  fst (Write example_platform example_writer (fresh_file "out.oat" [])) = true <->
  w_log (snd (Write example_platform example_writer (fresh_file "out.oat" []))) = [].
Proof.
  exact (proj1 (Write_logs_iff_fails example_platform example_platform_ok [example_dex]
                  example_compiler example_writer (fresh_file "out.oat" [])
                  example_writer_new)).
Defined.
(** ** When the constructor aborts *)

Section Aborts.

Variable P : Platform.
Hypothesis HP : platform_ok P.

(** The steps of the layout leave the compiler of the writer alone. *)
Lemma InitOatCodeMethod_compiler (o : Z) (c k : nat) (st d : bool) (idx : Z)
    (dex : DexFile) (w : OatWriter) (o' : Z) (w' : OatWriter) :
  InitOatCodeMethod P o c k st d idx dex w = Some (o', w') -> compiler_ w' = compiler_ w.
Proof.
  intros H. apply InitOatCodeMethod_item in H.
  pose proof (layout_item_extends P
                (IMethod {| m_class := c; m_index := k; m_static := st; m_direct := d;
                            m_idx := idx; m_dex := dex |}) (o, w)) as X.
  rewrite H in X. destruct X as [X _]. exact X.
Qed.

(** Line 295: for an image, a method the runtime does not resolve. *)
Lemma InitOatCodeMethod_none (o : Z) (c k : nat) (st d : bool) (e : EncodedMethod)
    (dex : DexFile) (w : OatWriter) :
  InitOatCodeMethod P o c k st d (GetMemberIndex e) dex w = None <->
  IsImage (compiler_ w) && unresolved P dex d e = true.
Proof.
  unfold InitOatCodeMethod, unresolved.
  pose proof (layout_method_extends P o st (GetMemberIndex e) dex w) as X.
  destruct (layout_method P o st (GetMemberIndex e) dex w) as [[o1 mo] w1].
  destruct X as [X _]. simpl in X. simpl. rewrite X.
  destruct (IsImage (compiler_ w)); simpl.
  - destruct (ResolveMethod P dex (GetMemberIndex e) d); split; congruence.
  - split; discriminate.
Qed.

Lemma direct_methods_none (it : list EncodedMethod) :
  forall (o : Z) (c k : nat) (dex : DexFile) (w : OatWriter),
  InitOatCode_direct_methods P it o c k dex w = None <->
  IsImage (compiler_ w) && existsb (unresolved P dex true) it = true.
Proof.
  induction it as [|e it IH]; intros o c k dex w; simpl.
  - rewrite andb_false_r. split; discriminate.
  - pose proof (InitOatCodeMethod_none o c k (is_static_flag (GetMemberAccessFlags e)) true
                  e dex w) as Hm.
    destruct (InitOatCodeMethod P o c k (is_static_flag (GetMemberAccessFlags e)) true
                (GetMemberIndex e) dex w) as [[o1 w1]|] eqn:E.
    + rewrite IH, (InitOatCodeMethod_compiler _ _ _ _ _ _ _ _ _ _ E).
      destruct (IsImage (compiler_ w)), (unresolved P dex true e); simpl in *;
        try reflexivity.
      destruct Hm as [_ Hm]. discriminate (Hm eq_refl).
    + destruct Hm as [Hm _]. specialize (Hm eq_refl).
      apply andb_true_iff in Hm as [-> ->]. simpl. split; reflexivity.
Qed.

Lemma virtual_methods_none (it : list EncodedMethod) :
  forall (o : Z) (c k : nat) (dex : DexFile) (w : OatWriter),
  InitOatCode_virtual_methods P it o c k dex w = None <->
  existsb (fun e => is_static_flag (GetMemberAccessFlags e)) it ||
  IsImage (compiler_ w) && existsb (unresolved P dex false) it = true.
Proof.
  induction it as [|e it IH]; intros o c k dex w; simpl.
  - rewrite andb_false_r. split; discriminate.
  - destruct (is_static_flag (GetMemberAccessFlags e)); simpl.
    + split; reflexivity.
    + pose proof (InitOatCodeMethod_none o c k false false e dex w) as Hm.
      destruct (InitOatCodeMethod P o c k false false (GetMemberIndex e) dex w)
        as [[o1 w1]|] eqn:E.
      * rewrite IH, (InitOatCodeMethod_compiler _ _ _ _ _ _ _ _ _ _ E).
        destruct (IsImage (compiler_ w)), (unresolved P dex false e); simpl in *;
          try reflexivity.
        destruct Hm as [_ Hm]. discriminate (Hm eq_refl).
      * destruct Hm as [Hm _]. specialize (Hm eq_refl).
        apply andb_true_iff in Hm as [-> ->]. simpl. rewrite orb_true_r.
        split; reflexivity.
Qed.

Lemma methods_size_at_shape (w : OatWriter) (c n : nat) :
  methods_shape w !! c = Some n -> methods_size_at c w = u32 (Z.of_nat n).
Proof.
  unfold methods_shape, methods_size_at. rewrite list_lookup_fmap.
  destruct (oat_methods_ w !! c) as [om|]; simpl; [|discriminate].
  intros H. injection H as <-. reflexivity.
Qed.

Lemma u32_add_sizes (a b : nat) :
  u32 (Z.of_nat (a + b)) = u32 (u32 (Z.of_nat a) + u32 (Z.of_nat b)).
Proof. unfold u32. rewrite Nat2Z.inj_add. apply Z.add_mod. lia. Qed.

Lemma class_def_none (class_data : option ClassData) (o : Z) (c : nat) (dex : DexFile)
    (w : OatWriter) :
  methods_shape w !! c = Some (method_count class_data) ->
  InitOatCodeClassDef P o c dex class_data w = None <->
  class_rejected P (compiler_ w) dex class_data = true.
Proof.
  intros Hshape. unfold InitOatCodeClassDef, class_rejected, static_virtual, class_unresolved.
  destruct class_data as [it|]; [|rewrite andb_false_r; split; discriminate].
  rewrite (methods_size_at_shape _ _ _ Hshape). simpl method_count.
  unfold size_of_list. rewrite u32_add_sizes, Z.eqb_refl.
  pose proof (direct_methods_none (direct_methods it) o c 0 dex w) as Hd.
  destruct (InitOatCode_direct_methods P (direct_methods it) o c 0 dex w)
    as [[[o1 k1] w1]|] eqn:E.
  - rewrite virtual_methods_none.
    assert (Hc : compiler_ w1 = compiler_ w).
    { apply direct_methods_items in E as (E & _).
      pose proof (layout_items_extends P (method_items (direct_methods it) true c 0 dex)
                    (o, w)) as X.
      rewrite E in X. destruct X as [X _]. exact X. }
    rewrite Hc.
    destruct (IsImage (compiler_ w)); simpl in *; [|reflexivity].
    destruct (existsb (unresolved P dex true) (direct_methods it)); simpl; [|reflexivity].
    destruct Hd as [_ Hd]. discriminate (Hd eq_refl).
  - destruct Hd as [Hd _]. specialize (Hd eq_refl).
    apply andb_true_iff in Hd as [-> ->]. simpl. rewrite orb_true_r. split; reflexivity.
Qed.

Lemma dex_file_loop_none (defs : list (option ClassData)) :
  forall (o : Z) (c : nat) (dex : DexFile) (w : OatWriter),
  (forall i cd, defs !! i = Some cd ->
     methods_shape w !! (c + i)%nat = Some (method_count cd)) ->
  InitOatCodeDexFile_loop P defs o c dex w = None <->
  existsb (class_rejected P (compiler_ w) dex) defs = true.
Proof.
  induction defs as [|cd defs IH]; intros o c dex w Hshape; simpl.
  - split; discriminate.
  - assert (Hc : methods_shape w !! c = Some (method_count cd)).
    { rewrite <- (Nat.add_0_r c). apply Hshape. reflexivity. }
    pose proof (class_def_none cd o c dex w Hc) as Hcd.
    destruct (InitOatCodeClassDef P o c dex cd w) as [[o1 w1]|] eqn:E.
    + destruct (class_rejected P (compiler_ w) dex cd);
        [destruct Hcd as (_ & Hcd); discriminate Hcd; reflexivity|].
      simpl.
      pose proof (class_def_items P cd o c dex w o1 w1 E) as Hitems.
      pose proof (layout_items_extends P (class_items cd c dex) (o, w)) as X.
      rewrite Hitems in X. simpl in X.
      destruct X as (Xc & _ & _ & _ & Hs & _).
      assert (Xc' : compiler_ w1 = compiler_ w)
        by (rewrite <- Xc; destruct (oat_methods_ w1 !! c); reflexivity).
      rewrite <- Xc'.
      match goal with
      | |- InitOatCodeDexFile_loop P defs o1 (S c) dex ?w2 = None <-> _ =>
          replace (compiler_ w1) with (compiler_ w2)
            by (destruct (oat_methods_ w1 !! c); reflexivity)
      end.
      apply IH. intros i cd' Hi. rewrite Hs.
      replace (S c + i)%nat with (c + S i)%nat by lia. apply Hshape. exact Hi.
    + destruct Hcd as (Hcd & _). rewrite (Hcd eq_refl). simpl. split; reflexivity.
Qed.

Lemma dex_files_loop_none (dex_files : list DexFile) :
  forall (o : Z) (c : nat) (w : OatWriter),
  (forall i n, shape_of dex_files !! i = Some n -> methods_shape w !! (c + i)%nat = Some n) ->
  InitOatCodeDexFiles_loop P dex_files o c w = None <->
  existsb (fun d => existsb (class_rejected P (compiler_ w) d) (class_defs d)) dex_files = true.
Proof.
  induction dex_files as [|d rest IH]; intros o c w Hshape; simpl.
  - split; discriminate.
  - unfold InitOatCodeDexFile.
    assert (Hd : forall i cd, class_defs d !! i = Some cd ->
                   methods_shape w !! (c + i)%nat = Some (method_count cd)).
    { intros i cd Hi. apply Hshape. unfold shape_of. simpl.
      apply lookup_app_l_Some. rewrite list_lookup_fmap, Hi. reflexivity. }
    pose proof (dex_file_loop_none (class_defs d) o c d w Hd) as Hfile.
    destruct (InitOatCodeDexFile_loop P (class_defs d) o c d w) as [[[o1 c1] w1]|] eqn:E.
    + destruct (existsb (class_rejected P (compiler_ w) d) (class_defs d));
        [destruct Hfile as (_ & Hfile); discriminate Hfile; reflexivity|].
      simpl. apply dex_file_items in E as (E & ->).
      pose proof (layout_items_extends P (dex_items (class_defs d) c d) (o, w)) as X.
      rewrite E in X. simpl in X.
      destruct X as (Xc & _ & _ & _ & Hs & _). rewrite <- Xc.
      apply IH. intros i n Hi. rewrite Hs.
      replace (c + length (class_defs d) + i)%nat
        with (c + (length (class_defs d) + i))%nat by lia.
      apply Hshape. unfold shape_of. simpl.
      rewrite lookup_app_r by (rewrite length_map; lia).
      rewrite length_map.
      replace (length (class_defs d) + i - length (class_defs d))%nat with i by lia.
      exact Hi.
    + destruct Hfile as (Hfile & _). rewrite (Hfile eq_refl). simpl. split; reflexivity.
Qed.

Lemma existsb_or_and {A} (f g : A -> bool) (b : bool) (l : list A) :
  existsb (fun x => f x || b && g x) l = existsb f l || b && existsb g l.
Proof.
  induction l as [|x l IH]; simpl.
  - rewrite andb_false_r. reflexivity.
  - rewrite IH. destruct (f x), b, (g x), (existsb f l), (existsb g l); reflexivity.
Qed.

Lemma rejected_split (compiler : Compiler) (dex_files : list DexFile) :
  existsb (fun d => existsb (class_rejected P compiler d) (class_defs d)) dex_files =
  has_static_virtual dex_files || IsImage compiler && has_unresolved P dex_files.
Proof.
  unfold has_static_virtual, has_unresolved.
  rewrite <- existsb_or_and. induction dex_files as [|d rest IH]; [reflexivity|].
  simpl. rewrite IH. f_equal. unfold class_rejected. apply existsb_or_and.
Qed.

Lemma OatWriter_layout_none (dex_files : list DexFile) (compiler : Compiler) :
  tables_extent P dex_files + kPageSize P < 2 ^ 32 ->
  OatWriter_layout P dex_files compiler = None <->
  has_static_virtual dex_files || IsImage compiler && has_unresolved P dex_files = true.
Proof.
  intros Hb. unfold OatWriter_layout.
  pose proof (layout_start_spec P HP dex_files compiler) as Hspec.
  unfold layout_start in Hspec.
  destruct (layout_tables P dex_files compiler) as [ot wt].
  destruct (InitOatCode P ot wt) as [o0 w0].
  destruct (Hspec o0 w0 Hb eq_refl)
    as (_ & _ & (Hcomp & Hdf) & _ & _ & Hshape & _ & Hl1 & Hl2).
  unfold InitOatCodeDexFiles. rewrite Hdf.
  assert (Hs : forall i n, shape_of dex_files !! i = Some n ->
                 methods_shape w0 !! (0 + i)%nat = Some n).
  { intros i n Hi. rewrite Hshape. exact Hi. }
  pose proof (dex_files_loop_none dex_files o0 0 w0 Hs) as Hloop.
  rewrite Hcomp, rejected_split in Hloop.
  destruct (InitOatCodeDexFiles_loop P dex_files o0 0 w0) as [[o1 w1]|] eqn:E.
  - apply dex_files_items in E.
    pose proof (layout_items_extends P (code_items_from dex_files 0) (o0, w0)) as X.
    rewrite E in X. simpl in X. destruct X as (_ & Xd & Xo & Xc & _).
    rewrite Xd, Xo, Xc, Hdf, Hl1, Hl2, !Nat.eqb_refl. simpl.
    destruct (has_static_virtual dex_files || IsImage compiler && has_unresolved P dex_files);
      [destruct Hloop as (_ & Hloop); discriminate Hloop; reflexivity|].
    split; discriminate.
  - destruct Hloop as (Hloop & _). rewrite (Hloop eq_refl). split; reflexivity.
Qed.

(** X8.  On dex files that are not NULL and tables that fit the 32-bit
    offsets, the constructor aborts on exactly two kinds of input: a virtual
    method that carries the static flag (the check of line 174), and, when
    an image is built, a method the runtime does not resolve (the check of
    line 295).  The checks on the sizes of the tables (lines 37, 38 and 155)
    never fail. *)
Theorem constructor_aborts_iff (dex_files : list DexFile) (compiler : Compiler) :
  tables_extent P dex_files + kPageSize P < 2 ^ 32 ->
  OatWriter_new P dex_files compiler = None <->
  has_static_virtual dex_files = true \/
  (IsImage compiler = true /\ has_unresolved P dex_files = true).
Proof.
  intros Hb. unfold OatWriter_new.
  pose proof (OatWriter_layout_none dex_files compiler Hb) as H.
  rewrite orb_true_iff, andb_true_iff in H.
  destruct (OatWriter_layout P dex_files compiler) as [[c w]|]; simpl.
  - split; [discriminate|]. intros Hs. apply H in Hs. discriminate.
  - split; [intros _; apply H; reflexivity|reflexivity].
Qed.

End Aborts.

Lemma constructor_aborts_iff_witness :
  OatWriter_new example_platform [example_dex] image_compiler <> None /\
  OatWriter_new example_platform [static_virtual_dex] example_compiler = None /\
  OatWriter_new example_platform [unknown_dex] image_compiler = None.
Proof.
  split; [|split].
  - intros H.
    apply (constructor_aborts_iff example_platform example_platform_ok [example_dex]
             image_compiler) in H; [|vm_compute; reflexivity].
    destruct H as [H|[_ H]]; vm_compute in H; discriminate H.
  - apply (constructor_aborts_iff example_platform example_platform_ok
             [static_virtual_dex] example_compiler); [vm_compute; reflexivity|].
    left. reflexivity.
  - apply (constructor_aborts_iff example_platform example_platform_ok [unknown_dex]
             image_compiler); [vm_compute; reflexivity|].
    right. split; reflexivity.
Defined.
(** ** The contents of the file *)

Lemma write_at_append (data : list Z) (pos : Z) (bytes : list Z) :
  (length data <= Z.to_nat pos)%nat ->
  write_at data pos bytes =
  (data ++ replicate (Z.to_nat pos - length data) 0) ++ bytes.
Proof.
  intros H. unfold write_at. cbv zeta.
  rewrite take_ge by (rewrite length_app, length_replicate; lia).
  rewrite (drop_ge data) by lia. rewrite app_nil_r. reflexivity.
Qed.

Lemma write_at_length (data : list Z) (pos : Z) (bytes : list Z) :
  (length data <= Z.to_nat pos)%nat ->
  length (write_at data pos bytes) = (Z.to_nat pos + length bytes)%nat.
Proof.
  intros H. rewrite write_at_append by exact H.
  rewrite !length_app, length_replicate. lia.
Qed.

Lemma write_at_read_old (data : list Z) (pos : Z) (bytes : list Z) (p : Z) (n : nat) :
  (length data <= Z.to_nat pos)%nat -> (Z.to_nat p + n <= length data)%nat ->
  read_at (write_at data pos bytes) p n = read_at data p n.
Proof.
  intros H Hp. rewrite write_at_append by exact H. unfold read_at.
  rewrite <- app_assoc. rewrite drop_app_le by lia.
  apply take_app_le. rewrite length_drop. lia.
Qed.

Lemma write_at_read_new (data : list Z) (pos : Z) (bytes : list Z) :
  (length data <= Z.to_nat pos)%nat ->
  read_at (write_at data pos bytes) pos (length bytes) = bytes.
Proof.
  intros H. rewrite write_at_append by exact H. unfold read_at.
  rewrite drop_app_length' by (rewrite length_app, length_replicate; lia).
  apply firstn_all.
Qed.

Lemma file_WriteFully_keeps (bytes : list Z) (f : File) :
  keeps_writes f -> keeps_writes (snd (file_WriteFully bytes f)).
Proof.
  intros (H0 & Hlen & Hops). unfold file_WriteFully.
  destruct bytes as [|b bytes]; [exact (conj H0 (conj Hlen Hops))|].
  destruct (f_faults f) as [|[k|] rest]; cbn [snd].
  - (* the write succeeds *)
    unfold keeps_writes. cbn [f_pos f_data f_journal].
    rewrite write_at_length by exact Hlen.
    split; [lia|]. split; [lia|].
    intros p b' Hin. apply elem_of_app in Hin as [Hin|Hin].
    + destruct (Hops p b' Hin) as (Hp & Hpl & Hr).
      split; [exact Hp|]. split; [lia|].
      rewrite write_at_read_old by lia. exact Hr.
    + apply list_elem_of_singleton in Hin. injection Hin as -> ->.
      split; [exact H0|]. split; [lia|].
      apply write_at_read_new, Hlen.
  - (* the write fails after some of its bytes *)
    unfold keeps_writes. cbn [f_pos f_data f_journal].
    rewrite write_at_length by exact Hlen.
    split; [lia|]. split; [lia|].
    intros p b' Hin. apply elem_of_app in Hin as [Hin|Hin].
    + destruct (Hops p b' Hin) as (Hp & Hpl & Hr).
      split; [exact Hp|]. split; [lia|].
      rewrite write_at_read_old by lia. exact Hr.
    + apply list_elem_of_singleton in Hin. discriminate.
  - unfold keeps_writes. cbn [f_pos f_data f_journal].
    rewrite write_at_length by exact Hlen.
    split; [lia|]. split; [lia|].
    intros p b' Hin. apply elem_of_app in Hin as [Hin|Hin].
    + destruct (Hops p b' Hin) as (Hp & Hpl & Hr).
      split; [exact Hp|]. split; [lia|].
      rewrite write_at_read_old by lia. exact Hr.
    + apply list_elem_of_singleton in Hin. injection Hin as -> ->.
      split; [exact H0|]. split; [lia|].
      apply write_at_read_new, Hlen.
Qed.

Lemma file_lseek_cur_keeps (delta : Z) (f : File) :
  0 <= delta -> keeps_writes f -> keeps_writes (snd (file_lseek_cur delta f)).
Proof.
  intros Hd (H0 & Hlen & Hops). unfold file_lseek_cur.
  destruct (f_faults f) as [|[k|] rest]; cbn [snd];
    unfold keeps_writes; cbn [f_pos f_data f_journal].
  all: split; [lia|]; split; [lia|].
  all: intros p b Hin; apply elem_of_app in Hin as [Hin|Hin]; [apply Hops, Hin|].
  all: apply list_elem_of_singleton in Hin; discriminate.
Qed.

Lemma WriteFully_keeps (bytes : list Z) (o : World) :
  Keeps o -> Keeps (snd (WriteFully bytes o)).
Proof.
  intros K. unfold WriteFully.
  pose proof (file_WriteFully_keeps bytes (w_file o) K) as K1.
  destruct (file_WriteFully bytes (w_file o)) as [ok f]. exact K1.
Qed.

Lemma lseek_cur_keeps (delta : Z) (o : World) :
  0 <= delta -> Keeps o -> Keeps (snd (lseek_cur delta o)).
Proof.
  intros Hd K. unfold lseek_cur.
  pose proof (file_lseek_cur_keeps delta (w_file o) Hd K) as K1.
  destruct (file_lseek_cur delta (w_file o)) as [r f]. exact K1.
Qed.

Lemma LOG_keeps (line : string) (o : World) : Keeps o -> Keeps (LOG line o).
Proof. intros K. exact K. Qed.

Lemma fresh_file_keeps (file_name : string) (faults : list (option nat)) :
  Keeps (fresh_file file_name faults).
Proof.
  unfold Keeps, keeps_writes. simpl. split; [lia|]. split; [lia|].
  intros p b Hin. apply elem_of_nil in Hin. contradiction.
Qed.
(** ** The emit pass only appends to the file *)

Ltac step_write :=
  match goal with
  | K : Keeps ?o |- context [WriteFully ?b ?o] =>
      let K1 := fresh "K" in
      pose proof (WriteFully_keeps b o K) as K1;
      destruct (WriteFully b o) as [[|] ?]; cbn [snd negb] in K1 |- *; [|exact K1]
  end.

Lemma OatDexFile_Write_keeps (d : OatDexFile) (o : World) :
  Keeps o -> Keeps (snd (OatDexFile_Write d o)).
Proof. intros K. unfold OatDexFile_Write. repeat step_write. assumption. Qed.

Lemma OatClasses_Write_keeps (c : OatClasses) (o : World) :
  Keeps o -> Keeps (snd (OatClasses_Write c o)).
Proof. intros K. unfold OatClasses_Write. repeat step_write. assumption. Qed.

Lemma OatMethods_Write_keeps (m : OatMethods) (o : World) :
  Keeps o -> Keeps (snd (OatMethods_Write m o)).
Proof. intros K. unfold OatMethods_Write. repeat step_write. assumption. Qed.

Lemma write_all_keeps {A} (write : A -> World -> bool * World) (failure : string)
    (l : list A) :
  (forall x o, Keeps o -> Keeps (snd (write x o))) ->
  forall o, Keeps o -> Keeps (snd (write_all write failure l o)).
Proof.
  intros Hw. induction l as [|x l IH]; intros o K; simpl; [exact K|].
  pose proof (Hw x o K) as K1. destruct (write x o) as [[|] o1]; cbn [snd negb] in *.
  - apply IH, K1.
  - exact K1.
Qed.

Lemma WriteTables_keeps (w : OatWriter) (o : World) :
  Keeps o -> Keeps (snd (WriteTables w o)).
Proof.
  intros K. unfold WriteTables.
  pose proof (write_all_keeps OatDexFile_Write "Failed to write oat dex information to "
                (oat_dex_files_ w) OatDexFile_Write_keeps o K) as K1.
  destruct (write_all OatDexFile_Write _ (oat_dex_files_ w) o) as [[|] o1];
    cbn [snd negb] in *; [|exact K1].
  pose proof (write_all_keeps OatClasses_Write "Failed to write oat classes information to "
                (oat_classes_ w) OatClasses_Write_keeps o1 K1) as K2.
  destruct (write_all OatClasses_Write _ (oat_classes_ w) o1) as [[|] o2];
    cbn [snd negb] in *; [|exact K2].
  apply write_all_keeps; [apply OatMethods_Write_keeps|exact K2].
Qed.

Lemma WriteCode_keeps (w : OatWriter) (o : World) :
  0 <= executable_offset_padding_length_ w ->
  Keeps o -> Keeps (snd (WriteCode w o)).
Proof.
  intros Hpad K. unfold WriteCode.
  pose proof (lseek_cur_keeps _ o Hpad K) as K1.
  destruct (lseek_cur (executable_offset_padding_length_ w) o) as [r o1]. cbn [snd] in K1.
  destruct (negb _); exact K1.
Qed.

Section Appends.

Variable P : Platform.

Lemma write_alignment_keeps (aligned : Z) (failure : string) (with_file : bool)
    (code_offset : Z) (o : World) :
  Keeps o -> Keeps (snd (write_alignment aligned failure with_file code_offset o)).
Proof.
  intros K. unfold write_alignment. cbv zeta.
  destruct (negb (u32 (aligned - code_offset) =? 0)); [|exact K].
  pose proof (lseek_cur_keeps (u32 (aligned - code_offset)) o
                (proj1 (u32_range _)) K) as K1.
  destruct (lseek_cur (u32 (aligned - code_offset)) o) as [r o1]. cbn [snd] in K1.
  destruct (negb _); exact K1.
Qed.

Lemma write_code_keeps (w : OatWriter) (cm : CompiledMethod) (mo : OatMethodOffsets)
    (idx : Z) (dex : DexFile) (c : Z) (o : World) :
  Keeps o -> Keeps (snd (write_code P w cm mo idx dex c o)).
Proof.
  intros K. unfold write_code. cbv zeta.
  match goal with
  | |- context [write_alignment ?a ?f ?b c o] =>
      pose proof (write_alignment_keeps a f b c o K) as K1;
      destruct (write_alignment a f b c o) as [[c1|] o1]; cbn [snd] in K1; [|exact K1]
  end.
  destruct (_ && _); [exact K1|]. repeat step_write. assumption.
Qed.

Lemma write_word_keeps (word : Z) (what : string) (idx : Z) (dex : DexFile) (c : Z)
    (o : World) :
  Keeps o -> Keeps (snd (write_word P word what idx dex c o)).
Proof. intros K. unfold write_word. repeat step_write. assumption. Qed.

Lemma write_mapping_table_keeps (w : OatWriter) (cm : CompiledMethod)
    (mo : OatMethodOffsets) (idx : Z) (dex : DexFile) (c : Z) (o : World) :
  Keeps o -> Keeps (snd (write_mapping_table P w cm mo idx dex c o)).
Proof.
  intros K. unfold write_mapping_table. cbv zeta.
  destruct (_ && _); [exact K|]. repeat step_write. assumption.
Qed.

Lemma write_vmap_table_keeps (w : OatWriter) (cm : CompiledMethod)
    (mo : OatMethodOffsets) (idx : Z) (dex : DexFile) (c : Z) (o : World) :
  Keeps o -> Keeps (snd (write_vmap_table P w cm mo idx dex c o)).
Proof.
  intros K. unfold write_vmap_table. cbv zeta.
  destruct (_ && _); [exact K|]. repeat step_write. assumption.
Qed.

Lemma write_invoke_stub_keeps (w : OatWriter) (stub : CompiledInvokeStub)
    (mo : OatMethodOffsets) (idx : Z) (dex : DexFile) (c : Z) (o : World) :
  Keeps o -> Keeps (snd (write_invoke_stub P w stub mo idx dex c o)).
Proof.
  intros K. unfold write_invoke_stub. cbv zeta.
  match goal with
  | |- context [write_alignment ?a ?f ?b c o] =>
      pose proof (write_alignment_keeps a f b c o K) as K1;
      destruct (write_alignment a f b c o) as [[c1|] o1]; cbn [snd] in K1; [|exact K1]
  end.
  destruct (_ && _); [exact K1|]. repeat step_write. assumption.
Qed.

Lemma and_then_keeps (r : option Z * World) (k : Z -> World -> option Z * World) :
  Keeps (snd r) -> (forall c o, Keeps o -> Keeps (snd (k c o))) ->
  Keeps (snd (and_then r k)).
Proof.
  intros K Hk. destruct r as [[c|] o]; simpl in *; [apply Hk, K|exact K].
Qed.

Lemma WriteCodeMethod_blocks_keeps (w : OatWriter) (c : Z) (ci k : nat) (st : bool)
    (idx : Z) (dex : DexFile) (o : World) :
  Keeps o -> Keeps (snd (WriteCodeMethod_blocks P w c ci k st idx dex o)).
Proof.
  intros K. unfold WriteCodeMethod_blocks. cbv zeta.
  apply and_then_keeps.
  { destruct (GetCompiledMethod _ _ _); [apply write_code_keeps, K|exact K]. }
  intros c1 o1 K1. apply and_then_keeps; [apply write_word_keeps, K1|].
  intros c2 o2 K2. apply and_then_keeps; [apply write_word_keeps, K2|].
  intros c3 o3 K3. apply and_then_keeps; [apply write_word_keeps, K3|].
  intros c4 o4 K4. apply and_then_keeps.
  { destruct (GetCompiledMethod _ _ _); [|exact K4].
    apply and_then_keeps; [apply write_mapping_table_keeps, K4|].
    intros c5 o5 K5. apply write_vmap_table_keeps, K5. }
  intros c6 o6 K6.
  destruct (FindInvokeStub _ _ _); [apply write_invoke_stub_keeps, K6|exact K6].
Qed.

Lemma WriteCodeMethod_keeps (w : OatWriter) (c : Z) (ci k : nat) (st : bool)
    (idx : Z) (dex : DexFile) (o : World) :
  Keeps o -> Keeps (snd (WriteCodeMethod P w c ci k st idx dex o)).
Proof.
  intros K. unfold WriteCodeMethod.
  pose proof (WriteCodeMethod_blocks_keeps w c ci k st idx dex o K) as K1.
  destruct (WriteCodeMethod_blocks P w c ci k st idx dex o) as [[c1|] o1]; exact K1.
Qed.

Lemma WriteCode_methods_keeps (w : OatWriter) (it : list EncodedMethod) (direct : bool) :
  forall (c : Z) (ci k : nat) (dex : DexFile) (o : World),
  Keeps o -> Keeps (snd (WriteCode_methods P w it direct c ci k dex o)).
Proof.
  induction it as [|e it IH]; intros c ci k dex o K; simpl; [exact K|].
  match goal with
  | |- context [WriteCodeMethod P w c ci k ?st ?idx dex o] =>
      pose proof (WriteCodeMethod_keeps w c ci k st idx dex o K) as K1;
      destruct (WriteCodeMethod P w c ci k st idx dex o) as [c1 o1]
  end.
  cbn [snd] in K1. destruct (c1 =? 0); [exact K1|apply IH, K1].
Qed.

Lemma WriteCodeClassDef_keeps (w : OatWriter) (c : Z) (ci : nat) (dex : DexFile)
    (class_data : option ClassData) (o : World) :
  Keeps o -> Keeps (snd (WriteCodeClassDef P w c ci dex class_data o)).
Proof.
  intros K. unfold WriteCodeClassDef. destruct class_data as [it|]; [|exact K].
  pose proof (WriteCode_methods_keeps w (direct_methods it) true c ci 0 dex o K) as K1.
  destruct (WriteCode_methods P w (direct_methods it) true c ci 0 dex o) as [[c1 k1] o1].
  cbn [snd] in K1. destruct (c1 =? 0); [exact K1|].
  pose proof (WriteCode_methods_keeps w (virtual_methods it) false c1 ci k1 dex o1 K1) as K2.
  destruct (WriteCode_methods P w (virtual_methods it) false c1 ci k1 dex o1)
    as [[c2 k2] o2].
  exact K2.
Qed.

Lemma WriteCodeDexFile_loop_keeps (w : OatWriter) (defs : list (option ClassData)) :
  forall (c : Z) (ci : nat) (dex : DexFile) (o : World),
  Keeps o -> Keeps (snd (WriteCodeDexFile_loop P w defs c ci dex o)).
Proof.
  induction defs as [|cd defs IH]; intros c ci dex o K; simpl; [exact K|].
  pose proof (WriteCodeClassDef_keeps w c ci dex cd o K) as K1.
  destruct (WriteCodeClassDef P w c ci dex cd o) as [c1 o1]. cbn [snd] in K1.
  destruct (c1 =? 0); [exact K1|apply IH, K1].
Qed.

Lemma WriteCodeDexFiles_loop_keeps (w : OatWriter) (dex_files : list DexFile) :
  forall (c : Z) (ci : nat) (o : World),
  Keeps o -> Keeps (snd (WriteCodeDexFiles_loop P w dex_files c ci o)).
Proof.
  induction dex_files as [|d rest IH]; intros c ci o K; simpl; [exact K|].
  unfold WriteCodeDexFile.
  pose proof (WriteCodeDexFile_loop_keeps w (class_defs d) c ci d o K) as K1.
  destruct (WriteCodeDexFile_loop P w (class_defs d) c ci d o) as [[c1 ci1] o1].
  cbn [snd] in K1. destruct (c1 =? 0); [exact K1|apply IH, K1].
Qed.

Lemma Write_keeps (w : OatWriter) (o : World) :
  0 <= executable_offset_padding_length_ w ->
  Keeps o -> Keeps (snd (Write P w o)).
Proof.
  intros Hpad K. unfold Write. step_write.
  pose proof (WriteTables_keeps w _ K0) as K1.
  destruct (WriteTables w _) as [[|] o2]; cbn [snd negb] in *; [|exact K1].
  pose proof (WriteCode_keeps w o2 Hpad K1) as K2.
  destruct (WriteCode w o2) as [c3 o3]. cbn [snd] in K2.
  destruct (c3 =? 0); [exact K2|].
  unfold WriteCodeDexFiles.
  pose proof (WriteCodeDexFiles_loop_keeps w
                (take (length (oat_classes_ w)) (dex_files_ w)) c3 0%nat o3 K2) as K3.
  destruct (WriteCodeDexFiles_loop P w _ c3 0%nat o3) as [c4 o4]. cbn [snd] in K3.
  destruct (c4 =? 0); exact K3.
Qed.

End Appends.
(** ** Reading the file back *)

Section ReadBack.

Variable P : Platform.
Hypothesis HP : platform_ok P.

Lemma OatWriter_layout_padding (dex_files : list DexFile) (compiler : Compiler)
    (cursor : Z) (w : OatWriter) :
  OatWriter_layout P dex_files compiler = Some (cursor, w) ->
  0 <= executable_offset_padding_length_ w.
Proof.
  unfold OatWriter_layout. intros H.
  destruct (layout_tables P dex_files compiler) as [ot wt].
  unfold InitOatCode in H. unfold InitOatCodeDexFiles in H.
  match type of H with
  | match InitOatCodeDexFiles_loop P ?d ?o 0 ?w0 with _ => _ end = _ =>
      destruct (InitOatCodeDexFiles_loop P d o 0 w0) as [[o1 w1]|] eqn:E; [|discriminate];
      apply dex_files_items in E;
      pose proof (layout_items_extends P (code_items_from d 0) (o, w0)) as X;
      rewrite E in X; cbn [snd] in X
  end.
  destruct (_ && _); [|discriminate]. injection H as <- <-.
  destruct X as (_ & _ & _ & _ & _ & -> & _). simpl.
  apply u32_range.
Qed.

(** X9.  [Write] only appends.  Whatever calls of the file fail, the bytes
    of every write that succeeded are in the file, at the position of the
    write, when [Write] returns: no later write of the emit pass goes over
    them. *)
Theorem Write_keeps_its_writes (dex_files : list DexFile) (compiler : Compiler)
    (w : OatWriter) (o : World) (p : Z) (b : list Z) :
  OatWriter_new P dex_files compiler = Some w ->
  Keeps o ->
  OpWrite p b true ∈ f_journal (w_file (snd (Write P w o))) ->
  read_at (f_data (w_file (snd (Write P w o)))) p (length b) = b.
Proof.
  intros Hw K Hin. unfold OatWriter_new in Hw.
  destruct (OatWriter_layout P dex_files compiler) as [[cursor w']|] eqn:E; [|discriminate].
  injection Hw as ->.
  pose proof (Write_keeps P w o (OatWriter_layout_padding _ _ _ _ E) K) as (_ & _ & Hops).
  apply Hops, Hin.
Qed.

Lemma put_op_in (put : bool) (pos : Z) (bytes : list Z) :
  put = true -> OpWrite pos bytes true ∈ put_op put pos bytes.
Proof. intros ->. apply list_elem_of_singleton. reflexivity. Qed.

(** X10.  Every artifact that is put into the file can be read back from
    it.  After a [Write] on a new file whose calls all succeed, the file
    holds, for every method, the code at the stored code offset less the
    thumb bit, the two tables and the invoke stub at their stored offsets,
    for each of them that the placement puts into the file, and the three
    frame words between the code and the mapping table. *)
Theorem artifacts_read_back (dex_files : list DexFile) (compiler : Compiler) (cursor : Z)
    (w : OatWriter) (file_name : string) (pre : list Item) (m : MethodRef)
    (post : list Item) :
  layout_extent P dex_files compiler < 2 ^ 32 ->
  OatWriter_layout P dex_files compiler = Some (cursor, w) ->
  code_items dex_files = pre ++ IMethod m :: post ->
  exists lo lw final,
    let mo := method_offsets_at w (m_class m) (m_index m) in
    let pl := placement P lw lo m in
    let data := f_data (w_file final) in
    layout_at P dex_files compiler pre = (lo, lw) /\
    Write P w (fresh_file file_name []) = (true, final) /\
    (forall cm, GetCompiledMethod compiler (m_dex m) (m_idx m) = Some cm ->
       (put_code pl = true ->
        read_at data (code_offset_ mo - CodeDelta cm)
          (length (code_vec compiler (GetCode cm))) = code_vec compiler (GetCode cm)) /\
       (put_mapping pl = true ->
        read_at data (mapping_table_offset_ mo)
          (length (bytes_of_u32s (mapping_vec compiler (GetMappingTable cm)))) =
        bytes_of_u32s (mapping_vec compiler (GetMappingTable cm))) /\
       (put_vmap pl = true ->
        read_at data (vmap_table_offset_ mo)
          (length (bytes_of_u16s (vmap_vec compiler (GetVmapTable cm)))) =
        bytes_of_u16s (vmap_vec compiler (GetVmapTable cm))) /\
       (read_at data (at_words pl) 4 = le32 (u32 (GetFrameSizeInBytes cm)) /\
        read_at data (at_words pl + 4) 4 = le32 (u32 (GetCoreSpillMask cm)) /\
        read_at data (at_words pl + 4 + 4) 4 = le32 (u32 (GetFpSpillMask cm)))) /\
    (forall stub,
       FindInvokeStub compiler (m_static m) (GetMethodShorty (m_dex m) (m_idx m)) =
         Some stub ->
       put_stub pl = true ->
       read_at data (invoke_stub_offset_ mo)
         (length (code_vec compiler (GetStubCode stub))) =
       code_vec compiler (GetStubCode stub)).
Proof.
  intros Hb Hl Hsplit.
  destruct (method_in_file P HP dex_files compiler cursor w file_name pre m post
              Hb Hl Hsplit)
    as (lo & lw & w1 & ew & after & final & La & _ & _ & _ & _ & _ & _ & Hpm &
        _ & _ & HW & J).
  assert (Hnew : OatWriter_new P dex_files compiler = Some w).
  { unfold OatWriter_new. rewrite Hl. reflexivity. }
  pose proof (Write_keeps P w (fresh_file file_name [])
                (OatWriter_layout_padding _ _ _ _ Hl) (fresh_file_keeps _ _)) as K.
  rewrite HW in K. destruct K as (_ & _ & Hops). cbn [snd] in Hops.
  assert (Hcalls : forall p b,
            OpWrite p b true ∈ method_calls compiler m (placement P lw lo m) ->
            read_at (f_data (w_file final)) p (length b) = b).
  { intros p b Hin. apply Hops. rewrite J.
    apply elem_of_app. right. apply elem_of_app. left. exact Hin. }
  destruct Hpm as (Hcode & Hmap & Hvmap & Hstub).
  exists lo, lw, final. cbv zeta.
  split; [exact La|]. split; [exact HW|]. split.
  - intros cm Hcm. split; [|split; [|split]].
    + intros Hput. rewrite (Hcode Hput cm Hcm).
      replace (at_code (placement P lw lo m) + CodeDelta cm - CodeDelta cm)
        with (at_code (placement P lw lo m)) by lia.
      apply Hcalls. unfold method_calls. rewrite Hcm.
      apply elem_of_app. right. apply elem_of_app. left. apply put_op_in, Hput.
    + intros Hput. rewrite (Hmap Hput).
      apply Hcalls. unfold method_calls. rewrite Hcm.
      apply elem_of_app. right. apply elem_of_app. right. apply elem_of_app. right.
      apply elem_of_app. left. apply elem_of_app. left. apply put_op_in, Hput.
    + intros Hput. rewrite (Hvmap Hput).
      apply Hcalls. unfold method_calls. rewrite Hcm.
      apply elem_of_app. right. apply elem_of_app. right. apply elem_of_app. right.
      apply elem_of_app. left. apply elem_of_app. right. apply put_op_in, Hput.
    + assert (Hw3 : forall q x,
                OpWrite q (le32 x) true ∈
                  method_calls compiler m (placement P lw lo m) ->
                read_at (f_data (w_file final)) q 4 = le32 x).
      { intros q x Hin. apply (Hcalls _ _ Hin). }
      assert (Hwords : forall op,
                op ∈ [OpWrite (at_words (placement P lw lo m))
                        (le32 (u32 (GetFrameSizeInBytes cm))) true;
                      OpWrite (at_words (placement P lw lo m) + 4)
                        (le32 (u32 (GetCoreSpillMask cm))) true;
                      OpWrite (at_words (placement P lw lo m) + 4 + 4)
                        (le32 (u32 (GetFpSpillMask cm))) true] ->
                op ∈ method_calls compiler m (placement P lw lo m)).
      { intros op Hin. unfold method_calls. rewrite Hcm.
        apply elem_of_app. right. apply elem_of_app. right. apply elem_of_app. left.
        exact Hin. }
      split; [|split]; apply Hw3, Hwords.
      * apply elem_of_cons. left. reflexivity.
      * apply elem_of_cons. right. apply elem_of_cons. left. reflexivity.
      * apply elem_of_cons. right. apply elem_of_cons. right.
        apply elem_of_cons. left. reflexivity.
  - intros stub Hs Hput. rewrite (Hstub Hput).
    apply Hcalls. unfold method_calls. rewrite Hs.
    repeat (apply elem_of_app; right). apply put_op_in, Hput.
Qed.

End ReadBack.

Lemma Write_keeps_its_writes_witness :
  read_at (f_data (w_file (snd (Write example_platform example_writer
                                  (fresh_file "out.oat" [None; None; Some 2%nat])))))
    16 4 = [5; 0; 0; 0].
Proof.
  apply (Write_keeps_its_writes example_platform [example_dex] example_compiler
           example_writer (fresh_file "out.oat" [None; None; Some 2%nat]) 16 [5; 0; 0; 0]
           example_writer_new (fresh_file_keeps _ _)).
  apply list_elem_of_lookup. exists 1%nat. vm_compute. reflexivity.
Defined.

Lemma artifacts_read_back_witness :
  exists final,
    Write example_platform example_writer (fresh_file "out.oat" []) = (true, final).
Proof.
  destruct (artifacts_read_back example_platform example_platform_ok [example_dex]
              example_compiler example_cursor example_writer "out.oat"
              [] example_first
              [IMethod example_second; IMethod example_empty; IMethod example_abstract;
               IClassEnd 0; IClassEnd 1]
              example_fits example_layout_eq eq_refl)
    as (lo & lw & final & La & HW & _).
  exists final. exact HW.
Defined.
(** ** The header and the tables in the file *)

Lemma read_at_app (data : list Z) (p : Z) (n1 n2 : nat) :
  0 <= p ->
  read_at data p (n1 + n2) = read_at data p n1 ++ read_at data (p + Z.of_nat n1) n2.
Proof.
  intros Hp. unfold read_at.
  replace (Z.to_nat (p + Z.of_nat n1)) with (Z.to_nat p + n1)%nat by lia.
  rewrite <- drop_drop. symmetry. apply take_take_drop.
Qed.

Lemma record_calls_app (start : Z) (l1 l2 : list (list Z)) :
  record_calls start (l1 ++ l2) =
  record_calls start l1 ++ record_calls (start + len (concat l1)) l2.
Proof.
  revert start. induction l1 as [|b l1 IH]; intros start; simpl.
  - rewrite Z.add_0_r. reflexivity.
  - rewrite IH, <- app_assoc. unfold len. rewrite length_app, Nat2Z.inj_add.
    rewrite Z.add_assoc. reflexivity.
Qed.

(** A row of byte strings that was written is read back as a whole. *)
Lemma record_calls_read (data : list Z) (journal : list io_op) (fields : list (list Z)) :
  forall start,
  0 <= start ->
  (forall p b, OpWrite p b true ∈ journal -> read_at data p (length b) = b) ->
  (forall op, op ∈ record_calls start fields -> op ∈ journal) ->
  read_at data start (length (concat fields)) = concat fields.
Proof.
  induction fields as [|b rest IH]; intros start H0 Hread Hin; simpl.
  - reflexivity.
  - rewrite length_app, read_at_app by exact H0. f_equal.
    + destruct b as [|x b]; [reflexivity|]. apply Hread, Hin. simpl.
      apply elem_of_cons. left. reflexivity.
    + apply IH; [unfold len; lia|exact Hread|].
      intros op Hop. apply Hin. simpl. apply elem_of_app. right. exact Hop.
Qed.

Lemma record_calls_emitted (fields : list (list Z)) :
  forall o, f_faults (w_file o) = [] ->
  exists o', fold_left (fun s b => snd (WriteFully b s)) fields o = o' /\
             emits o o' (record_calls (f_pos (w_file o)) fields)
               (f_pos (w_file o) + len (concat fields)).
Proof.
  induction fields as [|b rest IH]; intros o Hf; simpl.
  - exists o. split; [reflexivity|]. unfold len. simpl. rewrite Z.add_0_r.
    apply emits_refl, Hf.
  - destruct (WriteFully_ok b o Hf) as (o1 & W1 & Q1). rewrite W1. simpl.
    destruct (IH o1 (emits_faults _ _ _ _ Q1)) as (o2 & W2 & Q2).
    exists o2. split; [exact W2|].
    rewrite (emits_pos _ _ _ _ Q1) in Q2.
    eapply emits_eq; [eapply emits_trans; eassumption|].
    unfold len. rewrite length_app, Nat2Z.inj_add. lia.
Qed.

(** On a file without faults the records of the tables are written field
    after field. *)
Definition write_field (o : World) (b : list Z) : World := snd (WriteFully b o).

Lemma write_fields_faults (fields : list (list Z)) (o : World) :
  f_faults (w_file o) = [] -> f_faults (w_file (fold_left write_field fields o)) = [].
Proof.
  intros Hf. destruct (record_calls_emitted fields o Hf) as (o' & E & Q).
  unfold write_field. rewrite E. exact (emits_faults _ _ _ _ Q).
Qed.

Lemma WriteFully_field (b : list Z) (o : World) :
  f_faults (w_file o) = [] -> WriteFully b o = (true, write_field o b).
Proof.
  intros Hf. destruct (WriteFully_ok b o Hf) as (o1 & W1 & _).
  unfold write_field. rewrite W1. reflexivity.
Qed.

Lemma write_field_faults (b : list Z) (o : World) :
  f_faults (w_file o) = [] -> f_faults (w_file (write_field o b)) = [].
Proof. intros Hf. apply (write_fields_faults [b] o Hf). Qed.

Lemma OatDexFile_Write_fields (d : OatDexFile) (o : World) :
  f_faults (w_file o) = [] ->
  OatDexFile_Write d o = (true, fold_left write_field (dex_fields d) o).
Proof.
  intros Hf. unfold OatDexFile_Write, dex_fields. cbn [fold_left].
  rewrite WriteFully_field by exact Hf. cbn [negb].
  rewrite WriteFully_field by (apply write_field_faults, Hf). cbn [negb].
  rewrite WriteFully_field by (do 2 apply write_field_faults; exact Hf). cbn [negb].
  rewrite WriteFully_field by (do 3 apply write_field_faults; exact Hf). reflexivity.
Qed.

Lemma OatClasses_Write_fields (c : OatClasses) (o : World) :
  f_faults (w_file o) = [] ->
  OatClasses_Write c o = (true, fold_left write_field [OatClasses_bytes c] o).
Proof.
  intros Hf. unfold OatClasses_Write. rewrite WriteFully_field by exact Hf. reflexivity.
Qed.

Lemma OatMethods_Write_fields (m : OatMethods) (o : World) :
  f_faults (w_file o) = [] ->
  OatMethods_Write m o = (true, fold_left write_field [OatMethods_bytes m] o).
Proof.
  intros Hf. unfold OatMethods_Write. rewrite WriteFully_field by exact Hf. reflexivity.
Qed.

Lemma write_all_fields {A} (write : A -> World -> bool * World) (failure : string)
    (fields : A -> list (list Z)) (l : list A) :
  (forall x o, f_faults (w_file o) = [] ->
     write x o = (true, fold_left write_field (fields x) o)) ->
  forall o, f_faults (w_file o) = [] ->
  write_all write failure l o = (true, fold_left write_field (concat (fields <$> l)) o).
Proof.
  intros Hw. induction l as [|x l IH]; intros o Hf; [reflexivity|].
  rewrite fmap_cons. cbn [concat write_all]. rewrite (Hw x o Hf). cbn [negb].
  rewrite fold_left_app. apply IH, write_fields_faults, Hf.
Qed.

Lemma concat_singletons {A B} (f : A -> B) (l : list A) :
  concat ((fun x => [f x]) <$> l) = f <$> l.
Proof. induction l as [|x l IH]; [reflexivity|]. rewrite !fmap_cons. simpl. rewrite IH. reflexivity. Qed.

Lemma WriteTables_fields (w : OatWriter) (o : World) :
  f_faults (w_file o) = [] ->
  WriteTables w o =
  (true,
   fold_left write_field
     (concat (dex_fields <$> oat_dex_files_ w) ++
      (OatClasses_bytes <$> oat_classes_ w) ++ (OatMethods_bytes <$> oat_methods_ w)) o).
Proof.
  intros Hf. unfold WriteTables.
  rewrite (write_all_fields OatDexFile_Write _ dex_fields _ OatDexFile_Write_fields o Hf).
  cbn [negb].
  rewrite (write_all_fields OatClasses_Write _ (fun c => [OatClasses_bytes c]) _
             OatClasses_Write_fields) by (apply write_fields_faults, Hf).
  cbn [negb].
  rewrite (write_all_fields OatMethods_Write _ (fun m => [OatMethods_bytes m]) _
             OatMethods_Write_fields) by (do 2 apply write_fields_faults; exact Hf).
  rewrite !concat_singletons, !fold_left_app. reflexivity.
Qed.

Section TablesInFile.

Variable P : Platform.
Hypothesis HP : platform_ok P.

(** The calls that write the header and the tables are calls of [Write]. *)
Lemma tables_in_file (dex_files : list DexFile) (compiler : Compiler) (cursor : Z)
    (w : OatWriter) (file_name : string) :
  layout_extent P dex_files compiler < 2 ^ 32 ->
  OatWriter_layout P dex_files compiler = Some (cursor, w) ->
  exists final,
    Write P w (fresh_file file_name []) = (true, final) /\
    (forall p b, OpWrite p b true ∈ f_journal (w_file final) ->
       read_at (f_data (w_file final)) p (length b) = b) /\
    (forall op, op ∈ record_calls 0 (table_fields w) -> op ∈ f_journal (w_file final)).
Proof.
  intros Hb Hl.
  destruct (reach P HP dex_files compiler cursor w file_name [] (code_items dex_files)
              Hb Hl eq_refl)
    as (lo & lw & ew & ops & La & Ea & Q & (H0 & Hext) & (Mb & _) & Hk & Hc & Hrest &
        _ & _ & HW).
  destruct (items_sync P HP (code_items dex_files) lo lw cursor w H0
              ltac:(rewrite Hc; exact Hext) Mb Hk Hrest) as (B2 & _ & _ & _ & Hemit2).
  destruct (Hemit2 w ew (extends_refl w) (fun _ _ => eq_refl) (emits_pos _ _ _ _ Q)
              (emits_faults _ _ _ _ Q)) as (final & ops2 & Ef & Qf).
  rewrite Ef in HW.
  assert (Hnzc : (cursor =? 0) = false) by (apply Z.eqb_neq; lia).
  rewrite Hnzc in HW.
  exists final. split; [exact HW|]. split.
  { pose proof (Write_keeps P w (fresh_file file_name [])
                  (OatWriter_layout_padding P _ _ _ _ Hl) (fresh_file_keeps _ _)) as K.
    rewrite HW in K. destruct K as (_ & _ & Hops). intros p b Hin. apply Hops, Hin. }
  (* the journal when the emit pass enters the executable section *)
  unfold emit_at, emit_start in Ea. cbn [emit_items] in Ea.
  rewrite WriteFully_field in Ea by reflexivity.
  rewrite WriteTables_fields in Ea by (apply write_field_faults; reflexivity).
  set (o2 := fold_left write_field _ (write_field _ _)) in Ea.
  assert (E2 : o2 = fold_left write_field (table_fields w) (fresh_file file_name [])).
  { unfold o2, table_fields. reflexivity. }
  destruct (record_calls_emitted (table_fields w) (fresh_file file_name []) eq_refl)
    as (o2' & W2 & Q2).
  fold write_field in W2. rewrite <- E2 in W2. subst o2'.
  unfold WriteCode in Ea.
  destruct (lseek_cur_ok (executable_offset_padding_length_ w) o2
              (emits_faults _ _ _ _ Q2)) as (o3 & W3 & Q3).
  rewrite W3 in Ea.
  assert (Hj : f_journal (w_file ew) = f_journal (w_file o3)).
  { destruct (negb _); injection Ea as _ <-; reflexivity. }
  intros op Hin.
  destruct Qf as (Jf & _). rewrite Jf, Hj.
  destruct Q3 as (J3 & _). rewrite J3.
  destruct Q2 as (J2 & _). rewrite J2. simpl.
  apply elem_of_app. left. apply elem_of_app. left. exact Hin.
Qed.

End TablesInFile.
(** ** The offsets the layout writes into the tables *)

Section TableOffsets.

Variable P : Platform.
Hypothesis HP : platform_ok P.

Lemma InitOatClasses_loop_offsets (dex_files : list DexFile) :
  forall (i : nat) (o : Z) (w : OatWriter) (o' : Z) (w' : OatWriter),
  0 <= o -> o + classes_extent dex_files < 2 ^ 32 ->
  InitOatClasses_loop dex_files i o w = (o', w') ->
  (forall j, (j < i)%nat -> oat_dex_files_ w' !! j = oat_dex_files_ w !! j) /\
  (forall k od, (k < length dex_files)%nat ->
     oat_dex_files_ w !! (i + k)%nat = Some od ->
     oat_dex_files_ w' !! (i + k)%nat =
       Some (set_classes_offset (o + classes_extent (take k dex_files)) od)).
Proof.
  induction dex_files as [|d rest IH]; intros i o w o' w' H0 Hb H.
  - simpl in H. injection H as <- <-. split; [reflexivity|].
    intros k od Hk. simpl in Hk. lia.
  - cbn [InitOatClasses_loop] in H. cbn [classes_extent] in Hb.
    pose proof (classes_extent_nonneg rest) as Hr.
    pose proof (len_nonneg (class_defs d)) as Hl.
    assert (Hs : OatClasses_SizeOf (OatClasses_new d) = 4 * len (class_defs d)).
    { unfold OatClasses_SizeOf.
      rewrite size_of_list_small by (rewrite OatClasses_new_len; lia).
      rewrite OatClasses_new_len by lia. apply u32_small. lia. }
    rewrite Hs, u32_small in H by lia.
    apply IH in H as (IH1 & IH2); [|lia|lia].
    assert (Hd : forall (w0 : OatWriter),
              oat_dex_files_
                (with_oat_classes (oat_classes_
                   match oat_dex_files_ w0 !! i with
                   | Some o0 => OatDexFile_UpdateChecksum o0 w0
                   | None => w0
                   end ++ [OatClasses_new d])
                   match oat_dex_files_ w0 !! i with
                   | Some o0 => OatDexFile_UpdateChecksum o0 w0
                   | None => w0
                   end) = oat_dex_files_ w0).
    { intros w0. destruct (oat_dex_files_ w0 !! i); reflexivity. }
    rewrite Hd in IH1, IH2. cbn [oat_dex_files_ with_oat_dex_files] in IH1, IH2.
    split.
    + intros j Hj. rewrite IH1 by lia. apply list_lookup_alter_ne. lia.
    + intros k od Hk Hod. destruct k as [|k].
      * rewrite Nat.add_0_r in *. rewrite IH1 by lia.
        rewrite list_lookup_alter_eq, Hod. simpl. rewrite Z.add_0_r. reflexivity.
      * replace (i + S k)%nat with (S i + k)%nat in * by lia.
        rewrite (IH2 k od) by
          (simpl in Hk; try lia; rewrite list_lookup_alter_ne by lia; exact Hod).
        cbn [take classes_extent]. do 2 f_equal. lia.
Qed.

Lemma InitOatMethods_class_defs_offsets (defs : list (option ClassData)) :
  forall (i cdi : nat) (o : Z) (w : OatWriter) (o' : Z) (w' : OatWriter),
  0 <= o -> o + class_defs_extent defs < 2 ^ 32 ->
  InitOatMethods_class_defs defs i cdi o w = (o', w') ->
  (forall i', i' <> i -> oat_classes_ w' !! i' = oat_classes_ w !! i') /\
  (forall oc, oat_classes_ w !! i = Some oc ->
     (cdi + length defs <= length (methods_offsets_ oc))%nat ->
     exists oc', oat_classes_ w' !! i = Some oc' /\
       length (methods_offsets_ oc') = length (methods_offsets_ oc) /\
       (forall j, (j < cdi)%nat -> methods_offsets_ oc' !! j = methods_offsets_ oc !! j) /\
       (forall k, (k < length defs)%nat ->
          methods_offsets_ oc' !! (cdi + k)%nat =
          Some (o + class_defs_extent (take k defs)))).
Proof.
  induction defs as [|cd rest IH]; intros i cdi o w o' w' H0 Hb H.
  - simpl in H. injection H as <- <-. split; [reflexivity|].
    intros oc Hoc _. exists oc. split; [exact Hoc|]. split; [reflexivity|].
    split; [reflexivity|]. intros k Hk. simpl in Hk. lia.
  - cbn [InitOatMethods_class_defs] in H. cbn [class_defs_extent] in Hb.
    pose proof (class_defs_extent_nonneg rest) as Hr.
    pose proof (num_methods_raw_nonneg cd) as Hl.
    destruct (OatMethods_new_len cd ltac:(lia)) as (_ & Hlen).
    assert (Hs : OatMethods_SizeOf (OatMethods_new (num_methods_of cd)) =
                 28 * num_methods_raw cd).
    { unfold OatMethods_SizeOf, sizeof_OatMethodOffsets.
      rewrite size_of_list_small by lia. rewrite Hlen. apply u32_small. lia. }
    rewrite Hs, u32_small in H by lia.
    apply IH in H as (IH1 & IH2); [|lia|lia].
    cbn [oat_classes_ with_oat_classes with_oat_methods] in IH1, IH2.
    split.
    + intros i' Hi'. rewrite IH1 by exact Hi'. apply list_lookup_alter_ne. lia.
    + intros oc Hoc Hlenoc. cbn [length] in Hlenoc.
      destruct (IH2 (set_methods_offset cdi o oc)) as (oc' & E & L & Hlow & Hup).
      { rewrite list_lookup_alter_eq, Hoc. reflexivity. }
      { unfold set_methods_offset. cbn [methods_offsets_]. rewrite length_insert. lia. }
      unfold set_methods_offset in L, Hlow. cbn [methods_offsets_] in L, Hlow.
      rewrite length_insert in L.
      exists oc'. split; [exact E|]. split; [exact L|]. split.
      * intros j Hj. rewrite Hlow by lia. apply list_lookup_insert_ne. lia.
      * intros k Hk. destruct k as [|k].
        -- rewrite Nat.add_0_r. rewrite Hlow by lia.
           rewrite list_lookup_insert_eq by lia.
           rewrite u32_small by lia. simpl. rewrite Z.add_0_r. reflexivity.
        -- replace (cdi + S k)%nat with (S cdi + k)%nat by lia.
           rewrite Hup by (simpl in Hk; lia).
           cbn [take class_defs_extent]. f_equal. lia.
Qed.

Lemma InitOatMethods_loop_offsets (dex_files : list DexFile) :
  forall (i : nat) (o : Z) (w : OatWriter) (o' : Z) (w' : OatWriter),
  0 <= o -> o + methods_extent dex_files < 2 ^ 32 ->
  InitOatMethods_loop dex_files i o w = (o', w') ->
  (forall i', (i' < i)%nat -> oat_classes_ w' !! i' = oat_classes_ w !! i') /\
  (forall k d oc, dex_files !! k = Some d ->
     oat_classes_ w !! (i + k)%nat = Some oc ->
     (length (class_defs d) <= length (methods_offsets_ oc))%nat ->
     exists oc', oat_classes_ w' !! (i + k)%nat = Some oc' /\
       length (methods_offsets_ oc') = length (methods_offsets_ oc) /\
       forall j, (j < length (class_defs d))%nat ->
         methods_offsets_ oc' !! j =
         Some (o + methods_extent (take k dex_files) +
               class_defs_extent (take j (class_defs d)))).
Proof.
  induction dex_files as [|d rest IH]; intros i o w o' w' H0 Hb H.
  - simpl in H. injection H as <- <-. split; [reflexivity|].
    intros k d oc Hk. discriminate.
  - cbn [InitOatMethods_loop] in H. cbn [methods_extent] in Hb.
    pose proof (methods_extent_nonneg rest) as Hr.
    pose proof (class_defs_extent_nonneg (class_defs d)) as Hl.
    destruct (InitOatMethods_class_defs (class_defs d) i 0 o w) as [o1 w1] eqn:E.
    pose proof (InitOatMethods_class_defs_spec (class_defs d) i 0 o w o1 w1
                  H0 ltac:(lia) E) as (-> & _).
    apply InitOatMethods_class_defs_offsets in E as (E1 & E2); [|lia|lia].
    apply IH in H as (IH1 & IH2); [|lia|lia].
    assert (Hc : forall (w0 : OatWriter),
              oat_classes_ match oat_classes_ w0 !! i with
                           | Some o0 => UpdateChecksum (OatClasses_bytes o0) w0
                           | None => w0
                           end = oat_classes_ w0).
    { intros w0. destruct (oat_classes_ w0 !! i); reflexivity. }
    rewrite Hc in IH1, IH2.
    split.
    + intros i' Hi'. rewrite IH1 by lia. apply E1. lia.
    + intros k d' oc Hk Hoc Hlen. destruct k as [|k].
      * simpl in Hk. injection Hk as <-. rewrite Nat.add_0_r in *.
        destruct (E2 oc Hoc ltac:(simpl; lia)) as (oc' & E' & L & _ & Hup).
        exists oc'. split; [rewrite IH1 by lia; exact E'|]. split; [exact L|].
        intros j Hj. specialize (Hup j Hj). simpl in Hup. rewrite Hup.
        cbn [take methods_extent]. f_equal. lia.
      * simpl in Hk. replace (i + S k)%nat with (S i + k)%nat in * by lia.
        destruct (IH2 k d' oc Hk) as (oc' & E' & L & Hup).
        { rewrite E1 by lia. exact Hoc. }
        { exact Hlen. }
        exists oc'. split; [exact E'|]. split; [exact L|].
        intros j Hj. rewrite (Hup j Hj). cbn [take methods_extent]. f_equal. lia.
Qed.

End TableOffsets.
(** ** The tables of the writer the constructor builds *)

Section BuiltTables.

Variable P : Platform.
Hypothesis HP : platform_ok P.

Lemma classes_extent_take (dex_files : list DexFile) (i : nat) :
  0 <= classes_extent (take i dex_files) <= classes_extent dex_files.
Proof.
  revert i. induction dex_files as [|d rest IH]; intros i.
  - rewrite take_nil. simpl. lia.
  - destruct i as [|i]; simpl.
    + pose proof (classes_extent_nonneg rest). pose proof (len_nonneg (class_defs d)). lia.
    + specialize (IH i). pose proof (len_nonneg (class_defs d)). lia.
Qed.

Lemma class_defs_extent_take (defs : list (option ClassData)) (j : nat) :
  0 <= class_defs_extent (take j defs) <= class_defs_extent defs.
Proof.
  revert j. induction defs as [|cd rest IH]; intros j.
  - rewrite take_nil. simpl. lia.
  - destruct j as [|j]; simpl.
    + pose proof (class_defs_extent_nonneg rest). pose proof (num_methods_raw_nonneg cd).
      lia.
    + specialize (IH j). pose proof (num_methods_raw_nonneg cd). lia.
Qed.

Lemma methods_extent_take (dex_files : list DexFile) (i : nat) (d : DexFile) :
  dex_files !! i = Some d ->
  0 <= methods_extent (take i dex_files) /\
  methods_extent (take i dex_files) + class_defs_extent (class_defs d) <=
    methods_extent dex_files.
Proof.
  revert i. induction dex_files as [|d0 rest IH]; intros i Hi; [discriminate|].
  destruct i as [|i]; simpl in *.
  - injection Hi as <-. pose proof (methods_extent_nonneg rest). lia.
  - specialize (IH i Hi). pose proof (class_defs_extent_nonneg (class_defs d0)). lia.
Qed.

(** When the layout enters the executable section, the descriptor of the
    dex file [i] holds the place of its class table, and the class table
    holds the place of the methods table of every class. *)
Lemma layout_start_offsets (dex_files : list DexFile) (compiler : Compiler)
    (o : Z) (w : OatWriter) (i : nat) (d : DexFile) :
  tables_extent P dex_files + kPageSize P < 2 ^ 32 ->
  layout_start P dex_files compiler = (o, w) ->
  dex_files !! i = Some d ->
  exists oc,
    oat_dex_files_ w !! i =
      Some (set_classes_offset
              (header_extent P + dex_files_extent dex_files +
               classes_extent (take i dex_files)) (OatDexFile_new d)) /\
    oat_classes_ w !! i = Some oc /\
    length (methods_offsets_ oc) = length (class_defs d) /\
    forall j, (j < length (class_defs d))%nat ->
      methods_offsets_ oc !! j =
      Some (header_extent P + dex_files_extent dex_files + classes_extent dex_files +
            methods_extent (take i dex_files) +
            class_defs_extent (take j (class_defs d))).
Proof.
  intros Hb H Hi. unfold layout_start, layout_tables, InitOatHeader, InitOatDexFiles,
    InitOatClasses, InitOatMethods, InitOatCode in H.
  simpl dex_files_ in H.
  pose proof (header_extent_pos P) as Hh. pose proof (page_pos P HP) as Hpage.
  pose proof (dex_files_extent_nonneg dex_files) as E1.
  pose proof (classes_extent_nonneg dex_files) as E2.
  pose proof (methods_extent_nonneg dex_files) as E3.
  unfold tables_extent in *.
  assert (Hsz : sizeof_OatHeader P = header_extent P).
  { unfold sizeof_OatHeader, header_extent, len in *. rewrite u32_small by lia. lia. }
  rewrite Hsz in H.
  destruct (InitOatDexFiles_loop dex_files (header_extent P)
              (with_header (OatHeader_new P) (OatWriter_init P dex_files compiler)))
    as [o1 w1] eqn:L1.
  apply InitOatDexFiles_loop_spec in L1 as (-> & C1 & H1 & D1 & Cl1 & M1); [|lia|lia].
  assert (Hdf1 : dex_files_ w1 = dex_files) by (destruct C1 as (_ & -> & _); reflexivity).
  rewrite Hdf1 in H.
  destruct (InitOatClasses_loop dex_files 0 (header_extent P + dex_files_extent dex_files) w1)
    as [o2 w2] eqn:L2.
  pose proof (InitOatClasses_loop_offsets dex_files 0
                (header_extent P + dex_files_extent dex_files) w1 o2 w2
                ltac:(lia) ltac:(lia) L2)
    as (_ & O2).
  apply InitOatClasses_loop_spec in L2 as (-> & C2 & H2 & D2 & Cl2 & M2); [|lia|lia].
  assert (Hdf2 : dex_files_ w2 = dex_files) by (destruct C2 as (_ & -> & _); exact Hdf1).
  rewrite Hdf2 in H.
  destruct (InitOatMethods_loop dex_files 0
              (header_extent P + dex_files_extent dex_files + classes_extent dex_files) w2)
    as [o3 w3] eqn:L3.
  pose proof (InitOatMethods_loop_offsets dex_files 0
                (header_extent P + dex_files_extent dex_files + classes_extent dex_files)
                w2 o3 w3 ltac:(lia) ltac:(lia) L3)
    as (_ & O3).
  apply InitOatMethods_loop_spec in L3 as (-> & C3 & H3 & D3 & Cl3 & M3); [|lia|lia].
  injection H as <- <-.
  cbn [oat_dex_files_ oat_classes_ with_padding with_header].
  simpl in D1, Cl1.
  assert (Hlen : len (class_defs d) < 2 ^ 32).
  { pose proof (classes_extent_take dex_files (S i)) as Ht.
    rewrite (take_S_r _ _ _ Hi) in Ht.
    assert (classes_extent (take i dex_files ++ [d]) =
            classes_extent (take i dex_files) + 4 * len (class_defs d)) as Ha.
    { clear. induction (take i dex_files) as [|x l IH]; simpl; lia. }
    pose proof (classes_extent_take dex_files i). pose proof (len_nonneg (class_defs d)).
    lia. }
  destruct (O3 i d (OatClasses_new d) Hi) as (oc & Eoc & Loc & Hoff).
  { rewrite Cl2, Cl1. simpl. rewrite list_lookup_fmap, Hi. reflexivity. }
  { pose proof (OatClasses_new_len d Hlen) as Hn. unfold len in Hn. lia. }
  exists oc. split; [|split; [exact Eoc|split]].
  - rewrite D3. apply (O2 i (OatDexFile_new d)).
    + apply lookup_lt_Some in Hi. exact Hi.
    + rewrite D1. simpl. rewrite list_lookup_fmap, Hi. reflexivity.
  - rewrite Loc. pose proof (OatClasses_new_len d Hlen) as Hn. unfold len in Hn. lia.
  - exact Hoff.
Qed.

End BuiltTables.
(** ** The header and the tables are read back from the file *)

Lemma fields_read_back (data : list Z) (journal : list io_op)
    (fields A B C : list (list Z)) :
  (forall p b, OpWrite p b true ∈ journal -> read_at data p (length b) = b) ->
  (forall op, op ∈ record_calls 0 fields -> op ∈ journal) ->
  fields = A ++ B ++ C ->
  read_at data (len (concat A)) (length (concat B)) = concat B.
Proof.
  intros Hread Hin ->.
  apply (record_calls_read data journal B (len (concat A)) (len_nonneg _) Hread).
  intros op Hop. apply Hin. rewrite !record_calls_app. simpl.
  apply elem_of_app. right. apply elem_of_app. left. exact Hop.
Qed.

Lemma len_concat_take {A B} (f : A -> list Z) (g : B -> Z) :
  forall (i : nat) (l : list A) (l' : list B),
  (forall k y, (k < i)%nat -> l' !! k = Some y ->
     exists x, l !! k = Some x /\ len (f x) = g y) ->
  (i <= length l')%nat ->
  len (concat (f <$> take i l)) = sum_Z g (take i l').
Proof.
  induction i as [|i IH]; intros l l' H Hi.
  - rewrite !take_0. reflexivity.
  - destruct l' as [|y l']; [simpl in Hi; lia|].
    destruct (H 0%nat y ltac:(lia) eq_refl) as (x & Hx & Hlen).
    destruct l as [|x0 l]; [discriminate|]. simpl in Hx. injection Hx as ->.
    cbn [take]. rewrite fmap_cons. cbn [concat sum_Z]. rewrite len_app, Hlen.
    rewrite (IH l l'); [reflexivity| |simpl in Hi; lia].
    intros k y' Hk Hy'. apply (H (S k) y' ltac:(lia) Hy').
Qed.

Lemma concat_concat_fmap {A} (ll : list (list (list A))) :
  concat (concat ll) = concat ((fun l => concat l) <$> ll).
Proof.
  induction ll as [|l ll IH]; [reflexivity|].
  rewrite fmap_cons. cbn [concat]. rewrite concat_app, IH. reflexivity.
Qed.

Lemma dex_files_extent_sum (l : list DexFile) :
  dex_files_extent l = sum_Z (fun d => 12 + len (bytes_of_string (GetLocation d))) l.
Proof. induction l as [|d l IH]; simpl; lia. Qed.

Lemma classes_extent_sum (l : list DexFile) :
  classes_extent l = sum_Z (fun d => 4 * len (class_defs d)) l.
Proof. induction l as [|d l IH]; simpl; lia. Qed.

Lemma class_defs_extent_sum (l : list (option ClassData)) :
  class_defs_extent l = sum_Z (fun cd => 28 * num_methods_raw cd) l.
Proof. induction l as [|d l IH]; simpl; lia. Qed.

Lemma class_defs_extent_app (l1 l2 : list (option ClassData)) :
  class_defs_extent (l1 ++ l2) = class_defs_extent l1 + class_defs_extent l2.
Proof. induction l1 as [|d l IH]; simpl; lia. Qed.

Lemma methods_extent_all (l : list DexFile) :
  methods_extent l = class_defs_extent (all_class_defs l).
Proof.
  unfold all_class_defs. induction l as [|d l IH]; [reflexivity|].
  rewrite fmap_cons. cbn [concat methods_extent]. rewrite class_defs_extent_app, IH.
  reflexivity.
Qed.

Lemma shape_of_all (l : list DexFile) : shape_of l = method_count <$> all_class_defs l.
Proof.
  induction l as [|d l IH]; [reflexivity|].
  change (shape_of (d :: l)) with (map method_count (class_defs d) ++ shape_of l).
  change (all_class_defs (d :: l)) with (class_defs d ++ all_class_defs l).
  rewrite IH, fmap_app. reflexivity.
Qed.

Lemma all_class_defs_split (l : list DexFile) (i : nat) (d : DexFile) :
  l !! i = Some d ->
  all_class_defs l =
  all_class_defs (take i l) ++ class_defs d ++ all_class_defs (drop (S i) l).
Proof.
  intros Hi. rewrite <- (take_drop_middle l i d Hi) at 1.
  unfold all_class_defs. rewrite fmap_app, fmap_cons, concat_app. reflexivity.
Qed.

Lemma method_count_raw (cd : option ClassData) :
  Z.of_nat (method_count cd) = num_methods_raw cd.
Proof.
  destruct cd as [it|]; simpl; [|reflexivity]. unfold len. lia.
Qed.

Lemma dex_fields_len (od : OatDexFile) :
  len (concat (dex_fields od)) = 12 + len (dex_file_location_data_ od).
Proof.
  unfold dex_fields. cbn [concat]. rewrite !len_app. unfold len.
  rewrite !le32_length. simpl. lia.
Qed.
Lemma split_middle {A B} (f : A -> B) (l : list A) (i : nat) (x : A) (pre post : list B) :
  l !! i = Some x ->
  pre ++ (f <$> l) ++ post =
  (pre ++ (f <$> take i l)) ++ [f x] ++ ((f <$> drop (S i) l) ++ post).
Proof.
  intros H.
  transitivity (pre ++ (f <$> (take i l ++ x :: drop (S i) l)) ++ post).
  - rewrite take_drop_middle by exact H. reflexivity.
  - rewrite fmap_app, fmap_cons, <- !app_assoc. reflexivity.
Qed.

Lemma split_middle_concat {A B} (g : A -> list B) (l : list A) (i : nat) (x : A)
    (pre post : list B) :
  l !! i = Some x ->
  pre ++ concat (g <$> l) ++ post =
  (pre ++ concat (g <$> take i l)) ++ g x ++ (concat (g <$> drop (S i) l) ++ post).
Proof.
  intros H.
  transitivity (pre ++ concat (g <$> (take i l ++ x :: drop (S i) l)) ++ post).
  - rewrite take_drop_middle by exact H. reflexivity.
  - rewrite fmap_app, fmap_cons, concat_app. cbn [concat]. rewrite <- !app_assoc.
    reflexivity.
Qed.

Section TablesReadBack.

Variable P : Platform.
Hypothesis HP : platform_ok P.

(** X11.  The header and the tables can be read back from the file.  After
    a [Write] on a new file whose calls all succeed the file holds the
    header at position 0, the descriptors one after the other behind it,
    the class table of every dex file at the [classes_offset_] of its
    descriptor, and the methods table of every class at the offset its class
    table holds for it. *)
Theorem tables_read_back (dex_files : list DexFile) (compiler : Compiler) (cursor : Z)
    (w : OatWriter) (file_name : string) :
  layout_extent P dex_files compiler < 2 ^ 32 ->
  OatWriter_layout P dex_files compiler = Some (cursor, w) ->
  exists final,
    Write P w (fresh_file file_name []) = (true, final) /\
    let data := f_data (w_file final) in
    read_at data 0 (length (OatHeader_bytes (oat_header_ w))) =
      OatHeader_bytes (oat_header_ w) /\
    forall i d, dex_files !! i = Some d ->
      exists od oc,
        oat_dex_files_ w !! i = Some od /\ oat_classes_ w !! i = Some oc /\
        dex_file_location_data_ od = bytes_of_string (GetLocation d) /\
        read_at data (header_extent P + dex_files_extent (take i dex_files))
          (length (OatDexFile_bytes od)) = OatDexFile_bytes od /\
        read_at data (classes_offset_ od) (length (OatClasses_bytes oc)) =
          OatClasses_bytes oc /\
        length (methods_offsets_ oc) = length (class_defs d) /\
        forall j cd, class_defs d !! j = Some cd ->
          exists off om,
            methods_offsets_ oc !! j = Some off /\
            oat_methods_ w !! class_index dex_files i j = Some om /\
            length (method_offsets_ om) = method_count cd /\
            read_at data off (length (OatMethods_bytes om)) = OatMethods_bytes om.
Proof.
  intros Hb Hl.
  destruct (tables_in_file P HP dex_files compiler cursor w file_name Hb Hl)
    as (final & HW & Hread & Hin).
  pose proof (items_extent_nonneg P HP compiler (code_items dex_files)) as Hext.
  assert (Hbt : tables_extent P dex_files + kPageSize P < 2 ^ 32).
  { unfold layout_extent in Hb. lia. }
  pose proof (OatWriter_layout_items P HP dex_files compiler cursor w Hbt Hl) as Hall.
  unfold layout_at in Hall.
  destruct (layout_start P dex_files compiler) as [o0 w0] eqn:E0.
  destruct (layout_start_spec P HP dex_files compiler o0 w0 Hbt E0)
    as (_ & _ & _ & _ & (Hmag & Hver) & Hshape & _ & Hl1 & Hl2).
  pose proof (layout_items_extends P (code_items dex_files) (o0, w0)) as X.
  rewrite Hall in X. simpl in X.
  destruct X as (_ & _ & Xd & Xc & Xs & _ & _ & Xm & Xv & _).
  rewrite <- Xd in Hl1. rewrite <- Xc in Hl2. rewrite <- Xs in Hshape.
  rewrite <- Xm in Hmag. rewrite <- Xv in Hver.
  pose proof (page_pos P HP) as Hpage.
  pose proof (header_extent_pos P) as Hh.
  pose proof (dex_files_extent_nonneg dex_files) as N1.
  pose proof (classes_extent_nonneg dex_files) as N2.
  pose proof (methods_extent_nonneg dex_files) as N3.
  unfold tables_extent in Hbt.
  assert (Hdex : forall i d, dex_files !! i = Some d ->
            exists oc,
              oat_dex_files_ w !! i =
                Some (set_classes_offset
                        (header_extent P + dex_files_extent dex_files +
                         classes_extent (take i dex_files)) (OatDexFile_new d)) /\
              oat_classes_ w !! i = Some oc /\
              length (methods_offsets_ oc) = length (class_defs d) /\
              forall j, (j < length (class_defs d))%nat ->
                methods_offsets_ oc !! j =
                Some (header_extent P + dex_files_extent dex_files +
                      classes_extent dex_files + methods_extent (take i dex_files) +
                      class_defs_extent (take j (class_defs d)))).
  { intros i d Hi. rewrite Xd, Xc.
    apply (layout_start_offsets P HP dex_files compiler o0 w0 i d); assumption. }
  (* the lengths of the rows before a table *)
  assert (Hhdr : len (OatHeader_bytes (oat_header_ w)) = header_extent P).
  { rewrite OatHeader_bytes_len, Hmag, Hver. reflexivity. }
  assert (PA : forall i, (i <= length dex_files)%nat ->
            len (concat (concat (dex_fields <$> take i (oat_dex_files_ w)))) =
            dex_files_extent (take i dex_files)).
  { intros i Hi. rewrite concat_concat_fmap, <- list_fmap_compose, dex_files_extent_sum.
    apply (len_concat_take (fun od => concat (dex_fields od))
             (fun d => 12 + len (bytes_of_string (GetLocation d)))); [|exact Hi].
    intros k d Hk Hd. destruct (Hdex k d Hd) as (oc & Eod & _).
    eexists. split; [exact Eod|]. rewrite dex_fields_len. reflexivity. }
  assert (PB : forall i, (i <= length dex_files)%nat ->
            len (concat (OatClasses_bytes <$> take i (oat_classes_ w))) =
            classes_extent (take i dex_files)).
  { intros i Hi. rewrite classes_extent_sum.
    apply (len_concat_take OatClasses_bytes (fun d => 4 * len (class_defs d))); [|exact Hi].
    intros k d Hk Hd. destruct (Hdex k d Hd) as (oc & _ & Eoc & Loc & _).
    exists oc. split; [exact Eoc|]. unfold OatClasses_bytes.
    rewrite len_bytes_of_u32s. unfold len. rewrite Loc. reflexivity. }
  assert (Hmeth : forall c cd, all_class_defs dex_files !! c = Some cd ->
            exists om, oat_methods_ w !! c = Some om /\
                       length (method_offsets_ om) = method_count cd).
  { intros c cd Hc.
    assert (Hs : methods_shape w !! c = Some (method_count cd)).
    { rewrite Hshape, shape_of_all, list_lookup_fmap, Hc. reflexivity. }
    unfold methods_shape in Hs. rewrite list_lookup_fmap in Hs.
    destruct (oat_methods_ w !! c) as [om|]; [|discriminate].
    exists om. split; [reflexivity|]. simpl in Hs. injection Hs as Hs. exact Hs. }
  assert (PC : forall c, (c <= length (all_class_defs dex_files))%nat ->
            len (concat (OatMethods_bytes <$> take c (oat_methods_ w))) =
            class_defs_extent (take c (all_class_defs dex_files))).
  { intros c Hc. rewrite class_defs_extent_sum.
    apply (len_concat_take OatMethods_bytes (fun cd => 28 * num_methods_raw cd));
      [|exact Hc].
    intros k cd Hk Hcd. destruct (Hmeth k cd Hcd) as (om & Eom & Lom).
    exists om. split; [exact Eom|]. rewrite OatMethods_bytes_len. unfold OatMethods_len, len.
    rewrite Lom, method_count_raw. reflexivity. }
  assert (TA : take (length dex_files) (oat_dex_files_ w) = oat_dex_files_ w).
  { apply take_ge. lia. }
  assert (TB : take (length dex_files) (oat_classes_ w) = oat_classes_ w).
  { apply take_ge. lia. }
  exists final. split; [exact HW|]. cbv zeta. split.
  - (* the header *)
    pose proof (fields_read_back _ _ (table_fields w) [] [OatHeader_bytes (oat_header_ w)]
                  (concat (dex_fields <$> oat_dex_files_ w) ++
                   (OatClasses_bytes <$> oat_classes_ w) ++
                   (OatMethods_bytes <$> oat_methods_ w)) Hread Hin eq_refl) as R.
    cbn [concat] in R. rewrite app_nil_r in R. exact R.
  - intros i d Hi.
    destruct (Hdex i d Hi) as (oc & Eod & Eoc & Loc & Hoff).
    pose proof (lookup_lt_Some _ _ _ Hi) as Hilt.
    pose proof (classes_extent_take dex_files i) as Ct.
    destruct (methods_extent_take dex_files i d Hi) as (Mt1 & Mt2).
    eexists. exists oc. split; [exact Eod|]. split; [exact Eoc|].
    split; [reflexivity|]. split; [|split; [|split; [exact Loc|]]].
    + (* the descriptor *)
      pose proof (fields_read_back _ _ (table_fields w) _ _ _ Hread Hin
                    (split_middle_concat dex_fields (oat_dex_files_ w) i _
                       [OatHeader_bytes (oat_header_ w)]
                       ((OatClasses_bytes <$> oat_classes_ w) ++
                        (OatMethods_bytes <$> oat_methods_ w)) Eod)) as R.
      rewrite concat_app, len_app in R. cbn [concat] in R.
      rewrite app_nil_r, Hhdr, PA in R by lia. exact R.
    + (* the class table *)
      assert (Esplit : table_fields w =
                ([OatHeader_bytes (oat_header_ w)] ++
                 concat (dex_fields <$> oat_dex_files_ w) ++
                 (OatClasses_bytes <$> take i (oat_classes_ w))) ++
                [OatClasses_bytes oc] ++
                ((OatClasses_bytes <$> drop (S i) (oat_classes_ w)) ++
                 (OatMethods_bytes <$> oat_methods_ w))).
      { unfold table_fields.
        rewrite (app_assoc [OatHeader_bytes (oat_header_ w)]).
        rewrite (split_middle OatClasses_bytes (oat_classes_ w) i oc _ _ Eoc).
        rewrite <- !app_assoc. reflexivity. }
      pose proof (fields_read_back _ _ (table_fields w) _ _ _ Hread Hin Esplit) as R.
      rewrite !concat_app, !len_app in R. cbn [concat] in R.
      rewrite !app_nil_r, Hhdr, PB in R by lia.
      rewrite <- TA, PA in R by lia. rewrite firstn_all in R.
      cbn [classes_offset_ set_classes_offset]. rewrite u32_small by lia.
      replace (header_extent P + dex_files_extent dex_files +
               classes_extent (take i dex_files))
        with (header_extent P +
              (dex_files_extent dex_files + classes_extent (take i dex_files))) by lia.
      exact R.
    + (* the methods tables *)
      intros j cd Hj.
      pose proof (lookup_lt_Some _ _ _ Hj) as Hjlt.
      pose proof (class_defs_extent_take (class_defs d) j) as Dt.
      assert (Hc : all_class_defs dex_files !! class_index dex_files i j = Some cd).
      { rewrite (all_class_defs_split dex_files i d Hi). unfold class_index.
        rewrite lookup_app_r by lia.
        replace (length (all_class_defs (take i dex_files)) + j -
                 length (all_class_defs (take i dex_files)))%nat with j by lia.
        apply lookup_app_l_Some, Hj. }
      destruct (Hmeth _ cd Hc) as (om & Eom & Lom).
      eexists. exists om. split; [apply Hoff, Hjlt|]. split; [exact Eom|].
      split; [exact Lom|].
      assert (Esplit : table_fields w =
                ([OatHeader_bytes (oat_header_ w)] ++
                 concat (dex_fields <$> oat_dex_files_ w) ++
                 (OatClasses_bytes <$> oat_classes_ w) ++
                 (OatMethods_bytes <$> take (class_index dex_files i j) (oat_methods_ w))) ++
                [OatMethods_bytes om] ++
                ((OatMethods_bytes <$> drop (S (class_index dex_files i j))
                                         (oat_methods_ w)) ++ [])).
      { unfold table_fields.
        rewrite <- (app_nil_r (OatMethods_bytes <$> oat_methods_ w)) at 1.
        rewrite 2!(app_assoc _ _ ((OatMethods_bytes <$> oat_methods_ w) ++ [])).
        rewrite (split_middle OatMethods_bytes (oat_methods_ w) _ om _ _ Eom).
        rewrite <- !app_assoc. reflexivity. }
      pose proof (fields_read_back _ _ (table_fields w) _ _ _ Hread Hin Esplit) as R.
      rewrite !concat_app, !len_app in R. cbn [concat] in R.
      rewrite !app_nil_r, Hhdr in R.
      rewrite PC in R by (apply lookup_lt_Some in Hc; lia).
      rewrite <- TB, PB in R by lia. rewrite <- TA, PA in R by lia.
      rewrite !firstn_all in R.
      assert (Ht : class_defs_extent (take (class_index dex_files i j)
                                        (all_class_defs dex_files)) =
                   methods_extent (take i dex_files) +
                   class_defs_extent (take j (class_defs d))).
      { rewrite (all_class_defs_split dex_files i d Hi). unfold class_index.
        rewrite take_app_add, class_defs_extent_app, <- methods_extent_all.
        rewrite take_app_le by lia. reflexivity. }
      rewrite Ht in R.
      replace (header_extent P + dex_files_extent dex_files + classes_extent dex_files +
               methods_extent (take i dex_files) +
               class_defs_extent (take j (class_defs d)))
        with (header_extent P +
              (dex_files_extent dex_files +
               (classes_extent dex_files +
                (methods_extent (take i dex_files) +
                 class_defs_extent (take j (class_defs d)))))) by lia.
      exact R.
Qed.

End TablesReadBack.

Lemma tables_read_back_witness :
  exists final,
    Write example_platform example_writer (fresh_file "out.oat" []) = (true, final).
Proof.
  destruct (tables_read_back example_platform example_platform_ok [example_dex]
              example_compiler example_cursor example_writer "out.oat"
              example_fits example_layout_eq) as (final & HW & _).
  exists final. exact HW.
Defined.
(** ** The checksum and the content it covers *)

Lemma streamed_init (P : Platform) (w : OatWriter) :
  streamed (with_header (OatHeader_new P) w) [].
Proof. reflexivity. Qed.

Lemma streamed_update (data s : list Z) (w : OatWriter) :
  streamed w s -> streamed (UpdateChecksum data w) (s ++ data).
Proof.
  unfold streamed. intros H. simpl. rewrite H. apply adler32_app.
Qed.

Lemma streamed_header (w w' : OatWriter) (s : list Z) :
  adler32_checksum_ (oat_header_ w') = adler32_checksum_ (oat_header_ w) ->
  streamed w s -> streamed w' s.
Proof. unfold streamed. intros ->. auto. Qed.

Lemma unseen_bytes_new (seen : gset ptr) (a : ptr) (bytes : list Z) :
  a ∉ seen -> unseen_bytes seen a bytes = bytes.
Proof. intros H. unfold unseen_bytes. destruct (decide (a ∈ seen)); [contradiction|reflexivity]. Qed.

Lemma unseen_bytes_old (seen : gset ptr) (a : ptr) (bytes : list Z) :
  a ∈ seen -> unseen_bytes seen a bytes = [].
Proof. intros H. unfold unseen_bytes. destruct (decide (a ∈ seen)); [reflexivity|contradiction]. Qed.

Lemma seen_insert (seen : gset ptr) (m : gmap ptr Z) (a : ptr) (v : Z) :
  (forall b, b ∈ seen <-> is_Some (m !! b)) ->
  forall b, b ∈ seen ∪ {[a]} <-> is_Some (<[a := v]> m !! b).
Proof.
  intros H b. rewrite elem_of_union, elem_of_singleton, H.
  destruct (decide (a = b)) as [->|Hne].
  - rewrite lookup_insert_eq. split; [eauto|auto].
  - rewrite lookup_insert_ne by exact Hne. split; [intros [?|?]; [assumption|congruence]|auto].
Qed.

Lemma seen_again (seen : gset ptr) (m : gmap ptr Z) (a : ptr) :
  (forall b, b ∈ seen <-> is_Some (m !! b)) -> is_Some (m !! a) ->
  forall b, b ∈ seen ∪ {[a]} <-> is_Some (m !! b).
Proof.
  intros H Ha b. rewrite elem_of_union, elem_of_singleton, H.
  split; [intros [?| ->]; assumption|auto].
Qed.

Section Content.

Variable P : Platform.

Lemma layout_code_content (cm : CompiledMethod) (o : Z) (w : OatWriter) (s : list Z)
    (seen : gset ptr) :
  streamed w s ->
  (forall a, a ∈ seen <-> is_Some (code_offsets_ w !! a)) ->
  let w' := snd (layout_code P cm o w) in
  streamed w' (s ++ unseen_bytes seen (GetCode cm) (code_vec (compiler_ w) (GetCode cm))) /\
  (forall a, a ∈ seen ∪ {[GetCode cm]} <-> is_Some (code_offsets_ w' !! a)) /\
  mapping_table_offsets_ w' = mapping_table_offsets_ w /\
  vmap_table_offsets_ w' = vmap_table_offsets_ w /\
  compiler_ w' = compiler_ w.
Proof.
  intros Hs Hm. unfold layout_code.
  destruct (code_offsets_ w !! GetCode cm) as [found|] eqn:E; simpl.
  - rewrite unseen_bytes_old by (apply Hm; rewrite E; eauto). rewrite app_nil_r.
    repeat split; try assumption; apply (seen_again _ _ _ Hm); rewrite E; eauto.
  - rewrite unseen_bytes_new by (rewrite Hm, E; intros [? ?]; discriminate).
    split; [apply streamed_update; exact Hs|].
    split; [apply seen_insert; exact Hm|]. auto.
Qed.

Lemma layout_invoke_stub_content (stub : CompiledInvokeStub) (o : Z) (w : OatWriter)
    (s : list Z) (seen : gset ptr) :
  streamed w s ->
  (forall a, a ∈ seen <-> is_Some (code_offsets_ w !! a)) ->
  let w' := snd (layout_invoke_stub P stub o w) in
  streamed w'
    (s ++ unseen_bytes seen (GetStubCode stub) (code_vec (compiler_ w) (GetStubCode stub))) /\
  (forall a, a ∈ seen ∪ {[GetStubCode stub]} <-> is_Some (code_offsets_ w' !! a)) /\
  mapping_table_offsets_ w' = mapping_table_offsets_ w /\
  vmap_table_offsets_ w' = vmap_table_offsets_ w /\
  compiler_ w' = compiler_ w.
Proof.
  intros Hs Hm. unfold layout_invoke_stub.
  destruct (code_offsets_ w !! GetStubCode stub) as [found|] eqn:E; simpl.
  - rewrite unseen_bytes_old by (apply Hm; rewrite E; eauto). rewrite app_nil_r.
    repeat split; try assumption; apply (seen_again _ _ _ Hm); rewrite E; eauto.
  - rewrite unseen_bytes_new by (rewrite Hm, E; intros [? ?]; discriminate).
    split; [apply streamed_update; exact Hs|].
    split; [apply seen_insert; exact Hm|]. auto.
Qed.

Lemma layout_mapping_table_content (cm : CompiledMethod) (o : Z) (w : OatWriter)
    (s : list Z) (seen : gset ptr) :
  streamed w s ->
  (forall a, a ∈ seen <-> is_Some (mapping_table_offsets_ w !! a)) ->
  let w' := snd (layout_mapping_table cm o w) in
  streamed w'
    (s ++ unseen_bytes seen (GetMappingTable cm)
            (bytes_of_u32s (mapping_vec (compiler_ w) (GetMappingTable cm)))) /\
  (forall a, a ∈ seen ∪ {[GetMappingTable cm]} <->
             is_Some (mapping_table_offsets_ w' !! a)) /\
  code_offsets_ w' = code_offsets_ w /\
  vmap_table_offsets_ w' = vmap_table_offsets_ w /\
  compiler_ w' = compiler_ w.
Proof.
  intros Hs Hm. unfold layout_mapping_table.
  destruct (mapping_table_offsets_ w !! GetMappingTable cm) as [found|] eqn:E; simpl.
  - rewrite unseen_bytes_old by (apply Hm; rewrite E; eauto). rewrite app_nil_r.
    repeat split; try assumption; apply (seen_again _ _ _ Hm); rewrite E; eauto.
  - rewrite unseen_bytes_new by (rewrite Hm, E; intros [? ?]; discriminate).
    split; [apply streamed_update; exact Hs|].
    split; [apply seen_insert; exact Hm|]. auto.
Qed.

Lemma layout_vmap_table_content (cm : CompiledMethod) (o : Z) (w : OatWriter)
    (s : list Z) (seen : gset ptr) :
  streamed w s ->
  (forall a, a ∈ seen <-> is_Some (vmap_table_offsets_ w !! a)) ->
  let w' := snd (layout_vmap_table cm o w) in
  streamed w'
    (s ++ unseen_bytes seen (GetVmapTable cm)
            (bytes_of_u16s (vmap_vec (compiler_ w) (GetVmapTable cm)))) /\
  (forall a, a ∈ seen ∪ {[GetVmapTable cm]} <-> is_Some (vmap_table_offsets_ w' !! a)) /\
  code_offsets_ w' = code_offsets_ w /\
  mapping_table_offsets_ w' = mapping_table_offsets_ w /\
  compiler_ w' = compiler_ w.
Proof.
  intros Hs Hm. unfold layout_vmap_table.
  destruct (vmap_table_offsets_ w !! GetVmapTable cm) as [found|] eqn:E; simpl.
  - rewrite unseen_bytes_old by (apply Hm; rewrite E; eauto). rewrite app_nil_r.
    repeat split; try assumption; apply (seen_again _ _ _ Hm); rewrite E; eauto.
  - rewrite unseen_bytes_new by (rewrite Hm, E; intros [? ?]; discriminate).
    split; [apply streamed_update; exact Hs|].
    split; [apply seen_insert; exact Hm|]. auto.
Qed.

Lemma layout_method_content (m : MethodRef) (o : Z) (w : OatWriter) (s : list Z)
    (seen : Seen) (compiler : Compiler) :
  compiler_ w = compiler -> streamed w s -> seen_matches seen w ->
  let w' := snd (layout_method P o (m_static m) (m_idx m) (m_dex m) w) in
  streamed w' (s ++ fst (method_content P compiler m seen)) /\
  seen_matches (snd (method_content P compiler m seen)) w' /\
  compiler_ w' = compiler.
Proof.
  intros Hc Hs (Hm1 & Hm2 & Hm3). subst compiler.
  unfold layout_method, method_content, stub_content.
  destruct (GetCompiledMethod (compiler_ w) (m_dex m) (m_idx m)) as [cm|].
  - destruct (layout_code_content cm o w s _ Hs Hm1) as (S1 & M1 & E1m & E1v & C1).
    destruct (layout_code P cm o w) as [[o1 v1] w1]. cbn [snd] in S1, M1, E1m, E1v, C1.
    unfold layout_word.
    apply (streamed_update (le32 (u32 (GetFrameSizeInBytes cm)))) in S1.
    apply (streamed_update (le32 (u32 (GetCoreSpillMask cm)))) in S1.
    apply (streamed_update (le32 (u32 (GetFpSpillMask cm)))) in S1.
    match goal with
    | |- context [layout_mapping_table cm ?o0 ?w0] =>
        assert (Hm2' : forall a, a ∈ seen_mapping seen <->
                                 is_Some (mapping_table_offsets_ w0 !! a))
          by (intros a; cbn; rewrite E1m; apply Hm2);
        destruct (layout_mapping_table_content cm o0 w0 _ _ S1 Hm2')
          as (S2 & M2 & E2c & E2v & C2);
        destruct (layout_mapping_table cm o0 w0) as [[o2 v2] w2]
    end.
    cbn in S2, M2, E2c, E2v, C2.
    assert (Hm3' : forall a, a ∈ seen_vmap seen <-> is_Some (vmap_table_offsets_ w2 !! a))
      by (intros a; rewrite E2v, E1v; apply Hm3).
    destruct (layout_vmap_table_content cm o2 w2 _ _ S2 Hm3')
      as (S3 & M3 & E3c & E3m & C3).
    destruct (layout_vmap_table cm o2 w2) as [[o3 v3] w3].
    cbn [snd] in S3, M3, E3c, E3m, C3.
    rewrite C2, C1 in S3. rewrite C1 in S2.
    assert (C : compiler_ w3 = compiler_ w) by congruence.
    rewrite C.
    assert (M1' : forall a, a ∈ seen_code seen ∪ {[GetCode cm]} <->
                            is_Some (code_offsets_ w3 !! a))
      by (intros a; rewrite E3c, E2c; apply M1).
    destruct (FindInvokeStub (compiler_ w) (m_static m) (GetMethodShorty (m_dex m) (m_idx m)))
      as [stub|].
    + destruct (layout_invoke_stub_content stub o3 w3 _ _ S3 M1')
        as (S4 & M4 & E4m & E4v & C4).
      destruct (layout_invoke_stub P stub o3 w3) as [[o4 v4] w4].
      cbn [snd fst] in *. rewrite C in S4.
      split; [|split; [|congruence]].
      * rewrite <- !app_assoc in S4. exact S4.
      * split; [exact M4|]. cbn [seen_code seen_mapping seen_vmap].
        split; intros a; [rewrite E4m, E3m|rewrite E4v]; [apply M2|apply M3].
    + cbn [snd fst]. split; [|split; [|exact C]].
      * rewrite app_nil_r. rewrite <- !app_assoc in S3. exact S3.
      * split; [exact M1'|]. cbn [seen_code seen_mapping seen_vmap].
        split; [intros a; rewrite E3m; apply M2|exact M3].
  - unfold layout_word.
    apply (streamed_update (le32 (u32 (kStackAlignment P)))) in Hs.
    apply (streamed_update (le32 0)) in Hs.
    apply (streamed_update (le32 0)) in Hs.
    cbn [compiler_ UpdateChecksum with_header].
    destruct (FindInvokeStub (compiler_ w) (m_static m) (GetMethodShorty (m_dex m) (m_idx m)))
      as [stub|].
    + match goal with
      | |- context [layout_invoke_stub P stub ?o0 ?w0] =>
          assert (Hm1' : forall a, a ∈ seen_code seen <-> is_Some (code_offsets_ w0 !! a))
            by (intros a; cbn; apply Hm1);
          destruct (layout_invoke_stub_content stub o0 w0 _ _ Hs Hm1')
            as (S4 & M4 & E4m & E4v & C4);
          destruct (layout_invoke_stub P stub o0 w0) as [[o4 v4] w4]
      end.
      cbn [snd fst] in *. cbn in C4, E4m, E4v, S4.
      split; [|split; [|exact C4]].
      * rewrite <- !app_assoc in S4. exact S4.
      * split; [exact M4|]. cbn [seen_code seen_mapping seen_vmap].
        split; intros a; [rewrite E4m|rewrite E4v]; [apply Hm2|apply Hm3].
    + cbn [snd fst]. split; [|split; [|reflexivity]].
      * rewrite app_nil_r. rewrite <- !app_assoc in Hs. exact Hs.
      * split; [exact Hm1|]. split; [exact Hm2|exact Hm3].
Qed.

End Content.
(** ** The content of the items *)

Lemma well_ended_app (l1 l2 : list Item) :
  well_ended l1 -> well_ended l2 ->
  (forall c, IClassEnd c ∈ l1 -> forall k, (c, k) ∉ item_keys l2) ->
  well_ended (l1 ++ l2).
Proof.
  induction l1 as [|it l1 IH]; intros H1 H2 Hc; [exact H2|].
  destruct it as [m|c]; simpl in *.
  - apply IH; [exact H1|exact H2|]. intros c Hin. apply Hc. right. exact Hin.
  - destruct H1 as [Hk H1]. split.
    + intros k. rewrite item_keys_app, elem_of_app. intros [Hin|Hin].
      * exact (Hk k Hin).
      * exact (Hc c ltac:(left) k Hin).
    + apply IH; [exact H1|exact H2|]. intros c' Hin. apply Hc. right. exact Hin.
Qed.

Lemma method_items_no_end (it : list EncodedMethod) (direct : bool) (dex : DexFile) :
  forall (c k c' : nat), IClassEnd c' ∉ method_items it direct c k dex.
Proof.
  induction it as [|e it IH]; intros c k c' Hin; simpl in Hin.
  - inversion Hin.
  - apply elem_of_cons in Hin as [Hin|Hin]; [discriminate|]. exact (IH _ _ _ Hin).
Qed.

Lemma method_items_well_ended (it : list EncodedMethod) (direct : bool) (dex : DexFile) :
  forall (c k : nat), well_ended (method_items it direct c k dex).
Proof. induction it as [|e it IH]; intros c k; simpl; [exact I|apply IH]. Qed.

Lemma class_items_end (cd : option ClassData) (c c' : nat) (dex : DexFile) :
  IClassEnd c' ∈ class_items cd c dex -> c' = c.
Proof.
  unfold class_items. rewrite elem_of_app. intros [Hin|Hin].
  - destruct cd as [it|]; [|inversion Hin].
    apply elem_of_app in Hin as [Hin|Hin]; exfalso; exact (method_items_no_end _ _ _ _ _ _ Hin).
  - apply list_elem_of_singleton in Hin. congruence.
Qed.

Lemma class_items_well_ended (cd : option ClassData) (c : nat) (dex : DexFile) :
  well_ended (class_items cd c dex).
Proof.
  unfold class_items. apply well_ended_app.
  - destruct cd as [it|]; [|exact I].
    apply well_ended_app; try apply method_items_well_ended.
    intros c' Hin. exfalso. exact (method_items_no_end _ _ _ _ _ _ Hin).
  - simpl. split; [|exact I]. intros k Hin. inversion Hin.
  - intros c' _ k Hin. inversion Hin.
Qed.

Lemma dex_items_end (defs : list (option ClassData)) (dex : DexFile) :
  forall (c c' : nat), IClassEnd c' ∈ dex_items defs c dex ->
  (c <= c' < c + length defs)%nat.
Proof.
  induction defs as [|cd defs IH]; intros c c' Hin; simpl in Hin.
  - inversion Hin.
  - apply elem_of_app in Hin as [Hin|Hin].
    + apply class_items_end in Hin. simpl. lia.
    + apply IH in Hin. simpl. lia.
Qed.

Lemma dex_items_well_ended (defs : list (option ClassData)) (dex : DexFile) :
  forall (c : nat), well_ended (dex_items defs c dex).
Proof.
  induction defs as [|cd defs IH]; intros c; simpl; [exact I|].
  apply well_ended_app; [apply class_items_well_ended|apply IH|].
  intros c' Hin k Hk. apply class_items_end in Hin. subst c'.
  apply dex_items_keys in Hk as [Hk _]. simpl in Hk. lia.
Qed.

Lemma code_items_well_ended (dex_files : list DexFile) :
  forall (c : nat), well_ended (code_items_from dex_files c).
Proof.
  induction dex_files as [|d rest IH]; intros c; simpl; [exact I|].
  apply well_ended_app; [apply dex_items_well_ended|apply IH|].
  intros c' Hin k Hk. apply dex_items_end in Hin.
  apply code_items_keys in Hk as [Hk _]. simpl in Hk. lia.
Qed.

Section ItemsContent.

Variable P : Platform.

(** The items of other classes leave the methods table of a class alone. *)
Lemma layout_items_table_other (items : list Item) (c : nat) :
  forall (s : Z * OatWriter),
  (forall k, (c, k) ∉ item_keys items) ->
  oat_methods_ (snd (layout_items P items s)) !! c = oat_methods_ (snd s) !! c.
Proof.
  induction items as [|it items IH]; intros s Hnot; [reflexivity|].
  change (layout_items P (it :: items) s) with (layout_items P items (layout_item P it s)).
  rewrite IH.
  - destruct it as [m|c0]; simpl.
    + unfold layout_method_item; cbn [fst snd].
      pose proof (layout_method_methods P (fst s) (m_static m) (m_idx m) (m_dex m) (snd s))
        as Hm.
      destruct (layout_method P (fst s) (m_static m) (m_idx m) (m_dex m) (snd s))
        as [[o1 mo] w1]. simpl in *.
      rewrite record_method_methods, Hm.
      apply list_lookup_alter_ne. intros E.
      apply (Hnot (m_index m)). rewrite <- E. unfold item_keys. simpl. left.
    + destruct (oat_methods_ (snd s) !! c0); reflexivity.
  - intros k Hin. apply (Hnot k). unfold item_keys in *.
    destruct it as [m|c0]; simpl; [right|]; exact Hin.
Qed.

Lemma record_method_frame (c k : nat) (d : bool) (idx : Z) (dex : DexFile)
    (mo : OatMethodOffsets) (w : OatWriter) :
  let w' := record_method P c k d idx dex mo w in
  oat_header_ w' = oat_header_ w /\ compiler_ w' = compiler_ w /\
  code_offsets_ w' = code_offsets_ w /\
  mapping_table_offsets_ w' = mapping_table_offsets_ w /\
  vmap_table_offsets_ w' = vmap_table_offsets_ w.
Proof.
  unfold record_method, store_method_offsets, SetOatMethodInfo. simpl.
  destruct (IsImage (compiler_ w)); [destruct (ResolveMethod P dex idx d)|]; simpl; auto.
Qed.

Lemma layout_items_content (compiler : Compiler) (final : OatWriter) (items : list Item) :
  forall (s : Z * OatWriter) (str : list Z) (seen : Seen),
  well_ended items ->
  final = snd (layout_items P items s) ->
  compiler_ (snd s) = compiler -> streamed (snd s) str -> seen_matches seen (snd s) ->
  streamed final (str ++ items_content P compiler final items seen).
Proof.
  induction items as [|it items IH]; intros s str seen Hwe Hf Hc Hs Hm.
  - simpl. rewrite app_nil_r. subst final. exact Hs.
  - change (layout_items P (it :: items) s) with (layout_items P items (layout_item P it s))
      in Hf.
    destruct it as [m|c].
    + cbn [items_content].
      destruct (layout_method_content P m (fst s) (snd s) str seen compiler Hc Hs Hm)
        as (S1 & M1 & C1).
      destruct (method_content P compiler m seen) as [bytes seen'].
      cbn [fst snd] in S1, M1. rewrite app_assoc.
      apply (IH (layout_item P (IMethod m) s)); [exact Hwe|exact Hf| | |];
        simpl; unfold layout_method_item;
        destruct (layout_method P (fst s) (m_static m) (m_idx m) (m_dex m) (snd s))
          as [[o1 mo] w1]; cbn [snd] in *;
        destruct (record_method_frame (m_class m) (m_index m) (m_direct m) (m_idx m)
                    (m_dex m) mo w1) as (F1 & F2 & F3 & F4 & F5).
      * congruence.
      * unfold streamed in *. rewrite F1. exact S1.
      * destruct M1 as (Ma & Mb & Mc). unfold seen_matches. rewrite F3, F4, F5. auto.
    + cbn [items_content]. destruct Hwe as [Hk Hwe]. rewrite app_assoc.
      assert (Ht : oat_methods_ final !! c = oat_methods_ (snd s) !! c).
      { rewrite Hf. rewrite layout_items_table_other by exact Hk.
        simpl. destruct (oat_methods_ (snd s) !! c) eqn:E; exact E. }
      rewrite Ht.
      apply (IH (layout_item P (IClassEnd c) s)); [exact Hwe|exact Hf| | |]; simpl;
        destruct (oat_methods_ (snd s) !! c) as [om|].
      * exact Hc.
      * exact Hc.
      * apply streamed_update. exact Hs.
      * rewrite app_nil_r. exact Hs.
      * exact Hm.
      * exact Hm.
Qed.

End ItemsContent.
(** ** The content of the tables *)

Lemma streamed_descriptor (od : OatDexFile) (w : OatWriter) (s : list Z) :
  streamed w s -> streamed (OatDexFile_UpdateChecksum od w) (s ++ OatDexFile_bytes od).
Proof.
  intros H. unfold OatDexFile_UpdateChecksum, OatDexFile_bytes, dex_fields.
  cbn [concat]. rewrite app_nil_r, !app_assoc.
  repeat apply streamed_update. exact H.
Qed.

Lemma InitOatDexFiles_loop_shape (dex_files : list DexFile) :
  forall (o : Z) (w : OatWriter) (o' : Z) (w' : OatWriter),
  InitOatDexFiles_loop dex_files o w = (o', w') ->
  oat_header_ w' = oat_header_ w /\
  oat_dex_files_ w' = oat_dex_files_ w ++ (OatDexFile_new <$> dex_files) /\
  oat_classes_ w' = oat_classes_ w.
Proof.
  induction dex_files as [|d rest IH]; intros o w o' w' H; simpl in H.
  - injection H as <- <-. rewrite app_nil_r. auto.
  - apply IH in H as (H1 & H2 & H3). simpl in *.
    rewrite H1, H2, H3, <- app_assoc. auto.
Qed.

Lemma InitOatClasses_loop_frame (dex_files : list DexFile) :
  forall (i : nat) (o : Z) (w : OatWriter) (o' : Z) (w' : OatWriter),
  InitOatClasses_loop dex_files i o w = (o', w') ->
  length (oat_dex_files_ w') = length (oat_dex_files_ w) /\
  (forall j, (j < i)%nat -> oat_dex_files_ w' !! j = oat_dex_files_ w !! j) /\
  oat_classes_ w' = oat_classes_ w ++ (OatClasses_new <$> dex_files).
Proof.
  induction dex_files as [|d rest IH]; intros i o w o' w' H; simpl in H.
  - injection H as <- <-. rewrite app_nil_r. auto.
  - apply IH in H as (H1 & H2 & H3).
    destruct (alter (set_classes_offset o) i (oat_dex_files_ w) !! i) as [od|];
      simpl in H1, H2, H3; rewrite length_alter in H1.
    + split; [exact H1|]. split.
      * intros j Hj. rewrite H2 by lia. apply list_lookup_alter_ne. lia.
      * rewrite H3, <- app_assoc. reflexivity.
    + split; [exact H1|]. split.
      * intros j Hj. rewrite H2 by lia. apply list_lookup_alter_ne. lia.
      * rewrite H3, <- app_assoc. reflexivity.
Qed.

Lemma OatDexFile_UpdateChecksum_tables (od : OatDexFile) (w : OatWriter) :
  oat_dex_files_ (OatDexFile_UpdateChecksum od w) = oat_dex_files_ w.
Proof. reflexivity. Qed.

Lemma InitOatClasses_loop_stream (dex_files : list DexFile) :
  forall (i : nat) (o : Z) (w : OatWriter) (o' : Z) (w' : OatWriter) (s : list Z),
  InitOatClasses_loop dex_files i o w = (o', w') ->
  (i + length dex_files <= length (oat_dex_files_ w))%nat ->
  streamed w s ->
  streamed w'
    (s ++ concat (OatDexFile_bytes <$>
                    take (length dex_files) (drop i (oat_dex_files_ w')))).
Proof.
  induction dex_files as [|d rest IH]; intros i o w o' w' s H Hlen Hs.
  - simpl in H. injection H as <- <-. simpl. rewrite app_nil_r. exact Hs.
  - cbn [InitOatClasses_loop] in H. cbn [length] in Hlen.
    destruct (lookup_lt_is_Some_2 (oat_dex_files_ w) i ltac:(lia)) as [od Hod].
    set (w1 := with_oat_dex_files (alter (set_classes_offset o) i (oat_dex_files_ w)) w)
      in H.
    assert (Hl : oat_dex_files_ w1 !! i = Some (set_classes_offset o od)).
    { subst w1. cbn [oat_dex_files_ with_oat_dex_files].
      rewrite list_lookup_alter_eq, Hod. reflexivity. }
    rewrite Hl in H.
    set (w2 := OatDexFile_UpdateChecksum (set_classes_offset o od) w1) in H.
    assert (S2 : streamed w2 (s ++ OatDexFile_bytes (set_classes_offset o od)))
      by (apply streamed_descriptor; exact Hs).
    assert (T2 : oat_dex_files_ w2 = alter (set_classes_offset o) i (oat_dex_files_ w))
      by reflexivity.
    clearbody w2. clear w1 Hl.
    set (w3 := with_oat_classes (oat_classes_ w2 ++ [OatClasses_new d]) w2) in H.
    assert (S3 : streamed w3 (s ++ OatDexFile_bytes (set_classes_offset o od)))
      by exact S2.
    assert (T3 : oat_dex_files_ w3 = alter (set_classes_offset o) i (oat_dex_files_ w))
      by exact T2.
    clearbody w3.
    assert (L1 : (S i + length rest <= length (oat_dex_files_ w3))%nat)
      by (rewrite T3, length_alter; lia).
    pose proof (InitOatClasses_loop_frame _ _ _ _ _ _ H) as (_ & F2 & _).
    specialize (F2 i ltac:(lia)). rewrite T3, list_lookup_alter_eq, Hod in F2.
    cbn [fmap option_fmap option_map] in F2.
    pose proof (IH _ _ _ _ _ _ H L1 S3) as R.
    cbn [length]. rewrite (drop_S _ _ _ F2), firstn_cons, fmap_cons. cbn [concat].
    rewrite app_assoc. exact R.
Qed.

Lemma InitOatMethods_class_defs_frame (defs : list (option ClassData)) :
  forall (i cdi : nat) (o : Z) (w : OatWriter) (o' : Z) (w' : OatWriter),
  InitOatMethods_class_defs defs i cdi o w = (o', w') ->
  oat_header_ w' = oat_header_ w /\ oat_dex_files_ w' = oat_dex_files_ w /\
  length (oat_classes_ w') = length (oat_classes_ w) /\
  (forall j, j <> i -> oat_classes_ w' !! j = oat_classes_ w !! j).
Proof.
  induction defs as [|cd rest IH]; intros i cdi o w o' w' H; simpl in H.
  - injection H as <- <-. auto.
  - apply IH in H as (H1 & H2 & H3 & H4). simpl in *. rewrite length_alter in H3.
    repeat split; try assumption.
    intros j Hj. rewrite H4 by exact Hj. apply list_lookup_alter_ne. congruence.
Qed.

Lemma InitOatMethods_loop_frame (dex_files : list DexFile) :
  forall (i : nat) (o : Z) (w : OatWriter) (o' : Z) (w' : OatWriter),
  InitOatMethods_loop dex_files i o w = (o', w') ->
  oat_dex_files_ w' = oat_dex_files_ w /\
  length (oat_classes_ w') = length (oat_classes_ w) /\
  (forall j, (j < i)%nat -> oat_classes_ w' !! j = oat_classes_ w !! j).
Proof.
  induction dex_files as [|d rest IH]; intros i o w o' w' H; simpl in H.
  - injection H as <- <-. auto.
  - destruct (InitOatMethods_class_defs (class_defs d) i 0 o w) as [o1 w1] eqn:E1.
    apply InitOatMethods_class_defs_frame in E1 as (_ & G2 & G3 & G4).
    apply IH in H as (H1 & H2 & H3).
    assert (K : forall (x : OatWriter),
               x = match oat_classes_ w1 !! i with
                   | Some oc => UpdateChecksum (OatClasses_bytes oc) w1
                   | None => w1
                   end ->
               oat_dex_files_ x = oat_dex_files_ w1 /\ oat_classes_ x = oat_classes_ w1).
    { intros x ->. destruct (oat_classes_ w1 !! i); auto. }
    destruct (K _ eq_refl) as [K1 K2]. rewrite K1 in H1. rewrite K2 in H2, H3.
    split; [congruence|]. split; [congruence|].
    intros j Hj. rewrite H3 by lia. apply G4. lia.
Qed.

Lemma InitOatMethods_loop_stream (dex_files : list DexFile) :
  forall (i : nat) (o : Z) (w : OatWriter) (o' : Z) (w' : OatWriter) (s : list Z),
  InitOatMethods_loop dex_files i o w = (o', w') ->
  (i + length dex_files <= length (oat_classes_ w))%nat ->
  streamed w s ->
  streamed w'
    (s ++ concat (OatClasses_bytes <$>
                    take (length dex_files) (drop i (oat_classes_ w')))).
Proof.
  induction dex_files as [|d rest IH]; intros i o w o' w' s H Hlen Hs.
  - simpl in H. injection H as <- <-. simpl. rewrite app_nil_r. exact Hs.
  - cbn [InitOatMethods_loop] in H. cbn [length] in Hlen.
    destruct (InitOatMethods_class_defs (class_defs d) i 0 o w) as [o1 w1] eqn:E1.
    apply InitOatMethods_class_defs_frame in E1 as (G1 & _ & G3 & _).
    destruct (lookup_lt_is_Some_2 (oat_classes_ w1) i ltac:(lia)) as [oc Hoc].
    rewrite Hoc in H.
    set (w2 := UpdateChecksum (OatClasses_bytes oc) w1) in H.
    assert (S2 : streamed w2 (s ++ OatClasses_bytes oc))
      by (apply streamed_update; unfold streamed in *; rewrite G1; exact Hs).
    assert (T2 : oat_classes_ w2 = oat_classes_ w1) by reflexivity.
    clearbody w2.
    assert (L1 : (S i + length rest <= length (oat_classes_ w2))%nat)
      by (rewrite T2; lia).
    pose proof (InitOatMethods_loop_frame _ _ _ _ _ _ H) as (_ & _ & F3).
    specialize (F3 i ltac:(lia)). rewrite T2, Hoc in F3.
    pose proof (IH _ _ _ _ _ _ H L1 S2) as R.
    cbn [length]. rewrite (drop_S _ _ _ F3), firstn_cons, fmap_cons. cbn [concat].
    rewrite app_assoc. exact R.
Qed.

Lemma InitOatDexFiles_loop_dex_files (dex_files : list DexFile) :
  forall (o : Z) (w : OatWriter) (o' : Z) (w' : OatWriter),
  InitOatDexFiles_loop dex_files o w = (o', w') -> dex_files_ w' = dex_files_ w.
Proof.
  induction dex_files as [|d rest IH]; intros o w o' w' H; simpl in H.
  - injection H as _ <-. reflexivity.
  - apply IH in H. exact H.
Qed.

Lemma InitOatClasses_loop_dex_files (dex_files : list DexFile) :
  forall (i : nat) (o : Z) (w : OatWriter) (o' : Z) (w' : OatWriter),
  InitOatClasses_loop dex_files i o w = (o', w') -> dex_files_ w' = dex_files_ w.
Proof.
  induction dex_files as [|d rest IH]; intros i o w o' w' H; simpl in H.
  - injection H as _ <-. reflexivity.
  - apply IH in H. rewrite H.
    destruct (alter (set_classes_offset o) i (oat_dex_files_ w) !! i); reflexivity.
Qed.

Section TablesContent.

Variable P : Platform.

(** When the layout pass enters the executable section the checksum is the
    one of the descriptors followed by the class tables. *)
Lemma layout_start_stream (dex_files : list DexFile) (compiler : Compiler)
    (o : Z) (w : OatWriter) :
  layout_start P dex_files compiler = (o, w) ->
  streamed w (concat (OatDexFile_bytes <$> oat_dex_files_ w) ++
              concat (OatClasses_bytes <$> oat_classes_ w)).
Proof.
  unfold layout_start, layout_tables, InitOatHeader, InitOatDexFiles, InitOatClasses,
    InitOatMethods, InitOatCode.
  simpl dex_files_.
  destruct (InitOatDexFiles_loop dex_files _ _) as [o1 w1] eqn:E1.
  pose proof (InitOatDexFiles_loop_shape _ _ _ _ _ E1) as (A1 & A2 & A3).
  simpl in A1, A2, A3.
  assert (D1 : dex_files_ w1 = dex_files)
    by exact (InitOatDexFiles_loop_dex_files _ _ _ _ _ E1).
  rewrite D1.
  destruct (InitOatClasses_loop dex_files 0 o1 w1) as [o2 w2] eqn:E2.
  pose proof (InitOatClasses_loop_frame _ _ _ _ _ _ E2) as (B1 & _ & B3).
  assert (S2 : streamed w2 (concat (OatDexFile_bytes <$> oat_dex_files_ w2))).
  { pose proof (InitOatClasses_loop_stream _ _ _ _ _ _ [] E2) as S.
    rewrite A2, length_fmap in S. specialize (S ltac:(simpl; lia)).
    simpl in S. rewrite take_ge in S.
    - apply S. unfold streamed. rewrite A1. reflexivity.
    - rewrite drop_0, B1, A2, length_fmap. simpl. lia. }
  assert (D2 : dex_files_ w2 = dex_files)
    by (rewrite <- D1; exact (InitOatClasses_loop_dex_files _ _ _ _ _ _ E2)).
  rewrite D2.
  destruct (InitOatMethods_loop dex_files 0 o2 w2) as [o3 w3] eqn:E3.
  pose proof (InitOatMethods_loop_frame _ _ _ _ _ _ E3) as (C1 & C2 & _).
  intros H. injection H as _ <-. simpl.
  pose proof (InitOatMethods_loop_stream _ _ _ _ _ _
                (concat (OatDexFile_bytes <$> oat_dex_files_ w2)) E3) as S.
  rewrite B3, A3 in S. cbn [app] in S. rewrite length_fmap in S.
  specialize (S ltac:(simpl; lia) S2).
  simpl in S. rewrite take_ge in S.
  - rewrite C1. exact S.
  - rewrite ?drop_0, C2, B3, A3. cbn [app]. rewrite length_fmap. lia.
Qed.

End TablesContent.
(** ** The checksum of the header *)

Section Checksum.

Variable P : Platform.
Hypothesis HP : platform_ok P.

(** X12. The checksum the constructor leaves in the header is the Adler-32,
    started at 1, of the descriptors of all dex files, then the class tables
    of all dex files, then, method by method in layout order, the code, the
    three frame words, the mapping table, the vmap table and the invoke stub
    (an artifact only when its buffer has not been met before; the stubs
    count as code), with the finished methods table of a class after the
    last method of the class.  The header itself, the padding and the
    alignment gaps are not covered. *)
Theorem checksum_covers_content (dex_files : list DexFile) (compiler : Compiler)
    (cursor : Z) (w : OatWriter) :
  tables_extent P dex_files + kPageSize P < 2 ^ 32 ->
  OatWriter_layout P dex_files compiler = Some (cursor, w) ->
  adler32_checksum_ (oat_header_ w) =
  adler32 adler32_init (checksum_content P dex_files compiler w).
Proof.
  intros Hb Hl.
  pose proof (OatWriter_layout_items P HP dex_files compiler cursor w Hb Hl) as Hi.
  unfold layout_at in Hi.
  destruct (layout_start P dex_files compiler) as [o0 w0] eqn:E0.
  pose proof (layout_start_stream P dex_files compiler o0 w0 E0) as S0.
  destruct (layout_start_spec P HP dex_files compiler o0 w0 Hb E0)
    as (_ & _ & (Hc & _) & (M1 & M2 & M3) & _).
  pose proof (layout_items_extends P (code_items dex_files) (o0, w0)) as Hx.
  rewrite Hi in Hx. cbn [snd] in Hx.
  destruct Hx as (_ & _ & X1 & X2 & _).
  assert (Hf : w = snd (layout_items P (code_items dex_files) (o0, w0)))
    by (rewrite Hi; reflexivity).
  assert (Hm : seen_matches no_seen w0).
  { unfold seen_matches, no_seen. cbn [seen_code seen_mapping seen_vmap snd].
    rewrite M1, M2, M3.
    repeat split; intros H; try (apply elem_of_empty in H; contradiction);
      rewrite lookup_empty in H; destruct H as [? H]; discriminate. }
  pose proof (layout_items_content P compiler w (code_items dex_files) (o0, w0) _ no_seen
                (code_items_well_ended dex_files 0) Hf Hc S0 Hm) as R.
  unfold streamed in R. rewrite R. unfold checksum_content.
  rewrite X1, X2, <- app_assoc. reflexivity.
Qed.

End Checksum.

Lemma checksum_covers_content_witness :
  adler32_checksum_ (oat_header_ example_writer) =
  adler32 adler32_init
    (checksum_content example_platform [example_dex] example_compiler example_writer).
Proof.
  apply (checksum_covers_content example_platform example_platform_ok [example_dex]
           example_compiler example_cursor example_writer).
  - vm_compute. reflexivity.
  - exact example_layout_eq.
Defined.
(** ** What the runtime is told about the methods of an image *)

Lemma InitOatDexFiles_loop_runtime (dex_files : list DexFile) :
  forall (o : Z) (w : OatWriter) (o' : Z) (w' : OatWriter),
  InitOatDexFiles_loop dex_files o w = (o', w') ->
  runtime_methods_ w' = runtime_methods_ w.
Proof.
  induction dex_files as [|d rest IH]; intros o w o' w' H; simpl in H.
  - injection H as _ <-. reflexivity.
  - apply IH in H. exact H.
Qed.

Lemma InitOatClasses_loop_runtime (dex_files : list DexFile) :
  forall (i : nat) (o : Z) (w : OatWriter) (o' : Z) (w' : OatWriter),
  InitOatClasses_loop dex_files i o w = (o', w') ->
  runtime_methods_ w' = runtime_methods_ w.
Proof.
  induction dex_files as [|d rest IH]; intros i o w o' w' H; simpl in H.
  - injection H as _ <-. reflexivity.
  - apply IH in H. rewrite H.
    destruct (alter (set_classes_offset o) i (oat_dex_files_ w) !! i); reflexivity.
Qed.

Lemma InitOatMethods_class_defs_runtime (defs : list (option ClassData)) :
  forall (i cdi : nat) (o : Z) (w : OatWriter) (o' : Z) (w' : OatWriter),
  InitOatMethods_class_defs defs i cdi o w = (o', w') ->
  runtime_methods_ w' = runtime_methods_ w.
Proof.
  induction defs as [|cd rest IH]; intros i cdi o w o' w' H; simpl in H.
  - injection H as _ <-. reflexivity.
  - apply IH in H. exact H.
Qed.

Lemma InitOatMethods_loop_runtime (dex_files : list DexFile) :
  forall (i : nat) (o : Z) (w : OatWriter) (o' : Z) (w' : OatWriter),
  InitOatMethods_loop dex_files i o w = (o', w') ->
  runtime_methods_ w' = runtime_methods_ w.
Proof.
  induction dex_files as [|d rest IH]; intros i o w o' w' H; simpl in H.
  - injection H as _ <-. reflexivity.
  - destruct (InitOatMethods_class_defs (class_defs d) i 0 o w) as [o1 w1] eqn:E1.
    apply InitOatMethods_class_defs_runtime in E1.
    apply IH in H. rewrite H, <- E1.
    destruct (oat_classes_ w1 !! i); reflexivity.
Qed.

Section Image.

Variable P : Platform.
Hypothesis HP : platform_ok P.

Lemma layout_method_runtime (o : Z) (st : bool) (idx : Z) (dex : DexFile) (w : OatWriter) :
  runtime_methods_ (snd (layout_method P o st idx dex w)) = runtime_methods_ w.
Proof.
  unfold layout_method, layout_word.
  assert (Hc : forall cm o w, runtime_methods_ (snd (layout_code P cm o w)) =
                              runtime_methods_ w)
    by (intros cm o0 w0; unfold layout_code;
        destruct (code_offsets_ w0 !! GetCode cm); reflexivity).
  assert (Hmt : forall cm o w, runtime_methods_ (snd (layout_mapping_table cm o w)) =
                               runtime_methods_ w)
    by (intros cm o0 w0; unfold layout_mapping_table;
        destruct (mapping_table_offsets_ w0 !! GetMappingTable cm); reflexivity).
  assert (Hv : forall cm o w, runtime_methods_ (snd (layout_vmap_table cm o w)) =
                              runtime_methods_ w)
    by (intros cm o0 w0; unfold layout_vmap_table;
        destruct (vmap_table_offsets_ w0 !! GetVmapTable cm); reflexivity).
  assert (Hst : forall stub o w, runtime_methods_ (snd (layout_invoke_stub P stub o w)) =
                                 runtime_methods_ w)
    by (intros stub o0 w0; unfold layout_invoke_stub;
        destruct (code_offsets_ w0 !! GetStubCode stub); reflexivity).
  destruct (GetCompiledMethod (compiler_ w) dex idx) as [cm|].
  - specialize (Hc cm o w).
    destruct (layout_code P cm o w) as [[o1 v1] w1]. cbn [snd] in Hc.
    match goal with
    | |- context [layout_mapping_table cm ?o0 ?w0] =>
        pose proof (Hmt cm o0 w0) as H2;
        destruct (layout_mapping_table cm o0 w0) as [[o2 v2] w2]
    end.
    cbn in H2.
    specialize (Hv cm o2 w2).
    destruct (layout_vmap_table cm o2 w2) as [[o3 v3] w3]. cbn [snd] in Hv.
    destruct (FindInvokeStub (compiler_ w3) st (GetMethodShorty dex idx)) as [stub|].
    + specialize (Hst stub o3 w3).
      destruct (layout_invoke_stub P stub o3 w3) as [[o4 v4] w4]. cbn [snd] in *.
      congruence.
    + cbn [snd]. congruence.
  - match goal with
    | |- context [FindInvokeStub ?c st ?s] => destruct (FindInvokeStub c st s) as [stub|]
    end.
    + match goal with
      | |- context [layout_invoke_stub P stub ?o0 ?w0] =>
          pose proof (Hst stub o0 w0) as H4;
          destruct (layout_invoke_stub P stub o0 w0) as [[o4 v4] w4]
      end.
      cbn in *. exact H4.
    + reflexivity.
Qed.

Lemma image_records_method (w : OatWriter) (m : MethodRef) (items : list Item) :
  image_records P w (IMethod m :: items) =
  match ResolveMethod P (m_dex m) (m_idx m) (m_direct m) with
  | Some method =>
      {| info_method := method;
         info_offsets := method_offsets_at w (m_class m) (m_index m) |}
      :: image_records P w items
  | None => image_records P w items
  end.
Proof.
  unfold image_records. simpl.
  destruct (ResolveMethod P (m_dex m) (m_idx m) (m_direct m)); reflexivity.
Qed.

Lemma image_records_end (w : OatWriter) (c : nat) (items : list Item) :
  image_records P w (IClassEnd c :: items) = image_records P w items.
Proof. reflexivity. Qed.

Lemma layout_items_runtime (compiler : Compiler) (final : OatWriter) (items : list Item) :
  forall (s : Z * OatWriter),
  keys_ok (snd s) items ->
  final = snd (layout_items P items s) ->
  compiler_ (snd s) = compiler ->
  runtime_methods_ final =
  runtime_methods_ (snd s) ++
  (if IsImage compiler then image_records P final items else []).
Proof.
  induction items as [|it items IH]; intros s [Hnd Hin] Hf Hc.
  - subst final. simpl. destruct (IsImage compiler); rewrite app_nil_r; reflexivity.
  - change (layout_items P (it :: items) s) with (layout_items P items (layout_item P it s))
      in Hf.
    pose proof (layout_item_extends P it s) as Hx.
    assert (Hk : keys_ok (snd (layout_item P it s)) items).
    { destruct it as [m|c]; unfold item_keys in Hnd, Hin; simpl in Hnd, Hin.
      - apply NoDup_cons in Hnd as [_ Hnd]. apply Forall_cons in Hin as [_ Hin].
        split; [exact Hnd|].
        eapply Forall_impl; [exact Hin|]. intros key. apply in_range_extends. exact Hx.
      - split; [exact Hnd|].
        eapply Forall_impl; [exact Hin|]. intros key. apply in_range_extends. exact Hx. }
    assert (Hc1 : compiler_ (snd (layout_item P it s)) = compiler)
      by (destruct Hx as [Hx _]; congruence).
    rewrite (IH _ Hk Hf Hc1).
    destruct it as [m|c].
    + unfold item_keys in Hnd, Hin. simpl in Hnd, Hin.
      apply NoDup_cons in Hnd as [Hnot _]. apply Forall_cons in Hin as [Hr _].
      assert (Hrec : method_offsets_at final (m_class m) (m_index m) =
                     method_offsets_at (snd (layout_item P (IMethod m) s))
                       (m_class m) (m_index m))
        by (rewrite Hf; apply layout_items_other; exact Hnot).
      rewrite image_records_method, Hrec. clear Hrec Hk Hc1 Hx Hf IH.
      simpl. unfold layout_method_item; cbn [fst snd].
      pose proof (layout_method_runtime (fst s) (m_static m) (m_idx m) (m_dex m) (snd s))
        as Hrt.
      pose proof (layout_method_extends P (fst s) (m_static m) (m_idx m) (m_dex m) (snd s))
        as Hx.
      destruct (layout_method P (fst s) (m_static m) (m_idx m) (m_dex m) (snd s))
        as [[o1 mo] w1]. cbn [snd] in *.
      rewrite record_method_same by (eapply in_range_extends; [exact Hx|exact Hr]).
      unfold record_method, store_method_offsets, SetOatMethodInfo.
      cbn [compiler_ with_oat_methods].
      destruct Hx as [Hx _]. rewrite Hx, Hc, <- Hrt.
      destruct (IsImage compiler);
        [destruct (ResolveMethod P (m_dex m) (m_idx m) (m_direct m))|];
        cbn [runtime_methods_ with_runtime_methods with_oat_methods].
      * rewrite <- app_assoc. reflexivity.
      * reflexivity.
      * reflexivity.
    + rewrite image_records_end.
      simpl. destruct (oat_methods_ (snd s) !! c); reflexivity.
Qed.

(** X13. For an image, the runtime resolves every method, and the calls
    that set the values of its methods are, method by method in layout
    order, the records the finished methods tables hold: one call per
    method, on the method the runtime resolved, with the seven values of
    its record.  Without the image flag the runtime is not touched. *)
Theorem image_methods_match_tables (dex_files : list DexFile) (compiler : Compiler)
    (cursor : Z) (w : OatWriter) :
  tables_extent P dex_files + kPageSize P < 2 ^ 32 ->
  OatWriter_layout P dex_files compiler = Some (cursor, w) ->
  runtime_methods_ w =
    (if IsImage compiler then image_records P w (code_items dex_files) else []) /\
  (IsImage compiler = true -> has_unresolved P dex_files = false).
Proof.
  intros Hb Hl. split.
  2:{ intros Him.
      pose proof (OatWriter_layout_none P HP dex_files compiler Hb) as [_ Hn].
      rewrite Hl, Him in Hn.
      destruct (has_unresolved P dex_files); [|reflexivity].
      rewrite orb_true_r in Hn. discriminate (Hn eq_refl). }
  pose proof (OatWriter_layout_items P HP dex_files compiler cursor w Hb Hl) as Hi.
  unfold layout_at in Hi.
  destruct (layout_start P dex_files compiler) as [o0 w0] eqn:E0.
  destruct (layout_start_spec P HP dex_files compiler o0 w0 Hb E0)
    as (_ & _ & (Hc & _) & _ & _ & Hs & _).
  assert (Hf : w = snd (layout_items P (code_items dex_files) (o0, w0)))
    by (rewrite Hi; reflexivity).
  rewrite (layout_items_runtime compiler w (code_items dex_files) (o0, w0)
             (code_items_keys_ok dex_files w0 Hs) Hf Hc).
  cbn [snd].
  assert (R0 : runtime_methods_ w0 = []).
  { clear -E0. unfold layout_start, layout_tables, InitOatHeader, InitOatDexFiles,
      InitOatClasses, InitOatMethods, InitOatCode in E0.
    simpl dex_files_ in E0.
    destruct (InitOatDexFiles_loop dex_files _ _) as [o1 w1] eqn:L1.
    pose proof (InitOatDexFiles_loop_runtime _ _ _ _ _ L1) as R1.
    pose proof (InitOatDexFiles_loop_dex_files _ _ _ _ _ L1) as D1.
    simpl in R1, D1. rewrite D1 in E0.
    destruct (InitOatClasses_loop dex_files 0 o1 w1) as [o2 w2] eqn:L2.
    pose proof (InitOatClasses_loop_runtime _ _ _ _ _ _ L2) as R2.
    pose proof (InitOatClasses_loop_dex_files _ _ _ _ _ _ L2) as D2.
    rewrite D2, D1 in E0.
    destruct (InitOatMethods_loop dex_files 0 o2 w2) as [o3 w3] eqn:L3.
    pose proof (InitOatMethods_loop_runtime _ _ _ _ _ _ L3) as R3.
    injection E0 as _ <-. simpl. congruence. }
  rewrite R0. reflexivity.
Qed.

End Image.

Lemma image_layout_eq :
  OatWriter_layout example_platform [example_dex] image_compiler =
  Some (image_cursor, image_writer).
Proof. vm_compute. reflexivity. Defined.

Lemma image_methods_match_tables_witness :
  (runtime_methods_ image_writer =
   (if IsImage image_compiler
    then image_records example_platform image_writer (code_items [example_dex])
    else []) /\
   (IsImage image_compiler = true -> has_unresolved example_platform [example_dex] = false))
  /\ length (runtime_methods_ image_writer) = 4%nat.
Proof.
  split.
  - apply (image_methods_match_tables example_platform example_platform_ok [example_dex]
             image_compiler image_cursor image_writer).
    + vm_compute. reflexivity.
    + exact image_layout_eq.
  - vm_compute. reflexivity.
Defined.
(** ** The entry point *)

Section EntryPoint.

Variable P : Platform.
Hypothesis HP : platform_ok P.

(** X14. [Create] on dex files that are not NULL and a new file whose calls
    all succeed never returns false: it aborts when some virtual method
    carries the static flag or, for an image, when the runtime does not
    resolve some method; otherwise it returns true, having made only calls
    that succeeded and logged nothing. *)
Theorem Create_on_sound_file (file_name : string) (dex_files : list DexFile)
    (compiler : Compiler) :
  layout_extent P dex_files compiler < 2 ^ 32 ->
  ((has_static_virtual dex_files = true \/
    (IsImage compiler = true /\ has_unresolved P dex_files = true)) /\
   Create P file_name [] dex_files compiler = None) \/
  (has_static_virtual dex_files = false /\
   (IsImage compiler = true -> has_unresolved P dex_files = false) /\
   exists final,
     Create P file_name [] dex_files compiler = Some (true, final) /\
     all_ok (f_journal (w_file final)) /\
     w_log final = [] /\
     f_name (w_file final) = file_name).
Proof.
  intros Hb.
  assert (Hb' : tables_extent P dex_files + kPageSize P < 2 ^ 32).
  { unfold layout_extent in Hb.
    pose proof (items_extent_nonneg P HP compiler (code_items dex_files)). lia. }
  pose proof (OatWriter_layout_none P HP dex_files compiler Hb') as Hn.
  rewrite orb_true_iff, andb_true_iff in Hn.
  unfold Create, OatWriter_new.
  destruct (OatWriter_layout P dex_files compiler) as [[cursor w]|] eqn:Hl.
  - right.
    assert (Hs : has_static_virtual dex_files = false).
    { destruct (has_static_virtual dex_files); [|reflexivity].
      destruct Hn as [_ Hn]. discriminate (Hn (or_introl eq_refl)). }
    assert (Hu : IsImage compiler = true -> has_unresolved P dex_files = false).
    { intros Him. destruct (has_unresolved P dex_files); [|reflexivity].
      destruct Hn as [_ Hn]. discriminate (Hn (or_intror (conj Him eq_refl))). }
    split; [exact Hs|]. split; [exact Hu|].
    destruct (reach P HP dex_files compiler cursor w file_name (code_items dex_files) []
                Hb Hl (eq_sym (app_nil_r _)))
      as (lo & lw & ew & ops & La & Ea & Q & (H0 & _) & _ & _ & _ & Hrest & _ & _ & HW).
    simpl in Hrest. injection Hrest as -> ->. simpl in HW.
    assert (Hnz : (cursor =? 0) = false) by (apply Z.eqb_neq; lia).
    rewrite Hnz in HW.
    assert (Hnew : OatWriter_new P dex_files compiler = Some w).
    { unfold OatWriter_new. rewrite Hl. reflexivity. }
    pose proof (Write_outcome P HP w (fresh_file file_name [])
                  (executable_offset_not_max P HP _ _ _ Hnew)) as Ho.
    rewrite HW in Ho. simpl in Ho. destruct Ho as (ops' & J & A & L).
    exists ew. simpl. rewrite HW.
    split; [reflexivity|]. split; [rewrite J; exact A|].
    destruct Q as (_ & _ & _ & Hlog & Hname).
    split; [exact Hlog|exact Hname].
  - left. split; [apply Hn; reflexivity|reflexivity].
Qed.

End EntryPoint.

Lemma Create_on_sound_file_witness :
  (exists final,
     Create example_platform "out.oat" [] [example_dex] image_compiler =
     Some (true, final)) /\
  Create example_platform "out.oat" [] [unknown_dex] image_compiler = None.
Proof.
  split.
  - destruct (Create_on_sound_file example_platform example_platform_ok "out.oat"
                [example_dex] image_compiler ltac:(vm_compute; reflexivity))
      as [([Hs|[_ Hs]] & _)|(_ & _ & final & Hc & _)].
    + discriminate Hs.
    + discriminate Hs.
    + exists final. exact Hc.
  - destruct (Create_on_sound_file example_platform example_platform_ok "out.oat"
                [unknown_dex] image_compiler ltac:(vm_compute; reflexivity))
      as [(_ & Hc)|(_ & Hu & _)].
    + exact Hc.
    + discriminate (Hu eq_refl).
Defined.
